(** * quant: a QUIC transport endpoint

    A shallow embedding of the parts of quant's connection, frame, packet and
    recovery code that its specification makes claims about, and the
    verification of these claims.

    Conventions.
    - C integers are [Z] with the wrap-around written out ([u64], [u16], ...).
      [uint_t] is the 64-bit variant ([HAVE_64BIT]).
    - A pointer to a [struct pkt_meta] is the index of its buffer
      ([pm_idx]); the per-engine meta-data array is the list [metas].
    - [ensure(...)] aborts the program; functions that can reach a failing
      [ensure] return [option], with [None] for the abort.
    - Logging ([warn], [qlog_*], [log_*]) is not modelled.
    - The first part of the file holds the definitions, module by source
      file; the second part holds the lemmas and theorems.                  *)

From Stdlib Require Import ZArith Lia Bool String.
From stdpp Require Import base option list gmap.

Local Open Scope Z_scope.

(* ===================================================================== *)
(** * Part I: definitions                                                 *)
(* ===================================================================== *)

(** ** Machine integers *)

Definition UINT8_MAX : Z := 255.
Definition UINT16_MAX : Z := 65535.
Definition UINT32_MAX : Z := 4294967295.
Definition UINT_T_MAX : Z := 18446744073709551615.

Definition u8 (x : Z) : Z := x mod 2 ^ 8.
Definition u16 (x : Z) : Z := x mod 2 ^ 16.
Definition u32 (x : Z) : Z := x mod 2 ^ 32.
Definition u64 (x : Z) : Z := x mod 2 ^ 64.

(** [(dint_t)x]: the two's-complement reading of a 64-bit value. *)
Definition s64 (x : Z) : Z :=
  let y := u64 x in if y <? 2 ^ 63 then y else y - 2 ^ 64.

(** [NS_PER_MS] comes from warpcore's headers: nanoseconds per
    millisecond. *)
Definition NS_PER_MS : Z := 1000000.

(** [is_set(f, v)] (quic.h). *)
Definition is_set (f v : Z) : bool := Z.land v f =? f.

(** ** Bit sets (bitset.h is not among the sources)

    Modelled from the spec: a "frame bitmap" per packet and per packet-number
    space. A [struct frames] is the integer whose bit [i] says whether frame
    type [i] is present; [bitset_t_initializer(x)] is [x]. *)

Definition bit_isset (i set : Z) : bool := Z.testbit set i.
Definition bit_set (i set : Z) : Z := Z.lor set (Z.shiftl 1 i).
Definition bit_or (a b : Z) : Z := Z.lor a b.
Definition bit_overlap (a b : Z) : bool := negb (Z.land a b =? 0).
Definition bit_zero : Z := 0.

(** ** Interval sets (diet.c, diet.h are not among the sources)

    Modelled from the spec: a DIET is "an ordered set of merged integer
    ranges", used to "store/query sets of packet numbers as merged
    intervals". The model keeps the set; the interval structure is derived
    from it when [diet_min_ival] asks for it. *)

Abbreviation diet := (gset Z).

Definition diet_find (d : diet) (n : Z) : bool := bool_decide (n ∈ d).
Definition diet_insert (d : diet) (n : Z) : diet := {[ n ]} ∪ d.
Definition diet_empty (d : diet) : bool := bool_decide (d = ∅).

(** Largest member, 0 for the empty set. *)
Definition diet_max (d : diet) : Z := foldr Z.max 0 (elements d).

(** The upper end of the run of consecutive members that starts at [n]. *)
Fixpoint diet_run_hi (fuel : nat) (d : diet) (n : Z) : Z :=
  match fuel with
  | O => n
  | S fuel' => if diet_find d (n + 1) then diet_run_hi fuel' d (n + 1) else n
  end.

(** [diet_min_ival]: the lowest interval [(lo, hi)], if any. *)
Definition diet_min_ival (d : diet) : option (Z * Z) :=
  match elements d with
  | [] => None
  | x :: xs =>
      let lo := foldr Z.min x xs in Some (lo, diet_run_hi (size d) d lo)
  end.

(** ** Constants of quic.h, pkt.h, frame.h and recovery *)

Definition DATA_OFFSET : Z := 48.
Definition CID_LEN_MIN : Z := 4.
Definition CID_LEN_MAX : Z := 20.
Definition SRT_LEN : Z := 16.
Definition PATH_CHLG_LEN : Z := 8.
Definition MAX_TOK_LEN : Z := 160.
Definition MAX_ERR_REASON_LEN : Z := 32.
Definition DEF_ACK_DEL_EXP : Z := 3.

Definition kPacketThreshold : Z := 3.
Definition kGranularity : Z := 1 * NS_PER_MS.
Definition kInitialRtt : Z := 500 * NS_PER_MS.
Definition kMaxDatagramSize : Z := 1200.
Definition kInitialWindow : Z :=
  Z.min (10 * kMaxDatagramSize) (Z.max (2 * kMaxDatagramSize) 14720).
Definition kMinimumWindow : Z := 2 * kMaxDatagramSize.
Definition kLossReductionDivisor : Z := 2.

Definition MAX_PKT_LEN : Z := 1252.
Definition MIN_INI_LEN : Z := 1200.
Definition MAX_PKT_NR_LEN : Z := 4.

Definition HEAD_FORM : Z := 0x80.
Definition HEAD_FIXD : Z := 0x40.
Definition HEAD_PNRL_MASK : Z := 0x03.
Definition LH : Z := Z.lor HEAD_FORM HEAD_FIXD.
Definition LH_TYPE_MASK : Z := 0x30.
Definition LH_INIT : Z := 0x00.
Definition LH_0RTT : Z := 0x10.
Definition LH_HSHK : Z := 0x20.
Definition LH_RTRY : Z := 0x30.
Definition LH_RSVD_MASK : Z := 0x0c.
Definition SH : Z := HEAD_FIXD.
Definition SH_SPIN : Z := 0x20.
Definition SH_RSVD_MASK : Z := 0x18.
Definition SH_KYPH : Z := 0x04.

Definition ERR_NONE : Z := 0x0.
Definition ERR_INTERNAL : Z := 0x1.
Definition ERR_FLOW_CONTROL : Z := 0x3.
Definition ERR_STREAM_ID : Z := 0x4.
Definition ERR_STREAM_STATE : Z := 0x5.
Definition ERR_FRAME_ENC : Z := 0x7.
Definition ERR_TRANSPORT_PARAMETER : Z := 0x8.
Definition ERR_PROTOCOL_VIOLATION : Z := 0xa.

Definition FRM_PAD : Z := 0x00.
Definition FRM_PNG : Z := 0x01.
Definition FRM_ACK : Z := 0x02.
Definition FRM_ACE : Z := 0x03.
Definition FRM_RST : Z := 0x04.
Definition FRM_STP : Z := 0x05.
Definition FRM_CRY : Z := 0x06.
Definition FRM_TOK : Z := 0x07.
Definition FRM_STR : Z := 0x08.
Definition FRM_STR_MAX : Z := 0x0f.
Definition FRM_MCD : Z := 0x10.
Definition FRM_MSD : Z := 0x11.
Definition FRM_MSB : Z := 0x12.
Definition FRM_MSU : Z := 0x13.
Definition FRM_CDB : Z := 0x14.
Definition FRM_SDB : Z := 0x15.
Definition FRM_SBB : Z := 0x16.
Definition FRM_SBU : Z := 0x17.
Definition FRM_CID : Z := 0x18.
Definition FRM_RTR : Z := 0x19.
Definition FRM_PCL : Z := 0x1a.
Definition FRM_PRP : Z := 0x1b.
Definition FRM_CLQ : Z := 0x1c.
Definition FRM_CLA : Z := 0x1d.
Definition FRM_MAX : Z := FRM_CLA + 1.

Definition F_STREAM_FIN : Z := 0x01.
Definition F_STREAM_LEN : Z := 0x02.
Definition F_STREAM_OFF : Z := 0x04.

Definition IPTOS_ECN_ECT1 : Z := 0x01.
Definition IPTOS_ECN_ECT0 : Z := 0x02.
Definition IPTOS_ECN_CE : Z := 0x03.
Definition IPTOS_ECN_MASK : Z := 0x03.

(** [has_frm(frames, type)] (frame.h). *)
Definition has_frm (frames type : Z) : bool := bit_isset type frames.

(** [is_ack_eliciting] (frame.h): some frame other than ACK and PADDING. *)
Definition is_ack_eliciting (f : Z) : bool :=
  let ack_or_pad := Z.lor (Z.shiftl 1 FRM_ACK) (Z.shiftl 1 FRM_PAD) in
  negb (Z.land (Z.land f (Z.ones FRM_MAX)) (Z.lnot ack_or_pad) =? 0).

(** ** Enumerations *)

(** [conn_state_t] (conn.h). *)
Inductive conn_state_t : Set :=
  | conn_clsd | conn_idle | conn_opng | conn_estb
  | conn_qlse | conn_clsg | conn_drng.

(** Epochs and packet-number spaces (tls.h and pn.h are not among the
    sources; the enumerators are the ones the sources use). *)
Inductive epoch_t : Set := ep_init | ep_0rtt | ep_hshk | ep_data.
Inductive pn_t : Set := pn_init | pn_hshk | pn_data.

(** Stream states (stream.h is not among the sources). *)
Inductive strm_state_t : Set :=
  | strm_idle | strm_open | strm_hcrm | strm_hclo | strm_clsd.

(** A [struct q_stream *]: a crypto stream [c->cstrms[e]] or a stream of
    [c->strms_by_id]. *)
Inductive strm_ref : Set :=
  | SCrypto (e : epoch_t)
  | SData (sid : Z).

#[global] Instance conn_state_eq_dec : EqDecision conn_state_t.
Proof. solve_decision. Defined.
#[global] Instance epoch_eq_dec : EqDecision epoch_t.
Proof. solve_decision. Defined.
#[global] Instance pn_eq_dec : EqDecision pn_t.
Proof. solve_decision. Defined.
#[global] Instance strm_state_eq_dec : EqDecision strm_state_t.
Proof. solve_decision. Defined.
#[global] Instance strm_ref_eq_dec : EqDecision strm_ref.
Proof. solve_decision. Defined.

(** A [struct timeout]: [Some d] when pending, to fire [d] ns from now. *)
Abbreviation timeout := (option Z).

(** A [struct sockaddr_storage], as an opaque number. *)
Definition sockaddr : Type := Z.

(** ** Data structures *)

(** [struct cipher_ctx] (tls.h is not among the sources): whether the two contexts are installed (non-null). *)
Record cipher_ctx : Type := Build_cipher_ctx {
  aead : bool;
  header_protection : bool
}.

(** [struct pkt_hdr] (quic.h): the parsed packet header; of the two CIDs only the lengths are kept. *)
Record pkt_hdr : Type := Build_pkt_hdr {
  dcid_len : Z; (* m->hdr.dcid.len *)
  scid_len : Z; (* m->hdr.scid.len *)
  nr : Z; (* packet number, uint_t *)
  h_len : Z; (* content of the long-header length field, uint16_t; the member [len] *)
  hdr_len : Z; (* length of the entire QUIC header, uint16_t *)
  hvers : Z; (* vers, uint32_t *)
  flags : Z; (* first (raw) byte of the packet *)
  type : Z (* parsed packet type *)
}.

Definition set_dcid_len (v : Z) (h : pkt_hdr) : pkt_hdr :=
  {| dcid_len := v; scid_len := scid_len h; nr := nr h; h_len := h_len h;
     hdr_len := hdr_len h; hvers := hvers h; flags := flags h;
     type := type h |}.

Definition set_scid_len (v : Z) (h : pkt_hdr) : pkt_hdr :=
  {| dcid_len := dcid_len h; scid_len := v; nr := nr h; h_len := h_len h;
     hdr_len := hdr_len h; hvers := hvers h; flags := flags h;
     type := type h |}.

Definition set_nr (v : Z) (h : pkt_hdr) : pkt_hdr :=
  {| dcid_len := dcid_len h; scid_len := scid_len h; nr := v;
     h_len := h_len h; hdr_len := hdr_len h; hvers := hvers h;
     flags := flags h; type := type h |}.

Definition set_h_len (v : Z) (h : pkt_hdr) : pkt_hdr :=
  {| dcid_len := dcid_len h; scid_len := scid_len h; nr := nr h; h_len := v;
     hdr_len := hdr_len h; hvers := hvers h; flags := flags h;
     type := type h |}.

Definition set_hdr_len (v : Z) (h : pkt_hdr) : pkt_hdr :=
  {| dcid_len := dcid_len h; scid_len := scid_len h; nr := nr h;
     h_len := h_len h; hdr_len := v; hvers := hvers h; flags := flags h;
     type := type h |}.

Definition set_hvers (v : Z) (h : pkt_hdr) : pkt_hdr :=
  {| dcid_len := dcid_len h; scid_len := scid_len h; nr := nr h;
     h_len := h_len h; hdr_len := hdr_len h; hvers := v; flags := flags h;
     type := type h |}.

Definition set_flags (v : Z) (h : pkt_hdr) : pkt_hdr :=
  {| dcid_len := dcid_len h; scid_len := scid_len h; nr := nr h;
     h_len := h_len h; hdr_len := hdr_len h; hvers := hvers h; flags := v;
     type := type h |}.

Definition set_type (v : Z) (h : pkt_hdr) : pkt_hdr :=
  {| dcid_len := dcid_len h; scid_len := scid_len h; nr := nr h;
     h_len := h_len h; hdr_len := hdr_len h; hvers := hvers h;
     flags := flags h; type := v |}.

(** [struct pkt_meta] (quic.h): the meta-data of one buffer. Pointers to other meta-data are buffer indices ([pm_idx]); the stream pointer is a stream reference. *)
Record pkt_meta : Type := Build_pkt_meta {
  rtx : option nat; (* sl_first(&m->rtx): head of the list of previous (or later) TXs *)
  rtx_next : option nat; (* the link of that intrusive list *)
  frms : Z; (* frames present in the packet, a bitset *)
  strm : option strm_ref;
  strm_off : Z;
  strm_frm_pos : Z;
  strm_data_pos : Z;
  strm_data_len : Z;
  ack_frm_pos : Z;
  min_cid_seq : Z;
  m_pn : option pn_t; (* packet number space; None is the null pointer; the member [pn] *)
  hdr : pkt_hdr;
  m_t : Z; (* TX or RX timestamp; the member [t] *)
  udp_len : Z;
  has_rtx : bool;
  is_reset : bool;
  is_fin : bool;
  in_flight : bool;
  ack_eliciting : bool;
  acked : bool;
  lost : bool;
  txed : bool
}.

Definition set_rtx (v : option nat) (m : pkt_meta) : pkt_meta :=
  {| rtx := v; rtx_next := rtx_next m; frms := frms m; strm := strm m;
     strm_off := strm_off m; strm_frm_pos := strm_frm_pos m;
     strm_data_pos := strm_data_pos m; strm_data_len := strm_data_len m;
     ack_frm_pos := ack_frm_pos m; min_cid_seq := min_cid_seq m;
     m_pn := m_pn m; hdr := hdr m; m_t := m_t m; udp_len := udp_len m;
     has_rtx := has_rtx m; is_reset := is_reset m; is_fin := is_fin m;
     in_flight := in_flight m; ack_eliciting := ack_eliciting m;
     acked := acked m; lost := lost m; txed := txed m |}.

Definition set_rtx_next (v : option nat) (m : pkt_meta) : pkt_meta :=
  {| rtx := rtx m; rtx_next := v; frms := frms m; strm := strm m;
     strm_off := strm_off m; strm_frm_pos := strm_frm_pos m;
     strm_data_pos := strm_data_pos m; strm_data_len := strm_data_len m;
     ack_frm_pos := ack_frm_pos m; min_cid_seq := min_cid_seq m;
     m_pn := m_pn m; hdr := hdr m; m_t := m_t m; udp_len := udp_len m;
     has_rtx := has_rtx m; is_reset := is_reset m; is_fin := is_fin m;
     in_flight := in_flight m; ack_eliciting := ack_eliciting m;
     acked := acked m; lost := lost m; txed := txed m |}.

Definition set_frms (v : Z) (m : pkt_meta) : pkt_meta :=
  {| rtx := rtx m; rtx_next := rtx_next m; frms := v; strm := strm m;
     strm_off := strm_off m; strm_frm_pos := strm_frm_pos m;
     strm_data_pos := strm_data_pos m; strm_data_len := strm_data_len m;
     ack_frm_pos := ack_frm_pos m; min_cid_seq := min_cid_seq m;
     m_pn := m_pn m; hdr := hdr m; m_t := m_t m; udp_len := udp_len m;
     has_rtx := has_rtx m; is_reset := is_reset m; is_fin := is_fin m;
     in_flight := in_flight m; ack_eliciting := ack_eliciting m;
     acked := acked m; lost := lost m; txed := txed m |}.

Definition set_strm (v : option strm_ref) (m : pkt_meta) : pkt_meta :=
  {| rtx := rtx m; rtx_next := rtx_next m; frms := frms m; strm := v;
     strm_off := strm_off m; strm_frm_pos := strm_frm_pos m;
     strm_data_pos := strm_data_pos m; strm_data_len := strm_data_len m;
     ack_frm_pos := ack_frm_pos m; min_cid_seq := min_cid_seq m;
     m_pn := m_pn m; hdr := hdr m; m_t := m_t m; udp_len := udp_len m;
     has_rtx := has_rtx m; is_reset := is_reset m; is_fin := is_fin m;
     in_flight := in_flight m; ack_eliciting := ack_eliciting m;
     acked := acked m; lost := lost m; txed := txed m |}.

Definition set_strm_off (v : Z) (m : pkt_meta) : pkt_meta :=
  {| rtx := rtx m; rtx_next := rtx_next m; frms := frms m; strm := strm m;
     strm_off := v; strm_frm_pos := strm_frm_pos m;
     strm_data_pos := strm_data_pos m; strm_data_len := strm_data_len m;
     ack_frm_pos := ack_frm_pos m; min_cid_seq := min_cid_seq m;
     m_pn := m_pn m; hdr := hdr m; m_t := m_t m; udp_len := udp_len m;
     has_rtx := has_rtx m; is_reset := is_reset m; is_fin := is_fin m;
     in_flight := in_flight m; ack_eliciting := ack_eliciting m;
     acked := acked m; lost := lost m; txed := txed m |}.

Definition set_strm_frm_pos (v : Z) (m : pkt_meta) : pkt_meta :=
  {| rtx := rtx m; rtx_next := rtx_next m; frms := frms m; strm := strm m;
     strm_off := strm_off m; strm_frm_pos := v;
     strm_data_pos := strm_data_pos m; strm_data_len := strm_data_len m;
     ack_frm_pos := ack_frm_pos m; min_cid_seq := min_cid_seq m;
     m_pn := m_pn m; hdr := hdr m; m_t := m_t m; udp_len := udp_len m;
     has_rtx := has_rtx m; is_reset := is_reset m; is_fin := is_fin m;
     in_flight := in_flight m; ack_eliciting := ack_eliciting m;
     acked := acked m; lost := lost m; txed := txed m |}.

Definition set_strm_data_pos (v : Z) (m : pkt_meta) : pkt_meta :=
  {| rtx := rtx m; rtx_next := rtx_next m; frms := frms m; strm := strm m;
     strm_off := strm_off m; strm_frm_pos := strm_frm_pos m;
     strm_data_pos := v; strm_data_len := strm_data_len m;
     ack_frm_pos := ack_frm_pos m; min_cid_seq := min_cid_seq m;
     m_pn := m_pn m; hdr := hdr m; m_t := m_t m; udp_len := udp_len m;
     has_rtx := has_rtx m; is_reset := is_reset m; is_fin := is_fin m;
     in_flight := in_flight m; ack_eliciting := ack_eliciting m;
     acked := acked m; lost := lost m; txed := txed m |}.

Definition set_strm_data_len (v : Z) (m : pkt_meta) : pkt_meta :=
  {| rtx := rtx m; rtx_next := rtx_next m; frms := frms m; strm := strm m;
     strm_off := strm_off m; strm_frm_pos := strm_frm_pos m;
     strm_data_pos := strm_data_pos m; strm_data_len := v;
     ack_frm_pos := ack_frm_pos m; min_cid_seq := min_cid_seq m;
     m_pn := m_pn m; hdr := hdr m; m_t := m_t m; udp_len := udp_len m;
     has_rtx := has_rtx m; is_reset := is_reset m; is_fin := is_fin m;
     in_flight := in_flight m; ack_eliciting := ack_eliciting m;
     acked := acked m; lost := lost m; txed := txed m |}.

Definition set_ack_frm_pos (v : Z) (m : pkt_meta) : pkt_meta :=
  {| rtx := rtx m; rtx_next := rtx_next m; frms := frms m; strm := strm m;
     strm_off := strm_off m; strm_frm_pos := strm_frm_pos m;
     strm_data_pos := strm_data_pos m; strm_data_len := strm_data_len m;
     ack_frm_pos := v; min_cid_seq := min_cid_seq m; m_pn := m_pn m;
     hdr := hdr m; m_t := m_t m; udp_len := udp_len m; has_rtx := has_rtx m;
     is_reset := is_reset m; is_fin := is_fin m; in_flight := in_flight m;
     ack_eliciting := ack_eliciting m; acked := acked m; lost := lost m;
     txed := txed m |}.

Definition set_min_cid_seq (v : Z) (m : pkt_meta) : pkt_meta :=
  {| rtx := rtx m; rtx_next := rtx_next m; frms := frms m; strm := strm m;
     strm_off := strm_off m; strm_frm_pos := strm_frm_pos m;
     strm_data_pos := strm_data_pos m; strm_data_len := strm_data_len m;
     ack_frm_pos := ack_frm_pos m; min_cid_seq := v; m_pn := m_pn m;
     hdr := hdr m; m_t := m_t m; udp_len := udp_len m; has_rtx := has_rtx m;
     is_reset := is_reset m; is_fin := is_fin m; in_flight := in_flight m;
     ack_eliciting := ack_eliciting m; acked := acked m; lost := lost m;
     txed := txed m |}.

Definition set_m_pn (v : option pn_t) (m : pkt_meta) : pkt_meta :=
  {| rtx := rtx m; rtx_next := rtx_next m; frms := frms m; strm := strm m;
     strm_off := strm_off m; strm_frm_pos := strm_frm_pos m;
     strm_data_pos := strm_data_pos m; strm_data_len := strm_data_len m;
     ack_frm_pos := ack_frm_pos m; min_cid_seq := min_cid_seq m; m_pn := v;
     hdr := hdr m; m_t := m_t m; udp_len := udp_len m; has_rtx := has_rtx m;
     is_reset := is_reset m; is_fin := is_fin m; in_flight := in_flight m;
     ack_eliciting := ack_eliciting m; acked := acked m; lost := lost m;
     txed := txed m |}.

Definition set_hdr (v : pkt_hdr) (m : pkt_meta) : pkt_meta :=
  {| rtx := rtx m; rtx_next := rtx_next m; frms := frms m; strm := strm m;
     strm_off := strm_off m; strm_frm_pos := strm_frm_pos m;
     strm_data_pos := strm_data_pos m; strm_data_len := strm_data_len m;
     ack_frm_pos := ack_frm_pos m; min_cid_seq := min_cid_seq m;
     m_pn := m_pn m; hdr := v; m_t := m_t m; udp_len := udp_len m;
     has_rtx := has_rtx m; is_reset := is_reset m; is_fin := is_fin m;
     in_flight := in_flight m; ack_eliciting := ack_eliciting m;
     acked := acked m; lost := lost m; txed := txed m |}.

Definition set_m_t (v : Z) (m : pkt_meta) : pkt_meta :=
  {| rtx := rtx m; rtx_next := rtx_next m; frms := frms m; strm := strm m;
     strm_off := strm_off m; strm_frm_pos := strm_frm_pos m;
     strm_data_pos := strm_data_pos m; strm_data_len := strm_data_len m;
     ack_frm_pos := ack_frm_pos m; min_cid_seq := min_cid_seq m;
     m_pn := m_pn m; hdr := hdr m; m_t := v; udp_len := udp_len m;
     has_rtx := has_rtx m; is_reset := is_reset m; is_fin := is_fin m;
     in_flight := in_flight m; ack_eliciting := ack_eliciting m;
     acked := acked m; lost := lost m; txed := txed m |}.

Definition set_udp_len (v : Z) (m : pkt_meta) : pkt_meta :=
  {| rtx := rtx m; rtx_next := rtx_next m; frms := frms m; strm := strm m;
     strm_off := strm_off m; strm_frm_pos := strm_frm_pos m;
     strm_data_pos := strm_data_pos m; strm_data_len := strm_data_len m;
     ack_frm_pos := ack_frm_pos m; min_cid_seq := min_cid_seq m;
     m_pn := m_pn m; hdr := hdr m; m_t := m_t m; udp_len := v;
     has_rtx := has_rtx m; is_reset := is_reset m; is_fin := is_fin m;
     in_flight := in_flight m; ack_eliciting := ack_eliciting m;
     acked := acked m; lost := lost m; txed := txed m |}.

Definition set_has_rtx (v : bool) (m : pkt_meta) : pkt_meta :=
  {| rtx := rtx m; rtx_next := rtx_next m; frms := frms m; strm := strm m;
     strm_off := strm_off m; strm_frm_pos := strm_frm_pos m;
     strm_data_pos := strm_data_pos m; strm_data_len := strm_data_len m;
     ack_frm_pos := ack_frm_pos m; min_cid_seq := min_cid_seq m;
     m_pn := m_pn m; hdr := hdr m; m_t := m_t m; udp_len := udp_len m;
     has_rtx := v; is_reset := is_reset m; is_fin := is_fin m;
     in_flight := in_flight m; ack_eliciting := ack_eliciting m;
     acked := acked m; lost := lost m; txed := txed m |}.

Definition set_is_reset (v : bool) (m : pkt_meta) : pkt_meta :=
  {| rtx := rtx m; rtx_next := rtx_next m; frms := frms m; strm := strm m;
     strm_off := strm_off m; strm_frm_pos := strm_frm_pos m;
     strm_data_pos := strm_data_pos m; strm_data_len := strm_data_len m;
     ack_frm_pos := ack_frm_pos m; min_cid_seq := min_cid_seq m;
     m_pn := m_pn m; hdr := hdr m; m_t := m_t m; udp_len := udp_len m;
     has_rtx := has_rtx m; is_reset := v; is_fin := is_fin m;
     in_flight := in_flight m; ack_eliciting := ack_eliciting m;
     acked := acked m; lost := lost m; txed := txed m |}.

Definition set_is_fin (v : bool) (m : pkt_meta) : pkt_meta :=
  {| rtx := rtx m; rtx_next := rtx_next m; frms := frms m; strm := strm m;
     strm_off := strm_off m; strm_frm_pos := strm_frm_pos m;
     strm_data_pos := strm_data_pos m; strm_data_len := strm_data_len m;
     ack_frm_pos := ack_frm_pos m; min_cid_seq := min_cid_seq m;
     m_pn := m_pn m; hdr := hdr m; m_t := m_t m; udp_len := udp_len m;
     has_rtx := has_rtx m; is_reset := is_reset m; is_fin := v;
     in_flight := in_flight m; ack_eliciting := ack_eliciting m;
     acked := acked m; lost := lost m; txed := txed m |}.

Definition set_in_flight (v : bool) (m : pkt_meta) : pkt_meta :=
  {| rtx := rtx m; rtx_next := rtx_next m; frms := frms m; strm := strm m;
     strm_off := strm_off m; strm_frm_pos := strm_frm_pos m;
     strm_data_pos := strm_data_pos m; strm_data_len := strm_data_len m;
     ack_frm_pos := ack_frm_pos m; min_cid_seq := min_cid_seq m;
     m_pn := m_pn m; hdr := hdr m; m_t := m_t m; udp_len := udp_len m;
     has_rtx := has_rtx m; is_reset := is_reset m; is_fin := is_fin m;
     in_flight := v; ack_eliciting := ack_eliciting m; acked := acked m;
     lost := lost m; txed := txed m |}.

Definition set_ack_eliciting (v : bool) (m : pkt_meta) : pkt_meta :=
  {| rtx := rtx m; rtx_next := rtx_next m; frms := frms m; strm := strm m;
     strm_off := strm_off m; strm_frm_pos := strm_frm_pos m;
     strm_data_pos := strm_data_pos m; strm_data_len := strm_data_len m;
     ack_frm_pos := ack_frm_pos m; min_cid_seq := min_cid_seq m;
     m_pn := m_pn m; hdr := hdr m; m_t := m_t m; udp_len := udp_len m;
     has_rtx := has_rtx m; is_reset := is_reset m; is_fin := is_fin m;
     in_flight := in_flight m; ack_eliciting := v; acked := acked m;
     lost := lost m; txed := txed m |}.

Definition set_acked (v : bool) (m : pkt_meta) : pkt_meta :=
  {| rtx := rtx m; rtx_next := rtx_next m; frms := frms m; strm := strm m;
     strm_off := strm_off m; strm_frm_pos := strm_frm_pos m;
     strm_data_pos := strm_data_pos m; strm_data_len := strm_data_len m;
     ack_frm_pos := ack_frm_pos m; min_cid_seq := min_cid_seq m;
     m_pn := m_pn m; hdr := hdr m; m_t := m_t m; udp_len := udp_len m;
     has_rtx := has_rtx m; is_reset := is_reset m; is_fin := is_fin m;
     in_flight := in_flight m; ack_eliciting := ack_eliciting m; acked := v;
     lost := lost m; txed := txed m |}.

Definition set_lost (v : bool) (m : pkt_meta) : pkt_meta :=
  {| rtx := rtx m; rtx_next := rtx_next m; frms := frms m; strm := strm m;
     strm_off := strm_off m; strm_frm_pos := strm_frm_pos m;
     strm_data_pos := strm_data_pos m; strm_data_len := strm_data_len m;
     ack_frm_pos := ack_frm_pos m; min_cid_seq := min_cid_seq m;
     m_pn := m_pn m; hdr := hdr m; m_t := m_t m; udp_len := udp_len m;
     has_rtx := has_rtx m; is_reset := is_reset m; is_fin := is_fin m;
     in_flight := in_flight m; ack_eliciting := ack_eliciting m;
     acked := acked m; lost := v; txed := txed m |}.

Definition set_txed (v : bool) (m : pkt_meta) : pkt_meta :=
  {| rtx := rtx m; rtx_next := rtx_next m; frms := frms m; strm := strm m;
     strm_off := strm_off m; strm_frm_pos := strm_frm_pos m;
     strm_data_pos := strm_data_pos m; strm_data_len := strm_data_len m;
     ack_frm_pos := ack_frm_pos m; min_cid_seq := min_cid_seq m;
     m_pn := m_pn m; hdr := hdr m; m_t := m_t m; udp_len := udp_len m;
     has_rtx := has_rtx m; is_reset := is_reset m; is_fin := is_fin m;
     in_flight := in_flight m; ack_eliciting := ack_eliciting m;
     acked := acked m; lost := lost m; txed := v |}.

(** [struct q_stream]: stream.h is not among the sources; these are the members the sources under src/ read or write. Queues hold buffer indices. *)
Record q_stream : Type := Build_q_stream {
  s_id : Z; (* stream id; negative for crypto streams; the member [id] *)
  sstate : strm_state_t; (* s->state *)
  in_data_max : Z;
  in_data_off : Z;
  s_in_data : Z; (* the member [in_data] *)
  lost_cnt : Z;
  sin : list nat; (* s->in, the in-order queue *)
  in_ooo : list nat; (* s->in_ooo, kept in ascending order of strm_off *)
  s_blocked : bool; (* s->blocked *)
  tx_max_strm_data : bool;
  out : list nat; (* s->out, the send queue *)
  out_una : option nat (* s->out_una: position in [out] of the first un-ACKed buffer, None for the null pointer *)
}.

Definition set_s_id (v : Z) (s : q_stream) : q_stream :=
  {| s_id := v; sstate := sstate s; in_data_max := in_data_max s;
     in_data_off := in_data_off s; s_in_data := s_in_data s;
     lost_cnt := lost_cnt s; sin := sin s; in_ooo := in_ooo s;
     s_blocked := s_blocked s; tx_max_strm_data := tx_max_strm_data s;
     out := out s; out_una := out_una s |}.

Definition set_sstate (v : strm_state_t) (s : q_stream) : q_stream :=
  {| s_id := s_id s; sstate := v; in_data_max := in_data_max s;
     in_data_off := in_data_off s; s_in_data := s_in_data s;
     lost_cnt := lost_cnt s; sin := sin s; in_ooo := in_ooo s;
     s_blocked := s_blocked s; tx_max_strm_data := tx_max_strm_data s;
     out := out s; out_una := out_una s |}.

Definition set_in_data_max (v : Z) (s : q_stream) : q_stream :=
  {| s_id := s_id s; sstate := sstate s; in_data_max := v;
     in_data_off := in_data_off s; s_in_data := s_in_data s;
     lost_cnt := lost_cnt s; sin := sin s; in_ooo := in_ooo s;
     s_blocked := s_blocked s; tx_max_strm_data := tx_max_strm_data s;
     out := out s; out_una := out_una s |}.

Definition set_in_data_off (v : Z) (s : q_stream) : q_stream :=
  {| s_id := s_id s; sstate := sstate s; in_data_max := in_data_max s;
     in_data_off := v; s_in_data := s_in_data s; lost_cnt := lost_cnt s;
     sin := sin s; in_ooo := in_ooo s; s_blocked := s_blocked s;
     tx_max_strm_data := tx_max_strm_data s; out := out s;
     out_una := out_una s |}.

Definition set_s_in_data (v : Z) (s : q_stream) : q_stream :=
  {| s_id := s_id s; sstate := sstate s; in_data_max := in_data_max s;
     in_data_off := in_data_off s; s_in_data := v; lost_cnt := lost_cnt s;
     sin := sin s; in_ooo := in_ooo s; s_blocked := s_blocked s;
     tx_max_strm_data := tx_max_strm_data s; out := out s;
     out_una := out_una s |}.

Definition set_lost_cnt (v : Z) (s : q_stream) : q_stream :=
  {| s_id := s_id s; sstate := sstate s; in_data_max := in_data_max s;
     in_data_off := in_data_off s; s_in_data := s_in_data s; lost_cnt := v;
     sin := sin s; in_ooo := in_ooo s; s_blocked := s_blocked s;
     tx_max_strm_data := tx_max_strm_data s; out := out s;
     out_una := out_una s |}.

Definition set_sin (v : list nat) (s : q_stream) : q_stream :=
  {| s_id := s_id s; sstate := sstate s; in_data_max := in_data_max s;
     in_data_off := in_data_off s; s_in_data := s_in_data s;
     lost_cnt := lost_cnt s; sin := v; in_ooo := in_ooo s;
     s_blocked := s_blocked s; tx_max_strm_data := tx_max_strm_data s;
     out := out s; out_una := out_una s |}.

Definition set_in_ooo (v : list nat) (s : q_stream) : q_stream :=
  {| s_id := s_id s; sstate := sstate s; in_data_max := in_data_max s;
     in_data_off := in_data_off s; s_in_data := s_in_data s;
     lost_cnt := lost_cnt s; sin := sin s; in_ooo := v;
     s_blocked := s_blocked s; tx_max_strm_data := tx_max_strm_data s;
     out := out s; out_una := out_una s |}.

Definition set_s_blocked (v : bool) (s : q_stream) : q_stream :=
  {| s_id := s_id s; sstate := sstate s; in_data_max := in_data_max s;
     in_data_off := in_data_off s; s_in_data := s_in_data s;
     lost_cnt := lost_cnt s; sin := sin s; in_ooo := in_ooo s;
     s_blocked := v; tx_max_strm_data := tx_max_strm_data s; out := out s;
     out_una := out_una s |}.

Definition set_tx_max_strm_data (v : bool) (s : q_stream) : q_stream :=
  {| s_id := s_id s; sstate := sstate s; in_data_max := in_data_max s;
     in_data_off := in_data_off s; s_in_data := s_in_data s;
     lost_cnt := lost_cnt s; sin := sin s; in_ooo := in_ooo s;
     s_blocked := s_blocked s; tx_max_strm_data := v; out := out s;
     out_una := out_una s |}.

Definition set_out (v : list nat) (s : q_stream) : q_stream :=
  {| s_id := s_id s; sstate := sstate s; in_data_max := in_data_max s;
     in_data_off := in_data_off s; s_in_data := s_in_data s;
     lost_cnt := lost_cnt s; sin := sin s; in_ooo := in_ooo s;
     s_blocked := s_blocked s; tx_max_strm_data := tx_max_strm_data s;
     out := v; out_una := out_una s |}.

Definition set_out_una (v : option nat) (s : q_stream) : q_stream :=
  {| s_id := s_id s; sstate := sstate s; in_data_max := in_data_max s;
     in_data_off := in_data_off s; s_in_data := s_in_data s;
     lost_cnt := lost_cnt s; sin := sin s; in_ooo := in_ooo s;
     s_blocked := s_blocked s; tx_max_strm_data := tx_max_strm_data s;
     out := out s; out_una := v |}.

(** [struct cc_state] (recovery.h is not among the sources; members as used through [c->rec.cur]). *)
Record cc_state : Type := Build_cc_state {
  cwnd : Z;
  ssthresh : Z;
  in_flight_bytes : Z; (* cur.in_flight *)
  srtt : Z;
  rttvar : Z;
  latest_rtt : Z;
  min_rtt : Z
}.

Definition set_cwnd (v : Z) (cc : cc_state) : cc_state :=
  {| cwnd := v; ssthresh := ssthresh cc;
     in_flight_bytes := in_flight_bytes cc; srtt := srtt cc;
     rttvar := rttvar cc; latest_rtt := latest_rtt cc;
     min_rtt := min_rtt cc |}.

Definition set_ssthresh (v : Z) (cc : cc_state) : cc_state :=
  {| cwnd := cwnd cc; ssthresh := v; in_flight_bytes := in_flight_bytes cc;
     srtt := srtt cc; rttvar := rttvar cc; latest_rtt := latest_rtt cc;
     min_rtt := min_rtt cc |}.

Definition set_in_flight_bytes (v : Z) (cc : cc_state) : cc_state :=
  {| cwnd := cwnd cc; ssthresh := ssthresh cc; in_flight_bytes := v;
     srtt := srtt cc; rttvar := rttvar cc; latest_rtt := latest_rtt cc;
     min_rtt := min_rtt cc |}.

Definition set_srtt (v : Z) (cc : cc_state) : cc_state :=
  {| cwnd := cwnd cc; ssthresh := ssthresh cc;
     in_flight_bytes := in_flight_bytes cc; srtt := v; rttvar := rttvar cc;
     latest_rtt := latest_rtt cc; min_rtt := min_rtt cc |}.

Definition set_rttvar (v : Z) (cc : cc_state) : cc_state :=
  {| cwnd := cwnd cc; ssthresh := ssthresh cc;
     in_flight_bytes := in_flight_bytes cc; srtt := srtt cc; rttvar := v;
     latest_rtt := latest_rtt cc; min_rtt := min_rtt cc |}.

Definition set_latest_rtt (v : Z) (cc : cc_state) : cc_state :=
  {| cwnd := cwnd cc; ssthresh := ssthresh cc;
     in_flight_bytes := in_flight_bytes cc; srtt := srtt cc;
     rttvar := rttvar cc; latest_rtt := v; min_rtt := min_rtt cc |}.

Definition set_min_rtt (v : Z) (cc : cc_state) : cc_state :=
  {| cwnd := cwnd cc; ssthresh := ssthresh cc;
     in_flight_bytes := in_flight_bytes cc; srtt := srtt cc;
     rttvar := rttvar cc; latest_rtt := latest_rtt cc; min_rtt := v |}.

(** [struct recovery] (members as used through [c->rec]). *)
Record recovery : Type := Build_recovery {
  cur : cc_state;
  prev : cc_state;
  ld_alarm : timeout;
  ld_alarm_val : Z;
  rec_start_t : Z;
  ae_in_flight : Z;
  crypto_cnt : Z;
  pto_cnt : Z;
  last_sent_crypto_t : Z;
  last_sent_ack_elicit_t : Z
}.

Definition set_cur (v : cc_state) (rc : recovery) : recovery :=
  {| cur := v; prev := prev rc; ld_alarm := ld_alarm rc;
     ld_alarm_val := ld_alarm_val rc; rec_start_t := rec_start_t rc;
     ae_in_flight := ae_in_flight rc; crypto_cnt := crypto_cnt rc;
     pto_cnt := pto_cnt rc; last_sent_crypto_t := last_sent_crypto_t rc;
     last_sent_ack_elicit_t := last_sent_ack_elicit_t rc |}.

Definition set_prev (v : cc_state) (rc : recovery) : recovery :=
  {| cur := cur rc; prev := v; ld_alarm := ld_alarm rc;
     ld_alarm_val := ld_alarm_val rc; rec_start_t := rec_start_t rc;
     ae_in_flight := ae_in_flight rc; crypto_cnt := crypto_cnt rc;
     pto_cnt := pto_cnt rc; last_sent_crypto_t := last_sent_crypto_t rc;
     last_sent_ack_elicit_t := last_sent_ack_elicit_t rc |}.

Definition set_ld_alarm (v : timeout) (rc : recovery) : recovery :=
  {| cur := cur rc; prev := prev rc; ld_alarm := v;
     ld_alarm_val := ld_alarm_val rc; rec_start_t := rec_start_t rc;
     ae_in_flight := ae_in_flight rc; crypto_cnt := crypto_cnt rc;
     pto_cnt := pto_cnt rc; last_sent_crypto_t := last_sent_crypto_t rc;
     last_sent_ack_elicit_t := last_sent_ack_elicit_t rc |}.

Definition set_ld_alarm_val (v : Z) (rc : recovery) : recovery :=
  {| cur := cur rc; prev := prev rc; ld_alarm := ld_alarm rc;
     ld_alarm_val := v; rec_start_t := rec_start_t rc;
     ae_in_flight := ae_in_flight rc; crypto_cnt := crypto_cnt rc;
     pto_cnt := pto_cnt rc; last_sent_crypto_t := last_sent_crypto_t rc;
     last_sent_ack_elicit_t := last_sent_ack_elicit_t rc |}.

Definition set_rec_start_t (v : Z) (rc : recovery) : recovery :=
  {| cur := cur rc; prev := prev rc; ld_alarm := ld_alarm rc;
     ld_alarm_val := ld_alarm_val rc; rec_start_t := v;
     ae_in_flight := ae_in_flight rc; crypto_cnt := crypto_cnt rc;
     pto_cnt := pto_cnt rc; last_sent_crypto_t := last_sent_crypto_t rc;
     last_sent_ack_elicit_t := last_sent_ack_elicit_t rc |}.

Definition set_ae_in_flight (v : Z) (rc : recovery) : recovery :=
  {| cur := cur rc; prev := prev rc; ld_alarm := ld_alarm rc;
     ld_alarm_val := ld_alarm_val rc; rec_start_t := rec_start_t rc;
     ae_in_flight := v; crypto_cnt := crypto_cnt rc; pto_cnt := pto_cnt rc;
     last_sent_crypto_t := last_sent_crypto_t rc;
     last_sent_ack_elicit_t := last_sent_ack_elicit_t rc |}.

Definition set_crypto_cnt (v : Z) (rc : recovery) : recovery :=
  {| cur := cur rc; prev := prev rc; ld_alarm := ld_alarm rc;
     ld_alarm_val := ld_alarm_val rc; rec_start_t := rec_start_t rc;
     ae_in_flight := ae_in_flight rc; crypto_cnt := v; pto_cnt := pto_cnt rc;
     last_sent_crypto_t := last_sent_crypto_t rc;
     last_sent_ack_elicit_t := last_sent_ack_elicit_t rc |}.

Definition set_pto_cnt (v : Z) (rc : recovery) : recovery :=
  {| cur := cur rc; prev := prev rc; ld_alarm := ld_alarm rc;
     ld_alarm_val := ld_alarm_val rc; rec_start_t := rec_start_t rc;
     ae_in_flight := ae_in_flight rc; crypto_cnt := crypto_cnt rc;
     pto_cnt := v; last_sent_crypto_t := last_sent_crypto_t rc;
     last_sent_ack_elicit_t := last_sent_ack_elicit_t rc |}.

Definition set_last_sent_crypto_t (v : Z) (rc : recovery) : recovery :=
  {| cur := cur rc; prev := prev rc; ld_alarm := ld_alarm rc;
     ld_alarm_val := ld_alarm_val rc; rec_start_t := rec_start_t rc;
     ae_in_flight := ae_in_flight rc; crypto_cnt := crypto_cnt rc;
     pto_cnt := pto_cnt rc; last_sent_crypto_t := v;
     last_sent_ack_elicit_t := last_sent_ack_elicit_t rc |}.

Definition set_last_sent_ack_elicit_t (v : Z) (rc : recovery) : recovery :=
  {| cur := cur rc; prev := prev rc; ld_alarm := ld_alarm rc;
     ld_alarm_val := ld_alarm_val rc; rec_start_t := rec_start_t rc;
     ae_in_flight := ae_in_flight rc; crypto_cnt := crypto_cnt rc;
     pto_cnt := pto_cnt rc; last_sent_crypto_t := last_sent_crypto_t rc;
     last_sent_ack_elicit_t := v |}.

(** [struct pn_space] (pn.h is not among the sources; members as used through [pn->]). [sent_pkts] is the hash table from packet number to meta-data, kept as an association list in the table's iteration order. *)
Record pn_space : Type := Build_pn_space {
  lg_sent : Z;
  lg_acked : Z;
  loss_t : Z;
  abandoned : bool;
  imm_ack : bool;
  sent_pkts : list (Z * nat);
  recv : diet;
  recv_all : diet;
  acked_or_lost : diet;
  ect0_cnt : Z;
  ect1_cnt : Z;
  ce_cnt : Z;
  pkts_rxed_since_last_ack_tx : Z;
  tx_frames : Z;
  rx_frames : Z;
  in_kyph : bool; (* pn->data.in_kyph *)
  out_kyph : bool; (* pn->data.out_kyph *)
  early_in : cipher_ctx; (* pn->early.in *)
  early_out : cipher_ctx; (* pn->early.out *)
  in_0rtt : cipher_ctx; (* pn->data.in_0rtt *)
  out_0rtt : cipher_ctx; (* pn->data.out_0rtt *)
  in_1rtt0 : cipher_ctx; (* pn->data.in_1rtt[0] *)
  in_1rtt1 : cipher_ctx; (* pn->data.in_1rtt[1] *)
  out_1rtt0 : cipher_ctx; (* pn->data.out_1rtt[0] *)
  out_1rtt1 : cipher_ctx (* pn->data.out_1rtt[1] *)
}.

Definition set_lg_sent (v : Z) (p : pn_space) : pn_space :=
  {| lg_sent := v; lg_acked := lg_acked p; loss_t := loss_t p;
     abandoned := abandoned p; imm_ack := imm_ack p;
     sent_pkts := sent_pkts p; recv := recv p; recv_all := recv_all p;
     acked_or_lost := acked_or_lost p; ect0_cnt := ect0_cnt p;
     ect1_cnt := ect1_cnt p; ce_cnt := ce_cnt p;
     pkts_rxed_since_last_ack_tx := pkts_rxed_since_last_ack_tx p;
     tx_frames := tx_frames p; rx_frames := rx_frames p;
     in_kyph := in_kyph p; out_kyph := out_kyph p; early_in := early_in p;
     early_out := early_out p; in_0rtt := in_0rtt p; out_0rtt := out_0rtt p;
     in_1rtt0 := in_1rtt0 p; in_1rtt1 := in_1rtt1 p;
     out_1rtt0 := out_1rtt0 p; out_1rtt1 := out_1rtt1 p |}.

Definition set_lg_acked (v : Z) (p : pn_space) : pn_space :=
  {| lg_sent := lg_sent p; lg_acked := v; loss_t := loss_t p;
     abandoned := abandoned p; imm_ack := imm_ack p;
     sent_pkts := sent_pkts p; recv := recv p; recv_all := recv_all p;
     acked_or_lost := acked_or_lost p; ect0_cnt := ect0_cnt p;
     ect1_cnt := ect1_cnt p; ce_cnt := ce_cnt p;
     pkts_rxed_since_last_ack_tx := pkts_rxed_since_last_ack_tx p;
     tx_frames := tx_frames p; rx_frames := rx_frames p;
     in_kyph := in_kyph p; out_kyph := out_kyph p; early_in := early_in p;
     early_out := early_out p; in_0rtt := in_0rtt p; out_0rtt := out_0rtt p;
     in_1rtt0 := in_1rtt0 p; in_1rtt1 := in_1rtt1 p;
     out_1rtt0 := out_1rtt0 p; out_1rtt1 := out_1rtt1 p |}.

Definition set_loss_t (v : Z) (p : pn_space) : pn_space :=
  {| lg_sent := lg_sent p; lg_acked := lg_acked p; loss_t := v;
     abandoned := abandoned p; imm_ack := imm_ack p;
     sent_pkts := sent_pkts p; recv := recv p; recv_all := recv_all p;
     acked_or_lost := acked_or_lost p; ect0_cnt := ect0_cnt p;
     ect1_cnt := ect1_cnt p; ce_cnt := ce_cnt p;
     pkts_rxed_since_last_ack_tx := pkts_rxed_since_last_ack_tx p;
     tx_frames := tx_frames p; rx_frames := rx_frames p;
     in_kyph := in_kyph p; out_kyph := out_kyph p; early_in := early_in p;
     early_out := early_out p; in_0rtt := in_0rtt p; out_0rtt := out_0rtt p;
     in_1rtt0 := in_1rtt0 p; in_1rtt1 := in_1rtt1 p;
     out_1rtt0 := out_1rtt0 p; out_1rtt1 := out_1rtt1 p |}.

Definition set_abandoned (v : bool) (p : pn_space) : pn_space :=
  {| lg_sent := lg_sent p; lg_acked := lg_acked p; loss_t := loss_t p;
     abandoned := v; imm_ack := imm_ack p; sent_pkts := sent_pkts p;
     recv := recv p; recv_all := recv_all p;
     acked_or_lost := acked_or_lost p; ect0_cnt := ect0_cnt p;
     ect1_cnt := ect1_cnt p; ce_cnt := ce_cnt p;
     pkts_rxed_since_last_ack_tx := pkts_rxed_since_last_ack_tx p;
     tx_frames := tx_frames p; rx_frames := rx_frames p;
     in_kyph := in_kyph p; out_kyph := out_kyph p; early_in := early_in p;
     early_out := early_out p; in_0rtt := in_0rtt p; out_0rtt := out_0rtt p;
     in_1rtt0 := in_1rtt0 p; in_1rtt1 := in_1rtt1 p;
     out_1rtt0 := out_1rtt0 p; out_1rtt1 := out_1rtt1 p |}.

Definition set_imm_ack (v : bool) (p : pn_space) : pn_space :=
  {| lg_sent := lg_sent p; lg_acked := lg_acked p; loss_t := loss_t p;
     abandoned := abandoned p; imm_ack := v; sent_pkts := sent_pkts p;
     recv := recv p; recv_all := recv_all p;
     acked_or_lost := acked_or_lost p; ect0_cnt := ect0_cnt p;
     ect1_cnt := ect1_cnt p; ce_cnt := ce_cnt p;
     pkts_rxed_since_last_ack_tx := pkts_rxed_since_last_ack_tx p;
     tx_frames := tx_frames p; rx_frames := rx_frames p;
     in_kyph := in_kyph p; out_kyph := out_kyph p; early_in := early_in p;
     early_out := early_out p; in_0rtt := in_0rtt p; out_0rtt := out_0rtt p;
     in_1rtt0 := in_1rtt0 p; in_1rtt1 := in_1rtt1 p;
     out_1rtt0 := out_1rtt0 p; out_1rtt1 := out_1rtt1 p |}.

Definition set_sent_pkts (v : list (Z * nat)) (p : pn_space) : pn_space :=
  {| lg_sent := lg_sent p; lg_acked := lg_acked p; loss_t := loss_t p;
     abandoned := abandoned p; imm_ack := imm_ack p; sent_pkts := v;
     recv := recv p; recv_all := recv_all p;
     acked_or_lost := acked_or_lost p; ect0_cnt := ect0_cnt p;
     ect1_cnt := ect1_cnt p; ce_cnt := ce_cnt p;
     pkts_rxed_since_last_ack_tx := pkts_rxed_since_last_ack_tx p;
     tx_frames := tx_frames p; rx_frames := rx_frames p;
     in_kyph := in_kyph p; out_kyph := out_kyph p; early_in := early_in p;
     early_out := early_out p; in_0rtt := in_0rtt p; out_0rtt := out_0rtt p;
     in_1rtt0 := in_1rtt0 p; in_1rtt1 := in_1rtt1 p;
     out_1rtt0 := out_1rtt0 p; out_1rtt1 := out_1rtt1 p |}.

Definition set_recv (v : diet) (p : pn_space) : pn_space :=
  {| lg_sent := lg_sent p; lg_acked := lg_acked p; loss_t := loss_t p;
     abandoned := abandoned p; imm_ack := imm_ack p;
     sent_pkts := sent_pkts p; recv := v; recv_all := recv_all p;
     acked_or_lost := acked_or_lost p; ect0_cnt := ect0_cnt p;
     ect1_cnt := ect1_cnt p; ce_cnt := ce_cnt p;
     pkts_rxed_since_last_ack_tx := pkts_rxed_since_last_ack_tx p;
     tx_frames := tx_frames p; rx_frames := rx_frames p;
     in_kyph := in_kyph p; out_kyph := out_kyph p; early_in := early_in p;
     early_out := early_out p; in_0rtt := in_0rtt p; out_0rtt := out_0rtt p;
     in_1rtt0 := in_1rtt0 p; in_1rtt1 := in_1rtt1 p;
     out_1rtt0 := out_1rtt0 p; out_1rtt1 := out_1rtt1 p |}.

Definition set_recv_all (v : diet) (p : pn_space) : pn_space :=
  {| lg_sent := lg_sent p; lg_acked := lg_acked p; loss_t := loss_t p;
     abandoned := abandoned p; imm_ack := imm_ack p;
     sent_pkts := sent_pkts p; recv := recv p; recv_all := v;
     acked_or_lost := acked_or_lost p; ect0_cnt := ect0_cnt p;
     ect1_cnt := ect1_cnt p; ce_cnt := ce_cnt p;
     pkts_rxed_since_last_ack_tx := pkts_rxed_since_last_ack_tx p;
     tx_frames := tx_frames p; rx_frames := rx_frames p;
     in_kyph := in_kyph p; out_kyph := out_kyph p; early_in := early_in p;
     early_out := early_out p; in_0rtt := in_0rtt p; out_0rtt := out_0rtt p;
     in_1rtt0 := in_1rtt0 p; in_1rtt1 := in_1rtt1 p;
     out_1rtt0 := out_1rtt0 p; out_1rtt1 := out_1rtt1 p |}.

Definition set_acked_or_lost (v : diet) (p : pn_space) : pn_space :=
  {| lg_sent := lg_sent p; lg_acked := lg_acked p; loss_t := loss_t p;
     abandoned := abandoned p; imm_ack := imm_ack p;
     sent_pkts := sent_pkts p; recv := recv p; recv_all := recv_all p;
     acked_or_lost := v; ect0_cnt := ect0_cnt p; ect1_cnt := ect1_cnt p;
     ce_cnt := ce_cnt p;
     pkts_rxed_since_last_ack_tx := pkts_rxed_since_last_ack_tx p;
     tx_frames := tx_frames p; rx_frames := rx_frames p;
     in_kyph := in_kyph p; out_kyph := out_kyph p; early_in := early_in p;
     early_out := early_out p; in_0rtt := in_0rtt p; out_0rtt := out_0rtt p;
     in_1rtt0 := in_1rtt0 p; in_1rtt1 := in_1rtt1 p;
     out_1rtt0 := out_1rtt0 p; out_1rtt1 := out_1rtt1 p |}.

Definition set_ect0_cnt (v : Z) (p : pn_space) : pn_space :=
  {| lg_sent := lg_sent p; lg_acked := lg_acked p; loss_t := loss_t p;
     abandoned := abandoned p; imm_ack := imm_ack p;
     sent_pkts := sent_pkts p; recv := recv p; recv_all := recv_all p;
     acked_or_lost := acked_or_lost p; ect0_cnt := v; ect1_cnt := ect1_cnt p;
     ce_cnt := ce_cnt p;
     pkts_rxed_since_last_ack_tx := pkts_rxed_since_last_ack_tx p;
     tx_frames := tx_frames p; rx_frames := rx_frames p;
     in_kyph := in_kyph p; out_kyph := out_kyph p; early_in := early_in p;
     early_out := early_out p; in_0rtt := in_0rtt p; out_0rtt := out_0rtt p;
     in_1rtt0 := in_1rtt0 p; in_1rtt1 := in_1rtt1 p;
     out_1rtt0 := out_1rtt0 p; out_1rtt1 := out_1rtt1 p |}.

Definition set_ect1_cnt (v : Z) (p : pn_space) : pn_space :=
  {| lg_sent := lg_sent p; lg_acked := lg_acked p; loss_t := loss_t p;
     abandoned := abandoned p; imm_ack := imm_ack p;
     sent_pkts := sent_pkts p; recv := recv p; recv_all := recv_all p;
     acked_or_lost := acked_or_lost p; ect0_cnt := ect0_cnt p; ect1_cnt := v;
     ce_cnt := ce_cnt p;
     pkts_rxed_since_last_ack_tx := pkts_rxed_since_last_ack_tx p;
     tx_frames := tx_frames p; rx_frames := rx_frames p;
     in_kyph := in_kyph p; out_kyph := out_kyph p; early_in := early_in p;
     early_out := early_out p; in_0rtt := in_0rtt p; out_0rtt := out_0rtt p;
     in_1rtt0 := in_1rtt0 p; in_1rtt1 := in_1rtt1 p;
     out_1rtt0 := out_1rtt0 p; out_1rtt1 := out_1rtt1 p |}.

Definition set_ce_cnt (v : Z) (p : pn_space) : pn_space :=
  {| lg_sent := lg_sent p; lg_acked := lg_acked p; loss_t := loss_t p;
     abandoned := abandoned p; imm_ack := imm_ack p;
     sent_pkts := sent_pkts p; recv := recv p; recv_all := recv_all p;
     acked_or_lost := acked_or_lost p; ect0_cnt := ect0_cnt p;
     ect1_cnt := ect1_cnt p; ce_cnt := v;
     pkts_rxed_since_last_ack_tx := pkts_rxed_since_last_ack_tx p;
     tx_frames := tx_frames p; rx_frames := rx_frames p;
     in_kyph := in_kyph p; out_kyph := out_kyph p; early_in := early_in p;
     early_out := early_out p; in_0rtt := in_0rtt p; out_0rtt := out_0rtt p;
     in_1rtt0 := in_1rtt0 p; in_1rtt1 := in_1rtt1 p;
     out_1rtt0 := out_1rtt0 p; out_1rtt1 := out_1rtt1 p |}.

Definition set_pkts_rxed_since_last_ack_tx (v : Z) (p : pn_space) : pn_space :=
  {| lg_sent := lg_sent p; lg_acked := lg_acked p; loss_t := loss_t p;
     abandoned := abandoned p; imm_ack := imm_ack p;
     sent_pkts := sent_pkts p; recv := recv p; recv_all := recv_all p;
     acked_or_lost := acked_or_lost p; ect0_cnt := ect0_cnt p;
     ect1_cnt := ect1_cnt p; ce_cnt := ce_cnt p;
     pkts_rxed_since_last_ack_tx := v; tx_frames := tx_frames p;
     rx_frames := rx_frames p; in_kyph := in_kyph p; out_kyph := out_kyph p;
     early_in := early_in p; early_out := early_out p; in_0rtt := in_0rtt p;
     out_0rtt := out_0rtt p; in_1rtt0 := in_1rtt0 p; in_1rtt1 := in_1rtt1 p;
     out_1rtt0 := out_1rtt0 p; out_1rtt1 := out_1rtt1 p |}.

Definition set_tx_frames (v : Z) (p : pn_space) : pn_space :=
  {| lg_sent := lg_sent p; lg_acked := lg_acked p; loss_t := loss_t p;
     abandoned := abandoned p; imm_ack := imm_ack p;
     sent_pkts := sent_pkts p; recv := recv p; recv_all := recv_all p;
     acked_or_lost := acked_or_lost p; ect0_cnt := ect0_cnt p;
     ect1_cnt := ect1_cnt p; ce_cnt := ce_cnt p;
     pkts_rxed_since_last_ack_tx := pkts_rxed_since_last_ack_tx p;
     tx_frames := v; rx_frames := rx_frames p; in_kyph := in_kyph p;
     out_kyph := out_kyph p; early_in := early_in p;
     early_out := early_out p; in_0rtt := in_0rtt p; out_0rtt := out_0rtt p;
     in_1rtt0 := in_1rtt0 p; in_1rtt1 := in_1rtt1 p;
     out_1rtt0 := out_1rtt0 p; out_1rtt1 := out_1rtt1 p |}.

Definition set_rx_frames (v : Z) (p : pn_space) : pn_space :=
  {| lg_sent := lg_sent p; lg_acked := lg_acked p; loss_t := loss_t p;
     abandoned := abandoned p; imm_ack := imm_ack p;
     sent_pkts := sent_pkts p; recv := recv p; recv_all := recv_all p;
     acked_or_lost := acked_or_lost p; ect0_cnt := ect0_cnt p;
     ect1_cnt := ect1_cnt p; ce_cnt := ce_cnt p;
     pkts_rxed_since_last_ack_tx := pkts_rxed_since_last_ack_tx p;
     tx_frames := tx_frames p; rx_frames := v; in_kyph := in_kyph p;
     out_kyph := out_kyph p; early_in := early_in p;
     early_out := early_out p; in_0rtt := in_0rtt p; out_0rtt := out_0rtt p;
     in_1rtt0 := in_1rtt0 p; in_1rtt1 := in_1rtt1 p;
     out_1rtt0 := out_1rtt0 p; out_1rtt1 := out_1rtt1 p |}.

Definition set_in_kyph (v : bool) (p : pn_space) : pn_space :=
  {| lg_sent := lg_sent p; lg_acked := lg_acked p; loss_t := loss_t p;
     abandoned := abandoned p; imm_ack := imm_ack p;
     sent_pkts := sent_pkts p; recv := recv p; recv_all := recv_all p;
     acked_or_lost := acked_or_lost p; ect0_cnt := ect0_cnt p;
     ect1_cnt := ect1_cnt p; ce_cnt := ce_cnt p;
     pkts_rxed_since_last_ack_tx := pkts_rxed_since_last_ack_tx p;
     tx_frames := tx_frames p; rx_frames := rx_frames p; in_kyph := v;
     out_kyph := out_kyph p; early_in := early_in p;
     early_out := early_out p; in_0rtt := in_0rtt p; out_0rtt := out_0rtt p;
     in_1rtt0 := in_1rtt0 p; in_1rtt1 := in_1rtt1 p;
     out_1rtt0 := out_1rtt0 p; out_1rtt1 := out_1rtt1 p |}.

Definition set_out_kyph (v : bool) (p : pn_space) : pn_space :=
  {| lg_sent := lg_sent p; lg_acked := lg_acked p; loss_t := loss_t p;
     abandoned := abandoned p; imm_ack := imm_ack p;
     sent_pkts := sent_pkts p; recv := recv p; recv_all := recv_all p;
     acked_or_lost := acked_or_lost p; ect0_cnt := ect0_cnt p;
     ect1_cnt := ect1_cnt p; ce_cnt := ce_cnt p;
     pkts_rxed_since_last_ack_tx := pkts_rxed_since_last_ack_tx p;
     tx_frames := tx_frames p; rx_frames := rx_frames p;
     in_kyph := in_kyph p; out_kyph := v; early_in := early_in p;
     early_out := early_out p; in_0rtt := in_0rtt p; out_0rtt := out_0rtt p;
     in_1rtt0 := in_1rtt0 p; in_1rtt1 := in_1rtt1 p;
     out_1rtt0 := out_1rtt0 p; out_1rtt1 := out_1rtt1 p |}.

Definition set_early_in (v : cipher_ctx) (p : pn_space) : pn_space :=
  {| lg_sent := lg_sent p; lg_acked := lg_acked p; loss_t := loss_t p;
     abandoned := abandoned p; imm_ack := imm_ack p;
     sent_pkts := sent_pkts p; recv := recv p; recv_all := recv_all p;
     acked_or_lost := acked_or_lost p; ect0_cnt := ect0_cnt p;
     ect1_cnt := ect1_cnt p; ce_cnt := ce_cnt p;
     pkts_rxed_since_last_ack_tx := pkts_rxed_since_last_ack_tx p;
     tx_frames := tx_frames p; rx_frames := rx_frames p;
     in_kyph := in_kyph p; out_kyph := out_kyph p; early_in := v;
     early_out := early_out p; in_0rtt := in_0rtt p; out_0rtt := out_0rtt p;
     in_1rtt0 := in_1rtt0 p; in_1rtt1 := in_1rtt1 p;
     out_1rtt0 := out_1rtt0 p; out_1rtt1 := out_1rtt1 p |}.

Definition set_early_out (v : cipher_ctx) (p : pn_space) : pn_space :=
  {| lg_sent := lg_sent p; lg_acked := lg_acked p; loss_t := loss_t p;
     abandoned := abandoned p; imm_ack := imm_ack p;
     sent_pkts := sent_pkts p; recv := recv p; recv_all := recv_all p;
     acked_or_lost := acked_or_lost p; ect0_cnt := ect0_cnt p;
     ect1_cnt := ect1_cnt p; ce_cnt := ce_cnt p;
     pkts_rxed_since_last_ack_tx := pkts_rxed_since_last_ack_tx p;
     tx_frames := tx_frames p; rx_frames := rx_frames p;
     in_kyph := in_kyph p; out_kyph := out_kyph p; early_in := early_in p;
     early_out := v; in_0rtt := in_0rtt p; out_0rtt := out_0rtt p;
     in_1rtt0 := in_1rtt0 p; in_1rtt1 := in_1rtt1 p;
     out_1rtt0 := out_1rtt0 p; out_1rtt1 := out_1rtt1 p |}.

Definition set_in_0rtt (v : cipher_ctx) (p : pn_space) : pn_space :=
  {| lg_sent := lg_sent p; lg_acked := lg_acked p; loss_t := loss_t p;
     abandoned := abandoned p; imm_ack := imm_ack p;
     sent_pkts := sent_pkts p; recv := recv p; recv_all := recv_all p;
     acked_or_lost := acked_or_lost p; ect0_cnt := ect0_cnt p;
     ect1_cnt := ect1_cnt p; ce_cnt := ce_cnt p;
     pkts_rxed_since_last_ack_tx := pkts_rxed_since_last_ack_tx p;
     tx_frames := tx_frames p; rx_frames := rx_frames p;
     in_kyph := in_kyph p; out_kyph := out_kyph p; early_in := early_in p;
     early_out := early_out p; in_0rtt := v; out_0rtt := out_0rtt p;
     in_1rtt0 := in_1rtt0 p; in_1rtt1 := in_1rtt1 p;
     out_1rtt0 := out_1rtt0 p; out_1rtt1 := out_1rtt1 p |}.

Definition set_out_0rtt (v : cipher_ctx) (p : pn_space) : pn_space :=
  {| lg_sent := lg_sent p; lg_acked := lg_acked p; loss_t := loss_t p;
     abandoned := abandoned p; imm_ack := imm_ack p;
     sent_pkts := sent_pkts p; recv := recv p; recv_all := recv_all p;
     acked_or_lost := acked_or_lost p; ect0_cnt := ect0_cnt p;
     ect1_cnt := ect1_cnt p; ce_cnt := ce_cnt p;
     pkts_rxed_since_last_ack_tx := pkts_rxed_since_last_ack_tx p;
     tx_frames := tx_frames p; rx_frames := rx_frames p;
     in_kyph := in_kyph p; out_kyph := out_kyph p; early_in := early_in p;
     early_out := early_out p; in_0rtt := in_0rtt p; out_0rtt := v;
     in_1rtt0 := in_1rtt0 p; in_1rtt1 := in_1rtt1 p;
     out_1rtt0 := out_1rtt0 p; out_1rtt1 := out_1rtt1 p |}.

Definition set_in_1rtt0 (v : cipher_ctx) (p : pn_space) : pn_space :=
  {| lg_sent := lg_sent p; lg_acked := lg_acked p; loss_t := loss_t p;
     abandoned := abandoned p; imm_ack := imm_ack p;
     sent_pkts := sent_pkts p; recv := recv p; recv_all := recv_all p;
     acked_or_lost := acked_or_lost p; ect0_cnt := ect0_cnt p;
     ect1_cnt := ect1_cnt p; ce_cnt := ce_cnt p;
     pkts_rxed_since_last_ack_tx := pkts_rxed_since_last_ack_tx p;
     tx_frames := tx_frames p; rx_frames := rx_frames p;
     in_kyph := in_kyph p; out_kyph := out_kyph p; early_in := early_in p;
     early_out := early_out p; in_0rtt := in_0rtt p; out_0rtt := out_0rtt p;
     in_1rtt0 := v; in_1rtt1 := in_1rtt1 p; out_1rtt0 := out_1rtt0 p;
     out_1rtt1 := out_1rtt1 p |}.

Definition set_in_1rtt1 (v : cipher_ctx) (p : pn_space) : pn_space :=
  {| lg_sent := lg_sent p; lg_acked := lg_acked p; loss_t := loss_t p;
     abandoned := abandoned p; imm_ack := imm_ack p;
     sent_pkts := sent_pkts p; recv := recv p; recv_all := recv_all p;
     acked_or_lost := acked_or_lost p; ect0_cnt := ect0_cnt p;
     ect1_cnt := ect1_cnt p; ce_cnt := ce_cnt p;
     pkts_rxed_since_last_ack_tx := pkts_rxed_since_last_ack_tx p;
     tx_frames := tx_frames p; rx_frames := rx_frames p;
     in_kyph := in_kyph p; out_kyph := out_kyph p; early_in := early_in p;
     early_out := early_out p; in_0rtt := in_0rtt p; out_0rtt := out_0rtt p;
     in_1rtt0 := in_1rtt0 p; in_1rtt1 := v; out_1rtt0 := out_1rtt0 p;
     out_1rtt1 := out_1rtt1 p |}.

Definition set_out_1rtt0 (v : cipher_ctx) (p : pn_space) : pn_space :=
  {| lg_sent := lg_sent p; lg_acked := lg_acked p; loss_t := loss_t p;
     abandoned := abandoned p; imm_ack := imm_ack p;
     sent_pkts := sent_pkts p; recv := recv p; recv_all := recv_all p;
     acked_or_lost := acked_or_lost p; ect0_cnt := ect0_cnt p;
     ect1_cnt := ect1_cnt p; ce_cnt := ce_cnt p;
     pkts_rxed_since_last_ack_tx := pkts_rxed_since_last_ack_tx p;
     tx_frames := tx_frames p; rx_frames := rx_frames p;
     in_kyph := in_kyph p; out_kyph := out_kyph p; early_in := early_in p;
     early_out := early_out p; in_0rtt := in_0rtt p; out_0rtt := out_0rtt p;
     in_1rtt0 := in_1rtt0 p; in_1rtt1 := in_1rtt1 p; out_1rtt0 := v;
     out_1rtt1 := out_1rtt1 p |}.

Definition set_out_1rtt1 (v : cipher_ctx) (p : pn_space) : pn_space :=
  {| lg_sent := lg_sent p; lg_acked := lg_acked p; loss_t := loss_t p;
     abandoned := abandoned p; imm_ack := imm_ack p;
     sent_pkts := sent_pkts p; recv := recv p; recv_all := recv_all p;
     acked_or_lost := acked_or_lost p; ect0_cnt := ect0_cnt p;
     ect1_cnt := ect1_cnt p; ce_cnt := ce_cnt p;
     pkts_rxed_since_last_ack_tx := pkts_rxed_since_last_ack_tx p;
     tx_frames := tx_frames p; rx_frames := rx_frames p;
     in_kyph := in_kyph p; out_kyph := out_kyph p; early_in := early_in p;
     early_out := early_out p; in_0rtt := in_0rtt p; out_0rtt := out_0rtt p;
     in_1rtt0 := in_1rtt0 p; in_1rtt1 := in_1rtt1 p;
     out_1rtt0 := out_1rtt0 p; out_1rtt1 := v |}.

(** [struct transport_params] (conn.h), the members used here. *)
Record transport_params : Type := Build_transport_params {
  max_data : Z;
  max_ack_del : Z;
  ack_del_exp : Z
}.

Definition set_max_data (v : Z) (tp : transport_params) : transport_params :=
  {| max_data := v; max_ack_del := max_ack_del tp;
     ack_del_exp := ack_del_exp tp |}.

Definition set_max_ack_del (v : Z) (tp : transport_params) : transport_params :=
  {| max_data := max_data tp; max_ack_del := v;
     ack_del_exp := ack_del_exp tp |}.

Definition set_ack_del_exp (v : Z) (tp : transport_params) : transport_params :=
  {| max_data := max_data tp; max_ack_del := max_ack_del tp;
     ack_del_exp := v |}.

(** [struct pn_space pns[pn_data + 1]]: the three packet-number spaces of a connection. *)
Record pn_spaces : Type := Build_pn_spaces {
  pns_init : pn_space;
  pns_hshk : pn_space;
  pns_data : pn_space
}.

Definition set_pns_init (v : pn_space) (ps : pn_spaces) : pn_spaces :=
  {| pns_init := v; pns_hshk := pns_hshk ps; pns_data := pns_data ps |}.

Definition set_pns_hshk (v : pn_space) (ps : pn_spaces) : pn_spaces :=
  {| pns_init := pns_init ps; pns_hshk := v; pns_data := pns_data ps |}.

Definition set_pns_data (v : pn_space) (ps : pn_spaces) : pn_spaces :=
  {| pns_init := pns_init ps; pns_hshk := pns_hshk ps; pns_data := v |}.

(** [struct q_conn] (conn.h), restricted to the members that the embedded functions read or write. *)
Record q_conn : Type := Build_q_conn {
  is_clnt : bool;
  needs_tx : bool;
  tx_max_data : bool;
  blocked : bool;
  try_0rtt : bool;
  did_0rtt : bool;
  tx_path_resp : bool;
  tx_path_chlg : bool;
  tx_rtry : bool;
  have_new_data : bool;
  spin_enabled : bool;
  spin : bool;
  no_wnd : bool;
  state : conn_state_t;
  tx_w : timeout;
  vers : Z;
  pns : pn_spaces;
  idle_alarm : timeout;
  closing_alarm : timeout;
  key_flip_alarm : timeout;
  ack_alarm : timeout;
  peer : sockaddr;
  migr_peer : sockaddr;
  cstrms : epoch_t -> option q_stream; (* crypto streams, by epoch *)
  strms_by_id : gmap Z q_stream;
  clsd_strms : diet;
  tp_in : transport_params;
  tp_out : transport_params;
  rec : recovery;
  in_data_str : Z;
  out_data_str : Z;
  path_val_win : Z;
  in_data : Z;
  out_data : Z;
  path_chlg_in : list Z;
  path_resp_out : list Z;
  path_chlg_out : list Z;
  path_resp_in : list Z;
  enable_ecn : bool; (* c->sockopt.enable_ecn *)
  max_cid_seq_out : Z;
  txq : list Z; (* lengths of the protected packets queued for TX *)
  pkts_out_lost : Z; (* c->i.pkts_out_lost *)
  err_code : Z;
  err_frm : Z;
  err_reason_len : Z;
  err_reason : string;
  tok_len : Z;
  tok : list Z;
  tx_limit : Z
}.

Definition set_is_clnt (v : bool) (c : q_conn) : q_conn :=
  {| is_clnt := v; needs_tx := needs_tx c; tx_max_data := tx_max_data c;
     blocked := blocked c; try_0rtt := try_0rtt c; did_0rtt := did_0rtt c;
     tx_path_resp := tx_path_resp c; tx_path_chlg := tx_path_chlg c;
     tx_rtry := tx_rtry c; have_new_data := have_new_data c;
     spin_enabled := spin_enabled c; spin := spin c; no_wnd := no_wnd c;
     state := state c; tx_w := tx_w c; vers := vers c; pns := pns c;
     idle_alarm := idle_alarm c; closing_alarm := closing_alarm c;
     key_flip_alarm := key_flip_alarm c; ack_alarm := ack_alarm c;
     peer := peer c; migr_peer := migr_peer c; cstrms := cstrms c;
     strms_by_id := strms_by_id c; clsd_strms := clsd_strms c;
     tp_in := tp_in c; tp_out := tp_out c; rec := rec c;
     in_data_str := in_data_str c; out_data_str := out_data_str c;
     path_val_win := path_val_win c; in_data := in_data c;
     out_data := out_data c; path_chlg_in := path_chlg_in c;
     path_resp_out := path_resp_out c; path_chlg_out := path_chlg_out c;
     path_resp_in := path_resp_in c; enable_ecn := enable_ecn c;
     max_cid_seq_out := max_cid_seq_out c; txq := txq c;
     pkts_out_lost := pkts_out_lost c; err_code := err_code c;
     err_frm := err_frm c; err_reason_len := err_reason_len c;
     err_reason := err_reason c; tok_len := tok_len c; tok := tok c;
     tx_limit := tx_limit c |}.

Definition set_needs_tx (v : bool) (c : q_conn) : q_conn :=
  {| is_clnt := is_clnt c; needs_tx := v; tx_max_data := tx_max_data c;
     blocked := blocked c; try_0rtt := try_0rtt c; did_0rtt := did_0rtt c;
     tx_path_resp := tx_path_resp c; tx_path_chlg := tx_path_chlg c;
     tx_rtry := tx_rtry c; have_new_data := have_new_data c;
     spin_enabled := spin_enabled c; spin := spin c; no_wnd := no_wnd c;
     state := state c; tx_w := tx_w c; vers := vers c; pns := pns c;
     idle_alarm := idle_alarm c; closing_alarm := closing_alarm c;
     key_flip_alarm := key_flip_alarm c; ack_alarm := ack_alarm c;
     peer := peer c; migr_peer := migr_peer c; cstrms := cstrms c;
     strms_by_id := strms_by_id c; clsd_strms := clsd_strms c;
     tp_in := tp_in c; tp_out := tp_out c; rec := rec c;
     in_data_str := in_data_str c; out_data_str := out_data_str c;
     path_val_win := path_val_win c; in_data := in_data c;
     out_data := out_data c; path_chlg_in := path_chlg_in c;
     path_resp_out := path_resp_out c; path_chlg_out := path_chlg_out c;
     path_resp_in := path_resp_in c; enable_ecn := enable_ecn c;
     max_cid_seq_out := max_cid_seq_out c; txq := txq c;
     pkts_out_lost := pkts_out_lost c; err_code := err_code c;
     err_frm := err_frm c; err_reason_len := err_reason_len c;
     err_reason := err_reason c; tok_len := tok_len c; tok := tok c;
     tx_limit := tx_limit c |}.

Definition set_tx_max_data (v : bool) (c : q_conn) : q_conn :=
  {| is_clnt := is_clnt c; needs_tx := needs_tx c; tx_max_data := v;
     blocked := blocked c; try_0rtt := try_0rtt c; did_0rtt := did_0rtt c;
     tx_path_resp := tx_path_resp c; tx_path_chlg := tx_path_chlg c;
     tx_rtry := tx_rtry c; have_new_data := have_new_data c;
     spin_enabled := spin_enabled c; spin := spin c; no_wnd := no_wnd c;
     state := state c; tx_w := tx_w c; vers := vers c; pns := pns c;
     idle_alarm := idle_alarm c; closing_alarm := closing_alarm c;
     key_flip_alarm := key_flip_alarm c; ack_alarm := ack_alarm c;
     peer := peer c; migr_peer := migr_peer c; cstrms := cstrms c;
     strms_by_id := strms_by_id c; clsd_strms := clsd_strms c;
     tp_in := tp_in c; tp_out := tp_out c; rec := rec c;
     in_data_str := in_data_str c; out_data_str := out_data_str c;
     path_val_win := path_val_win c; in_data := in_data c;
     out_data := out_data c; path_chlg_in := path_chlg_in c;
     path_resp_out := path_resp_out c; path_chlg_out := path_chlg_out c;
     path_resp_in := path_resp_in c; enable_ecn := enable_ecn c;
     max_cid_seq_out := max_cid_seq_out c; txq := txq c;
     pkts_out_lost := pkts_out_lost c; err_code := err_code c;
     err_frm := err_frm c; err_reason_len := err_reason_len c;
     err_reason := err_reason c; tok_len := tok_len c; tok := tok c;
     tx_limit := tx_limit c |}.

Definition set_blocked (v : bool) (c : q_conn) : q_conn :=
  {| is_clnt := is_clnt c; needs_tx := needs_tx c;
     tx_max_data := tx_max_data c; blocked := v; try_0rtt := try_0rtt c;
     did_0rtt := did_0rtt c; tx_path_resp := tx_path_resp c;
     tx_path_chlg := tx_path_chlg c; tx_rtry := tx_rtry c;
     have_new_data := have_new_data c; spin_enabled := spin_enabled c;
     spin := spin c; no_wnd := no_wnd c; state := state c; tx_w := tx_w c;
     vers := vers c; pns := pns c; idle_alarm := idle_alarm c;
     closing_alarm := closing_alarm c; key_flip_alarm := key_flip_alarm c;
     ack_alarm := ack_alarm c; peer := peer c; migr_peer := migr_peer c;
     cstrms := cstrms c; strms_by_id := strms_by_id c;
     clsd_strms := clsd_strms c; tp_in := tp_in c; tp_out := tp_out c;
     rec := rec c; in_data_str := in_data_str c;
     out_data_str := out_data_str c; path_val_win := path_val_win c;
     in_data := in_data c; out_data := out_data c;
     path_chlg_in := path_chlg_in c; path_resp_out := path_resp_out c;
     path_chlg_out := path_chlg_out c; path_resp_in := path_resp_in c;
     enable_ecn := enable_ecn c; max_cid_seq_out := max_cid_seq_out c;
     txq := txq c; pkts_out_lost := pkts_out_lost c; err_code := err_code c;
     err_frm := err_frm c; err_reason_len := err_reason_len c;
     err_reason := err_reason c; tok_len := tok_len c; tok := tok c;
     tx_limit := tx_limit c |}.

Definition set_try_0rtt (v : bool) (c : q_conn) : q_conn :=
  {| is_clnt := is_clnt c; needs_tx := needs_tx c;
     tx_max_data := tx_max_data c; blocked := blocked c; try_0rtt := v;
     did_0rtt := did_0rtt c; tx_path_resp := tx_path_resp c;
     tx_path_chlg := tx_path_chlg c; tx_rtry := tx_rtry c;
     have_new_data := have_new_data c; spin_enabled := spin_enabled c;
     spin := spin c; no_wnd := no_wnd c; state := state c; tx_w := tx_w c;
     vers := vers c; pns := pns c; idle_alarm := idle_alarm c;
     closing_alarm := closing_alarm c; key_flip_alarm := key_flip_alarm c;
     ack_alarm := ack_alarm c; peer := peer c; migr_peer := migr_peer c;
     cstrms := cstrms c; strms_by_id := strms_by_id c;
     clsd_strms := clsd_strms c; tp_in := tp_in c; tp_out := tp_out c;
     rec := rec c; in_data_str := in_data_str c;
     out_data_str := out_data_str c; path_val_win := path_val_win c;
     in_data := in_data c; out_data := out_data c;
     path_chlg_in := path_chlg_in c; path_resp_out := path_resp_out c;
     path_chlg_out := path_chlg_out c; path_resp_in := path_resp_in c;
     enable_ecn := enable_ecn c; max_cid_seq_out := max_cid_seq_out c;
     txq := txq c; pkts_out_lost := pkts_out_lost c; err_code := err_code c;
     err_frm := err_frm c; err_reason_len := err_reason_len c;
     err_reason := err_reason c; tok_len := tok_len c; tok := tok c;
     tx_limit := tx_limit c |}.

Definition set_did_0rtt (v : bool) (c : q_conn) : q_conn :=
  {| is_clnt := is_clnt c; needs_tx := needs_tx c;
     tx_max_data := tx_max_data c; blocked := blocked c;
     try_0rtt := try_0rtt c; did_0rtt := v; tx_path_resp := tx_path_resp c;
     tx_path_chlg := tx_path_chlg c; tx_rtry := tx_rtry c;
     have_new_data := have_new_data c; spin_enabled := spin_enabled c;
     spin := spin c; no_wnd := no_wnd c; state := state c; tx_w := tx_w c;
     vers := vers c; pns := pns c; idle_alarm := idle_alarm c;
     closing_alarm := closing_alarm c; key_flip_alarm := key_flip_alarm c;
     ack_alarm := ack_alarm c; peer := peer c; migr_peer := migr_peer c;
     cstrms := cstrms c; strms_by_id := strms_by_id c;
     clsd_strms := clsd_strms c; tp_in := tp_in c; tp_out := tp_out c;
     rec := rec c; in_data_str := in_data_str c;
     out_data_str := out_data_str c; path_val_win := path_val_win c;
     in_data := in_data c; out_data := out_data c;
     path_chlg_in := path_chlg_in c; path_resp_out := path_resp_out c;
     path_chlg_out := path_chlg_out c; path_resp_in := path_resp_in c;
     enable_ecn := enable_ecn c; max_cid_seq_out := max_cid_seq_out c;
     txq := txq c; pkts_out_lost := pkts_out_lost c; err_code := err_code c;
     err_frm := err_frm c; err_reason_len := err_reason_len c;
     err_reason := err_reason c; tok_len := tok_len c; tok := tok c;
     tx_limit := tx_limit c |}.

Definition set_tx_path_resp (v : bool) (c : q_conn) : q_conn :=
  {| is_clnt := is_clnt c; needs_tx := needs_tx c;
     tx_max_data := tx_max_data c; blocked := blocked c;
     try_0rtt := try_0rtt c; did_0rtt := did_0rtt c; tx_path_resp := v;
     tx_path_chlg := tx_path_chlg c; tx_rtry := tx_rtry c;
     have_new_data := have_new_data c; spin_enabled := spin_enabled c;
     spin := spin c; no_wnd := no_wnd c; state := state c; tx_w := tx_w c;
     vers := vers c; pns := pns c; idle_alarm := idle_alarm c;
     closing_alarm := closing_alarm c; key_flip_alarm := key_flip_alarm c;
     ack_alarm := ack_alarm c; peer := peer c; migr_peer := migr_peer c;
     cstrms := cstrms c; strms_by_id := strms_by_id c;
     clsd_strms := clsd_strms c; tp_in := tp_in c; tp_out := tp_out c;
     rec := rec c; in_data_str := in_data_str c;
     out_data_str := out_data_str c; path_val_win := path_val_win c;
     in_data := in_data c; out_data := out_data c;
     path_chlg_in := path_chlg_in c; path_resp_out := path_resp_out c;
     path_chlg_out := path_chlg_out c; path_resp_in := path_resp_in c;
     enable_ecn := enable_ecn c; max_cid_seq_out := max_cid_seq_out c;
     txq := txq c; pkts_out_lost := pkts_out_lost c; err_code := err_code c;
     err_frm := err_frm c; err_reason_len := err_reason_len c;
     err_reason := err_reason c; tok_len := tok_len c; tok := tok c;
     tx_limit := tx_limit c |}.

Definition set_tx_path_chlg (v : bool) (c : q_conn) : q_conn :=
  {| is_clnt := is_clnt c; needs_tx := needs_tx c;
     tx_max_data := tx_max_data c; blocked := blocked c;
     try_0rtt := try_0rtt c; did_0rtt := did_0rtt c;
     tx_path_resp := tx_path_resp c; tx_path_chlg := v; tx_rtry := tx_rtry c;
     have_new_data := have_new_data c; spin_enabled := spin_enabled c;
     spin := spin c; no_wnd := no_wnd c; state := state c; tx_w := tx_w c;
     vers := vers c; pns := pns c; idle_alarm := idle_alarm c;
     closing_alarm := closing_alarm c; key_flip_alarm := key_flip_alarm c;
     ack_alarm := ack_alarm c; peer := peer c; migr_peer := migr_peer c;
     cstrms := cstrms c; strms_by_id := strms_by_id c;
     clsd_strms := clsd_strms c; tp_in := tp_in c; tp_out := tp_out c;
     rec := rec c; in_data_str := in_data_str c;
     out_data_str := out_data_str c; path_val_win := path_val_win c;
     in_data := in_data c; out_data := out_data c;
     path_chlg_in := path_chlg_in c; path_resp_out := path_resp_out c;
     path_chlg_out := path_chlg_out c; path_resp_in := path_resp_in c;
     enable_ecn := enable_ecn c; max_cid_seq_out := max_cid_seq_out c;
     txq := txq c; pkts_out_lost := pkts_out_lost c; err_code := err_code c;
     err_frm := err_frm c; err_reason_len := err_reason_len c;
     err_reason := err_reason c; tok_len := tok_len c; tok := tok c;
     tx_limit := tx_limit c |}.

Definition set_tx_rtry (v : bool) (c : q_conn) : q_conn :=
  {| is_clnt := is_clnt c; needs_tx := needs_tx c;
     tx_max_data := tx_max_data c; blocked := blocked c;
     try_0rtt := try_0rtt c; did_0rtt := did_0rtt c;
     tx_path_resp := tx_path_resp c; tx_path_chlg := tx_path_chlg c;
     tx_rtry := v; have_new_data := have_new_data c;
     spin_enabled := spin_enabled c; spin := spin c; no_wnd := no_wnd c;
     state := state c; tx_w := tx_w c; vers := vers c; pns := pns c;
     idle_alarm := idle_alarm c; closing_alarm := closing_alarm c;
     key_flip_alarm := key_flip_alarm c; ack_alarm := ack_alarm c;
     peer := peer c; migr_peer := migr_peer c; cstrms := cstrms c;
     strms_by_id := strms_by_id c; clsd_strms := clsd_strms c;
     tp_in := tp_in c; tp_out := tp_out c; rec := rec c;
     in_data_str := in_data_str c; out_data_str := out_data_str c;
     path_val_win := path_val_win c; in_data := in_data c;
     out_data := out_data c; path_chlg_in := path_chlg_in c;
     path_resp_out := path_resp_out c; path_chlg_out := path_chlg_out c;
     path_resp_in := path_resp_in c; enable_ecn := enable_ecn c;
     max_cid_seq_out := max_cid_seq_out c; txq := txq c;
     pkts_out_lost := pkts_out_lost c; err_code := err_code c;
     err_frm := err_frm c; err_reason_len := err_reason_len c;
     err_reason := err_reason c; tok_len := tok_len c; tok := tok c;
     tx_limit := tx_limit c |}.

Definition set_have_new_data (v : bool) (c : q_conn) : q_conn :=
  {| is_clnt := is_clnt c; needs_tx := needs_tx c;
     tx_max_data := tx_max_data c; blocked := blocked c;
     try_0rtt := try_0rtt c; did_0rtt := did_0rtt c;
     tx_path_resp := tx_path_resp c; tx_path_chlg := tx_path_chlg c;
     tx_rtry := tx_rtry c; have_new_data := v;
     spin_enabled := spin_enabled c; spin := spin c; no_wnd := no_wnd c;
     state := state c; tx_w := tx_w c; vers := vers c; pns := pns c;
     idle_alarm := idle_alarm c; closing_alarm := closing_alarm c;
     key_flip_alarm := key_flip_alarm c; ack_alarm := ack_alarm c;
     peer := peer c; migr_peer := migr_peer c; cstrms := cstrms c;
     strms_by_id := strms_by_id c; clsd_strms := clsd_strms c;
     tp_in := tp_in c; tp_out := tp_out c; rec := rec c;
     in_data_str := in_data_str c; out_data_str := out_data_str c;
     path_val_win := path_val_win c; in_data := in_data c;
     out_data := out_data c; path_chlg_in := path_chlg_in c;
     path_resp_out := path_resp_out c; path_chlg_out := path_chlg_out c;
     path_resp_in := path_resp_in c; enable_ecn := enable_ecn c;
     max_cid_seq_out := max_cid_seq_out c; txq := txq c;
     pkts_out_lost := pkts_out_lost c; err_code := err_code c;
     err_frm := err_frm c; err_reason_len := err_reason_len c;
     err_reason := err_reason c; tok_len := tok_len c; tok := tok c;
     tx_limit := tx_limit c |}.

Definition set_spin_enabled (v : bool) (c : q_conn) : q_conn :=
  {| is_clnt := is_clnt c; needs_tx := needs_tx c;
     tx_max_data := tx_max_data c; blocked := blocked c;
     try_0rtt := try_0rtt c; did_0rtt := did_0rtt c;
     tx_path_resp := tx_path_resp c; tx_path_chlg := tx_path_chlg c;
     tx_rtry := tx_rtry c; have_new_data := have_new_data c;
     spin_enabled := v; spin := spin c; no_wnd := no_wnd c; state := state c;
     tx_w := tx_w c; vers := vers c; pns := pns c;
     idle_alarm := idle_alarm c; closing_alarm := closing_alarm c;
     key_flip_alarm := key_flip_alarm c; ack_alarm := ack_alarm c;
     peer := peer c; migr_peer := migr_peer c; cstrms := cstrms c;
     strms_by_id := strms_by_id c; clsd_strms := clsd_strms c;
     tp_in := tp_in c; tp_out := tp_out c; rec := rec c;
     in_data_str := in_data_str c; out_data_str := out_data_str c;
     path_val_win := path_val_win c; in_data := in_data c;
     out_data := out_data c; path_chlg_in := path_chlg_in c;
     path_resp_out := path_resp_out c; path_chlg_out := path_chlg_out c;
     path_resp_in := path_resp_in c; enable_ecn := enable_ecn c;
     max_cid_seq_out := max_cid_seq_out c; txq := txq c;
     pkts_out_lost := pkts_out_lost c; err_code := err_code c;
     err_frm := err_frm c; err_reason_len := err_reason_len c;
     err_reason := err_reason c; tok_len := tok_len c; tok := tok c;
     tx_limit := tx_limit c |}.

Definition set_spin (v : bool) (c : q_conn) : q_conn :=
  {| is_clnt := is_clnt c; needs_tx := needs_tx c;
     tx_max_data := tx_max_data c; blocked := blocked c;
     try_0rtt := try_0rtt c; did_0rtt := did_0rtt c;
     tx_path_resp := tx_path_resp c; tx_path_chlg := tx_path_chlg c;
     tx_rtry := tx_rtry c; have_new_data := have_new_data c;
     spin_enabled := spin_enabled c; spin := v; no_wnd := no_wnd c;
     state := state c; tx_w := tx_w c; vers := vers c; pns := pns c;
     idle_alarm := idle_alarm c; closing_alarm := closing_alarm c;
     key_flip_alarm := key_flip_alarm c; ack_alarm := ack_alarm c;
     peer := peer c; migr_peer := migr_peer c; cstrms := cstrms c;
     strms_by_id := strms_by_id c; clsd_strms := clsd_strms c;
     tp_in := tp_in c; tp_out := tp_out c; rec := rec c;
     in_data_str := in_data_str c; out_data_str := out_data_str c;
     path_val_win := path_val_win c; in_data := in_data c;
     out_data := out_data c; path_chlg_in := path_chlg_in c;
     path_resp_out := path_resp_out c; path_chlg_out := path_chlg_out c;
     path_resp_in := path_resp_in c; enable_ecn := enable_ecn c;
     max_cid_seq_out := max_cid_seq_out c; txq := txq c;
     pkts_out_lost := pkts_out_lost c; err_code := err_code c;
     err_frm := err_frm c; err_reason_len := err_reason_len c;
     err_reason := err_reason c; tok_len := tok_len c; tok := tok c;
     tx_limit := tx_limit c |}.

Definition set_no_wnd (v : bool) (c : q_conn) : q_conn :=
  {| is_clnt := is_clnt c; needs_tx := needs_tx c;
     tx_max_data := tx_max_data c; blocked := blocked c;
     try_0rtt := try_0rtt c; did_0rtt := did_0rtt c;
     tx_path_resp := tx_path_resp c; tx_path_chlg := tx_path_chlg c;
     tx_rtry := tx_rtry c; have_new_data := have_new_data c;
     spin_enabled := spin_enabled c; spin := spin c; no_wnd := v;
     state := state c; tx_w := tx_w c; vers := vers c; pns := pns c;
     idle_alarm := idle_alarm c; closing_alarm := closing_alarm c;
     key_flip_alarm := key_flip_alarm c; ack_alarm := ack_alarm c;
     peer := peer c; migr_peer := migr_peer c; cstrms := cstrms c;
     strms_by_id := strms_by_id c; clsd_strms := clsd_strms c;
     tp_in := tp_in c; tp_out := tp_out c; rec := rec c;
     in_data_str := in_data_str c; out_data_str := out_data_str c;
     path_val_win := path_val_win c; in_data := in_data c;
     out_data := out_data c; path_chlg_in := path_chlg_in c;
     path_resp_out := path_resp_out c; path_chlg_out := path_chlg_out c;
     path_resp_in := path_resp_in c; enable_ecn := enable_ecn c;
     max_cid_seq_out := max_cid_seq_out c; txq := txq c;
     pkts_out_lost := pkts_out_lost c; err_code := err_code c;
     err_frm := err_frm c; err_reason_len := err_reason_len c;
     err_reason := err_reason c; tok_len := tok_len c; tok := tok c;
     tx_limit := tx_limit c |}.

Definition set_state (v : conn_state_t) (c : q_conn) : q_conn :=
  {| is_clnt := is_clnt c; needs_tx := needs_tx c;
     tx_max_data := tx_max_data c; blocked := blocked c;
     try_0rtt := try_0rtt c; did_0rtt := did_0rtt c;
     tx_path_resp := tx_path_resp c; tx_path_chlg := tx_path_chlg c;
     tx_rtry := tx_rtry c; have_new_data := have_new_data c;
     spin_enabled := spin_enabled c; spin := spin c; no_wnd := no_wnd c;
     state := v; tx_w := tx_w c; vers := vers c; pns := pns c;
     idle_alarm := idle_alarm c; closing_alarm := closing_alarm c;
     key_flip_alarm := key_flip_alarm c; ack_alarm := ack_alarm c;
     peer := peer c; migr_peer := migr_peer c; cstrms := cstrms c;
     strms_by_id := strms_by_id c; clsd_strms := clsd_strms c;
     tp_in := tp_in c; tp_out := tp_out c; rec := rec c;
     in_data_str := in_data_str c; out_data_str := out_data_str c;
     path_val_win := path_val_win c; in_data := in_data c;
     out_data := out_data c; path_chlg_in := path_chlg_in c;
     path_resp_out := path_resp_out c; path_chlg_out := path_chlg_out c;
     path_resp_in := path_resp_in c; enable_ecn := enable_ecn c;
     max_cid_seq_out := max_cid_seq_out c; txq := txq c;
     pkts_out_lost := pkts_out_lost c; err_code := err_code c;
     err_frm := err_frm c; err_reason_len := err_reason_len c;
     err_reason := err_reason c; tok_len := tok_len c; tok := tok c;
     tx_limit := tx_limit c |}.

Definition set_tx_w (v : timeout) (c : q_conn) : q_conn :=
  {| is_clnt := is_clnt c; needs_tx := needs_tx c;
     tx_max_data := tx_max_data c; blocked := blocked c;
     try_0rtt := try_0rtt c; did_0rtt := did_0rtt c;
     tx_path_resp := tx_path_resp c; tx_path_chlg := tx_path_chlg c;
     tx_rtry := tx_rtry c; have_new_data := have_new_data c;
     spin_enabled := spin_enabled c; spin := spin c; no_wnd := no_wnd c;
     state := state c; tx_w := v; vers := vers c; pns := pns c;
     idle_alarm := idle_alarm c; closing_alarm := closing_alarm c;
     key_flip_alarm := key_flip_alarm c; ack_alarm := ack_alarm c;
     peer := peer c; migr_peer := migr_peer c; cstrms := cstrms c;
     strms_by_id := strms_by_id c; clsd_strms := clsd_strms c;
     tp_in := tp_in c; tp_out := tp_out c; rec := rec c;
     in_data_str := in_data_str c; out_data_str := out_data_str c;
     path_val_win := path_val_win c; in_data := in_data c;
     out_data := out_data c; path_chlg_in := path_chlg_in c;
     path_resp_out := path_resp_out c; path_chlg_out := path_chlg_out c;
     path_resp_in := path_resp_in c; enable_ecn := enable_ecn c;
     max_cid_seq_out := max_cid_seq_out c; txq := txq c;
     pkts_out_lost := pkts_out_lost c; err_code := err_code c;
     err_frm := err_frm c; err_reason_len := err_reason_len c;
     err_reason := err_reason c; tok_len := tok_len c; tok := tok c;
     tx_limit := tx_limit c |}.

Definition set_vers (v : Z) (c : q_conn) : q_conn :=
  {| is_clnt := is_clnt c; needs_tx := needs_tx c;
     tx_max_data := tx_max_data c; blocked := blocked c;
     try_0rtt := try_0rtt c; did_0rtt := did_0rtt c;
     tx_path_resp := tx_path_resp c; tx_path_chlg := tx_path_chlg c;
     tx_rtry := tx_rtry c; have_new_data := have_new_data c;
     spin_enabled := spin_enabled c; spin := spin c; no_wnd := no_wnd c;
     state := state c; tx_w := tx_w c; vers := v; pns := pns c;
     idle_alarm := idle_alarm c; closing_alarm := closing_alarm c;
     key_flip_alarm := key_flip_alarm c; ack_alarm := ack_alarm c;
     peer := peer c; migr_peer := migr_peer c; cstrms := cstrms c;
     strms_by_id := strms_by_id c; clsd_strms := clsd_strms c;
     tp_in := tp_in c; tp_out := tp_out c; rec := rec c;
     in_data_str := in_data_str c; out_data_str := out_data_str c;
     path_val_win := path_val_win c; in_data := in_data c;
     out_data := out_data c; path_chlg_in := path_chlg_in c;
     path_resp_out := path_resp_out c; path_chlg_out := path_chlg_out c;
     path_resp_in := path_resp_in c; enable_ecn := enable_ecn c;
     max_cid_seq_out := max_cid_seq_out c; txq := txq c;
     pkts_out_lost := pkts_out_lost c; err_code := err_code c;
     err_frm := err_frm c; err_reason_len := err_reason_len c;
     err_reason := err_reason c; tok_len := tok_len c; tok := tok c;
     tx_limit := tx_limit c |}.

Definition set_pns (v : pn_spaces) (c : q_conn) : q_conn :=
  {| is_clnt := is_clnt c; needs_tx := needs_tx c;
     tx_max_data := tx_max_data c; blocked := blocked c;
     try_0rtt := try_0rtt c; did_0rtt := did_0rtt c;
     tx_path_resp := tx_path_resp c; tx_path_chlg := tx_path_chlg c;
     tx_rtry := tx_rtry c; have_new_data := have_new_data c;
     spin_enabled := spin_enabled c; spin := spin c; no_wnd := no_wnd c;
     state := state c; tx_w := tx_w c; vers := vers c; pns := v;
     idle_alarm := idle_alarm c; closing_alarm := closing_alarm c;
     key_flip_alarm := key_flip_alarm c; ack_alarm := ack_alarm c;
     peer := peer c; migr_peer := migr_peer c; cstrms := cstrms c;
     strms_by_id := strms_by_id c; clsd_strms := clsd_strms c;
     tp_in := tp_in c; tp_out := tp_out c; rec := rec c;
     in_data_str := in_data_str c; out_data_str := out_data_str c;
     path_val_win := path_val_win c; in_data := in_data c;
     out_data := out_data c; path_chlg_in := path_chlg_in c;
     path_resp_out := path_resp_out c; path_chlg_out := path_chlg_out c;
     path_resp_in := path_resp_in c; enable_ecn := enable_ecn c;
     max_cid_seq_out := max_cid_seq_out c; txq := txq c;
     pkts_out_lost := pkts_out_lost c; err_code := err_code c;
     err_frm := err_frm c; err_reason_len := err_reason_len c;
     err_reason := err_reason c; tok_len := tok_len c; tok := tok c;
     tx_limit := tx_limit c |}.

Definition set_idle_alarm (v : timeout) (c : q_conn) : q_conn :=
  {| is_clnt := is_clnt c; needs_tx := needs_tx c;
     tx_max_data := tx_max_data c; blocked := blocked c;
     try_0rtt := try_0rtt c; did_0rtt := did_0rtt c;
     tx_path_resp := tx_path_resp c; tx_path_chlg := tx_path_chlg c;
     tx_rtry := tx_rtry c; have_new_data := have_new_data c;
     spin_enabled := spin_enabled c; spin := spin c; no_wnd := no_wnd c;
     state := state c; tx_w := tx_w c; vers := vers c; pns := pns c;
     idle_alarm := v; closing_alarm := closing_alarm c;
     key_flip_alarm := key_flip_alarm c; ack_alarm := ack_alarm c;
     peer := peer c; migr_peer := migr_peer c; cstrms := cstrms c;
     strms_by_id := strms_by_id c; clsd_strms := clsd_strms c;
     tp_in := tp_in c; tp_out := tp_out c; rec := rec c;
     in_data_str := in_data_str c; out_data_str := out_data_str c;
     path_val_win := path_val_win c; in_data := in_data c;
     out_data := out_data c; path_chlg_in := path_chlg_in c;
     path_resp_out := path_resp_out c; path_chlg_out := path_chlg_out c;
     path_resp_in := path_resp_in c; enable_ecn := enable_ecn c;
     max_cid_seq_out := max_cid_seq_out c; txq := txq c;
     pkts_out_lost := pkts_out_lost c; err_code := err_code c;
     err_frm := err_frm c; err_reason_len := err_reason_len c;
     err_reason := err_reason c; tok_len := tok_len c; tok := tok c;
     tx_limit := tx_limit c |}.

Definition set_closing_alarm (v : timeout) (c : q_conn) : q_conn :=
  {| is_clnt := is_clnt c; needs_tx := needs_tx c;
     tx_max_data := tx_max_data c; blocked := blocked c;
     try_0rtt := try_0rtt c; did_0rtt := did_0rtt c;
     tx_path_resp := tx_path_resp c; tx_path_chlg := tx_path_chlg c;
     tx_rtry := tx_rtry c; have_new_data := have_new_data c;
     spin_enabled := spin_enabled c; spin := spin c; no_wnd := no_wnd c;
     state := state c; tx_w := tx_w c; vers := vers c; pns := pns c;
     idle_alarm := idle_alarm c; closing_alarm := v;
     key_flip_alarm := key_flip_alarm c; ack_alarm := ack_alarm c;
     peer := peer c; migr_peer := migr_peer c; cstrms := cstrms c;
     strms_by_id := strms_by_id c; clsd_strms := clsd_strms c;
     tp_in := tp_in c; tp_out := tp_out c; rec := rec c;
     in_data_str := in_data_str c; out_data_str := out_data_str c;
     path_val_win := path_val_win c; in_data := in_data c;
     out_data := out_data c; path_chlg_in := path_chlg_in c;
     path_resp_out := path_resp_out c; path_chlg_out := path_chlg_out c;
     path_resp_in := path_resp_in c; enable_ecn := enable_ecn c;
     max_cid_seq_out := max_cid_seq_out c; txq := txq c;
     pkts_out_lost := pkts_out_lost c; err_code := err_code c;
     err_frm := err_frm c; err_reason_len := err_reason_len c;
     err_reason := err_reason c; tok_len := tok_len c; tok := tok c;
     tx_limit := tx_limit c |}.

Definition set_key_flip_alarm (v : timeout) (c : q_conn) : q_conn :=
  {| is_clnt := is_clnt c; needs_tx := needs_tx c;
     tx_max_data := tx_max_data c; blocked := blocked c;
     try_0rtt := try_0rtt c; did_0rtt := did_0rtt c;
     tx_path_resp := tx_path_resp c; tx_path_chlg := tx_path_chlg c;
     tx_rtry := tx_rtry c; have_new_data := have_new_data c;
     spin_enabled := spin_enabled c; spin := spin c; no_wnd := no_wnd c;
     state := state c; tx_w := tx_w c; vers := vers c; pns := pns c;
     idle_alarm := idle_alarm c; closing_alarm := closing_alarm c;
     key_flip_alarm := v; ack_alarm := ack_alarm c; peer := peer c;
     migr_peer := migr_peer c; cstrms := cstrms c;
     strms_by_id := strms_by_id c; clsd_strms := clsd_strms c;
     tp_in := tp_in c; tp_out := tp_out c; rec := rec c;
     in_data_str := in_data_str c; out_data_str := out_data_str c;
     path_val_win := path_val_win c; in_data := in_data c;
     out_data := out_data c; path_chlg_in := path_chlg_in c;
     path_resp_out := path_resp_out c; path_chlg_out := path_chlg_out c;
     path_resp_in := path_resp_in c; enable_ecn := enable_ecn c;
     max_cid_seq_out := max_cid_seq_out c; txq := txq c;
     pkts_out_lost := pkts_out_lost c; err_code := err_code c;
     err_frm := err_frm c; err_reason_len := err_reason_len c;
     err_reason := err_reason c; tok_len := tok_len c; tok := tok c;
     tx_limit := tx_limit c |}.

Definition set_ack_alarm (v : timeout) (c : q_conn) : q_conn :=
  {| is_clnt := is_clnt c; needs_tx := needs_tx c;
     tx_max_data := tx_max_data c; blocked := blocked c;
     try_0rtt := try_0rtt c; did_0rtt := did_0rtt c;
     tx_path_resp := tx_path_resp c; tx_path_chlg := tx_path_chlg c;
     tx_rtry := tx_rtry c; have_new_data := have_new_data c;
     spin_enabled := spin_enabled c; spin := spin c; no_wnd := no_wnd c;
     state := state c; tx_w := tx_w c; vers := vers c; pns := pns c;
     idle_alarm := idle_alarm c; closing_alarm := closing_alarm c;
     key_flip_alarm := key_flip_alarm c; ack_alarm := v; peer := peer c;
     migr_peer := migr_peer c; cstrms := cstrms c;
     strms_by_id := strms_by_id c; clsd_strms := clsd_strms c;
     tp_in := tp_in c; tp_out := tp_out c; rec := rec c;
     in_data_str := in_data_str c; out_data_str := out_data_str c;
     path_val_win := path_val_win c; in_data := in_data c;
     out_data := out_data c; path_chlg_in := path_chlg_in c;
     path_resp_out := path_resp_out c; path_chlg_out := path_chlg_out c;
     path_resp_in := path_resp_in c; enable_ecn := enable_ecn c;
     max_cid_seq_out := max_cid_seq_out c; txq := txq c;
     pkts_out_lost := pkts_out_lost c; err_code := err_code c;
     err_frm := err_frm c; err_reason_len := err_reason_len c;
     err_reason := err_reason c; tok_len := tok_len c; tok := tok c;
     tx_limit := tx_limit c |}.

Definition set_peer (v : sockaddr) (c : q_conn) : q_conn :=
  {| is_clnt := is_clnt c; needs_tx := needs_tx c;
     tx_max_data := tx_max_data c; blocked := blocked c;
     try_0rtt := try_0rtt c; did_0rtt := did_0rtt c;
     tx_path_resp := tx_path_resp c; tx_path_chlg := tx_path_chlg c;
     tx_rtry := tx_rtry c; have_new_data := have_new_data c;
     spin_enabled := spin_enabled c; spin := spin c; no_wnd := no_wnd c;
     state := state c; tx_w := tx_w c; vers := vers c; pns := pns c;
     idle_alarm := idle_alarm c; closing_alarm := closing_alarm c;
     key_flip_alarm := key_flip_alarm c; ack_alarm := ack_alarm c; peer := v;
     migr_peer := migr_peer c; cstrms := cstrms c;
     strms_by_id := strms_by_id c; clsd_strms := clsd_strms c;
     tp_in := tp_in c; tp_out := tp_out c; rec := rec c;
     in_data_str := in_data_str c; out_data_str := out_data_str c;
     path_val_win := path_val_win c; in_data := in_data c;
     out_data := out_data c; path_chlg_in := path_chlg_in c;
     path_resp_out := path_resp_out c; path_chlg_out := path_chlg_out c;
     path_resp_in := path_resp_in c; enable_ecn := enable_ecn c;
     max_cid_seq_out := max_cid_seq_out c; txq := txq c;
     pkts_out_lost := pkts_out_lost c; err_code := err_code c;
     err_frm := err_frm c; err_reason_len := err_reason_len c;
     err_reason := err_reason c; tok_len := tok_len c; tok := tok c;
     tx_limit := tx_limit c |}.

Definition set_migr_peer (v : sockaddr) (c : q_conn) : q_conn :=
  {| is_clnt := is_clnt c; needs_tx := needs_tx c;
     tx_max_data := tx_max_data c; blocked := blocked c;
     try_0rtt := try_0rtt c; did_0rtt := did_0rtt c;
     tx_path_resp := tx_path_resp c; tx_path_chlg := tx_path_chlg c;
     tx_rtry := tx_rtry c; have_new_data := have_new_data c;
     spin_enabled := spin_enabled c; spin := spin c; no_wnd := no_wnd c;
     state := state c; tx_w := tx_w c; vers := vers c; pns := pns c;
     idle_alarm := idle_alarm c; closing_alarm := closing_alarm c;
     key_flip_alarm := key_flip_alarm c; ack_alarm := ack_alarm c;
     peer := peer c; migr_peer := v; cstrms := cstrms c;
     strms_by_id := strms_by_id c; clsd_strms := clsd_strms c;
     tp_in := tp_in c; tp_out := tp_out c; rec := rec c;
     in_data_str := in_data_str c; out_data_str := out_data_str c;
     path_val_win := path_val_win c; in_data := in_data c;
     out_data := out_data c; path_chlg_in := path_chlg_in c;
     path_resp_out := path_resp_out c; path_chlg_out := path_chlg_out c;
     path_resp_in := path_resp_in c; enable_ecn := enable_ecn c;
     max_cid_seq_out := max_cid_seq_out c; txq := txq c;
     pkts_out_lost := pkts_out_lost c; err_code := err_code c;
     err_frm := err_frm c; err_reason_len := err_reason_len c;
     err_reason := err_reason c; tok_len := tok_len c; tok := tok c;
     tx_limit := tx_limit c |}.

Definition set_cstrms (v : epoch_t -> option q_stream) (c : q_conn) : q_conn :=
  {| is_clnt := is_clnt c; needs_tx := needs_tx c;
     tx_max_data := tx_max_data c; blocked := blocked c;
     try_0rtt := try_0rtt c; did_0rtt := did_0rtt c;
     tx_path_resp := tx_path_resp c; tx_path_chlg := tx_path_chlg c;
     tx_rtry := tx_rtry c; have_new_data := have_new_data c;
     spin_enabled := spin_enabled c; spin := spin c; no_wnd := no_wnd c;
     state := state c; tx_w := tx_w c; vers := vers c; pns := pns c;
     idle_alarm := idle_alarm c; closing_alarm := closing_alarm c;
     key_flip_alarm := key_flip_alarm c; ack_alarm := ack_alarm c;
     peer := peer c; migr_peer := migr_peer c; cstrms := v;
     strms_by_id := strms_by_id c; clsd_strms := clsd_strms c;
     tp_in := tp_in c; tp_out := tp_out c; rec := rec c;
     in_data_str := in_data_str c; out_data_str := out_data_str c;
     path_val_win := path_val_win c; in_data := in_data c;
     out_data := out_data c; path_chlg_in := path_chlg_in c;
     path_resp_out := path_resp_out c; path_chlg_out := path_chlg_out c;
     path_resp_in := path_resp_in c; enable_ecn := enable_ecn c;
     max_cid_seq_out := max_cid_seq_out c; txq := txq c;
     pkts_out_lost := pkts_out_lost c; err_code := err_code c;
     err_frm := err_frm c; err_reason_len := err_reason_len c;
     err_reason := err_reason c; tok_len := tok_len c; tok := tok c;
     tx_limit := tx_limit c |}.

Definition set_strms_by_id (v : gmap Z q_stream) (c : q_conn) : q_conn :=
  {| is_clnt := is_clnt c; needs_tx := needs_tx c;
     tx_max_data := tx_max_data c; blocked := blocked c;
     try_0rtt := try_0rtt c; did_0rtt := did_0rtt c;
     tx_path_resp := tx_path_resp c; tx_path_chlg := tx_path_chlg c;
     tx_rtry := tx_rtry c; have_new_data := have_new_data c;
     spin_enabled := spin_enabled c; spin := spin c; no_wnd := no_wnd c;
     state := state c; tx_w := tx_w c; vers := vers c; pns := pns c;
     idle_alarm := idle_alarm c; closing_alarm := closing_alarm c;
     key_flip_alarm := key_flip_alarm c; ack_alarm := ack_alarm c;
     peer := peer c; migr_peer := migr_peer c; cstrms := cstrms c;
     strms_by_id := v; clsd_strms := clsd_strms c; tp_in := tp_in c;
     tp_out := tp_out c; rec := rec c; in_data_str := in_data_str c;
     out_data_str := out_data_str c; path_val_win := path_val_win c;
     in_data := in_data c; out_data := out_data c;
     path_chlg_in := path_chlg_in c; path_resp_out := path_resp_out c;
     path_chlg_out := path_chlg_out c; path_resp_in := path_resp_in c;
     enable_ecn := enable_ecn c; max_cid_seq_out := max_cid_seq_out c;
     txq := txq c; pkts_out_lost := pkts_out_lost c; err_code := err_code c;
     err_frm := err_frm c; err_reason_len := err_reason_len c;
     err_reason := err_reason c; tok_len := tok_len c; tok := tok c;
     tx_limit := tx_limit c |}.

Definition set_clsd_strms (v : diet) (c : q_conn) : q_conn :=
  {| is_clnt := is_clnt c; needs_tx := needs_tx c;
     tx_max_data := tx_max_data c; blocked := blocked c;
     try_0rtt := try_0rtt c; did_0rtt := did_0rtt c;
     tx_path_resp := tx_path_resp c; tx_path_chlg := tx_path_chlg c;
     tx_rtry := tx_rtry c; have_new_data := have_new_data c;
     spin_enabled := spin_enabled c; spin := spin c; no_wnd := no_wnd c;
     state := state c; tx_w := tx_w c; vers := vers c; pns := pns c;
     idle_alarm := idle_alarm c; closing_alarm := closing_alarm c;
     key_flip_alarm := key_flip_alarm c; ack_alarm := ack_alarm c;
     peer := peer c; migr_peer := migr_peer c; cstrms := cstrms c;
     strms_by_id := strms_by_id c; clsd_strms := v; tp_in := tp_in c;
     tp_out := tp_out c; rec := rec c; in_data_str := in_data_str c;
     out_data_str := out_data_str c; path_val_win := path_val_win c;
     in_data := in_data c; out_data := out_data c;
     path_chlg_in := path_chlg_in c; path_resp_out := path_resp_out c;
     path_chlg_out := path_chlg_out c; path_resp_in := path_resp_in c;
     enable_ecn := enable_ecn c; max_cid_seq_out := max_cid_seq_out c;
     txq := txq c; pkts_out_lost := pkts_out_lost c; err_code := err_code c;
     err_frm := err_frm c; err_reason_len := err_reason_len c;
     err_reason := err_reason c; tok_len := tok_len c; tok := tok c;
     tx_limit := tx_limit c |}.

Definition set_tp_in (v : transport_params) (c : q_conn) : q_conn :=
  {| is_clnt := is_clnt c; needs_tx := needs_tx c;
     tx_max_data := tx_max_data c; blocked := blocked c;
     try_0rtt := try_0rtt c; did_0rtt := did_0rtt c;
     tx_path_resp := tx_path_resp c; tx_path_chlg := tx_path_chlg c;
     tx_rtry := tx_rtry c; have_new_data := have_new_data c;
     spin_enabled := spin_enabled c; spin := spin c; no_wnd := no_wnd c;
     state := state c; tx_w := tx_w c; vers := vers c; pns := pns c;
     idle_alarm := idle_alarm c; closing_alarm := closing_alarm c;
     key_flip_alarm := key_flip_alarm c; ack_alarm := ack_alarm c;
     peer := peer c; migr_peer := migr_peer c; cstrms := cstrms c;
     strms_by_id := strms_by_id c; clsd_strms := clsd_strms c; tp_in := v;
     tp_out := tp_out c; rec := rec c; in_data_str := in_data_str c;
     out_data_str := out_data_str c; path_val_win := path_val_win c;
     in_data := in_data c; out_data := out_data c;
     path_chlg_in := path_chlg_in c; path_resp_out := path_resp_out c;
     path_chlg_out := path_chlg_out c; path_resp_in := path_resp_in c;
     enable_ecn := enable_ecn c; max_cid_seq_out := max_cid_seq_out c;
     txq := txq c; pkts_out_lost := pkts_out_lost c; err_code := err_code c;
     err_frm := err_frm c; err_reason_len := err_reason_len c;
     err_reason := err_reason c; tok_len := tok_len c; tok := tok c;
     tx_limit := tx_limit c |}.

Definition set_tp_out (v : transport_params) (c : q_conn) : q_conn :=
  {| is_clnt := is_clnt c; needs_tx := needs_tx c;
     tx_max_data := tx_max_data c; blocked := blocked c;
     try_0rtt := try_0rtt c; did_0rtt := did_0rtt c;
     tx_path_resp := tx_path_resp c; tx_path_chlg := tx_path_chlg c;
     tx_rtry := tx_rtry c; have_new_data := have_new_data c;
     spin_enabled := spin_enabled c; spin := spin c; no_wnd := no_wnd c;
     state := state c; tx_w := tx_w c; vers := vers c; pns := pns c;
     idle_alarm := idle_alarm c; closing_alarm := closing_alarm c;
     key_flip_alarm := key_flip_alarm c; ack_alarm := ack_alarm c;
     peer := peer c; migr_peer := migr_peer c; cstrms := cstrms c;
     strms_by_id := strms_by_id c; clsd_strms := clsd_strms c;
     tp_in := tp_in c; tp_out := v; rec := rec c;
     in_data_str := in_data_str c; out_data_str := out_data_str c;
     path_val_win := path_val_win c; in_data := in_data c;
     out_data := out_data c; path_chlg_in := path_chlg_in c;
     path_resp_out := path_resp_out c; path_chlg_out := path_chlg_out c;
     path_resp_in := path_resp_in c; enable_ecn := enable_ecn c;
     max_cid_seq_out := max_cid_seq_out c; txq := txq c;
     pkts_out_lost := pkts_out_lost c; err_code := err_code c;
     err_frm := err_frm c; err_reason_len := err_reason_len c;
     err_reason := err_reason c; tok_len := tok_len c; tok := tok c;
     tx_limit := tx_limit c |}.

Definition set_rec (v : recovery) (c : q_conn) : q_conn :=
  {| is_clnt := is_clnt c; needs_tx := needs_tx c;
     tx_max_data := tx_max_data c; blocked := blocked c;
     try_0rtt := try_0rtt c; did_0rtt := did_0rtt c;
     tx_path_resp := tx_path_resp c; tx_path_chlg := tx_path_chlg c;
     tx_rtry := tx_rtry c; have_new_data := have_new_data c;
     spin_enabled := spin_enabled c; spin := spin c; no_wnd := no_wnd c;
     state := state c; tx_w := tx_w c; vers := vers c; pns := pns c;
     idle_alarm := idle_alarm c; closing_alarm := closing_alarm c;
     key_flip_alarm := key_flip_alarm c; ack_alarm := ack_alarm c;
     peer := peer c; migr_peer := migr_peer c; cstrms := cstrms c;
     strms_by_id := strms_by_id c; clsd_strms := clsd_strms c;
     tp_in := tp_in c; tp_out := tp_out c; rec := v;
     in_data_str := in_data_str c; out_data_str := out_data_str c;
     path_val_win := path_val_win c; in_data := in_data c;
     out_data := out_data c; path_chlg_in := path_chlg_in c;
     path_resp_out := path_resp_out c; path_chlg_out := path_chlg_out c;
     path_resp_in := path_resp_in c; enable_ecn := enable_ecn c;
     max_cid_seq_out := max_cid_seq_out c; txq := txq c;
     pkts_out_lost := pkts_out_lost c; err_code := err_code c;
     err_frm := err_frm c; err_reason_len := err_reason_len c;
     err_reason := err_reason c; tok_len := tok_len c; tok := tok c;
     tx_limit := tx_limit c |}.

Definition set_in_data_str (v : Z) (c : q_conn) : q_conn :=
  {| is_clnt := is_clnt c; needs_tx := needs_tx c;
     tx_max_data := tx_max_data c; blocked := blocked c;
     try_0rtt := try_0rtt c; did_0rtt := did_0rtt c;
     tx_path_resp := tx_path_resp c; tx_path_chlg := tx_path_chlg c;
     tx_rtry := tx_rtry c; have_new_data := have_new_data c;
     spin_enabled := spin_enabled c; spin := spin c; no_wnd := no_wnd c;
     state := state c; tx_w := tx_w c; vers := vers c; pns := pns c;
     idle_alarm := idle_alarm c; closing_alarm := closing_alarm c;
     key_flip_alarm := key_flip_alarm c; ack_alarm := ack_alarm c;
     peer := peer c; migr_peer := migr_peer c; cstrms := cstrms c;
     strms_by_id := strms_by_id c; clsd_strms := clsd_strms c;
     tp_in := tp_in c; tp_out := tp_out c; rec := rec c; in_data_str := v;
     out_data_str := out_data_str c; path_val_win := path_val_win c;
     in_data := in_data c; out_data := out_data c;
     path_chlg_in := path_chlg_in c; path_resp_out := path_resp_out c;
     path_chlg_out := path_chlg_out c; path_resp_in := path_resp_in c;
     enable_ecn := enable_ecn c; max_cid_seq_out := max_cid_seq_out c;
     txq := txq c; pkts_out_lost := pkts_out_lost c; err_code := err_code c;
     err_frm := err_frm c; err_reason_len := err_reason_len c;
     err_reason := err_reason c; tok_len := tok_len c; tok := tok c;
     tx_limit := tx_limit c |}.

Definition set_out_data_str (v : Z) (c : q_conn) : q_conn :=
  {| is_clnt := is_clnt c; needs_tx := needs_tx c;
     tx_max_data := tx_max_data c; blocked := blocked c;
     try_0rtt := try_0rtt c; did_0rtt := did_0rtt c;
     tx_path_resp := tx_path_resp c; tx_path_chlg := tx_path_chlg c;
     tx_rtry := tx_rtry c; have_new_data := have_new_data c;
     spin_enabled := spin_enabled c; spin := spin c; no_wnd := no_wnd c;
     state := state c; tx_w := tx_w c; vers := vers c; pns := pns c;
     idle_alarm := idle_alarm c; closing_alarm := closing_alarm c;
     key_flip_alarm := key_flip_alarm c; ack_alarm := ack_alarm c;
     peer := peer c; migr_peer := migr_peer c; cstrms := cstrms c;
     strms_by_id := strms_by_id c; clsd_strms := clsd_strms c;
     tp_in := tp_in c; tp_out := tp_out c; rec := rec c;
     in_data_str := in_data_str c; out_data_str := v;
     path_val_win := path_val_win c; in_data := in_data c;
     out_data := out_data c; path_chlg_in := path_chlg_in c;
     path_resp_out := path_resp_out c; path_chlg_out := path_chlg_out c;
     path_resp_in := path_resp_in c; enable_ecn := enable_ecn c;
     max_cid_seq_out := max_cid_seq_out c; txq := txq c;
     pkts_out_lost := pkts_out_lost c; err_code := err_code c;
     err_frm := err_frm c; err_reason_len := err_reason_len c;
     err_reason := err_reason c; tok_len := tok_len c; tok := tok c;
     tx_limit := tx_limit c |}.

Definition set_path_val_win (v : Z) (c : q_conn) : q_conn :=
  {| is_clnt := is_clnt c; needs_tx := needs_tx c;
     tx_max_data := tx_max_data c; blocked := blocked c;
     try_0rtt := try_0rtt c; did_0rtt := did_0rtt c;
     tx_path_resp := tx_path_resp c; tx_path_chlg := tx_path_chlg c;
     tx_rtry := tx_rtry c; have_new_data := have_new_data c;
     spin_enabled := spin_enabled c; spin := spin c; no_wnd := no_wnd c;
     state := state c; tx_w := tx_w c; vers := vers c; pns := pns c;
     idle_alarm := idle_alarm c; closing_alarm := closing_alarm c;
     key_flip_alarm := key_flip_alarm c; ack_alarm := ack_alarm c;
     peer := peer c; migr_peer := migr_peer c; cstrms := cstrms c;
     strms_by_id := strms_by_id c; clsd_strms := clsd_strms c;
     tp_in := tp_in c; tp_out := tp_out c; rec := rec c;
     in_data_str := in_data_str c; out_data_str := out_data_str c;
     path_val_win := v; in_data := in_data c; out_data := out_data c;
     path_chlg_in := path_chlg_in c; path_resp_out := path_resp_out c;
     path_chlg_out := path_chlg_out c; path_resp_in := path_resp_in c;
     enable_ecn := enable_ecn c; max_cid_seq_out := max_cid_seq_out c;
     txq := txq c; pkts_out_lost := pkts_out_lost c; err_code := err_code c;
     err_frm := err_frm c; err_reason_len := err_reason_len c;
     err_reason := err_reason c; tok_len := tok_len c; tok := tok c;
     tx_limit := tx_limit c |}.

Definition set_in_data (v : Z) (c : q_conn) : q_conn :=
  {| is_clnt := is_clnt c; needs_tx := needs_tx c;
     tx_max_data := tx_max_data c; blocked := blocked c;
     try_0rtt := try_0rtt c; did_0rtt := did_0rtt c;
     tx_path_resp := tx_path_resp c; tx_path_chlg := tx_path_chlg c;
     tx_rtry := tx_rtry c; have_new_data := have_new_data c;
     spin_enabled := spin_enabled c; spin := spin c; no_wnd := no_wnd c;
     state := state c; tx_w := tx_w c; vers := vers c; pns := pns c;
     idle_alarm := idle_alarm c; closing_alarm := closing_alarm c;
     key_flip_alarm := key_flip_alarm c; ack_alarm := ack_alarm c;
     peer := peer c; migr_peer := migr_peer c; cstrms := cstrms c;
     strms_by_id := strms_by_id c; clsd_strms := clsd_strms c;
     tp_in := tp_in c; tp_out := tp_out c; rec := rec c;
     in_data_str := in_data_str c; out_data_str := out_data_str c;
     path_val_win := path_val_win c; in_data := v; out_data := out_data c;
     path_chlg_in := path_chlg_in c; path_resp_out := path_resp_out c;
     path_chlg_out := path_chlg_out c; path_resp_in := path_resp_in c;
     enable_ecn := enable_ecn c; max_cid_seq_out := max_cid_seq_out c;
     txq := txq c; pkts_out_lost := pkts_out_lost c; err_code := err_code c;
     err_frm := err_frm c; err_reason_len := err_reason_len c;
     err_reason := err_reason c; tok_len := tok_len c; tok := tok c;
     tx_limit := tx_limit c |}.

Definition set_out_data (v : Z) (c : q_conn) : q_conn :=
  {| is_clnt := is_clnt c; needs_tx := needs_tx c;
     tx_max_data := tx_max_data c; blocked := blocked c;
     try_0rtt := try_0rtt c; did_0rtt := did_0rtt c;
     tx_path_resp := tx_path_resp c; tx_path_chlg := tx_path_chlg c;
     tx_rtry := tx_rtry c; have_new_data := have_new_data c;
     spin_enabled := spin_enabled c; spin := spin c; no_wnd := no_wnd c;
     state := state c; tx_w := tx_w c; vers := vers c; pns := pns c;
     idle_alarm := idle_alarm c; closing_alarm := closing_alarm c;
     key_flip_alarm := key_flip_alarm c; ack_alarm := ack_alarm c;
     peer := peer c; migr_peer := migr_peer c; cstrms := cstrms c;
     strms_by_id := strms_by_id c; clsd_strms := clsd_strms c;
     tp_in := tp_in c; tp_out := tp_out c; rec := rec c;
     in_data_str := in_data_str c; out_data_str := out_data_str c;
     path_val_win := path_val_win c; in_data := in_data c; out_data := v;
     path_chlg_in := path_chlg_in c; path_resp_out := path_resp_out c;
     path_chlg_out := path_chlg_out c; path_resp_in := path_resp_in c;
     enable_ecn := enable_ecn c; max_cid_seq_out := max_cid_seq_out c;
     txq := txq c; pkts_out_lost := pkts_out_lost c; err_code := err_code c;
     err_frm := err_frm c; err_reason_len := err_reason_len c;
     err_reason := err_reason c; tok_len := tok_len c; tok := tok c;
     tx_limit := tx_limit c |}.

Definition set_path_chlg_in (v : list Z) (c : q_conn) : q_conn :=
  {| is_clnt := is_clnt c; needs_tx := needs_tx c;
     tx_max_data := tx_max_data c; blocked := blocked c;
     try_0rtt := try_0rtt c; did_0rtt := did_0rtt c;
     tx_path_resp := tx_path_resp c; tx_path_chlg := tx_path_chlg c;
     tx_rtry := tx_rtry c; have_new_data := have_new_data c;
     spin_enabled := spin_enabled c; spin := spin c; no_wnd := no_wnd c;
     state := state c; tx_w := tx_w c; vers := vers c; pns := pns c;
     idle_alarm := idle_alarm c; closing_alarm := closing_alarm c;
     key_flip_alarm := key_flip_alarm c; ack_alarm := ack_alarm c;
     peer := peer c; migr_peer := migr_peer c; cstrms := cstrms c;
     strms_by_id := strms_by_id c; clsd_strms := clsd_strms c;
     tp_in := tp_in c; tp_out := tp_out c; rec := rec c;
     in_data_str := in_data_str c; out_data_str := out_data_str c;
     path_val_win := path_val_win c; in_data := in_data c;
     out_data := out_data c; path_chlg_in := v;
     path_resp_out := path_resp_out c; path_chlg_out := path_chlg_out c;
     path_resp_in := path_resp_in c; enable_ecn := enable_ecn c;
     max_cid_seq_out := max_cid_seq_out c; txq := txq c;
     pkts_out_lost := pkts_out_lost c; err_code := err_code c;
     err_frm := err_frm c; err_reason_len := err_reason_len c;
     err_reason := err_reason c; tok_len := tok_len c; tok := tok c;
     tx_limit := tx_limit c |}.

Definition set_path_resp_out (v : list Z) (c : q_conn) : q_conn :=
  {| is_clnt := is_clnt c; needs_tx := needs_tx c;
     tx_max_data := tx_max_data c; blocked := blocked c;
     try_0rtt := try_0rtt c; did_0rtt := did_0rtt c;
     tx_path_resp := tx_path_resp c; tx_path_chlg := tx_path_chlg c;
     tx_rtry := tx_rtry c; have_new_data := have_new_data c;
     spin_enabled := spin_enabled c; spin := spin c; no_wnd := no_wnd c;
     state := state c; tx_w := tx_w c; vers := vers c; pns := pns c;
     idle_alarm := idle_alarm c; closing_alarm := closing_alarm c;
     key_flip_alarm := key_flip_alarm c; ack_alarm := ack_alarm c;
     peer := peer c; migr_peer := migr_peer c; cstrms := cstrms c;
     strms_by_id := strms_by_id c; clsd_strms := clsd_strms c;
     tp_in := tp_in c; tp_out := tp_out c; rec := rec c;
     in_data_str := in_data_str c; out_data_str := out_data_str c;
     path_val_win := path_val_win c; in_data := in_data c;
     out_data := out_data c; path_chlg_in := path_chlg_in c;
     path_resp_out := v; path_chlg_out := path_chlg_out c;
     path_resp_in := path_resp_in c; enable_ecn := enable_ecn c;
     max_cid_seq_out := max_cid_seq_out c; txq := txq c;
     pkts_out_lost := pkts_out_lost c; err_code := err_code c;
     err_frm := err_frm c; err_reason_len := err_reason_len c;
     err_reason := err_reason c; tok_len := tok_len c; tok := tok c;
     tx_limit := tx_limit c |}.

Definition set_path_chlg_out (v : list Z) (c : q_conn) : q_conn :=
  {| is_clnt := is_clnt c; needs_tx := needs_tx c;
     tx_max_data := tx_max_data c; blocked := blocked c;
     try_0rtt := try_0rtt c; did_0rtt := did_0rtt c;
     tx_path_resp := tx_path_resp c; tx_path_chlg := tx_path_chlg c;
     tx_rtry := tx_rtry c; have_new_data := have_new_data c;
     spin_enabled := spin_enabled c; spin := spin c; no_wnd := no_wnd c;
     state := state c; tx_w := tx_w c; vers := vers c; pns := pns c;
     idle_alarm := idle_alarm c; closing_alarm := closing_alarm c;
     key_flip_alarm := key_flip_alarm c; ack_alarm := ack_alarm c;
     peer := peer c; migr_peer := migr_peer c; cstrms := cstrms c;
     strms_by_id := strms_by_id c; clsd_strms := clsd_strms c;
     tp_in := tp_in c; tp_out := tp_out c; rec := rec c;
     in_data_str := in_data_str c; out_data_str := out_data_str c;
     path_val_win := path_val_win c; in_data := in_data c;
     out_data := out_data c; path_chlg_in := path_chlg_in c;
     path_resp_out := path_resp_out c; path_chlg_out := v;
     path_resp_in := path_resp_in c; enable_ecn := enable_ecn c;
     max_cid_seq_out := max_cid_seq_out c; txq := txq c;
     pkts_out_lost := pkts_out_lost c; err_code := err_code c;
     err_frm := err_frm c; err_reason_len := err_reason_len c;
     err_reason := err_reason c; tok_len := tok_len c; tok := tok c;
     tx_limit := tx_limit c |}.

Definition set_path_resp_in (v : list Z) (c : q_conn) : q_conn :=
  {| is_clnt := is_clnt c; needs_tx := needs_tx c;
     tx_max_data := tx_max_data c; blocked := blocked c;
     try_0rtt := try_0rtt c; did_0rtt := did_0rtt c;
     tx_path_resp := tx_path_resp c; tx_path_chlg := tx_path_chlg c;
     tx_rtry := tx_rtry c; have_new_data := have_new_data c;
     spin_enabled := spin_enabled c; spin := spin c; no_wnd := no_wnd c;
     state := state c; tx_w := tx_w c; vers := vers c; pns := pns c;
     idle_alarm := idle_alarm c; closing_alarm := closing_alarm c;
     key_flip_alarm := key_flip_alarm c; ack_alarm := ack_alarm c;
     peer := peer c; migr_peer := migr_peer c; cstrms := cstrms c;
     strms_by_id := strms_by_id c; clsd_strms := clsd_strms c;
     tp_in := tp_in c; tp_out := tp_out c; rec := rec c;
     in_data_str := in_data_str c; out_data_str := out_data_str c;
     path_val_win := path_val_win c; in_data := in_data c;
     out_data := out_data c; path_chlg_in := path_chlg_in c;
     path_resp_out := path_resp_out c; path_chlg_out := path_chlg_out c;
     path_resp_in := v; enable_ecn := enable_ecn c;
     max_cid_seq_out := max_cid_seq_out c; txq := txq c;
     pkts_out_lost := pkts_out_lost c; err_code := err_code c;
     err_frm := err_frm c; err_reason_len := err_reason_len c;
     err_reason := err_reason c; tok_len := tok_len c; tok := tok c;
     tx_limit := tx_limit c |}.

Definition set_enable_ecn (v : bool) (c : q_conn) : q_conn :=
  {| is_clnt := is_clnt c; needs_tx := needs_tx c;
     tx_max_data := tx_max_data c; blocked := blocked c;
     try_0rtt := try_0rtt c; did_0rtt := did_0rtt c;
     tx_path_resp := tx_path_resp c; tx_path_chlg := tx_path_chlg c;
     tx_rtry := tx_rtry c; have_new_data := have_new_data c;
     spin_enabled := spin_enabled c; spin := spin c; no_wnd := no_wnd c;
     state := state c; tx_w := tx_w c; vers := vers c; pns := pns c;
     idle_alarm := idle_alarm c; closing_alarm := closing_alarm c;
     key_flip_alarm := key_flip_alarm c; ack_alarm := ack_alarm c;
     peer := peer c; migr_peer := migr_peer c; cstrms := cstrms c;
     strms_by_id := strms_by_id c; clsd_strms := clsd_strms c;
     tp_in := tp_in c; tp_out := tp_out c; rec := rec c;
     in_data_str := in_data_str c; out_data_str := out_data_str c;
     path_val_win := path_val_win c; in_data := in_data c;
     out_data := out_data c; path_chlg_in := path_chlg_in c;
     path_resp_out := path_resp_out c; path_chlg_out := path_chlg_out c;
     path_resp_in := path_resp_in c; enable_ecn := v;
     max_cid_seq_out := max_cid_seq_out c; txq := txq c;
     pkts_out_lost := pkts_out_lost c; err_code := err_code c;
     err_frm := err_frm c; err_reason_len := err_reason_len c;
     err_reason := err_reason c; tok_len := tok_len c; tok := tok c;
     tx_limit := tx_limit c |}.

Definition set_max_cid_seq_out (v : Z) (c : q_conn) : q_conn :=
  {| is_clnt := is_clnt c; needs_tx := needs_tx c;
     tx_max_data := tx_max_data c; blocked := blocked c;
     try_0rtt := try_0rtt c; did_0rtt := did_0rtt c;
     tx_path_resp := tx_path_resp c; tx_path_chlg := tx_path_chlg c;
     tx_rtry := tx_rtry c; have_new_data := have_new_data c;
     spin_enabled := spin_enabled c; spin := spin c; no_wnd := no_wnd c;
     state := state c; tx_w := tx_w c; vers := vers c; pns := pns c;
     idle_alarm := idle_alarm c; closing_alarm := closing_alarm c;
     key_flip_alarm := key_flip_alarm c; ack_alarm := ack_alarm c;
     peer := peer c; migr_peer := migr_peer c; cstrms := cstrms c;
     strms_by_id := strms_by_id c; clsd_strms := clsd_strms c;
     tp_in := tp_in c; tp_out := tp_out c; rec := rec c;
     in_data_str := in_data_str c; out_data_str := out_data_str c;
     path_val_win := path_val_win c; in_data := in_data c;
     out_data := out_data c; path_chlg_in := path_chlg_in c;
     path_resp_out := path_resp_out c; path_chlg_out := path_chlg_out c;
     path_resp_in := path_resp_in c; enable_ecn := enable_ecn c;
     max_cid_seq_out := v; txq := txq c; pkts_out_lost := pkts_out_lost c;
     err_code := err_code c; err_frm := err_frm c;
     err_reason_len := err_reason_len c; err_reason := err_reason c;
     tok_len := tok_len c; tok := tok c; tx_limit := tx_limit c |}.

Definition set_txq (v : list Z) (c : q_conn) : q_conn :=
  {| is_clnt := is_clnt c; needs_tx := needs_tx c;
     tx_max_data := tx_max_data c; blocked := blocked c;
     try_0rtt := try_0rtt c; did_0rtt := did_0rtt c;
     tx_path_resp := tx_path_resp c; tx_path_chlg := tx_path_chlg c;
     tx_rtry := tx_rtry c; have_new_data := have_new_data c;
     spin_enabled := spin_enabled c; spin := spin c; no_wnd := no_wnd c;
     state := state c; tx_w := tx_w c; vers := vers c; pns := pns c;
     idle_alarm := idle_alarm c; closing_alarm := closing_alarm c;
     key_flip_alarm := key_flip_alarm c; ack_alarm := ack_alarm c;
     peer := peer c; migr_peer := migr_peer c; cstrms := cstrms c;
     strms_by_id := strms_by_id c; clsd_strms := clsd_strms c;
     tp_in := tp_in c; tp_out := tp_out c; rec := rec c;
     in_data_str := in_data_str c; out_data_str := out_data_str c;
     path_val_win := path_val_win c; in_data := in_data c;
     out_data := out_data c; path_chlg_in := path_chlg_in c;
     path_resp_out := path_resp_out c; path_chlg_out := path_chlg_out c;
     path_resp_in := path_resp_in c; enable_ecn := enable_ecn c;
     max_cid_seq_out := max_cid_seq_out c; txq := v;
     pkts_out_lost := pkts_out_lost c; err_code := err_code c;
     err_frm := err_frm c; err_reason_len := err_reason_len c;
     err_reason := err_reason c; tok_len := tok_len c; tok := tok c;
     tx_limit := tx_limit c |}.

Definition set_pkts_out_lost (v : Z) (c : q_conn) : q_conn :=
  {| is_clnt := is_clnt c; needs_tx := needs_tx c;
     tx_max_data := tx_max_data c; blocked := blocked c;
     try_0rtt := try_0rtt c; did_0rtt := did_0rtt c;
     tx_path_resp := tx_path_resp c; tx_path_chlg := tx_path_chlg c;
     tx_rtry := tx_rtry c; have_new_data := have_new_data c;
     spin_enabled := spin_enabled c; spin := spin c; no_wnd := no_wnd c;
     state := state c; tx_w := tx_w c; vers := vers c; pns := pns c;
     idle_alarm := idle_alarm c; closing_alarm := closing_alarm c;
     key_flip_alarm := key_flip_alarm c; ack_alarm := ack_alarm c;
     peer := peer c; migr_peer := migr_peer c; cstrms := cstrms c;
     strms_by_id := strms_by_id c; clsd_strms := clsd_strms c;
     tp_in := tp_in c; tp_out := tp_out c; rec := rec c;
     in_data_str := in_data_str c; out_data_str := out_data_str c;
     path_val_win := path_val_win c; in_data := in_data c;
     out_data := out_data c; path_chlg_in := path_chlg_in c;
     path_resp_out := path_resp_out c; path_chlg_out := path_chlg_out c;
     path_resp_in := path_resp_in c; enable_ecn := enable_ecn c;
     max_cid_seq_out := max_cid_seq_out c; txq := txq c; pkts_out_lost := v;
     err_code := err_code c; err_frm := err_frm c;
     err_reason_len := err_reason_len c; err_reason := err_reason c;
     tok_len := tok_len c; tok := tok c; tx_limit := tx_limit c |}.

Definition set_err_code (v : Z) (c : q_conn) : q_conn :=
  {| is_clnt := is_clnt c; needs_tx := needs_tx c;
     tx_max_data := tx_max_data c; blocked := blocked c;
     try_0rtt := try_0rtt c; did_0rtt := did_0rtt c;
     tx_path_resp := tx_path_resp c; tx_path_chlg := tx_path_chlg c;
     tx_rtry := tx_rtry c; have_new_data := have_new_data c;
     spin_enabled := spin_enabled c; spin := spin c; no_wnd := no_wnd c;
     state := state c; tx_w := tx_w c; vers := vers c; pns := pns c;
     idle_alarm := idle_alarm c; closing_alarm := closing_alarm c;
     key_flip_alarm := key_flip_alarm c; ack_alarm := ack_alarm c;
     peer := peer c; migr_peer := migr_peer c; cstrms := cstrms c;
     strms_by_id := strms_by_id c; clsd_strms := clsd_strms c;
     tp_in := tp_in c; tp_out := tp_out c; rec := rec c;
     in_data_str := in_data_str c; out_data_str := out_data_str c;
     path_val_win := path_val_win c; in_data := in_data c;
     out_data := out_data c; path_chlg_in := path_chlg_in c;
     path_resp_out := path_resp_out c; path_chlg_out := path_chlg_out c;
     path_resp_in := path_resp_in c; enable_ecn := enable_ecn c;
     max_cid_seq_out := max_cid_seq_out c; txq := txq c;
     pkts_out_lost := pkts_out_lost c; err_code := v; err_frm := err_frm c;
     err_reason_len := err_reason_len c; err_reason := err_reason c;
     tok_len := tok_len c; tok := tok c; tx_limit := tx_limit c |}.

Definition set_err_frm (v : Z) (c : q_conn) : q_conn :=
  {| is_clnt := is_clnt c; needs_tx := needs_tx c;
     tx_max_data := tx_max_data c; blocked := blocked c;
     try_0rtt := try_0rtt c; did_0rtt := did_0rtt c;
     tx_path_resp := tx_path_resp c; tx_path_chlg := tx_path_chlg c;
     tx_rtry := tx_rtry c; have_new_data := have_new_data c;
     spin_enabled := spin_enabled c; spin := spin c; no_wnd := no_wnd c;
     state := state c; tx_w := tx_w c; vers := vers c; pns := pns c;
     idle_alarm := idle_alarm c; closing_alarm := closing_alarm c;
     key_flip_alarm := key_flip_alarm c; ack_alarm := ack_alarm c;
     peer := peer c; migr_peer := migr_peer c; cstrms := cstrms c;
     strms_by_id := strms_by_id c; clsd_strms := clsd_strms c;
     tp_in := tp_in c; tp_out := tp_out c; rec := rec c;
     in_data_str := in_data_str c; out_data_str := out_data_str c;
     path_val_win := path_val_win c; in_data := in_data c;
     out_data := out_data c; path_chlg_in := path_chlg_in c;
     path_resp_out := path_resp_out c; path_chlg_out := path_chlg_out c;
     path_resp_in := path_resp_in c; enable_ecn := enable_ecn c;
     max_cid_seq_out := max_cid_seq_out c; txq := txq c;
     pkts_out_lost := pkts_out_lost c; err_code := err_code c; err_frm := v;
     err_reason_len := err_reason_len c; err_reason := err_reason c;
     tok_len := tok_len c; tok := tok c; tx_limit := tx_limit c |}.

Definition set_err_reason_len (v : Z) (c : q_conn) : q_conn :=
  {| is_clnt := is_clnt c; needs_tx := needs_tx c;
     tx_max_data := tx_max_data c; blocked := blocked c;
     try_0rtt := try_0rtt c; did_0rtt := did_0rtt c;
     tx_path_resp := tx_path_resp c; tx_path_chlg := tx_path_chlg c;
     tx_rtry := tx_rtry c; have_new_data := have_new_data c;
     spin_enabled := spin_enabled c; spin := spin c; no_wnd := no_wnd c;
     state := state c; tx_w := tx_w c; vers := vers c; pns := pns c;
     idle_alarm := idle_alarm c; closing_alarm := closing_alarm c;
     key_flip_alarm := key_flip_alarm c; ack_alarm := ack_alarm c;
     peer := peer c; migr_peer := migr_peer c; cstrms := cstrms c;
     strms_by_id := strms_by_id c; clsd_strms := clsd_strms c;
     tp_in := tp_in c; tp_out := tp_out c; rec := rec c;
     in_data_str := in_data_str c; out_data_str := out_data_str c;
     path_val_win := path_val_win c; in_data := in_data c;
     out_data := out_data c; path_chlg_in := path_chlg_in c;
     path_resp_out := path_resp_out c; path_chlg_out := path_chlg_out c;
     path_resp_in := path_resp_in c; enable_ecn := enable_ecn c;
     max_cid_seq_out := max_cid_seq_out c; txq := txq c;
     pkts_out_lost := pkts_out_lost c; err_code := err_code c;
     err_frm := err_frm c; err_reason_len := v; err_reason := err_reason c;
     tok_len := tok_len c; tok := tok c; tx_limit := tx_limit c |}.

Definition set_err_reason (v : string) (c : q_conn) : q_conn :=
  {| is_clnt := is_clnt c; needs_tx := needs_tx c;
     tx_max_data := tx_max_data c; blocked := blocked c;
     try_0rtt := try_0rtt c; did_0rtt := did_0rtt c;
     tx_path_resp := tx_path_resp c; tx_path_chlg := tx_path_chlg c;
     tx_rtry := tx_rtry c; have_new_data := have_new_data c;
     spin_enabled := spin_enabled c; spin := spin c; no_wnd := no_wnd c;
     state := state c; tx_w := tx_w c; vers := vers c; pns := pns c;
     idle_alarm := idle_alarm c; closing_alarm := closing_alarm c;
     key_flip_alarm := key_flip_alarm c; ack_alarm := ack_alarm c;
     peer := peer c; migr_peer := migr_peer c; cstrms := cstrms c;
     strms_by_id := strms_by_id c; clsd_strms := clsd_strms c;
     tp_in := tp_in c; tp_out := tp_out c; rec := rec c;
     in_data_str := in_data_str c; out_data_str := out_data_str c;
     path_val_win := path_val_win c; in_data := in_data c;
     out_data := out_data c; path_chlg_in := path_chlg_in c;
     path_resp_out := path_resp_out c; path_chlg_out := path_chlg_out c;
     path_resp_in := path_resp_in c; enable_ecn := enable_ecn c;
     max_cid_seq_out := max_cid_seq_out c; txq := txq c;
     pkts_out_lost := pkts_out_lost c; err_code := err_code c;
     err_frm := err_frm c; err_reason_len := err_reason_len c;
     err_reason := v; tok_len := tok_len c; tok := tok c;
     tx_limit := tx_limit c |}.

Definition set_tok_len (v : Z) (c : q_conn) : q_conn :=
  {| is_clnt := is_clnt c; needs_tx := needs_tx c;
     tx_max_data := tx_max_data c; blocked := blocked c;
     try_0rtt := try_0rtt c; did_0rtt := did_0rtt c;
     tx_path_resp := tx_path_resp c; tx_path_chlg := tx_path_chlg c;
     tx_rtry := tx_rtry c; have_new_data := have_new_data c;
     spin_enabled := spin_enabled c; spin := spin c; no_wnd := no_wnd c;
     state := state c; tx_w := tx_w c; vers := vers c; pns := pns c;
     idle_alarm := idle_alarm c; closing_alarm := closing_alarm c;
     key_flip_alarm := key_flip_alarm c; ack_alarm := ack_alarm c;
     peer := peer c; migr_peer := migr_peer c; cstrms := cstrms c;
     strms_by_id := strms_by_id c; clsd_strms := clsd_strms c;
     tp_in := tp_in c; tp_out := tp_out c; rec := rec c;
     in_data_str := in_data_str c; out_data_str := out_data_str c;
     path_val_win := path_val_win c; in_data := in_data c;
     out_data := out_data c; path_chlg_in := path_chlg_in c;
     path_resp_out := path_resp_out c; path_chlg_out := path_chlg_out c;
     path_resp_in := path_resp_in c; enable_ecn := enable_ecn c;
     max_cid_seq_out := max_cid_seq_out c; txq := txq c;
     pkts_out_lost := pkts_out_lost c; err_code := err_code c;
     err_frm := err_frm c; err_reason_len := err_reason_len c;
     err_reason := err_reason c; tok_len := v; tok := tok c;
     tx_limit := tx_limit c |}.

Definition set_tok (v : list Z) (c : q_conn) : q_conn :=
  {| is_clnt := is_clnt c; needs_tx := needs_tx c;
     tx_max_data := tx_max_data c; blocked := blocked c;
     try_0rtt := try_0rtt c; did_0rtt := did_0rtt c;
     tx_path_resp := tx_path_resp c; tx_path_chlg := tx_path_chlg c;
     tx_rtry := tx_rtry c; have_new_data := have_new_data c;
     spin_enabled := spin_enabled c; spin := spin c; no_wnd := no_wnd c;
     state := state c; tx_w := tx_w c; vers := vers c; pns := pns c;
     idle_alarm := idle_alarm c; closing_alarm := closing_alarm c;
     key_flip_alarm := key_flip_alarm c; ack_alarm := ack_alarm c;
     peer := peer c; migr_peer := migr_peer c; cstrms := cstrms c;
     strms_by_id := strms_by_id c; clsd_strms := clsd_strms c;
     tp_in := tp_in c; tp_out := tp_out c; rec := rec c;
     in_data_str := in_data_str c; out_data_str := out_data_str c;
     path_val_win := path_val_win c; in_data := in_data c;
     out_data := out_data c; path_chlg_in := path_chlg_in c;
     path_resp_out := path_resp_out c; path_chlg_out := path_chlg_out c;
     path_resp_in := path_resp_in c; enable_ecn := enable_ecn c;
     max_cid_seq_out := max_cid_seq_out c; txq := txq c;
     pkts_out_lost := pkts_out_lost c; err_code := err_code c;
     err_frm := err_frm c; err_reason_len := err_reason_len c;
     err_reason := err_reason c; tok_len := tok_len c; tok := v;
     tx_limit := tx_limit c |}.

Definition set_tx_limit (v : Z) (c : q_conn) : q_conn :=
  {| is_clnt := is_clnt c; needs_tx := needs_tx c;
     tx_max_data := tx_max_data c; blocked := blocked c;
     try_0rtt := try_0rtt c; did_0rtt := did_0rtt c;
     tx_path_resp := tx_path_resp c; tx_path_chlg := tx_path_chlg c;
     tx_rtry := tx_rtry c; have_new_data := have_new_data c;
     spin_enabled := spin_enabled c; spin := spin c; no_wnd := no_wnd c;
     state := state c; tx_w := tx_w c; vers := vers c; pns := pns c;
     idle_alarm := idle_alarm c; closing_alarm := closing_alarm c;
     key_flip_alarm := key_flip_alarm c; ack_alarm := ack_alarm c;
     peer := peer c; migr_peer := migr_peer c; cstrms := cstrms c;
     strms_by_id := strms_by_id c; clsd_strms := clsd_strms c;
     tp_in := tp_in c; tp_out := tp_out c; rec := rec c;
     in_data_str := in_data_str c; out_data_str := out_data_str c;
     path_val_win := path_val_win c; in_data := in_data c;
     out_data := out_data c; path_chlg_in := path_chlg_in c;
     path_resp_out := path_resp_out c; path_chlg_out := path_chlg_out c;
     path_resp_in := path_resp_in c; enable_ecn := enable_ecn c;
     max_cid_seq_out := max_cid_seq_out c; txq := txq c;
     pkts_out_lost := pkts_out_lost c; err_code := err_code c;
     err_frm := err_frm c; err_reason_len := err_reason_len c;
     err_reason := err_reason c; tok_len := tok_len c; tok := tok c;
     tx_limit := v |}.

(** The per-engine meta-data array ([ped(w)->pkt_meta]) together with the connection the embedded functions work on. *)
Record world : Type := Build_world {
  metas : list pkt_meta;
  conn : q_conn
}.

Definition set_metas (v : list pkt_meta) (w : world) : world :=
  {| metas := v; conn := conn w |}.

Definition set_conn (v : q_conn) (w : world) : world :=
  {| metas := metas w; conn := v |}.

(** ** Accessors *)

(** [&c->pns[t]]. *)
Definition pn_get (c : q_conn) (t : pn_t) : pn_space :=
  match t with
  | pn_init => pns_init (pns c)
  | pn_hshk => pns_hshk (pns c)
  | pn_data => pns_data (pns c)
  end.

Definition pn_put (t : pn_t) (p : pn_space) (c : q_conn) : q_conn :=
  match t with
  | pn_init => set_pns (set_pns_init p (pns c)) c
  | pn_hshk => set_pns (set_pns_hshk p (pns c)) c
  | pn_data => set_pns (set_pns_data p (pns c)) c
  end.

(** Dereferencing a stream pointer, and writing through it. *)
Definition strm_get (c : q_conn) (r : strm_ref) : option q_stream :=
  match r with
  | SCrypto e => cstrms c e
  | SData sid => strms_by_id c !! sid
  end.

Definition strm_put (r : strm_ref) (s : q_stream) (c : q_conn) : q_conn :=
  match r with
  | SCrypto e =>
      set_cstrms (fun e' => if decide (e' = e) then Some s else cstrms c e') c
  | SData sid => set_strms_by_id (<[sid := s]> (strms_by_id c)) c
  end.

(** Writing through a [struct pkt_meta *]. *)
Definition meta_put (i : nat) (m : pkt_meta) (w : world) : world :=
  set_metas (<[i := m]> (metas w)) w.

Definition with_conn (f : q_conn -> q_conn) (w : world) : world :=
  set_conn (f (conn w)) w.

(** [pn_for_epoch] (conn.h). *)
Definition pn_for_epoch (e : epoch_t) : pn_t :=
  match e with
  | ep_init => pn_init
  | ep_hshk => pn_hshk
  | ep_0rtt | ep_data => pn_data
  end.

(** ** pkt.h *)

Definition is_lh (fl : Z) : bool := is_set HEAD_FORM fl.

Definition pkt_type (fl : Z) : Z :=
  if is_lh fl then Z.land fl LH_TYPE_MASK else SH.

Definition pkt_nr_len (fl : Z) : Z := Z.land fl HEAD_PNRL_MASK + 1.

Definition epoch_for_pkt_type (ty : Z) : epoch_t :=
  if (ty =? LH_INIT) || (ty =? LH_RTRY) then ep_init
  else if ty =? LH_0RTT then ep_0rtt
  else if ty =? LH_HSHK then ep_hshk
  else ep_data.

Definition pn_for_pkt_type (ty : Z) : pn_t :=
  pn_for_epoch (epoch_for_pkt_type ty).


(** [MIN_SRT_PKT_LEN] is the unparenthesised [25 + SRT_LEN]; its one use,
    [xv->len < MIN_SRT_PKT_LEN], parses as intended. *)
Definition MIN_SRT_PKT_LEN : Z := 25 + SRT_LEN.

(** ** conn.c: closing a connection *)

(** [conn_to_state] (conn.h): outside debug builds, an assignment. *)
Definition conn_to_state (s : conn_state_t) (c : q_conn) : q_conn :=
  set_state s c.

(** [stop_all_alarms]: [timeouts_del] on five alarms. The TX watcher is not
    among them. *)
Definition stop_all_alarms (c : q_conn) : q_conn :=
  set_closing_alarm None
    (set_ack_alarm None
       (set_key_flip_alarm None
          (set_idle_alarm None
             (set_rec (set_ld_alarm None (rec c)) c)))).

(** [enter_closing]. *)
Definition enter_closing (c : q_conn) : q_conn :=
  if decide (state c = conn_clsg) then c
  else
    let c := stop_all_alarms c in
    if (bool_decide (state c = conn_idle) || bool_decide (state c = conn_opng))
       && (err_code c =? 0)
    then
      (* no need to go closing->draining in these cases *)
      set_closing_alarm (Some 0) c
    else
      let c :=
        match closing_alarm c with
        | Some _ => c
        | None =>
            (* start closing/draining alarm (3 * RTO) *)
            let dur :=
              u64 (3 * (if srtt (cur (rec c)) =? 0 then kInitialRtt
                        else srtt (cur (rec c)))
                   + 4 * rttvar (cur (rec c))) in
            set_closing_alarm (Some dur) c
        end in
      if decide (state c = conn_drng) then c
      else set_tx_w (Some 0) (conn_to_state conn_clsg (set_needs_tx true c)).

(** What [vsnprintf(c->err_reason, sizeof(c->err_reason), fmt, ap)] leaves
    in the buffer: at most [MAX_ERR_REASON_LEN - 1] characters of the
    formatted [reason]. *)
Definition store_reason (reason : string) : string :=
  substring 0 (Z.to_nat (MAX_ERR_REASON_LEN - 1)) reason.

(** [err_close] (the build with error reasons, without [FUZZING]);
    [reason] is the formatted message. *)
Definition err_close (c : q_conn) (code frm : Z) (reason : string) : q_conn :=
  if negb (err_code c =? 0) then
    (* "ignoring new err": an error is recorded already *)
    c
  else
    let ret := Z.of_nat (String.length reason) in
    let c := set_err_reason (store_reason reason) c in
    let c := set_err_reason_len (u8 (Z.min (ret + 1) MAX_ERR_REASON_LEN)) c in
    let c := conn_to_state conn_qlse c in
    let c := set_err_code (u64 code) c in
    let c := set_err_frm (u8 frm) c in
    let c := set_needs_tx true c in
    enter_closing c.

(** [do_conn_fc]. *)
Definition do_conn_fc (c : q_conn) (len : Z) : q_conn :=
  if bool_decide (state c = conn_clsg) || bool_decide (state c = conn_drng)
  then c
  else
    let c :=
      if negb (len =? 0)
         && (max_data (tp_out c) <? u64 (out_data_str c + len + MAX_PKT_LEN))
      then set_blocked true c else c in
    if max_data (tp_in c) <? u64 (in_data_str c * 2) then
      set_tp_in (set_max_data (u64 (max_data (tp_in c) * 2)) (tp_in c))
        (set_tx_max_data true c)
    else c.

(** [has_pval_wnd] and [has_wnd] (conn.h). *)
Definition has_pval_wnd (c : q_conn) (len : Z) : bool :=
  negb (path_val_win c <=? u64 (out_data c + len)).

Definition has_wnd (c : q_conn) (len : Z) : bool :=
  if blocked c then false
  else if cwnd (cur (rec c)) <=? u64 (in_flight_bytes (cur (rec c)) + len)
       then false
       else has_pval_wnd c len.

(** ** What the functions read from their surroundings *)

(** [now] is [loop_now()], the time stamp the run loop took last; [mtu] is
    [c->w->mtu]; [sent_ack_rngs i] is the list of ranges [(lo, hi)] that the
    ACK frame stored in buffer [i] (at [ack_frm_pos]) encodes -- the model
    keeps no copy of the bytes of sent packets; [sent_flags i] is [v->flags]
    of buffer [i], the ECN marking it was sent with. *)
Record env : Type := Build_env {
  now : Z;
  mtu : Z;
  sent_ack_rngs : nat -> list (Z * Z);
  sent_flags : nat -> Z
}.

(** Updating nested members. *)
Definition upd_rec (f : recovery -> recovery) (c : q_conn) : q_conn :=
  set_rec (f (rec c)) c.

Definition upd_cur (f : cc_state -> cc_state) (c : q_conn) : q_conn :=
  upd_rec (fun r => set_cur (f (cur r)) r) c.

Definition upd_pn (t : pn_t) (f : pn_space -> pn_space) (c : q_conn) : q_conn :=
  pn_put t (f (pn_get c t)) c.

Definition upd_meta (i : nat) (f : pkt_meta -> pkt_meta) (w : world)
  : option world :=
  m ← metas w !! i; Some (meta_put i (f m) w).

Definition upd_hdr (f : pkt_hdr -> pkt_hdr) (m : pkt_meta) : pkt_meta :=
  set_hdr (f (hdr m)) m.

(** ** The table of sent packets (pn.c is not among the sources)

    Modelled from the spec: each space owns "a set of packets sent awaiting
    ACK (keyed by pn)", a hash map by packet number. The association list is
    in the table's iteration order; a new key goes to the end (the order of
    a hash table is unspecified, and no result below depends on it). *)

Fixpoint kh_get (tbl : list (Z * nat)) (k : Z) : option nat :=
  match tbl with
  | [] => None
  | (k', v) :: tbl' => if k' =? k then Some v else kh_get tbl' k
  end.

Definition kh_del (tbl : list (Z * nat)) (k : Z) : list (Z * nat) :=
  filter (fun e => e.1 ≠ k) tbl.

Fixpoint kh_put (tbl : list (Z * nat)) (k : Z) (v : nat) : list (Z * nat) :=
  match tbl with
  | [] => [(k, v)]
  | (k', v') :: tbl' =>
      if k' =? k then (k, v) :: tbl' else (k', v') :: kh_put tbl' k v
  end.

(** [pm_by_nr_ins(&pn->sent_pkts, m)] and [pm_by_nr_del]: keyed by the
    packet number the meta-data holds at the time of the call. *)
Definition pm_by_nr_ins (t : pn_t) (i : nat) (w : world) : option world :=
  m ← metas w !! i;
  Some (with_conn
          (upd_pn t (fun p => set_sent_pkts (kh_put (sent_pkts p) (nr (hdr m)) i) p))
          w).

Definition pm_by_nr_del (t : pn_t) (i : nat) (w : world) : option world :=
  m ← metas w !! i;
  Some (with_conn
          (upd_pn t (fun p => set_sent_pkts (kh_del (sent_pkts p) (nr (hdr m))) p))
          w).

(** [find_sent_pkt(pn, nr, &m)]. *)
Definition find_sent_pkt (p : pn_space) (n : Z) : option nat :=
  kh_get (sent_pkts p) n.

(** [diet_remove_ival]. *)
Definition diet_remove_ival (d : diet) (lo hi : Z) : diet :=
  filter (fun x => ¬ (lo ≤ x ≤ hi)) d.

(** ** Recovery (recovery.c): congestion control and loss *)

Definition is_crypto_pkt (m : pkt_meta) : bool := has_frm (frms m) FRM_CRY.

Definition in_cong_recovery (c : q_conn) (sent_t : Z) : bool :=
  sent_t <=? rec_start_t (rec c).

Definition maybe_tx (E : env) (c : q_conn) : q_conn :=
  if has_wnd c (u16 (mtu E)) then
    set_tx_w (Some 0) (set_tx_limit 0 (set_no_wnd false c))
  else c.

(** [log_cc]: apart from logging, [c->rec.prev = c->rec.cur]. *)
Definition log_cc (c : q_conn) : q_conn :=
  upd_rec (fun r => set_prev (cur r) r) c.

Definition congestion_event (E : env) (c : q_conn) (sent_t : Z) : q_conn :=
  if in_cong_recovery c sent_t then c
  else
    let c := upd_rec (set_rec_start_t (now E)) c in
    let c := upd_cur (fun cc => set_cwnd (cwnd cc / kLossReductionDivisor) cc) c in
    let v := Z.max (cwnd (cur (rec c))) kMinimumWindow in
    upd_cur (fun cc => set_ssthresh v (set_cwnd v cc)) c.

(** [in_persistent_cong]: its body is commented out in the source. *)
Definition in_persistent_cong (p : pn_space) (lg_lost : Z) : bool := false.

(** [remove_from_in_flight]; [None] when the [ensure] fails. *)
Definition remove_from_in_flight (m : pkt_meta) (c : q_conn) : option q_conn :=
  if in_flight_bytes (cur (rec c)) <? udp_len m then None
  else
    let c :=
      upd_cur (fun cc => set_in_flight_bytes (in_flight_bytes cc - udp_len m) cc) c in
    Some (if ack_eliciting m
          then upd_rec (fun r => set_ae_in_flight (u64 (ae_in_flight r - 1)) r) c
          else c).

(** The frame types of [all_ctrl] and [strm_ctrl] in [on_pkt_lost]. *)
Definition all_ctrl : Z :=
  fold_right (fun t acc => Z.lor (Z.shiftl 1 t) acc) 0
    [FRM_RST; FRM_STP; FRM_TOK; FRM_CDB; FRM_SDB; FRM_SBB; FRM_SBU; FRM_CID;
     FRM_RTR].

(** [on_pkt_lost(m, is_lost)]. Of the loop over the lost control frames only
    the [FRM_CID] case has an effect. [need_ctrl_update] (stream.h, not
    among the sources) queues the stream on [c->need_ctrl], a list the
    model does not carry. *)
Definition on_pkt_lost (w : world) (i : nat) (is_lost : bool) : option world :=
  m ← metas w !! i;
  t ← m_pn m;
  c ← (if in_flight m then remove_from_in_flight m (conn w) else Some (conn w));
  let c :=
    upd_pn t (fun p => set_acked_or_lost (diet_insert (acked_or_lost p) (nr (hdr m))) p) c in
  let c :=
    if is_lost && bit_overlap all_ctrl (frms m) && has_frm (frms m) FRM_CID
    then set_max_cid_seq_out (u64 (min_cid_seq m - 1)) c
    else c in
  let m' := set_lost true m in
  c ←
    match strm m' with
    | None => Some c
    | Some r =>
        s ← strm_get c r;
        Some (strm_put r (set_lost_cnt (u64 (lost_cnt s + 1)) s) c)
    end;
  pm_by_nr_del t i (meta_put i m' (set_conn c w)).

(** ** quic.c: freeing a buffer *)

(** What zeroing the structure ([memset] over [m]) leaves. *)
Definition hdr_zero : pkt_hdr :=
  {| dcid_len := 0; scid_len := 0; nr := 0; h_len := 0; hdr_len := 0;
     hvers := 0; flags := 0; type := 0 |}.

Definition meta_zero : pkt_meta :=
  {| rtx := None; rtx_next := None; frms := 0; strm := None; strm_off := 0;
     strm_frm_pos := 0; strm_data_pos := 0; strm_data_len := 0;
     ack_frm_pos := 0; min_cid_seq := 0; m_pn := None; hdr := hdr_zero;
     m_t := 0; udp_len := 0; has_rtx := false; is_reset := false;
     is_fin := false; in_flight := false; ack_eliciting := false;
     acked := false; lost := false; txed := false |}.

(** The intrusive singly-linked lists of meta-data ([sl_*], BSD [SLIST]):
    [rtx] is a list head, [rtx_next] the link. *)
Definition sl_insert_head (h x : nat) (w : world) : option world :=
  mh ← metas w !! h;
  w ← upd_meta x (set_rtx_next (rtx mh)) w;
  upd_meta h (set_rtx (Some x)) w.

(** [sl_remove_head(&h->rtx, rtx_next)]: a null-pointer dereference on an
    empty list. *)
Definition sl_remove_head (h : nat) (w : world) : option world :=
  mh ← metas w !! h;
  f ← rtx mh;
  mf ← metas w !! f;
  upd_meta h (set_rtx (rtx_next mf)) w.

(** The walk of [sl_remove] from element [cur] on. *)
Fixpoint sl_unlink_after (fuel : nat) (cur x : nat) (w : world) : option world :=
  match fuel with
  | O => None
  | S fuel' =>
      mc ← metas w !! cur;
      nx ← rtx_next mc;
      if decide (nx = x) then
        mx ← metas w !! x;
        upd_meta cur (set_rtx_next (rtx_next mx)) w
      else sl_unlink_after fuel' nx x w
  end.

(** [sl_remove(&h->rtx, x, pkt_meta, rtx_next)]. *)
Definition sl_remove (h x : nat) (w : world) : option world :=
  mh ← metas w !! h;
  f ← rtx mh;
  if decide (f = x) then sl_remove_head h w
  else sl_unlink_after (length (metas w)) f x w.

(** The [while (m_rtx)] loop of [free_iov] for the last RTX of a packet. *)
Fixpoint free_iov_unlink (fuel : nat) (i : nat) (m_rtx : option nat) (w : world)
  : option world :=
  match m_rtx with
  | None => Some w
  | Some j =>
      match fuel with
      | O => None
      | S fuel' =>
          w ← upd_meta j (set_strm None) w;
          mj ← metas w !! j;
          if negb (has_rtx mj) then None   (* ensure(m_rtx->has_rtx) *)
          else
            w ← sl_remove_head i w;
            w ← sl_remove_head j w;
            mj ← metas w !! j;
            free_iov_unlink fuel' i (rtx_next mj) w
      end
  end.

(** [free_iov(v, m)], on the meta-data; the buffer itself goes back to the
    pool. *)
Definition free_iov (w : world) (i : nat) : option world :=
  m ← metas w !! i;
  w ←
    (if txed m then
       w ←
         (if negb (acked m) && negb (lost m) then
            t ← m_pn m;
            if negb (abandoned (pn_get (conn w) t)) then
              w ← upd_meta i (set_strm None) w;
              on_pkt_lost w i false
            else Some w
          else Some w);
       m ← metas w !! i;
       match rtx m with
       | None => Some w
       | Some j =>
           if has_rtx m then sl_remove j i w
           else free_iov_unlink (length (metas w)) i (Some j) w
       end
     else Some w);
  Some (meta_put i meta_zero w).

(** ** Recovery (recovery.c): loss detection *)

(** The loss delay of [detect_lost_pkts]. *)
Definition loss_del (c : q_conn) : Z :=
  Z.max kGranularity
    (u64 (9 * Z.max (latest_rtt (cur (rec c))) (srtt (cur (rec c)))) / 8).

(** "Packets sent before this time are deemed lost." *)
Definition lost_send_t (E : env) (c : q_conn) : Z := u64 (now E - loss_del c).

(** The test "Mark packet as lost, or set time when it should be marked" on
    one packet that is not above [lg_acked]; [lst] is [lost_send_t]. *)
Definition pkt_is_lost (lst : Z) (p : pn_space) (m : pkt_meta) : bool :=
  (m_t m <=? lst) || (u64 (nr (hdr m) + kPacketThreshold) <=? lg_acked p).

(** The local variables of the loop of [detect_lost_pkts]. *)
Record dlp_acc : Type := Build_dlp_acc {
  lg_lost : Z;
  lg_lost_tx_t : Z;
  in_flight_lost : bool
}.

(** One iteration of [kh_foreach_value(&pn->sent_pkts, m, ...)]; [ld] and
    [lst] are the constants [loss_del] and [lost_send_t]. The two
    [DEBUG_ensure]s are those of the default build. *)
Definition detect_lost_step (ld lst : Z) (t : pn_t) (i : nat)
    (st : world * dlp_acc) : option (world * dlp_acc) :=
  let '(w, a) := st in
  m ← metas w !! i;
  if acked m || lost m then None
  else
    let p := pn_get (conn w) t in
    if lg_acked p <? nr (hdr m) then Some (w, a)
    else if pkt_is_lost lst p m then
      w ← upd_meta i (set_lost true) w;
      let a :=
        {| lg_lost :=
             if (lg_lost a =? UINT_T_MAX) || (lg_lost a <? nr (hdr m))
             then nr (hdr m) else lg_lost a;
           lg_lost_tx_t :=
             if (lg_lost a =? UINT_T_MAX) || (lg_lost a <? nr (hdr m))
             then m_t m else lg_lost_tx_t a;
           in_flight_lost := in_flight_lost a || in_flight m |} in
      let w := with_conn (fun c => set_pkts_out_lost (u64 (pkts_out_lost c + 1)) c) w in
      (* OnPacketsLost *)
      w ← on_pkt_lost w i true;
      m ← metas w !! i;
      w ← (if bool_decide (strm m = None) || has_rtx m then free_iov w i else Some w);
      Some (w, a)
    else
      let due := u64 (m_t m + ld) in
      let w :=
        with_conn
          (upd_pn t (fun p =>
             set_loss_t (if loss_t p =? 0 then due else Z.min (loss_t p) due) p))
          w in
      Some (w, a).

Fixpoint detect_lost_loop (ld lst : Z) (t : pn_t) (l : list (Z * nat))
    (st : world * dlp_acc) : option (world * dlp_acc) :=
  match l with
  | [] => Some st
  | (_, i) :: l' =>
      st ← detect_lost_step ld lst t i st;
      detect_lost_loop ld lst t l' st
  end.

(** [detect_lost_pkts(pn, do_cc)]. *)
Definition detect_lost_pkts (E : env) (w : world) (t : pn_t) (do_cc : bool)
  : option world :=
  if abandoned (pn_get (conn w) t) then Some w
  else
    let w := with_conn (upd_pn t (set_loss_t 0)) w in
    let a0 := {| lg_lost := UINT_T_MAX; lg_lost_tx_t := 0; in_flight_lost := false |} in
    '(w, a) ← detect_lost_loop (loss_del (conn w)) (lost_send_t E (conn w)) t
                (sent_pkts (pn_get (conn w) t)) (w, a0);
    let c := conn w in
    let c :=
      if do_cc && in_flight_lost a then
        let c := congestion_event E c (lg_lost_tx_t a) in
        if in_persistent_cong (pn_get c t) (lg_lost a)
        then upd_cur (set_cwnd kMinimumWindow) c else c
      else c in
    Some (set_conn (maybe_tx E (log_cc c)) w).

(** ** Recovery (recovery.c): sending, RTT, ACKs *)

(** [on_pkt_sent]. *)
Definition on_pkt_sent (E : env) (w : world) (i : nat) : option world :=
  w ← upd_meta i (set_txed true) w;
  m ← metas w !! i;
  t ← m_pn m;
  w ← pm_by_nr_ins t i w;
  let inflt := ack_eliciting m || has_frm (frms m) FRM_PAD in
  w ← upd_meta i (fun m => set_in_flight inflt (set_m_t (now E) m)) w;
  if inflt then
    let c := conn w in
    let c :=
      if is_crypto_pkt m then upd_rec (set_last_sent_crypto_t (now E)) c else c in
    let c :=
      if ack_eliciting m then
        upd_rec (fun r => set_ae_in_flight (u64 (ae_in_flight r + 1))
                            (set_last_sent_ack_elicit_t (now E) r)) c
      else c in
    (* OnPacketSentCC *)
    Some (set_conn
            (upd_cur (fun cc =>
               set_in_flight_bytes (u64 (in_flight_bytes cc + udp_len m)) cc) c) w)
  else Some w.

(** The adjusted RTT sample of [update_rtt]; [ack_del] is already the scaled
    [MIN(ack_del, c->tp_out.max_ack_del) * NS_PER_MS], and [min_rtt] the
    updated minimum. *)
Definition adj_rtt (cc : cc_state) (ack_del : Z) : Z :=
  if u64 (min_rtt cc + ack_del) <? latest_rtt cc
  then u64 (latest_rtt cc - ack_del)
  else latest_rtt cc.

(** [update_rtt(c, ack_del)]. *)
Definition update_rtt (c : q_conn) (ack_del : Z) : q_conn :=
  let cc := cur (rec c) in
  if srtt cc =? 0 then
    upd_cur (fun cc =>
      set_rttvar (latest_rtt cc / 2)
        (set_min_rtt (latest_rtt cc) (set_srtt (latest_rtt cc) cc))) c
  else
    let cc := set_min_rtt (Z.min (min_rtt cc) (latest_rtt cc)) cc in
    let ack_del := u64 (Z.min ack_del (max_ack_del (tp_out c)) * NS_PER_MS) in
    let adj := adj_rtt cc ack_del in
    let cc :=
      set_rttvar
        (u64 (u64 (3 * rttvar cc) / 4
              + u64 (Z.abs (s64 (s64 (srtt cc) - s64 adj))) / 4)) cc in
    let cc := set_srtt (u64 (u64 (7 * srtt cc) / 8 + adj / 8)) cc in
    upd_cur (fun _ => cc) c.

(** [on_ack_received_1(lg_ack, ack_del)]; [t] is the space [lg_ack->pn]. *)
Definition on_ack_received_1 (E : env) (w : world) (i : nat) (ack_del : Z)
  : option world :=
  m ← metas w !! i;
  t ← m_pn m;
  let c := conn w in
  let c :=
    upd_pn t (fun p =>
      set_lg_acked (if lg_acked p =? UINT_T_MAX then nr (hdr m)
                    else Z.max (lg_acked p) (nr (hdr m))) p) c in
  let c :=
    if is_ack_eliciting (tx_frames (pn_get c t)) then
      let c := upd_cur (set_latest_rtt (u64 (now E - m_t m))) c in
      update_rtt c (if decide (t = pn_data) then ack_del else 0)
    else c in
  Some (set_conn c w).

(** [earliest_loss_t_pn]. *)
Definition earliest_loss_t_pn (c : q_conn) : option pn_t :=
  fst (fold_left
    (fun (acc : option pn_t * Z) t =>
       let p := pn_get c t in
       if abandoned p then acc
       else if negb (is_ack_eliciting (tx_frames p)) then acc
       else if bool_decide (acc.1 = None)
               || (negb (loss_t p =? 0) && (loss_t p <? acc.2))
            then (Some t, loss_t p)
            else acc)
    [pn_init; pn_hshk; pn_data] (None, 0)).

(** [out_fully_acked] (stream.h is not among the sources).
    Modelled from the spec: a stream owns "an out_una (first unacknowledged
    buffer)"; nothing is outstanding when there is none. *)
Definition out_fully_acked (s : q_stream) : bool :=
  bool_decide (out_una s = None).

(** [have_unacked_crypto_data]; the handshake stream is dereferenced
    unchecked. *)
Definition have_unacked_crypto_data (c : q_conn) : option bool :=
  let ini :=
    match cstrms c ep_init with
    | Some s => negb (out_fully_acked s)
    | None => false
    end in
  if ini then Some true
  else s ← cstrms c ep_hshk; Some (negb (out_fully_acked s)).

(** [have_keys]. *)
Definition have_keys (c : q_conn) (t : pn_t) : bool :=
  let p := pn_get c t in
  match t with
  | pn_init | pn_hshk => aead (early_in p) && aead (early_out p)
  | pn_data =>
      (aead (in_1rtt0 p) && aead (out_1rtt0 p))
      || (aead (in_1rtt1 p) && aead (out_1rtt1 p))
  end.

(** The tail of [set_ld_timer] from the label [set_to] on. *)
Definition set_ld_timer_to (E : env) (val : Z) (c : q_conn) : q_conn :=
  let val := if val <? now E then 0 else val - now E in
  upd_rec (fun r => set_ld_alarm (Some (if val <=? 0 then 0 else val))
                      (set_ld_alarm_val val r)) c.

(** [set_ld_timer]. The shifts [1 << cnt] are those of a C [int]. *)
Definition set_ld_timer (E : env) (c : q_conn) : option q_conn :=
  if bool_decide (state c = conn_idle) || bool_decide (state c = conn_clsg)
     || bool_decide (state c = conn_drng)
  then Some c
  else
    let r := rec c in
    let tt :=
      match earliest_loss_t_pn c with
      | Some t => if loss_t (pn_get c t) =? 0 then None else Some (loss_t (pn_get c t))
      | None => None
      end in
    match tt with
    | Some lt => Some (set_ld_timer_to E lt c)
    | None =>
        unacked ← have_unacked_crypto_data c;
        if unacked || negb (have_keys c pn_data) then
          let to := u64 (2 * (if srtt (cur r) =? 0 then kInitialRtt else srtt (cur r))) in
          let to := u64 (Z.max to kGranularity * Z.shiftl 1 (crypto_cnt r)) in
          Some (set_ld_timer_to E (u64 (last_sent_crypto_t r + to)) c)
        else if ae_in_flight r =? 0 then
          Some (upd_rec (set_ld_alarm None) c)
        else
          let to :=
            u64 (srtt (cur r) + Z.max (u64 (4 * rttvar (cur r))) kGranularity
                 + u64 (max_ack_del (tp_out c) * NS_PER_MS)) in
          let to := u64 (to * Z.shiftl 1 (pto_cnt r)) in
          Some (set_ld_timer_to E (u64 (last_sent_ack_elicit_t r + to)) c)
    end.

(** [on_ack_received_2(pn)]. *)
Definition on_ack_received_2 (E : env) (w : world) (t : pn_t) : option world :=
  w ← detect_lost_pkts E w t true;
  let c := upd_rec (fun r => set_pto_cnt 0 (set_crypto_cnt 0 r)) (conn w) in
  c ← set_ld_timer E c;
  Some (set_conn c w).

(** [on_pkt_acked_cc]; a zero [cwnd] in congestion avoidance is a division
    by zero. *)
Definition on_pkt_acked_cc (m : pkt_meta) (c : q_conn) : option q_conn :=
  c ← remove_from_in_flight m c;
  if in_cong_recovery c (m_t m) then Some c
  else
    let cc := cur (rec c) in
    if cwnd cc <? ssthresh cc then
      Some (upd_cur (set_cwnd (u64 (cwnd cc + udp_len m))) c)
    else if cwnd cc =? 0 then None
    else
      Some (upd_cur
              (set_cwnd (u64 (cwnd cc + u64 (kMaxDatagramSize * udp_len m) / cwnd cc)))
              c).

(** [track_acked_pkts(v, m)]: stop ACKing the packets that the ACK frame of
    the acknowledged packet covered. *)
Definition track_acked_pkts (E : env) (t : pn_t) (i : nat) (c : q_conn) : q_conn :=
  upd_pn t
    (fun p =>
       set_recv
         (fold_left (fun d r => diet_remove_ival d r.1 r.2) (sent_ack_rngs E i) (recv p))
         p)
    c.

(** [strm_to_state] (stream.h is not among the sources).
    Modelled from the spec: like [conn_to_state], the one place where the
    state member is assigned. *)
Definition strm_to_state (st : strm_state_t) (s : q_stream) : q_stream :=
  set_sstate st s.

(** The loop [sq_foreach_from_safe (s->out_una, &s->out, next, tmp)] of
    [on_pkt_acked]: [l] is what is left of the queue from the loop variable
    on. At the end [s->out_una] is the buffer the loop stopped at. *)
Fixpoint out_una_loop (r : strm_ref) (l : list nat) (w : world) : option world :=
  match l with
  | [] =>
      s ← strm_get (conn w) r;
      Some (with_conn (strm_put r (set_out_una None s)) w)
  | b :: l' =>
      s ← strm_get (conn w) r;
      let w := with_conn (strm_put r (set_out_una (Some b) s)) w in
      mou ← metas w !! b;
      if negb (acked mou) then Some w
      else
        w ←
          (if (s_id s <? 0) && negb (lost mou) then
             (* if this ACKs a crypto packet, we can free it *)
             s ← strm_get (conn w) r;
             let w :=
               with_conn (strm_put r (set_out (filter (fun x => x ≠ b) (out s)) s)) w in
             free_iov w b
           else Some w);
        out_una_loop r l' w
  end.

(** The queue [l] from buffer [b] on. *)
Fixpoint sq_from (b : nat) (l : list nat) : list nat :=
  match l with
  | [] => []
  | x :: l' => if decide (x = b) then l else sq_from b l'
  end.

(** The part of the queue the loop runs over: from [s->out_una] on, or all
    of it when that pointer is null. *)
Definition out_from_una (s : q_stream) : list nat :=
  match out_una s with
  | Some b => sq_from b (out s)
  | None => out s
  end.

(** [on_pkt_acked(v, m)]; [i] is the buffer of both. The [ensure] on the
    RTX chain is the one of the default build; [maybe_api_return] wakes an
    API call and leaves the connection as it is. *)
Definition on_pkt_acked (E : env) (w : world) (i : nat) : option world :=
  m ← metas w !! i;
  t ← m_pn m;
  c ← (if in_flight m && negb (lost m) then on_pkt_acked_cc m (conn w)
       else Some (conn w));
  let c :=
    upd_pn t (fun p => set_acked_or_lost (diet_insert (acked_or_lost p) (nr (hdr m))) p) c in
  w ← pm_by_nr_del t i (set_conn c w);
  (* stop ACK'ing packets contained in the ACK frame of this packet *)
  let w := if has_frm (frms m) FRM_ACK then with_conn (track_acked_pkts E t i) w else w in
  '(w, im) ←
    match rtx m with
    | Some j =>
        if has_rtx m then
          (* this ACKs a pkt that was since (again) RTX'ed *)
          m_rtx ← metas w !! j;
          if bool_decide (rtx_next m_rtx ≠ None) then None
          else if negb (acked m_rtx) then
            (* treat RTX'ed data as ACK'ed; use stand-in w_iov for RTX info *)
            w ← pm_by_nr_del t j w;
            w ← upd_meta i (fun x => set_udp_len (udp_len m_rtx)
                                       (upd_hdr (set_nr (nr (hdr m_rtx))) x)) w;
            w ← upd_meta j (fun x => set_udp_len (udp_len m)
                                       (upd_hdr (set_nr (nr (hdr m))) x)) w;
            w ← pm_by_nr_ins t i w;
            Some (w, j)
          else Some (w, i)
        else Some (w, i)
    | None => Some (w, i)
    end;
  w ← upd_meta im (set_acked true) w;
  m ← metas w !! im;
  match strm m with
  | Some r =>
      if negb (has_rtx m) then
        (* if this ACKs its stream's out_una, move that forward *)
        s ← strm_get (conn w) r;
        w ← out_una_loop r (out_from_una s) w;
        s ← strm_get (conn w) r;
        if (0 <=? s_id s) && bool_decide (out_una s = None)
           && (is_fin m || did_0rtt (conn w))
        then
          (* this ACKs a FIN *)
          Some (with_conn
                  (fun c =>
                     strm_put r
                       (strm_to_state
                          (if decide (sstate s = strm_hcrm) then strm_clsd else strm_hclo)
                          s)
                       (set_have_new_data true c))
                  w)
        else Some w
      else free_iov w im
  | None => free_iov w im
  end.

(** [init_rec]. *)
Definition init_rec (c : q_conn) : q_conn :=
  let cc :=
    {| cwnd := kInitialWindow; ssthresh := UINT_T_MAX; in_flight_bytes := 0;
       srtt := 0; rttvar := 0; latest_rtt := 0; min_rtt := UINT_T_MAX |} in
  upd_rec (fun r => set_prev cc (set_cur cc (set_ld_alarm None r))) c.

(** ** Decoding integers and byte strings (marshall.c is not among the sources)

    Modelled from the spec: "Integer encoding: variable-length 1/2/4/8-byte
    form (tag in top 2 bits)", and byte blobs. A buffer is the list of its
    bytes; a read position is an offset into it ([*pos - v->buf]), and [end]
    is the length of the list. Each decoder yields the value and the new
    position, or [None] when the bytes run out. *)

Definition dec1 (buf : list Z) (pos : Z) : option (Z * Z) :=
  if (0 <=? pos) && (pos + 1 <=? Z.of_nat (length buf)) then
    x ← buf !! Z.to_nat pos; Some (x, pos + 1)
  else None.

Definition decb (buf : list Z) (pos len : Z) : option (list Z * Z) :=
  if (0 <=? pos) && (0 <=? len) && (pos + len <=? Z.of_nat (length buf)) then
    Some (take (Z.to_nat len) (drop (Z.to_nat pos) buf), pos + len)
  else None.

(** Big-endian value of a byte string. *)
Definition be_val (bs : list Z) : Z := fold_left (fun acc b => acc * 256 + b) bs 0.

Definition decv (buf : list Z) (pos : Z) : option (Z * Z) :=
  '(b0, _) ← dec1 buf pos;
  let n := Z.shiftl 1 (Z.shiftr b0 6) in
  '(bs, pos') ← decb buf pos n;
  Some (Z.land (be_val bs) (Z.ones (8 * n - 2)), pos').

(** ** Streams: what stream.c and stream.h provide

    Neither file is among the sources. The functions of frame.c call the
    operations below; the model takes them as a parameter, of which
    [strm_ops_spec] further down is one reading of the specification. *)
Record strm_ops : Type := Build_strm_ops {
  (* [get_stream(c, sid)]: the stream with this id, if it exists *)
  get_stream : q_conn -> Z -> option strm_ref;
  (* [new_stream(c, sid)]: the connection with the new stream *)
  new_stream : q_conn -> Z -> q_conn;
  (* [max_sid(sid, c)]: the largest id allowed for streams of this kind *)
  max_sid : Z -> q_conn -> Z;
  (* [is_srv_ini(sid)] *)
  is_srv_ini : Z -> bool;
  (* [crpt_strm_id(e)] *)
  crpt_strm_id : epoch_t -> Z;
  (* [track_bytes_in(s, n)] *)
  track_bytes_in : strm_ref -> Z -> q_conn -> q_conn;
  (* [do_stream_fc(s, len)] *)
  do_stream_fc : strm_ref -> Z -> q_conn -> q_conn;
  (* the value of a [strm_state_t] enumerator *)
  strm_state_val : strm_state_t -> Z
}.

(** ** frame.c: STREAM and CRYPTO frames *)

(** The result of a frame decoder: the value it returns, the read position
    it leaves, and the state. [None] stands for a crash (a null pointer
    followed, a failed [ensure]). *)
Abbreviation dec_result := (option (bool * Z * world)).

(** [err_close_return(c, code, ...)] inside a decoder at position [pos]. *)
Definition err_close_return (w : world) (pos code frm : Z) (reason : string)
  : dec_result :=
  Some (false, pos, with_conn (fun c => err_close c code frm reason) w).

(** [dec1_chk], [decv_chk], [decb_chk]: on failure, [err_close] with
    [ERR_FRAME_ENC] and [return false]. *)
Definition chk {A : Type} (r : option (A * Z)) (w : world) (pos ty : Z)
    (k : A -> Z -> dec_result) : dec_result :=
  match r with
  | Some (x, pos') => k x pos'
  | None => err_close_return w pos ERR_FRAME_ENC ty "dec in frame.c"
  end.

(** [trim_frame(p)]: [off] is [p->strm->in_data_off]. *)
Definition trim_frame (off : Z) (p : pkt_meta) : pkt_meta :=
  let diff := u64 (off - strm_off p) in
  set_strm_data_len (u16 (strm_data_len p - diff))
    (set_strm_data_pos (u16 (strm_data_pos p + diff))
       (set_strm_off (u64 (strm_off p + diff)) p)).

(** The loop over [m->strm->in_ooo] after in-order data arrived ("check if
    a hole has been filled that lets us dequeue ooo data"); [l] is what is
    left of the tree in ascending order of offset. *)
Fixpoint dequeue_ooo (r : strm_ref) (l : list nat) (w : world) : option world :=
  match l with
  | [] => Some w
  | ip :: l' =>
      p ← metas w !! ip;
      s ← strm_get (conn w) r;
      if u64 (strm_off p + strm_data_len p) <? in_data_off s then
        (* right edge of p < left edge of stream: drop stale frame *)
        dequeue_ooo r l'
          (with_conn (strm_put r (set_in_ooo (filter (fun x => x ≠ ip) (in_ooo s)) s)) w)
      else if in_data_off s <? strm_off p then
        (* also left edge of p > left edge of stream: still a gap *)
        Some w
      else
        (* left edge of p <= left edge of stream: overlap, trim & enqueue *)
        rp ← strm p;
        sp ← strm_get (conn w) rp;
        let p := if strm_off p <? in_data_off sp then trim_frame (in_data_off sp) p else p in
        let s :=
          set_in_ooo (filter (fun x => x ≠ ip) (in_ooo s))
            (set_in_data_off (u64 (in_data_off s + strm_data_len p))
               (set_sin (sin s ++ [ip]) s)) in
        let w := with_conn (strm_put r s) (meta_put ip p w) in
        (* mark ooo crypto data for freeing by rx_crypto() *)
        sp ← strm_get (conn w) rp;
        let w := if s_id sp <? 0 then meta_put ip (set_strm None p) w else w in
        dequeue_ooo r l' w
  end.

(** The first stored out-of-order frame whose right edge is not left of
    [off]. *)
Fixpoint ooo_first_right_of (ms : list pkt_meta) (off : Z) (l : list nat)
  : option (option pkt_meta) :=
  match l with
  | [] => Some None
  | ip :: l' =>
      p ← ms !! ip;
      if u64 (strm_off p + strm_data_len p - 1) <? off
      then ooo_first_right_of ms off l' else Some (Some p)
  end.

(** [splay_insert(ooo_by_off, &s->in_ooo, m)]: the tree is ordered by
    offset; [None] when the offset is taken (the [ensure]). *)
Fixpoint ooo_insert (ms : list pkt_meta) (im : nat) (off : Z) (l : list nat)
  : option (list nat) :=
  match l with
  | [] => Some [im]
  | ip :: l' =>
      p ← ms !! ip;
      if off <? strm_off p then Some (im :: l)
      else if off =? strm_off p then None
      else l'' ← ooo_insert ms im off l'; Some (ip :: l'')
  end.

(** Where control stands when the first part of
    [dec_stream_or_crypto_frame] is over: the function has returned, or it
    has reached the label [done] with the local variable [ignore] and the
    read position [pos]. *)
Inductive at_done : Type :=
  | Returned (r : bool * Z * world)
  | AtDone (ignore : bool) (pos : Z) (w : world).

Section StreamFrame.

Variable ops : strm_ops.

(** [dec_stream_or_crypto_frame] up to the label [done]. [buf] is the
    buffer [v], [pos] the read position, [im] the meta-data [m]. *)
Definition strm_frame_deliver (w : world) (ty : Z) (buf : list Z) (pos : Z)
    (im : nat) : option at_done :=
  m ← metas w !! im;
  match m_pn m with
  | None => Some (Returned (false, pos, w))
  | Some t =>
      let ret (r : dec_result) : option at_done := x ← r; Some (Returned x) in
      let m := set_strm_frm_pos (u16 (u16 pos - 1)) m in
      let w := meta_put im m w in
      (* the stream id and the stream *)
      let hd (k : Z -> pkt_meta -> Z -> option at_done) : option at_done :=
        if ty =? FRM_CRY then
          let e := epoch_for_pkt_type (type (hdr m)) in
          match cstrms (conn w) e with
          | None =>
              ret (err_close_return w pos ERR_STREAM_STATE ty
                     "epoch pkt processing abandoned")
          | Some _ => k (crpt_strm_id ops e) (set_strm (Some (SCrypto e)) m) pos
          end
        else
          let m := set_is_fin (is_set F_STREAM_FIN ty) m in
          match decv buf pos with
          | None =>
              ret (err_close_return (meta_put im m w) pos ERR_FRAME_ENC ty "decv sid")
          | Some (sid, pos) =>
              k (s64 sid) (set_strm (get_stream ops (conn w) (s64 sid)) m) pos
          end in
      hd (fun sid m pos =>
      let w := meta_put im m w in
      (* the offset *)
      let offd : option (Z * Z) :=
        if is_set F_STREAM_OFF ty || (ty =? FRM_CRY) then decv buf pos
        else Some (0, pos) in
      match offd with
      | None => ret (err_close_return w pos ERR_FRAME_ENC ty "decv strm_off")
      | Some (off, pos) =>
      let m := set_strm_off off m in
      let w := meta_put im m w in
      (* the length *)
      let bend := Z.of_nat (length buf) in
      let lend : option (option (Z * Z)) :=
        if is_set F_STREAM_LEN ty || (ty =? FRM_CRY) then
          match decv buf pos with
          | None => None
          | Some (l, pos) => Some (if bend <? pos + l then None else Some (l, pos))
          end
        else Some (Some (u16 (bend - pos), pos)) in
      match lend with
      | None => ret (err_close_return w pos ERR_FRAME_ENC ty "decv l")
      | Some None => ret (err_close_return w pos ERR_FRAME_ENC ty "illegal strm len")
      | Some (Some (l, pos)) =>
      if max_sid ops sid (conn w) <? sid then
        ret (err_close_return w pos ERR_STREAM_ID ty "sid > max")
      else
      let m := set_strm_data_len (u16 l) (set_strm_data_pos (u16 pos) m) in
      let w := meta_put im m w in
      (* deliver data into stream *)
      if (strm_data_len m =? 0) && negb (is_set F_STREAM_FIN ty) then
        Some (AtDone true pos w)
      else
      let have_strm (k : strm_ref -> pkt_meta -> world -> option at_done)
        : option at_done :=
        match strm m with
        | Some r => k r m w
        | None =>
            if diet_find (clsd_strms (conn w)) (u64 sid) then Some (AtDone true pos w)
            else if negb (eqb (is_srv_ini ops sid) (is_clnt (conn w))) then
              ret (err_close_return w pos ERR_STREAM_STATE ty "got sid but am")
            else
              let w := with_conn (fun c => new_stream ops c sid) w in
              let m := set_strm (Some (SData sid)) m in
              k (SData sid) m (meta_put im m w)
        end in
      have_strm (fun r m w =>
      s ← strm_get (conn w) r;
      if (strm_off m <=? in_data_off s)
         && (in_data_off s
             <=? u64 (strm_off m + strm_data_len m
                      - (if strm_data_len m =? 0 then 0 else 1)))
      then
        (* best case: new in-order data *)
        if bool_decide (sstate s = strm_hcrm) || bool_decide (sstate s = strm_clsd)
        then Some (AtDone true pos w)
        else
          (* already-received data at the beginning of the frame, trim *)
          let m := if strm_off m <? in_data_off s then trim_frame (in_data_off s) m else m in
          let w := meta_put im m w in
          let w := with_conn (track_bytes_in ops r (strm_data_len m)) w in
          s ← strm_get (conn w) r;
          let s :=
            set_sin (sin s ++ [im])
              (set_in_data_off (u64 (in_data_off s + strm_data_len m)) s) in
          let w := with_conn (strm_put r s) w in
          (* check if a hole has been filled that lets us dequeue ooo data *)
          w ← dequeue_ooo r (in_ooo s) w;
          (* check if we have delivered a FIN, and act on it if we did *)
          s ← strm_get (conn w) r;
          w ←
            match last (sin s) with
            | None => Some w
            | Some il =>
                m_last ← metas w !! il;
                if is_fin m_last then
                  Some (with_conn
                          (fun c =>
                             strm_put r
                               (strm_to_state
                                  (if strm_state_val ops (sstate s)
                                      <=? strm_state_val ops strm_hcrm
                                   then strm_hcrm else strm_clsd) s)
                               (upd_pn t (set_imm_ack true) c))
                          w)
                else Some w
            end;
          let w :=
            if negb (ty =? FRM_CRY) then
              with_conn
                (fun c => set_have_new_data true (do_conn_fc (do_stream_fc ops r 0 c) 0))
                w
            else w in
          Some (AtDone false pos w)
      else if u64 (strm_off m + strm_data_len m) <=? in_data_off s then
        (* data is a complete duplicate *)
        Some (AtDone true pos w)
      else if bool_decide (sstate s = strm_hcrm) || bool_decide (sstate s = strm_clsd)
      then Some (AtDone true pos w)
      else
        (* data is out of order - check if it overlaps with stored ooo data *)
        p ← ooo_first_right_of (metas w) (strm_off m) (in_ooo s);
        let overlap :=
          match p with
          | Some p => strm_off p <=? u64 (strm_off m + strm_data_len m - 1)
          | None => false
          end in
        if overlap then Some (AtDone true pos w)
        else
          (* this ooo data doesn't overlap with anything *)
          let w := with_conn (track_bytes_in ops r (strm_data_len m)) w in
          s ← strm_get (conn w) r;
          l ← ooo_insert (metas w) im (strm_off m) (in_ooo s);
          Some (AtDone false pos (with_conn (strm_put r (set_in_ooo l s)) w)))
      end end)
  end.

(** [dec_stream_or_crypto_frame] from the label [done] on. *)
Definition strm_frame_done (ignore : bool) (w : world) (ty : Z) (pos : Z)
    (im : nat) : dec_result :=
  m ← metas w !! im;
  over ←
    (match strm m with
     | Some r =>
         s ← strm_get (conn w) r;
         Some (negb (ty =? FRM_CRY)
               && (in_data_max s <? u64 (strm_off m + strm_data_len m)))
     | None => Some false
     end : option bool);
  if (over : bool) then
    err_close_return w pos ERR_FLOW_CONTROL ty "stream off >= in_data_max"
  else
    let m := if ignore then set_strm None m else m in
    (* this indicates to callers that the w_iov was not placed in a stream *)
    Some (true, strm_data_pos m + strm_data_len m, meta_put im m w).

(** [dec_stream_or_crypto_frame(type, pos, end, m, v)]. *)
Definition dec_stream_or_crypto_frame (w : world) (ty : Z) (buf : list Z)
    (pos : Z) (im : nat) : dec_result :=
  d ← strm_frame_deliver w ty buf pos im;
  match d with
  | Returned r => Some r
  | AtDone ignore pos w => strm_frame_done ignore w ty pos im
  end.

End StreamFrame.

(** ** frame.c: ACK frames *)

(** The local variables [got_new_ack] and [lg_ack_in_frm_t] of
    [dec_ack_frame], with the state. *)
Record ack_st : Type := Build_ack_st {
  ack_w : world;
  got_new_ack : bool;
  lg_ack_in_frm_t : Z
}.

(** How one turn of the loop [while (ack_rng >= lg_ack - ack)] ends: at
    [next_ack], at [next_rng], or in a [return]. *)
Inductive ack_turn : Type :=
  | NextAck (st : ack_st)
  | NextRng (st : ack_st)
  | AckReturn (r : bool * Z * world).

(** The body of that loop for the packet number [ack], up to the label
    [next_ack]. [cum_ack] is the upper end of the lowest interval of
    [acked_or_lost] when the frame arrived, [pos] the read position. *)
Definition ack_one (E : env) (ty : Z) (t : pn_t) (cum_ack lg_ack_in_frm ack_delay : Z)
    (pos : Z) (ack : Z) (st : ack_st) : option ack_turn :=
  let w := ack_w st in
  let p := pn_get (conn w) t in
  if negb (cum_ack =? UINT_T_MAX) && (ack <=? cum_ack) then
    (* we can skip the remainder of this range entirely *)
    Some (NextRng st)
  else if diet_find (acked_or_lost p) ack then Some (NextAck st)
  else
    match find_sent_pkt p ack with
    | None =>
        r ← err_close_return w pos ERR_PROTOCOL_VIOLATION ty "got ACK for pkt never sent";
        Some (AckReturn r)
    | Some ia =>
        m_acked ← metas w !! ia;
        '(w, lg_t) ←
          (if ack =? lg_ack_in_frm then
             (* call this only for the largest ACK in the frame *)
             w ← on_ack_received_1 E w ia ack_delay;
             Some (w, m_t m_acked)
           else Some (w, lg_ack_in_frm_t st));
        w ← on_pkt_acked E w ia;
        (* if the ACK'ed pkt was sent with ECT, verify peer and path support *)
        let w :=
          if enable_ecn (conn w) && is_set IPTOS_ECN_ECT0 (sent_flags E ia)
             && negb (ty =? FRM_ACE)
          then with_conn (set_enable_ecn false) w else w in
        Some (NextAck {| ack_w := w; got_new_ack := true; lg_ack_in_frm_t := lg_t |})
    end.

(** The loop [while (ack_rng >= lg_ack - ack)], entered with [ack]; it makes
    at most [ack_rng + 1] turns and tests its condition once more, which is
    what [fuel] must allow. *)
Fixpoint ack_range (E : env) (ty : Z) (t : pn_t) (cum_ack lg_ack_in_frm ack_delay : Z)
    (pos : Z) (lg_ack ack_rng : Z) (fuel : nat) (ack : Z) (st : ack_st)
  : option ack_turn :=
  match fuel with
  | O => None
  | S fuel' =>
      if ack_rng <? u64 (lg_ack - ack) then Some (NextRng st)
      else
        r ← ack_one E ty t cum_ack lg_ack_in_frm ack_delay pos ack st;
        match r with
        | NextAck st =>
            if 0 <? ack then
              ack_range E ty t cum_ack lg_ack_in_frm ack_delay pos lg_ack ack_rng
                fuel' (ack - 1) st
            else Some (NextRng st)
        | other => Some other
        end
  end.

(** The loop [for (n = ack_rng_cnt + 1; n > 0; n--)] over the ranges of the
    frame. Every turn reads at least one byte, so [fuel] needs to be no more
    than the number of bytes left. *)
Fixpoint ack_ranges (E : env) (ty : Z) (t : pn_t) (cum_ack lg_ack_in_frm ack_delay : Z)
    (buf : list Z) (fuel : nat) (n : Z) (lg_ack : Z) (pos : Z) (st : ack_st)
  : option (ack_st * Z + bool * Z * world) :=
  if n <=? 0 then Some (inl (st, pos))
  else
    match fuel with
    | O => None
    | S fuel' =>
        let fail (code : Z) (reason : string) : option (ack_st * Z + bool * Z * world) :=
          r ← err_close_return (ack_w st) pos code ty reason; Some (inr r) in
        match decv buf pos with
        | None => fail ERR_FRAME_ENC "decv ack_rng"%string
        | Some (ack_rng, pos) =>
            let fail (code : Z) (reason : string) : option (ack_st * Z + bool * Z * world) :=
              r ← err_close_return (ack_w st) pos code ty reason; Some (inr r) in
            if Z.shiftl UINT16_MAX 4 <? ack_rng then fail ERR_INTERNAL "ACK rng len"%string
            else if lg_ack <? ack_rng then fail ERR_FRAME_ENC "ACK rng len > lg_ack"%string
            else
              r ← ack_range E ty t cum_ack lg_ack_in_frm ack_delay pos lg_ack ack_rng
                    (S (S (Z.to_nat ack_rng))) lg_ack st;
              match r with
              | AckReturn x => Some (inr x)
              | NextAck st | NextRng st =>
                  if 1 <? n then
                    match decv buf pos with
                    | None =>
                        r ← err_close_return (ack_w st) pos ERR_FRAME_ENC ty "decv gap";
                        Some (inr r)
                    | Some (gap, pos) =>
                        if u64 (lg_ack - ack_rng) <? u64 (gap + 2) then
                          r ← err_close_return (ack_w st) pos ERR_PROTOCOL_VIOLATION ty
                                "illegal ACK frame";
                          Some (inr r)
                        else
                          ack_ranges E ty t cum_ack lg_ack_in_frm ack_delay buf fuel'
                            (n - 1) (u64 (lg_ack - u64 (ack_rng + gap + 2))) pos st
                    end
                  else Some (inl (st, pos))
              end
        end
    end.

(** [dec_ack_frame(type, pos, start, end, m)]; [start] is the beginning of
    [buf]. *)
Definition dec_ack_frame (E : env) (w : world) (ty : Z) (buf : list Z) (pos : Z)
    (im : nat) : dec_result :=
  m ← metas w !! im;
  let w :=
    if ack_frm_pos m =? 0 then meta_put im (set_ack_frm_pos (u16 pos) m) w else w in
  match m_pn m with
  | None => Some (false, pos, w)
  | Some t =>
      chk (decv buf pos) w pos ty (fun lg_ack_in_frm pos =>
      chk (decv buf pos) w pos ty (fun ack_delay_raw pos =>
      (* TODO: figure out a better way to handle huge ACK delays *)
      if UINT32_MAX <? ack_delay_raw then
        err_close_return w pos ERR_FRAME_ENC ty "ACK delay raw"
      else
      (* handshake pkts always use the default ACK delay exponent *)
      let ade :=
        if (type (hdr m) =? LH_INIT) || (type (hdr m) =? LH_HSHK)
        then DEF_ACK_DEL_EXP else ack_del_exp (tp_in (conn w)) in
      let ack_delay := u64 (Z.shiftl ack_delay_raw ade) in
      chk (decv buf pos) w pos ty (fun ack_rng_cnt pos =>
      let cum_ack :=
        match diet_min_ival (acked_or_lost (pn_get (conn w) t)) with
        | Some (_, hi) => hi
        | None => UINT_T_MAX
        end in
      r ← ack_ranges E ty t cum_ack lg_ack_in_frm ack_delay buf (length buf)
            (ack_rng_cnt + 1) lg_ack_in_frm pos
            {| ack_w := w; got_new_ack := false; lg_ack_in_frm_t := 0 |};
      match r with
      | inr x => Some x
      | inl (st, pos) =>
          let fin (w : world) (pos : Z) : dec_result :=
            w ← (if got_new_ack st then on_ack_received_2 E w t else Some w);
            Some (true, pos, with_conn (upd_pn t (set_tx_frames bit_zero)) w) in
          let w := ack_w st in
          if ty =? FRM_ACE then
            (* decode ECN *)
            chk (decv buf pos) w pos ty (fun ect0_cnt pos =>
            chk (decv buf pos) w pos ty (fun ect1_cnt pos =>
            chk (decv buf pos) w pos ty (fun ce_cnt' pos =>
            (* ProcessECN *)
            let w :=
              if ce_cnt (pn_get (conn w) t) <? ce_cnt' then
                with_conn
                  (fun c => congestion_event E (upd_pn t (set_ce_cnt ce_cnt') c)
                              (lg_ack_in_frm_t st))
                  w
              else w in
            fin w pos)))
          else fin w pos
      end)))
  end.

(** ** frame.c: path validation and CONNECTION_CLOSE *)

(** In C an array expression is the address of its first element. The four
    path-validation arrays are consecutive [uint8_t[PATH_CHLG_LEN]] members
    of [struct q_conn] (conn.h); these are their offsets from the first,
    [path_chlg_in]. *)
Definition off_path_chlg_in : Z := 0.
Definition off_path_resp_out : Z := PATH_CHLG_LEN.
Definition off_path_chlg_out : Z := 2 * PATH_CHLG_LEN.
Definition off_path_resp_in : Z := 3 * PATH_CHLG_LEN.

(** [dec_path_challenge_frame]. *)
Definition dec_path_challenge_frame (w : world) (buf : list Z) (pos : Z)
  : dec_result :=
  chk (decb buf pos PATH_CHLG_LEN) w pos FRM_PCL (fun data pos =>
    Some (true, pos,
          with_conn
            (fun c =>
               set_tx_path_resp true
                 (set_needs_tx true (set_path_resp_out data (set_path_chlg_in data c))))
            w)).

(** [dec_path_response_frame]. [base] is the address of [c->path_chlg_in];
    the test [c->path_resp_in != c->path_chlg_out] compares the addresses of
    two arrays. *)
Definition dec_path_response_frame (base : Z) (w : world) (buf : list Z) (pos : Z)
  : dec_result :=
  chk (decb buf pos PATH_CHLG_LEN) w pos FRM_PRP (fun data pos =>
    let w := with_conn (set_path_resp_in data) w in
    if negb (tx_path_chlg (conn w)) then
      (* unexpected PATH_RESPONSE, ignoring *)
      Some (true, pos, w)
    else if negb (base + off_path_resp_in =? base + off_path_chlg_out) then
      (* PATH_RESPONSE != path_chlg_out, ignoring *)
      Some (true, pos, w)
    else
      Some (true, pos,
            with_conn (fun c => set_peer (migr_peer c) (set_tx_path_chlg false c)) w)).

(** [dec_close_frame]. *)
Definition dec_close_frame (w : world) (ty : Z) (buf : list Z) (pos : Z) (im : nat)
  : dec_result :=
  m ← metas w !! im;
  match m_pn m with
  | None => Some (false, pos, w)
  | Some _ =>
      chk (decv buf pos) w pos ty (fun err_code pos =>
      chk (if ty =? FRM_CLQ then decv buf pos else Some (0, pos)) w pos ty
        (fun frame_type pos =>
      chk (decv buf pos) w pos ty (fun reas_len pos =>
      let act_reas_len := u16 (Z.min reas_len (u16 (Z.of_nat (length buf) - pos))) in
      chk (if act_reas_len =? 0 then Some ([], pos) else decb buf pos act_reas_len)
        w pos ty (fun reas_phr pos =>
      if negb (reas_len =? act_reas_len) then
        err_close_return w pos ERR_FRAME_ENC ty "illegal reason len"
      else
        let c := conn w in
        let c :=
          if decide (state c = conn_drng) then set_closing_alarm (Some 0) c
          else if is_clnt c then
            set_closing_alarm (Some 0) (conn_to_state conn_drng c)
          else enter_closing c in
        Some (true, pos, set_conn c w)))))
  end.

(** ** frame.c: connection-level flow-control frames *)

(** [dec_max_data_frame]. *)
Definition dec_max_data_frame (w : world) (buf : list Z) (pos : Z) (im : nat)
  : dec_result :=
  m ← metas w !! im;
  _ ← m_pn m;
  chk (decv buf pos) w pos FRM_MCD (fun max pos =>
    Some (true, pos,
          with_conn
            (fun c =>
               if max_data (tp_out c) <? max then
                 set_blocked false (set_tp_out (set_max_data max (tp_out c)) c)
               else c)
            w)).

(** [dec_data_blocked_frame]. *)
Definition dec_data_blocked_frame (w : world) (buf : list Z) (pos : Z) (im : nat)
  : dec_result :=
  m ← metas w !! im;
  _ ← m_pn m;
  chk (decv buf pos) w pos FRM_CDB (fun off pos =>
    (* because do_conn_fc() only sets this when increasing the FC window *)
    Some (true, pos, with_conn (fun c => set_tx_max_data true (do_conn_fc c 0)) w)).

(** ** frame.c: the frames of a packet *)

(** The frame types allowed in Initial and Handshake packets ([lh_ok]). *)
Definition lh_ok : Z :=
  fold_right (fun t acc => Z.lor (Z.shiftl 1 t) acc) 0
    [FRM_CRY; FRM_ACK; FRM_ACE; FRM_PAD; FRM_CLQ; FRM_CLA].

(** "check that frame type is allowed in this pkt type": whether
    [dec_frames] refuses frame type [ty] in a packet of type [pty]. *)
Definition frame_not_allowed (pty ty : Z) : bool :=
  ((pty =? LH_INIT) || (pty =? LH_HSHK)) && (ty <? FRM_MAX)
  && negb (bit_isset ty lh_ok).

(** [pm_cpy(dst, src, false)]: the members from [pn] on. *)
Definition pm_cpy_from_pn (dst src : pkt_meta) : pkt_meta :=
  {| rtx := rtx dst; rtx_next := rtx_next dst; frms := frms dst; strm := strm dst;
     strm_off := strm_off dst; strm_frm_pos := strm_frm_pos dst;
     strm_data_pos := strm_data_pos dst; strm_data_len := strm_data_len dst;
     ack_frm_pos := ack_frm_pos dst; min_cid_seq := min_cid_seq dst;
     m_pn := m_pn src; hdr := hdr src; m_t := m_t src; udp_len := udp_len src;
     has_rtx := has_rtx src; is_reset := is_reset src; is_fin := is_fin src;
     in_flight := in_flight src; ack_eliciting := ack_eliciting src;
     acked := acked src; lost := lost src; txed := txed src |}.

(** [track_frame(m, ft)]. *)
Definition track_frame (ft : Z) (m : pkt_meta) : pkt_meta :=
  set_frms (bit_set ft (frms m)) m.

Section Frames.

Variable ops : strm_ops.

(** The decoders of the frame types that the model does not embed
    (RESET_STREAM, STOP_SENDING, NEW_TOKEN, flow-control and CID frames):
    type, state, buffer, position and meta-data to a result. *)
Variable dec_other_frame : Z -> world -> list Z -> Z -> nat -> dec_result.

Variable E : env.

(** Address of [c->path_chlg_in]. *)
Variable base : Z.

(** The [switch (type)] of [dec_frames]: the decoder's result and the frame
    type to record. [None] in the second component of the result marks the
    [default] case. *)
Definition dec_frame (w : world) (ty : Z) (buf : list Z) (pos : Z) (im : nat)
  : option (dec_result * Z) :=
  if (ty =? FRM_CRY) || ((FRM_STR <=? ty) && (ty <=? FRM_STR_MAX)) then
    Some (dec_stream_or_crypto_frame ops w ty buf pos im,
          if ty =? FRM_CRY then FRM_CRY else FRM_STR)
  else if (ty =? FRM_ACE) || (ty =? FRM_ACK) then
    (* only enc FRM_ACK in bitstr_t *)
    Some (dec_ack_frame E w ty buf pos im, FRM_ACK)
  else if (ty =? FRM_CLQ) || (ty =? FRM_CLA) then
    Some (dec_close_frame w ty buf pos im, ty)
  else if ty =? FRM_PNG then Some (Some (true, pos, w), ty)
  else if ty =? FRM_PCL then Some (dec_path_challenge_frame w buf pos, ty)
  else if ty =? FRM_PRP then Some (dec_path_response_frame base w buf pos, ty)
  else if (ty =? FRM_RST) || (ty =? FRM_MSD) || (ty =? FRM_MSB) || (ty =? FRM_MSU)
          || (ty =? FRM_MCD) || (ty =? FRM_SDB) || (ty =? FRM_CDB)
          || (ty =? FRM_SBB) || (ty =? FRM_SBU) || (ty =? FRM_STP)
          || (ty =? FRM_CID) || (ty =? FRM_TOK) || (ty =? FRM_RTR)
  then Some (dec_other_frame ty w buf pos im, ty)
  else None.

(** The loop [while (pos < end)] of [dec_frames]. The state carries the
    buffer [v] and the meta-data [m], which change when a packet holds more
    than one STREAM or CRYPTO frame. Every turn reads at least the type
    byte; [fuel] bounds the number of turns. The result is the return value
    together with [*vv], [*mm] and the state. *)
Fixpoint frames_loop (fuel : nat) (w : world) (buf : list Z) (pos : Z) (im : nat)
  : option (bool * list Z * nat * world) :=
  if Z.of_nat (length buf) <=? pos then Some (true, buf, im, w)
  else
    match fuel with
    | O => None
    | S fuel' =>
        let closed (r : dec_result) : option (bool * list Z * nat * world) :=
          '(_, _, w) ← r; Some (false, buf, im, w) in
        match dec1 buf pos with
        | None => closed (err_close_return w pos ERR_FRAME_ENC 0 "dec1 type")
        | Some (ty, pos) =>
            m ← metas w !! im;
            (* special-case for optimized parsing of padding ranges *)
            if ty =? FRM_PAD then
              frames_loop fuel' (meta_put im (track_frame FRM_PAD m) w) buf pos im
            else if frame_not_allowed (type (hdr m)) ty then
              closed (err_close_return w pos ERR_PROTOCOL_VIOLATION ty
                        "frame not allowed in pkt")
            else
              (* a further stream or crypto frame in this packet: continue in
                 a copy of the buffer from the frame's type byte on *)
              let dup :=
                ((ty =? FRM_CRY) || ((FRM_STR <=? ty) && (ty <=? FRM_STR_MAX)))
                && bit_overlap (frms m)
                     (Z.lor (Z.shiftl 1 FRM_CRY) (Z.shiftl 1 FRM_STR))
                && bool_decide (strm m ≠ None) in
              let '(w, buf, pos, im) :=
                if dup then
                  let idup := length (metas w) in
                  (set_metas (metas w ++ [pm_cpy_from_pn meta_zero m]) w,
                   drop (Z.to_nat (u16 (pos - 1))) buf, 1, idup)
                else (w, buf, pos, im) in
              match dec_frame w ty buf pos im with
              | None =>
                  closed (err_close_return w pos ERR_FRAME_ENC ty "unknown frame")
              | Some (r, ty') =>
                  '(ok, pos', w') ← r;
                  if negb ok then
                    (* there was an error parsing a frame *)
                    Some (false, buf, im,
                          with_conn (fun c => err_close c ERR_FRAME_ENC ty'
                                                "error parsing frame") w')
                  else
                    (* record this frame type in the meta data *)
                    w' ← upd_meta im (track_frame ty') w';
                    frames_loop fuel' w' buf pos' im
              end
        end
    end.

(** [dec_frames(c, vv, mm)]: [buf] is the decrypted packet [*vv], [im] its
    meta-data [*mm]. *)
Definition dec_frames (w : world) (buf : list Z) (im : nat)
  : option (bool * list Z * nat * world) :=
  m ← metas w !! im;
  '(ok, buf, im, w) ← frames_loop (length buf) w buf (hdr_len (hdr m)) im;
  if negb ok then Some (false, buf, im, w)
  else
    m ← metas w !! im;
    (* adjust w_iov start and len to stream frame data *)
    let buf :=
      if strm_data_pos m =? 0 then buf
      else take (Z.to_nat (strm_data_len m)) (drop (Z.to_nat (strm_data_pos m)) buf) in
    (* track outstanding frame types in the pn space *)
    Some (true, buf, im,
          with_conn
            (upd_pn (pn_for_pkt_type (type (hdr m)))
               (fun p => set_rx_frames (bit_or (rx_frames p) (frms m)) p))
            w).

End Frames.

(** ** pkt.c: encoding a packet *)

(** [needed_pkt_nr_len]. *)
Definition needed_pkt_nr_len (lg_acked n : Z) : Z :=
  let d := u64 (u64 (n - (if lg_acked =? UINT_T_MAX then 0 else lg_acked)) * 2) in
  if d <=? UINT8_MAX then 1
  else if d <=? UINT16_MAX then 2
  else if d <=? Z.shiftr UINT32_MAX 8 then 3
  else 4.

(** The packet-number field that [enc_pkt] writes: [pnl] bytes with the low
    bits of the number ([enc1(m->hdr.nr & 0xff)], [enc2(... & 0xffff)],
    ...). *)
Definition trunc_pkt_nr (pnl nr : Z) : Z := Z.land nr (Z.ones (8 * pnl)).

(** The packet number [enc_pkt] gives to the next packet of a space, with
    the space's new [lg_sent] (the first statements of [enc_pkt] after the
    choice of the space). *)
Definition enc_pkt_nr (tx_rtry : bool) (p : pn_space) : Z * pn_space :=
  if tx_rtry then (0, p)
  else if lg_sent p =? UINT_T_MAX then
    (* next pkt nr *)
    (0, set_lg_sent 0 p)
  else (u64 (lg_sent p + 1), set_lg_sent (u64 (lg_sent p + 1)) p).

(** [enc_padding_frame(pos, end, m, len)]: the new position and frame set;
    [None] when the [ensure] fails. *)
Definition enc_padding_frame (pos end_ : Z) (fr : Z) (len : Z) : option (Z * Z) :=
  if len =? 0 then Some (pos, fr)
  else if end_ <? pos + len then None
  else Some (pos + len, bit_set FRM_PAD fr).

(** [which_cipher_ctx_out(m, kyph)] (tls.c). *)
Definition which_cipher_ctx_out (p : pn_space) (m : pkt_meta) (kyph : bool)
  : cipher_ctx :=
  let ty := type (hdr m) in
  if (ty =? LH_INIT) || (ty =? LH_RTRY) || (ty =? LH_HSHK) then early_out p
  else if ty =? LH_0RTT then out_0rtt p
  else if kyph && is_set SH_KYPH (flags (hdr m)) then out_1rtt1 p
  else out_1rtt0 p.

(** What enc_pkt obtains from code that the model does not embed: the frame
    encoders of frame.c and pkt.c, each taking the write position (an offset
    into the buffer) to the position after the frame; functions of pn.c,
    stream.h and tls.c; lengths of the connection IDs; the random bits of a
    Retry. *)
Record enc_ops : Type := Build_enc_ops {
  needs_ack : pn_space -> bool;               (* needs_ack(pn) != no_ack *)
  diet_cnt_recv : pn_space -> Z;              (* diet_cnt(&pn->recv) *)
  enc_ack_frame : Z -> nat -> pn_t -> world -> Z * world;
  enc_close_frame : Z -> nat -> world -> Z * world;
  enc_other_frames : Z -> Z -> nat -> world -> Z * world;   (* pos, end *)
  calc_lens_of_stream_or_crypto_frame : nat -> world -> Z * Z;   (* hlen, dlen *)
  enc_stream_or_crypto_frame : Z -> nat -> Z -> world -> Z * world;
  enc_ping_frame : Z -> nat -> world -> Z * world;
  encv_len : Z -> Z;                          (* bytes encv writes for a value *)
  maybe_flip_keys : q_conn -> q_conn;
  abandon_pn : pn_t -> q_conn -> q_conn;
  rtry_rand : Z;                              (* w_rand_uniform32(0x0f) *)
  c_dcid_len : Z;                             (* c->dcid->len *)
  c_scid_len : Z;                             (* c->scid->len *)
  c_odcid_len : Z;                            (* c->odcid.len *)
  v_addr : Z                                  (* the address v->buf *)
}.

Section EncPkt.

(** The length of the AEAD tag ([AEAD_LEN], tls.h is not among the
    sources); [ptls_aead_encrypt] writes the input plus the tag. *)
Variable AEAD_LEN : Z.

Variable ops : enc_ops.
Variable E : env.

(** [xor_hp(xv, m, ctx, pkt_nr_pos, true)], as far as its result goes. *)
Definition xor_hp_ok (m : pkt_meta) (xv_len pkt_nr_pos : Z) : bool :=
  let off := u16 (pkt_nr_pos + MAX_PKT_NR_LEN) in
  let len := u16 (if is_lh (flags (hdr m)) then pkt_nr_pos + h_len (hdr m) else xv_len) in
  negb (len <? off + AEAD_LEN).

(** [enc_aead(v, m, xv, pkt_nr_pos)]: the length of the protected packet,
    0 on failure. *)
Definition enc_aead (p : pn_space) (m : pkt_meta) (v_len pkt_nr_pos : Z) : Z :=
  if negb (aead (which_cipher_ctx_out p m true)) then 0
  else
    let hl := hdr_len (hdr m) in
    let plen := u16 (v_len - hl + AEAD_LEN) in
    let xv_len := u16 (hl + u16 (plen - AEAD_LEN + AEAD_LEN)) in
    if negb (pkt_nr_pos =? 0) && negb (xor_hp_ok m xv_len pkt_nr_pos) then 0
    else xv_len.

(** The header of [enc_pkt]: type and flags by epoch. *)
Definition enc_hdr_type (c : q_conn) (p : pn_space) (epoch : epoch_t) : Z * Z :=
  match epoch with
  | ep_init =>
      let ty := if tx_rtry c then LH_RTRY else LH_INIT in
      (ty, Z.lor (Z.lor LH ty) (if tx_rtry c then u8 (rtry_rand ops) else 0))
  | ep_0rtt => if is_clnt c then (LH_0RTT, Z.lor LH LH_0RTT) else (SH, SH)
  | ep_hshk => (LH_HSHK, Z.lor LH LH_HSHK)
  | ep_data =>
      (SH,
       Z.lor (Z.lor SH (if out_kyph p then SH_KYPH else 0))
         (if spin_enabled c && spin c then SH_SPIN else 0))
  end.

(** [enc_pkt(s, rtx, enc_data, tx_ack_eliciting, v, m)], at the level of
    offsets into the buffer: [epoch] is [strm_epoch(s)], [sid] is [s->id],
    [v_len] is [v->len] (after [adj_iov_to_start]), [im] the meta-data. The
    result is the return value and the state; [None] when an [ensure]
    fails. *)
Definition enc_pkt (w : world) (epoch : epoch_t) (sid : Z)
    (rtx_ enc_data tx_ack_eliciting : bool) (v_len : Z) (im : nat)
  : option (bool * world) :=
  m ← metas w !! im;
  let c := conn w in
  let t := pn_for_epoch epoch in
  let m := set_m_pn (Some t) m in
  let '(n, p) := enc_pkt_nr (tx_rtry c) (pn_get c t) in
  let c := pn_put t p c in
  let m := upd_hdr (set_nr n) m in
  let '(ty, fl) := enc_hdr_type c p epoch in
  let pnl := needed_pkt_nr_len (lg_acked p) n in
  let fl := Z.lor fl (pnl - 1) in
  let m := upd_hdr (fun h => set_flags fl (set_type ty h)) m in
  let end_ := if enc_data then strm_data_pos m else v_len in
  let pos := 1 in
  let '(pos, len_pos, m) :=
    if is_lh fl then
      let m := upd_hdr (fun h => set_scid_len (c_scid_len ops)
                                   (set_dcid_len (c_dcid_len ops) (set_hvers (vers c) h))) m in
      let pos := pos + 4 + (1 + c_dcid_len ops + 1 + c_scid_len ops) in
      let pos := if ty =? LH_RTRY then pos + 1 + c_odcid_len ops else pos in
      let pos := if ty =? LH_INIT
                 then pos + encv_len ops (if is_clnt c then tok_len c else 0) else pos in
      let pos :=
        if ((is_clnt c && (ty =? LH_INIT)) || (ty =? LH_RTRY)) && negb (tok_len c =? 0)
        then pos + tok_len c else pos in
      (* leave space for length field (2 bytes is enough) *)
      if negb (ty =? LH_RTRY) then (pos + 2, Some pos, m) else (pos, None, m)
    else
      let m := upd_hdr (set_dcid_len (c_dcid_len ops)) m in
      (pos + c_dcid_len ops, None, m) in
  (* [pkt_nr_pos] is a null pointer for a Retry *)
  let '(pos, pkt_nr_pos) :=
    if negb (ty =? LH_RTRY) then (pos + pnl, pos) else (pos, - v_addr ops) in
  let m := upd_hdr (set_hdr_len (u16 pos)) m in
  (* sanity check *)
  if DATA_OFFSET + (if is_lh fl then tok_len c + 16 else 0) <=? hdr_len (hdr m) then
    Some (false, set_conn c (meta_put im m w))
  else
  let w := set_conn c (meta_put im m w) in
  st ←
    (if ty =? LH_RTRY then Some (pos, w)
     else
       let '(pos, w) :=
         if needs_ack ops (pn_get (conn w) t) then
           (* FIXME: 8 is an arbitrary value *)
           if negb enc_data || (diet_cnt_recv ops (pn_get (conn w) t) <=? 8)
           then enc_ack_frame ops pos im t w
           else (pos, with_conn (set_ack_alarm (Some 0)) w)
         else (pos, w) in
       let '(pos, w) :=
         if bool_decide (state (conn w) = conn_clsg) then enc_close_frame ops pos im w
         else if bool_decide (epoch = ep_data)
                 || (negb (is_clnt (conn w)) && bool_decide (epoch = ep_0rtt))
         then enc_other_frames ops pos end_ im w
         else (pos, w) in
       '(pos, w) ←
         (if rtx_ then
            (* this is a RTX, pad out until beginning of stream header *)
            m ← metas w !! im;
            '(pos, fr) ← enc_padding_frame pos end_ (frms m)
                           (u16 (strm_frm_pos m - u16 pos));
            Some (strm_data_pos m + strm_data_len m, meta_put im (set_frms fr m) w)
          else if enc_data then
            (* this is a fresh data/crypto or pure stream FIN packet *)
            m ← metas w !! im;
            let '(hlen, dlen) := calc_lens_of_stream_or_crypto_frame ops im w in
            let pos :=
              (* if the stream header would overflow a previous frame, kill all *)
              if strm_data_pos m <=? pos + hlen then hdr_len (hdr m) else pos in
            (* pad out any remaining space before stream header *)
            '(pos, fr) ← enc_padding_frame pos end_ (frms m)
                           (u16 (strm_data_pos m - hlen - u16 pos));
            Some (enc_stream_or_crypto_frame ops pos im dlen
                    (meta_put im (set_frms fr m) w))
          else Some (pos, w));
       let '(pos, w) :=
         if (pos <? MAX_PKT_LEN - AEAD_LEN) && (enc_data || rtx_)
            && (bool_decide (epoch = ep_data)
                || (negb (is_clnt (conn w)) && bool_decide (epoch = ep_0rtt)))
         then
           (* we can try to stick some more frames in after the stream frame *)
           enc_other_frames ops pos (MAX_PKT_LEN - AEAD_LEN) im w
         else (pos, w) in
       '(pos, w) ←
         (if is_clnt (conn w) && enc_data then
            '(pos, w) ←
              (if negb (try_0rtt (conn w)) && (ty =? LH_INIT) then
                 let max_end := MIN_INI_LEN - AEAD_LEN in
                 m ← metas w !! im;
                 '(pos, fr) ← enc_padding_frame pos max_end (frms m) (u16 (max_end - pos));
                 Some (pos, meta_put im (set_frms fr m) w)
               else Some (pos, w));
            if try_0rtt (conn w) && (ty =? LH_0RTT) && (0 <=? sid) then
              (* if we pad the first 0-RTT pkt, peek at txq to get the CI length *)
              let max_end :=
                MIN_INI_LEN - AEAD_LEN - (match txq (conn w) with x :: _ => x | [] => 0 end) in
              m ← metas w !! im;
              '(pos, fr) ← enc_padding_frame pos max_end (frms m) (u16 (max_end - pos));
              Some (pos, meta_put im (set_frms fr m) w)
            else Some (pos, w)
          else Some (pos, w));
       m ← metas w !! im;
       let m := set_ack_eliciting (is_ack_eliciting (frms m)) m in
       let w := meta_put im m w in
       let '(pos, w) :=
         if tx_ack_eliciting && negb (ack_eliciting m) && (ty =? SH) then
           let '(pos, w) := enc_ping_frame ops pos im w in
           (pos, default w (upd_meta im (set_ack_eliciting true) w))
         else (pos, w) in
       (* gotta send something, anything *)
       Some (if pos =? hdr_len (hdr m) then enc_ack_frame ops pos im t w else (pos, w)));
  let '(pos, w) := st in
  (* tx: make sure we have enough frame bytes for the header protection sample *)
  m ← metas w !! im;
  let pnp_dist := u16 (pos - pkt_nr_pos) in
  '(pos, fr) ← (if pnp_dist <? 4 then enc_padding_frame pos end_ (frms m) (4 - pnp_dist)
                else Some (pos, frms m));
  (* for LH pkts, now encode the length *)
  let m := upd_hdr (set_h_len (u16 (u16 (pos - pkt_nr_pos) + AEAD_LEN))) (set_frms fr m) in
  let v_len := u16 pos in
  let xv_len :=
    if ty =? LH_RTRY then v_len
    else enc_aead (pn_get (conn w) t) m v_len (if ty =? LH_RTRY then 0 else pkt_nr_pos) in
  if negb (ty =? LH_RTRY) && (xv_len =? 0) then Some (false, meta_put im m w)
  else
    let m := set_udp_len xv_len m in
    let w := meta_put im m w in
    let w :=
      with_conn (fun c => set_out_data (u64 (out_data c + xv_len))
                            (set_txq (txq c ++ [xv_len]) c)) w in
    w ←
      (if rtx_ && lost m then
         (* we did an RTX and this is no longer lost *)
         r ← strm m;
         s ← strm_get (conn w) r;
         Some (with_conn (strm_put r (set_lost_cnt (u64 (lost_cnt s - 1)) s))
                 (meta_put im (set_lost false m) w))
       else Some w);
    w ← on_pkt_sent E w im;
    m ← metas w !! im;
    let w := with_conn (upd_pn t (fun p => set_tx_frames (bit_or (tx_frames p) (frms m)) p)) w in
    let w :=
      if is_clnt (conn w) then
        let w := if negb (is_lh fl) then with_conn (maybe_flip_keys ops) w else w in
        if (ty =? LH_HSHK) && bool_decide (cstrms (conn w) ep_init ≠ None)
        then with_conn (abandon_pn ops pn_init) w else w
      else w in
    Some (true, w).

End EncPkt.

(** ** pn.c: resetting a packet-number space

    pn.c is not among the sources.
    Modelled from the spec: when the handshake is restarted the endpoint is
    "resetting all pn spaces"; a reset space is like a fresh one, with
    nothing sent, received, acknowledged or lost. [lg_sent] and [lg_acked]
    of such a space are [UINT_T_MAX], the value that [enc_pkt] and
    [on_ack_received_1] test for. *)
Definition reset_pn (p : pn_space) : pn_space :=
  set_lg_sent UINT_T_MAX
    (set_lg_acked UINT_T_MAX
       (set_loss_t 0
          (set_imm_ack false
             (set_sent_pkts []
                (set_recv ∅
                   (set_recv_all ∅
                      (set_acked_or_lost ∅
                         (set_ect0_cnt 0
                            (set_ect1_cnt 0
                               (set_ce_cnt 0
                                  (set_pkts_rxed_since_last_ack_tx 0
                                     (set_tx_frames 0 (set_rx_frames 0 p))))))))))))).

(** ** conn.c and pkt.c: receiving a packet *)

(** What the RX path obtains from code that the model does not embed: the
    stream, CID, TLS and transport-parameter code, the list of supported
    versions, and the local port. *)
Record rx_ops : Type := Build_rx_ops {
  reset_stream : q_stream -> bool -> q_stream;   (* reset_stream(s, forget) *)
  reset_cids : q_conn -> q_conn;                 (* free_cids, new_cids *)
  restart_tls : q_conn -> q_conn;                (* init_tls, tls_io *)
  sport_is_4434 : bool;                          (* bswap16(get_sport(ws)) == 4434 *)
  verify_rtry_tok : q_conn -> list Z -> Z -> bool;
  make_rtry_tok : q_conn -> q_conn;
  update_act_scid : q_conn -> q_conn;
  init_tp : q_conn -> q_conn;
  ok_vers0 : Z;                                  (* ok_vers[0] *)
  is_vneg_vers : Z -> bool;
  is_draft_vers : Z -> bool;
  flip_keys : q_conn -> q_conn;                  (* flip_keys(c, false) *)
  rx_abandon_pn : pn_t -> q_conn -> q_conn;      (* abandon_pn *)
  rx_crypto : world -> nat -> world              (* rx_crypto(c, m) *)
}.

(** What is known of one received packet besides its bytes: results of the
    header protection and AEAD of the TLS library, of lookups in the tables
    of the endpoint, and of comparisons of addresses and CIDs. *)
Record rx_in : Type := Build_rx_in {
  xv_len : Z;                (* xv->len, the datagram *)
  xv_flags : Z;              (* xv->flags, the ECN bits *)
  hp_unmasked : option (Z * Z);
       (* xor_hp: the first byte and the truncated packet number, unmasked;
          None when the mask cannot be computed *)
  aead_ok : bool;            (* dec_aead succeeds *)
  srt_hit : bool;            (* get_conn_by_srt on the last bytes finds a
                                connection, and it is this one *)
  from_peer : bool;          (* v->addr is c->peer *)
  from_migr_peer : bool;     (* v->addr is c->migr_peer *)
  v_addr_in : sockaddr;      (* v->addr *)
  fresh_chlg : list Z;       (* what rand_bytes puts in path_chlg_out *)
  outer_dcid_empty : bool;   (* outer_dcid.len == 0 *)
  outer_dcid_differs : bool; (* cid_cmp(&outer_dcid, &m->hdr.dcid) != 0 *)
  rx_tok : list Z;
  rx_tok_len : Z;
  rx_scid_ok : bool;         (* vneg: the rx'ed scid is our dcid *)
  rxed_dcid_ok : bool;       (* vneg: the rx'ed dcid is empty or our scid *)
  try_vers : Z               (* clnt_vneg(...) *)
}.

(** [vneg_or_rtry_resp(c, is_vneg)]. *)
Definition vneg_or_rtry_resp (R : rx_ops) (c : q_conn) (is_vneg : bool) : q_conn :=
  (* reset FC state *)
  let c := set_out_data_str 0 (set_in_data_str 0 c) in
  let c :=
    set_cstrms (fun e => (fun s => reset_stream R s true) <$> cstrms c e) c in
  let c := set_strms_by_id ((fun s => reset_stream R s false) <$> strms_by_id c) c in
  (* reset packet number spaces *)
  let c :=
    set_pns {| pns_init := reset_pn (pns_init (pns c));
               pns_hshk := reset_pn (pns_hshk (pns c));
               pns_data := reset_pn (pns_data (pns c)) |} c in
  (* reset CIDs *)
  let c := if is_vneg then reset_cids R c else c in
  (* reset CC state *)
  let c := init_rec c in
  (* reset TLS state and create new CH *)
  let should_try_0rtt := try_0rtt c in
  set_try_0rtt should_try_0rtt (restart_tls R c).

(** [is_srt(xv, m)]: whether a connection is returned; that connection
    moves to draining. *)
Definition is_srt (I : rx_in) (w : world) (im : nat) : option (bool * world) :=
  m ← metas w !! im;
  if negb (Z.land (flags (hdr m)) LH =? HEAD_FIXD) || (xv_len I <? MIN_SRT_PKT_LEN)
  then Some (false, w)
  else if srt_hit I && negb (bool_decide (state (conn w) = conn_drng)) then
    Some (true,
          with_conn (fun c => enter_closing (conn_to_state conn_drng c))
            (meta_put im (set_is_reset true m) w))
  else Some (false, w).

(** [which_cipher_ctx_in(c, m, kyph)]: the space it stores in [m->pn], and
    the context. *)
Definition which_cipher_ctx_in (c : q_conn) (m : pkt_meta) (kyph : bool)
  : pn_t * cipher_ctx :=
  let ty := type (hdr m) in
  if (ty =? LH_INIT) || (ty =? LH_RTRY) then (pn_init, early_in (pn_get c pn_init))
  else if ty =? LH_0RTT then (pn_data, in_0rtt (pn_get c pn_data))
  else if ty =? LH_HSHK then (pn_hshk, early_in (pn_get c pn_hshk))
  else (pn_data,
        if kyph && is_set SH_KYPH (flags (hdr m)) then in_1rtt1 (pn_get c pn_data)
        else in_1rtt0 (pn_get c pn_data)).

(** The packet number of [undo_hp]: from the truncated number [tnr] of
    [pnl] bytes and the largest number received. *)
Definition full_pkt_nr (p : pn_space) (pnl tnr : Z) : Z :=
  let expected_pn := u64 (diet_max (recv p) + 1) in
  let pn_win := Z.shiftl 1 (pnl * 8) in
  let pn_hwin := pn_win / 2 in
  let pn_mask := pn_win - 1 in
  let n := Z.lor tnr (Z.land expected_pn (u64 (Z.lnot pn_mask))) in
  if u64 (n + pn_hwin) <=? expected_pn then u64 (n + pn_win)
  else if (u64 (expected_pn + pn_hwin) <? n) && (pn_win <? n) then u64 (n - pn_win)
  else n.

(** What [%02x] prints for a [uint8_t], and the formatted reason
    ["reserved %s bits are 0x%02x (= non-zero)"] of [dec_pkt_hdr_remainder]. *)
Definition hex_digit (d : Z) : string :=
  String.substring (Z.to_nat d) 1 "0123456789abcdef".

Definition fmt_02x (b : Z) : string :=
  String.append (hex_digit (b / 16)) (hex_digit (b mod 16)).

Definition rsvd_reason (lh : bool) (rsvd_bits : Z) : string :=
  String.append "reserved "
    (String.append (if lh then "LH" else "SH")
       (String.append " bits are 0x"
          (String.append (fmt_02x rsvd_bits) " (= non-zero)"))).

Section RxPkt.

Variable R : rx_ops.

(** [dec_frames], with the buffer it parses fixed: the state and the
    meta-data to the return value, [*mm] and the state. *)
Variable dec_frames_of : world -> nat -> option (bool * nat * world).

(** [undo_hp(xv, m, ctx)]; the length test of [xor_hp] and the unmasking
    are in [hp_unmasked]. *)
Definition undo_hp (I : rx_in) (w : world) (im : nat) : option (bool * world) :=
  m ← metas w !! im;
  match hp_unmasked I with
  | None => Some (false, w)
  | Some (fl, tnr) =>
      let m := upd_hdr (fun h => set_type (pkt_type fl) (set_flags fl h)) m in
      let pnl := pkt_nr_len fl in
      let p := pn_get (conn w) (pn_for_pkt_type (type (hdr m))) in
      let m :=
        upd_hdr (fun h => set_nr (full_pkt_nr p pnl tnr)
                            (set_hdr_len (u16 (hdr_len h + pnl)) h)) m in
      Some (true, meta_put im m w)
  end.

(** [dec_pkt_hdr_remainder(xv, v, m, c, x, decoal)]: the return value,
    [*decoal] and the state; the packet split off a coalesced datagram goes
    back to the queue [x], which the model leaves to the caller. *)
Definition dec_pkt_hdr_remainder (I : rx_in) (w : world) (im : nat)
  : option (bool * bool * world) :=
  let srt (decoal : bool) (w : world) : option (bool * bool * world) :=
    '(r, w) ← is_srt I w im; Some (r, decoal, w) in
  m ← metas w !! im;
  let '(t, ctx) := which_cipher_ctx_in (conn w) m false in
  let w := meta_put im (set_m_pn (Some t) m) w in
  if negb (header_protection ctx) then Some (false, false, w)
  else
    (* we can now undo the packet protection *)
    '(ok, w) ← undo_hp I w im;
    if negb (ok : bool) then srt false w
    else
      m ← metas w !! im;
      let fl := flags (hdr m) in
      (* we can now try and decrypt the packet *)
      let pnd := pn_get (conn w) pn_data in
      let w :=
        if negb (is_lh fl) && negb (eqb (is_set SH_KYPH fl) (in_kyph pnd)) then
          if eqb (out_kyph pnd) (in_kyph pnd) then
            (* this is a peer-initiated key phase flip *)
            with_conn (flip_keys R) w
          else
            (* the peer switched to a key phase that we flipped *)
            with_conn (upd_pn pn_data (fun p => set_in_kyph (out_kyph p) p)) w
        else w in
      let '(t, ctx) := which_cipher_ctx_in (conn w) m true in
      let m := set_m_pn (Some t) m in
      let w := meta_put im m w in
      if negb (aead ctx) then srt false w
      else
        let pkt_len :=
          u16 (if is_lh fl then hdr_len (hdr m) + h_len (hdr m) - pkt_nr_len fl
               else xv_len I) in
        if negb (aead_ok I) || (hdr_len (hdr m) =? 0) || (pkt_len <? hdr_len (hdr m))
        then srt false w
        else
          let rsvd_bits := Z.land fl (if is_lh fl then LH_RSVD_MASK else SH_RSVD_MASK) in
          if negb (rsvd_bits =? 0) then
            Some (false, false,
                  with_conn (fun c => err_close c ERR_PROTOCOL_VIOLATION 0
                                        (rsvd_reason (is_lh fl) rsvd_bits)) w)
          else
            let '(w, decoal) :=
              if is_lh fl then
                (* check for coalesced packet *)
                if pkt_len <? xv_len I
                then (meta_put im (set_udp_len pkt_len m) w, true)
                else (w, false)
              else
                (* check if a key phase flip has been verified *)
                let v_kyph := is_set SH_KYPH fl in
                let w :=
                  with_conn (upd_pn pn_data (fun p =>
                    if negb (eqb v_kyph (in_kyph p)) then set_in_kyph v_kyph p else p)) w in
                let c := conn w in
                let w :=
                  if spin_enabled c
                     && (diet_max (recv_all (pn_get c pn_data)) <? nr (hdr m))
                  then
                    (* short header, spin the bit *)
                    with_conn (set_spin (eqb (is_set SH_SPIN fl) (negb (is_clnt c)))) w
                  else w in
                (w, false) in
            let w :=
              if negb (is_clnt (conn w)) && (type (hdr m) =? LH_HSHK)
                 && bool_decide (cstrms (conn w) ep_init ≠ None)
              then
                (* server can assume path is validated *)
                with_conn (fun c => set_path_val_win UINT_T_MAX (rx_abandon_pn R pn_init c)) w
              else w in
            (* packet protection verified OK *)
            if diet_find (recv_all (pn_get (conn w) (pn_for_pkt_type (type (hdr m)))))
                 (nr (hdr m))
            then srt decoal w
            else
              (* check if we need to send an immediate ACK *)
              let p := pn_get (conn w) t in
              let w :=
                if (negb (diet_empty (recv_all p)) && (nr (hdr m) <? diet_max (recv_all p)))
                   || (Z.land (xv_flags I) IPTOS_ECN_MASK =? IPTOS_ECN_CE)
                then with_conn (upd_pn t (set_imm_ack true)) w
                else w in
              Some (true, decoal, w).

(** [rx_pkt(ws, v, m, x, odcid, tok, tok_len)]: the return value, the
    meta-data that [dec_frames] left in [m], and the state. *)
Definition rx_pkt (I : rx_in) (w : world) (im : nat) : option (bool * nat * world) :=
  m ← metas w !! im;
  let w := with_conn (fun c => set_in_data (u64 (in_data c + udp_len m)) c) w in
  let c := conn w in
  let fail (w : world) : option (bool * nat * world) := Some (false, im, w) in
  (* what follows the label done when ok is set *)
  let done (w : world) (im : nat) : option (bool * nat * world) :=
    m ← metas w !! im;
    let w :=
      if negb (nr (hdr m) =? UINT_T_MAX) then
        let ecn := Z.land (xv_flags I) IPTOS_ECN_MASK in
        with_conn
          (upd_pn (pn_for_pkt_type (type (hdr m))) (fun p =>
             let p :=
               if ecn =? IPTOS_ECN_ECT1 then set_ect1_cnt (u64 (ect1_cnt p + 1)) p
               else if ecn =? IPTOS_ECN_ECT0 then set_ect0_cnt (u64 (ect0_cnt p + 1)) p
               else if ecn =? IPTOS_ECN_CE then set_ce_cnt (u64 (ce_cnt p + 1)) p
               else p in
             set_pkts_rxed_since_last_ack_tx (u64 (pkts_rxed_since_last_ack_tx p + 1)) p))
          w
      else w in
    Some (true, im, w) in
  let frames (w : world) (k : world -> nat -> option (bool * nat * world))
    : option (bool * nat * world) :=
    '(ok, im, w) ← dec_frames_of w im;
    if negb ok then Some (false, im, w) else k w im in
  match state c with
  | conn_idle =>
      (* this is a new connection *)
      let w := with_conn (set_vers (hvers (hdr m))) w in
      let start (w : world) : option (bool * nat * world) :=
        frames w (fun w im =>
          m ← metas w !! im;
          (* if the CH doesn't include any crypto frames, bail *)
          if negb (has_frm (frms m) FRM_CRY) then
            Some (false, im, with_conn enter_closing w)
          else
            let w :=
              with_conn
                (fun c =>
                   (* server picks a new random cid *)
                   update_act_scid R
                     (* server limits response to 3x incoming pkt *)
                     (set_path_val_win (u64 (3 * udp_len m))
                        (conn_to_state conn_opng (init_tp R c))))
                w in
            done w im) in
      (* TODO: remove this interop hack eventually *)
      if sport_is_4434 R then
        if (type (hdr m) =? LH_INIT) && negb (rx_tok_len I =? 0) then
          if negb (verify_rtry_tok R (conn w) (rx_tok I) (rx_tok_len I))
          then fail (with_conn enter_closing w)
          else start w
        else if tx_rtry (conn w) then fail w
        else
          (* send a RETRY *)
          done
            (with_conn
               (fun c => update_act_scid R
                           (set_tx_rtry true (set_needs_tx true (make_rtry_tok R c))))
               w)
            im
      else start w
  | conn_opng =>
      (* this state is currently only in effect on the client *)
      if hvers (hdr m) =? 0 then
        (* this is a vneg pkt *)
        let m := upd_hdr (set_nr UINT_T_MAX) m in
        let w := meta_put im m w in
        if negb (vers c =? ok_vers0 R) then
          (* we must have already reacted to a prior vneg pkt *)
          fail w
        else if negb (rx_scid_ok I) || negb (rxed_dcid_ok I) then
          fail (with_conn enter_closing w)
        else if negb (is_vneg_vers R (vers c)) && negb (is_draft_vers R (vers c)) then
          fail (with_conn (fun c => err_close c ERR_PROTOCOL_VIOLATION 0
                                      "must not vneg for tx vers") w)
        else if try_vers I =? 0 then
          (* no version in common with serv *)
          fail (with_conn enter_closing w)
        else
          done (with_conn (fun c => set_vers (try_vers I) (vneg_or_rtry_resp R c true)) w) im
      else if negb (hvers (hdr m) =? vers c) then fail w
      else if type (hdr m) =? LH_RTRY then
        let m := upd_hdr (set_nr UINT_T_MAX) m in
        let w := meta_put im m w in
        if negb (tok_len c =? 0) then
          (* we already had an earlier RETRY on this connection *)
          fail w
        else
          (* handle an incoming retry packet *)
          done
            (with_conn
               (fun c => vneg_or_rtry_resp R
                           (set_tok (rx_tok I) (set_tok_len (rx_tok_len I) c)) false)
               w)
            im
      else
        (* server accepted version -
           if we get here, this should be a regular server-hello *)
        frames w done
  | conn_estb | conn_qlse | conn_clsg | conn_drng =>
      if is_lh (flags (hdr m)) && (hvers (hdr m) =? 0) then
        (* we shouldn't get another vneg packet here, ignore *)
        fail w
      else if negb (did_0rtt c) && (type (hdr m) =? LH_0RTT) then
        (* ignore 0-RTT packets if we're not doing 0-RTT *)
        fail w
      else frames w done
  | conn_clsd => fail w
  end.


End RxPkt.

(** ** Zero-initialised structures

    [new_conn] obtains the connection with [calloc]; the values below are
    the all-zero structures, from which the examples are built. *)

Definition ctx_zero : cipher_ctx := {| aead := false; header_protection := false |}.

Definition cc_zero : cc_state :=
  {| cwnd := 0; ssthresh := 0; in_flight_bytes := 0; srtt := 0; rttvar := 0;
     latest_rtt := 0; min_rtt := 0 |}.

Definition rec_zero : recovery :=
  {| cur := cc_zero; prev := cc_zero; ld_alarm := None; ld_alarm_val := 0;
     rec_start_t := 0; ae_in_flight := 0; crypto_cnt := 0; pto_cnt := 0;
     last_sent_crypto_t := 0; last_sent_ack_elicit_t := 0 |}.

Definition pn_zero : pn_space :=
  {| lg_sent := 0; lg_acked := 0; loss_t := 0; abandoned := false;
     imm_ack := false; sent_pkts := []; recv := ∅; recv_all := ∅;
     acked_or_lost := ∅; ect0_cnt := 0; ect1_cnt := 0; ce_cnt := 0;
     pkts_rxed_since_last_ack_tx := 0; tx_frames := 0; rx_frames := 0;
     in_kyph := false; out_kyph := false; early_in := ctx_zero;
     early_out := ctx_zero; in_0rtt := ctx_zero; out_0rtt := ctx_zero;
     in_1rtt0 := ctx_zero; in_1rtt1 := ctx_zero; out_1rtt0 := ctx_zero;
     out_1rtt1 := ctx_zero |}.

Definition tp_zero : transport_params :=
  {| max_data := 0; max_ack_del := 0; ack_del_exp := 0 |}.

Definition strm_zero : q_stream :=
  {| s_id := 0; sstate := strm_idle; in_data_max := 0; in_data_off := 0;
     s_in_data := 0; lost_cnt := 0; sin := []; in_ooo := []; s_blocked := false;
     tx_max_strm_data := false; out := []; out_una := None |}.

Definition conn_zero : q_conn :=
  {| is_clnt := false; needs_tx := false; tx_max_data := false;
     blocked := false; try_0rtt := false; did_0rtt := false;
     tx_path_resp := false; tx_path_chlg := false; tx_rtry := false;
     have_new_data := false; spin_enabled := false; spin := false;
     no_wnd := false; state := conn_clsd; tx_w := None; vers := 0;
     pns := {| pns_init := pn_zero; pns_hshk := pn_zero; pns_data := pn_zero |};
     idle_alarm := None; closing_alarm := None; key_flip_alarm := None;
     ack_alarm := None; peer := 0; migr_peer := 0; cstrms := fun _ => None;
     strms_by_id := ∅; clsd_strms := ∅; tp_in := tp_zero; tp_out := tp_zero;
     rec := rec_zero; in_data_str := 0; out_data_str := 0; path_val_win := 0;
     in_data := 0; out_data := 0;
     path_chlg_in := replicate 8 0; path_resp_out := replicate 8 0;
     path_chlg_out := replicate 8 0; path_resp_in := replicate 8 0;
     enable_ecn := false; max_cid_seq_out := 0; txq := []; pkts_out_lost := 0;
     err_code := 0; err_frm := 0; err_reason_len := 0; err_reason := "";
     tok_len := 0; tok := []; tx_limit := 0 |}.

(** ** The RTT estimator in the words of the specification

    "On the first sample, srtt := latest_rtt, rttvar := latest_rtt/2.
    Subsequently: rttvar := 3 rttvar/4 + |srtt - adj_rtt|/4;
    srtt := 7 srtt/8 + adj_rtt/8, where adj_rtt = latest_rtt -
    min(peer_ack_delay, peer_max_ack_delay) when that difference is
    positive, else latest_rtt." The delay [d] is the minimum, in the unit of
    the RTT values. *)
Definition adj_rtt_spec (latest d : Z) : Z :=
  if 0 <? latest - d then latest - d else latest.

Definition srtt_spec (first : bool) (srtt0 latest d : Z) : Z :=
  if first then latest else 7 * srtt0 / 8 + adj_rtt_spec latest d / 8.

Definition rttvar_spec (first : bool) (srtt0 rttvar0 latest d : Z) : Z :=
  if first then latest / 2
  else 3 * rttvar0 / 4 + Z.abs (srtt0 - adj_rtt_spec latest d) / 4.

(** ** Example connections *)

(** A connection with RTT samples behind it: [srtt] 10 ms, [rttvar] 5 ms, a
    minimum of 10 ms, a latest sample of 12 ms, and a peer [max_ack_delay]
    of 25 ms. *)
Definition rtt_ex : q_conn :=
  set_tp_out {| max_data := 0; max_ack_del := 25; ack_del_exp := 3 |}
    (upd_cur (fun _ =>
       {| cwnd := 12000; ssthresh := UINT_T_MAX; in_flight_bytes := 0;
          srtt := 10000000; rttvar := 5000000; latest_rtt := 12000000;
          min_rtt := 10000000 |}) conn_zero).

(** An established connection on which an error is recorded already and
    which has since moved to draining (a client that received the peer's
    CONNECTION_CLOSE after its own [err_close]). *)
Definition drng_ex : q_conn :=
  set_err_code ERR_FRAME_ENC
    (set_err_frm FRM_ACK (set_err_reason "illegal ACK frame"
       (set_is_clnt true (conn_to_state conn_drng conn_zero)))).

(** An established connection without a recorded error. *)
Definition estb_ex : q_conn :=
  set_idle_alarm (Some 3000) (conn_to_state conn_estb conn_zero).

(** An established connection that probes a new path: a PATH_CHALLENGE with
    data 1..8 is outstanding towards address 2, the peer is at address 1. *)
Definition migr_ex : q_conn :=
  set_tx_path_chlg true
    (set_path_chlg_out [1; 2; 3; 4; 5; 6; 7; 8]
       (set_migr_peer 2 (set_peer 1 (conn_to_state conn_estb conn_zero)))).

(** ** Operations and surroundings of the examples *)

(** Modelled from the spec: streams. A stream is "identified by a 62-bit
    signed stream-id whose two low bits encode initiator (client/server)
    and directionality"; "negative ids denote internal crypto streams (one
    per epoch)"; data streams are in "a map of data streams by id". A new
    stream is open and may receive [tp_in.max_data] bytes. Received bytes
    are counted in the stream and, for data streams, in the aggregate
    [in_data_str]; "receiver raises in_data_max to 2x the current value"
    once more than half of it is used, which "triggers MAX_STREAM_DATA". The
    ceiling on stream ids is the largest 62-bit id in these examples. *)
Definition strm_ops_ex : strm_ops :=
  {| get_stream := fun c sid =>
       match strms_by_id c !! sid with Some _ => Some (SData sid) | None => None end;
     new_stream := fun c sid =>
       set_strms_by_id
         (<[sid := set_in_data_max (max_data (tp_in c))
                     (set_sstate strm_open (set_s_id sid strm_zero))]> (strms_by_id c)) c;
     max_sid := fun _ _ => 2 ^ 62 - 1;
     is_srv_ini := fun sid => Z.land sid 1 =? 1;
     crpt_strm_id := fun e =>
       match e with ep_init => -1 | ep_0rtt => -2 | ep_hshk => -3 | ep_data => -4 end;
     track_bytes_in := fun r n c =>
       match strm_get c r with
       | None => c
       | Some s =>
           let c := if 0 <=? s_id s then set_in_data_str (u64 (in_data_str c + n)) c else c in
           strm_put r (set_s_in_data (u64 (s_in_data s + n)) s) c
       end;
     do_stream_fc := fun r len c =>
       match strm_get c r with
       | None => c
       | Some s =>
           if in_data_max s <? u64 (2 * u64 (s_in_data s + len)) then
             set_needs_tx true
               (strm_put r (set_tx_max_strm_data true
                              (set_in_data_max (u64 (2 * in_data_max s)) s)) c)
           else c
       end;
     strm_state_val := fun s =>
       match s with
       | strm_idle => 0 | strm_open => 1 | strm_hcrm => 2 | strm_hclo => 3
       | strm_clsd => 4
       end |}.

(** For packets that hold no frame of the types whose decoders the model
    does not embed: a decoder that fails. *)
Definition no_other_frames (ty : Z) (w : world) (buf : list Z) (pos : Z) (im : nat)
  : dec_result :=
  Some (false, pos, w).

(** One second after the start of the clock, the largest packet size, and
    sent packets without ACK frames and ECN marks. *)
Definition env_ex : env :=
  {| now := 1000000000; mtu := MAX_PKT_LEN; sent_ack_rngs := fun _ => [];
     sent_flags := fun _ => 0 |}.

(** A server with an established connection that accepted 0-RTT; it has
    sent packet 0 of the data space, which has been acknowledged. *)
Definition srv_0rtt_ex : q_conn :=
  upd_pn pn_data
    (fun p => set_acked_or_lost {[ 0 ]} (set_lg_acked 0 (set_lg_sent 0 p)))
    (set_did_0rtt true (conn_to_state conn_estb conn_zero)).

(** A 0-RTT packet, number 1, decrypted: 14 bytes of long header (version
    0xff000017, a 4-byte dcid, no scid, a 2-byte length, a 1-byte packet
    number), then an ACK frame (largest 0, delay 0, no further range, first
    range 0) and a PING frame. *)
Definition zero_rtt_ack_pkt : list Z :=
  [0xd0; 0xff; 0x00; 0x00; 0x17; 0x04; 0xa1; 0xa2; 0xa3; 0xa4; 0x00; 0x40; 0x17; 0x01;
   0x02; 0x00; 0x00; 0x00; 0x00;
   0x01].

(** Its meta-data after the header is decoded. *)
Definition zero_rtt_ack_meta : pkt_meta :=
  set_udp_len 36
    (set_m_pn (Some pn_data)
       (upd_hdr (fun h =>
          set_type LH_0RTT (set_flags 0xd0 (set_hvers 0xff000017
            (set_hdr_len 14 (set_nr 1 (set_h_len 23 (set_dcid_len 4 h)))))))
          meta_zero)).

Definition zero_rtt_ack_ex : world :=
  {| metas := [zero_rtt_ack_meta]; conn := srv_0rtt_ex |}.

(** [dec_frames] on the packet [buf], as [rx_pkt] calls it. *)
Definition dec_frames_ex (buf : list Z) (w : world) (im : nat)
  : option (bool * nat * world) :=
  '(ok, _, im, w) ← dec_frames strm_ops_ex no_other_frames env_ex 0 w buf im;
  Some (ok, im, w).

(** The surroundings of the RX path in the examples: an endpoint that is
    not on port 4434 and supports version 0xff000017, tokens that verify,
    and connections whose streams hold no data, so that resetting a stream
    and restarting TLS leave the members of the model as they are. *)
Definition rx_ops_ex : rx_ops :=
  {| reset_stream := fun s _ => s;
     reset_cids := fun c => c;
     restart_tls := fun c => c;
     sport_is_4434 := false;
     verify_rtry_tok := fun _ _ _ => true;
     make_rtry_tok := fun c => c;
     update_act_scid := fun c => c;
     init_tp := fun c => c;
     ok_vers0 := 0xff000017;
     is_vneg_vers := fun v => Z.land v 0x0f0f0f0f =? 0x0a0a0a0a;
     is_draft_vers := fun v => Z.land v 0xff000000 =? 0xff000000;
     flip_keys := fun c => c;
     rx_abandon_pn := fun t c => upd_pn t (set_abandoned true) c;
     rx_crypto := fun w _ => w |}.

(** A datagram of [len] bytes from the peer's address, without ECN mark,
    whose header protection yields the first byte [fl] and the truncated
    packet number [tnr], and whose AEAD tag verifies. *)
Definition rx_in_ex (len fl tnr : Z) : rx_in :=
  {| xv_len := len; xv_flags := 0; hp_unmasked := Some (fl, tnr); aead_ok := true;
     srt_hit := false; from_peer := true; from_migr_peer := false; v_addr_in := 0;
     fresh_chlg := []; outer_dcid_empty := true; outer_dcid_differs := false;
     rx_tok := []; rx_tok_len := 0; rx_scid_ok := true; rxed_dcid_ok := true;
     try_vers := 0 |}.

(** A client that has sent its first Initial packet, number 0, with version
    0xff000017, and awaits the server's answer. *)
Definition clnt_opng_ex : q_conn :=
  set_pns {| pns_init := set_lg_sent 0 (reset_pn pn_zero);
             pns_hshk := reset_pn pn_zero;
             pns_data := reset_pn pn_zero |}
    (set_vers 0xff000017 (set_is_clnt true (conn_to_state conn_opng conn_zero))).

(** The meta-data of a Retry packet of that version after the beginning of
    its header is decoded; [rx_pkts] has set [m->pn] to the Initial space. *)
Definition rtry_meta : pkt_meta :=
  set_udp_len 40
    (set_m_pn (Some pn_init)
       (upd_hdr (fun h =>
          set_type LH_RTRY (set_flags 0xf0 (set_hvers 0xff000017 (set_hdr_len 40 h))))
          meta_zero)).

Definition rtry_ex : world := {| metas := [rtry_meta]; conn := clnt_opng_ex |}.

(** The Retry datagram: 40 bytes, with the token 0xaa 0xbb. *)
Definition rtry_in_ex : rx_in :=
  {| xv_len := 40; xv_flags := 0; hp_unmasked := None; aead_ok := false;
     srt_hit := false; from_peer := true; from_migr_peer := false; v_addr_in := 0;
     fresh_chlg := []; outer_dcid_empty := true; outer_dcid_differs := false;
     rx_tok := [0xaa; 0xbb]; rx_tok_len := 2; rx_scid_ok := true;
     rxed_dcid_ok := true; try_vers := 0 |}.

(** A version negotiation packet for that client: version 0 in the header;
    the list of versions it carries has 0xff000016, which the client
    supports. [rx_pkts] has set [m->pn] to the Initial space. *)
Definition vneg_meta : pkt_meta :=
  set_udp_len 30
    (set_m_pn (Some pn_init)
       (upd_hdr (fun h => set_type LH_INIT (set_flags 0x80 (set_hdr_len 22 h)))
          meta_zero)).

Definition vneg_ex : world := {| metas := [vneg_meta]; conn := clnt_opng_ex |}.

Definition vneg_in_ex : rx_in :=
  {| xv_len := 30; xv_flags := 0; hp_unmasked := None; aead_ok := false;
     srt_hit := false; from_peer := true; from_migr_peer := false; v_addr_in := 0;
     fresh_chlg := []; outer_dcid_empty := true; outer_dcid_differs := false;
     rx_tok := []; rx_tok_len := 0; rx_scid_ok := true; rxed_dcid_ok := true;
     try_vers := 0xff000016 |}.

(** A connection in slow start (window 12000, no threshold) with one packet
    of 1252 bytes in flight, sent 5 ns after the start of the clock, and the
    meta-data of that packet. *)
Definition cc_ex : q_conn :=
  upd_rec (set_ae_in_flight 1) (upd_cur (set_in_flight_bytes 1252) rtt_ex).

Definition cc_meta_ex : pkt_meta :=
  set_ack_eliciting true
    (set_in_flight true (set_udp_len 1252 (set_m_t 5 (set_m_pn (Some pn_data) meta_zero)))).

(** An established connection that lets the peer send 1000 bytes, of which
    600 have arrived on streams. *)
Definition fc_ex : q_conn :=
  set_in_data_str 600
    (set_tp_in {| max_data := 1000; max_ack_del := 25; ack_del_exp := 3 |} estb_ex).

(** Stream 0 of an established connection: open, with no data yet and a
    limit of 1000 bytes; and the meta-data of a packet whose frame holds the
    four bytes from offset 2000 of that stream, at position 5 of the
    buffer. *)
Definition strm0_ex : q_stream :=
  set_in_data_max 1000 (set_sstate strm_open strm_zero).

Definition strm_meta_ex : pkt_meta :=
  set_strm_data_len 4
    (set_strm_data_pos 5
       (set_strm_off 2000 (set_strm (Some (SData 0)) (set_m_pn (Some pn_data) meta_zero)))).

Definition strm_ex : world :=
  {| metas := [strm_meta_ex];
     conn := set_strms_by_id {[ 0 := strm0_ex ]} estb_ex |}.

(** The meta-data of a Handshake packet whose decrypted buffer starts with
    its payload, on an established connection. *)
Definition hshk_meta_ex : pkt_meta :=
  set_m_pn (Some pn_hshk)
    (upd_hdr (fun h => set_type LH_HSHK (set_flags 0xe0 (set_hvers 0xff000017 h)))
       meta_zero).

Definition hshk_ping_ex : world := {| metas := [hshk_meta_ex]; conn := estb_ex |}.

(** A datagram of 60 bytes with a short header that fails to decrypt and
    ends in a stateless-reset token of the connection, which is
    established. *)
Definition srt_meta_ex : pkt_meta :=
  set_udp_len 60
    (set_m_pn (Some pn_data)
       (upd_hdr (fun h => set_type SH (set_flags 0x41 (set_hdr_len 5 h))) meta_zero)).

Definition srt_ex : world := {| metas := [srt_meta_ex]; conn := estb_ex |}.

Definition srt_in_ex : rx_in :=
  {| xv_len := 60; xv_flags := 0; hp_unmasked := Some (0x41, 7); aead_ok := false;
     srt_hit := true; from_peer := true; from_migr_peer := false; v_addr_in := 0;
     fresh_chlg := []; outer_dcid_empty := true; outer_dcid_differs := false;
     rx_tok := []; rx_tok_len := 0; rx_scid_ok := true; rxed_dcid_ok := true;
     try_vers := 0 |}.


(** An established connection with 1-RTT keys that has received packet 7
    in the data space, and a received buffer with a short-header packet. *)
Definition sh_ex : world :=
  {| metas := [srt_meta_ex];
     conn := upd_pn pn_data (fun p =>
               set_recv_all {[ 7 ]}
                 (set_recv {[ 7 ]}
                    (set_in_1rtt0 {| aead := true; header_protection := true |} p)))
               estb_ex |}.

(** An established connection with the RTT estimate of [rtt_ex], on which
    the packets 4 and 6 of the data space are outstanding, sent 10 ms and
    5 ms before [now] of [env_ex], and packet 5 is the largest
    acknowledged. *)
Definition dlp_ex : world :=
  let sent (n t : Z) :=
    set_m_t t (upd_hdr (set_nr n) (set_txed true (set_m_pn (Some pn_data) meta_zero))) in
  {| metas := [sent 4 990000000; sent 6 995000000];
     conn := upd_pn pn_data
               (fun p => set_lg_acked 5 (set_sent_pkts [(4, 0%nat); (6, 1%nat)] p))
               (conn_to_state conn_estb rtt_ex) |}.

(** [dlp_ex] with the Initial and Handshake spaces abandoned and a PING
    among the frames sent in the data space. *)
Definition dlp_ack_ex : world :=
  with_conn
    (fun c =>
       upd_pn pn_data (set_tx_frames (Z.shiftl 1 FRM_PNG))
         (upd_pn pn_hshk (set_abandoned true) (upd_pn pn_init (set_abandoned true) c)))
    dlp_ex.

(** An established connection with the RTT estimate of [rtt_ex] whose one
    outstanding packet, number 1 of the data space with 1252 bytes in
    flight, is four below the largest acknowledged number. *)
Definition lost_ex : world :=
  {| metas :=
       [set_in_flight true
          (set_udp_len 1252
             (set_m_t 990000000
                (upd_hdr (set_nr 1)
                   (set_txed true (set_m_pn (Some pn_data) meta_zero)))))];
     conn := upd_pn pn_data (fun p => set_lg_acked 5 (set_sent_pkts [(1, 0%nat)] p))
               (upd_cur (set_in_flight_bytes 1252) (conn_to_state conn_estb rtt_ex)) |}.

(** A client in the handshake whose Initial crypto stream has received 100
    bytes, and the meta-data of an Initial packet. *)
Definition cry_dup_ex : world :=
  {| metas := [set_m_pn (Some pn_init) (upd_hdr (set_type LH_INIT) meta_zero)];
     conn := set_cstrms
               (fun e =>
                  match e with
                  | ep_init => Some (set_in_data_off 100 (set_s_id (-1) strm_zero))
                  | _ => None
                  end)
               (set_is_clnt true (conn_to_state conn_opng conn_zero)) |}.

(* ===================================================================== *)
(** * Part II: lemmas and theorems                                        *)
(* ===================================================================== *)

(** ** Machine integers *)

Lemma u64_range x : 0 <= u64 x < 2 ^ 64.
Proof. unfold u64. apply Z.mod_pos_bound. lia. Qed.

Lemma u64_small x : 0 <= x < 2 ^ 64 -> u64 x = x.
Proof. intros H. unfold u64. apply Z.mod_small. exact H. Qed.

Lemma s64_signed x : - 2 ^ 63 <= x < 2 ^ 63 -> s64 x = x.
Proof.
  intros H. unfold s64. destruct (Z.neg_nonneg_cases x) as [Hn|Hp].
  - assert (Hu : u64 x = x + 2 ^ 64).
    { unfold u64. symmetry. apply Z.mod_unique with (q := -1); lia. }
    rewrite Hu. destruct (Z.ltb_spec (x + 2 ^ 64) (2 ^ 63)); lia.
  - rewrite u64_small by lia. destruct (Z.ltb_spec x (2 ^ 63)); lia.
Qed.

Lemma s64_small x : 0 <= x < 2 ^ 63 -> s64 x = x.
Proof. intros H. apply s64_signed. lia. Qed.

(** ** RTT estimation *)

Section UpdateRtt.

Variable c : q_conn.
Variable ack_del : Z.

Let cc := cur (rec c).

(** The scaled ACK delay and the updated minimum, as [update_rtt] computes
    them. *)
Let d := Z.min ack_del (max_ack_del (tp_out c)) * NS_PER_MS.
Let mn := Z.min (min_rtt cc) (latest_rtt cc).
Let adj := if mn + d <? latest_rtt cc then latest_rtt cc - d else latest_rtt cc.

Hypothesis Hsrtt : 0 <= srtt cc < 2 ^ 60.
Hypothesis Hvar : 0 <= rttvar cc < 2 ^ 60.
Hypothesis Hlat : 0 <= latest_rtt cc < 2 ^ 60.
Hypothesis Hmin : 0 <= min_rtt cc.
Hypothesis Hdel : 0 <= ack_del.
Hypothesis Hmad : 0 <= max_ack_del (tp_out c) < 2 ^ 14.

Lemma update_rtt_d_range : 0 <= d < 2 ^ 34.
Proof. unfold d, NS_PER_MS. lia. Qed.

Lemma update_rtt_adj_range : 0 <= adj <= latest_rtt cc.
Proof.
  pose proof update_rtt_d_range as Hd. unfold adj, mn.
  destruct (Z.ltb_spec (Z.min (min_rtt cc) (latest_rtt cc) + d) (latest_rtt cc)); lia.
Qed.

(** C5, as amended: the first-sample branch is the one taken when [srtt] is
    zero; later samples follow the two formulas, with the ACK delay taken
    off the sample only when the sample exceeds the minimum RTT by more than
    the delay. No 64-bit operation wraps for values below 2^60. *)
Theorem update_rtt_estimator :
  let cc' := cur (rec (update_rtt c ack_del)) in
  (srtt cc = 0 ->
     srtt cc' = latest_rtt cc /\ rttvar cc' = latest_rtt cc / 2
     /\ min_rtt cc' = latest_rtt cc)
  /\ (srtt cc <> 0 ->
        rttvar cc' = 3 * rttvar cc / 4 + Z.abs (srtt cc - adj) / 4
        /\ srtt cc' = 7 * srtt cc / 8 + adj / 8
        /\ min_rtt cc' = mn).
Proof.
  pose proof update_rtt_d_range as Hd.
  pose proof update_rtt_adj_range as Ha.
  cbv zeta. unfold update_rtt. fold cc. split.
  - intros H0. rewrite H0. simpl. auto.
  - intros Hn. destruct (Z.eqb_spec (srtt cc) 0) as [|_]; [contradiction|].
    simpl.
    assert (Hd' : u64 (Z.min ack_del (max_ack_del (tp_out c)) * NS_PER_MS) = d)
      by (apply u64_small; fold d; lia).
    rewrite Hd'.
    assert (Hadj : adj_rtt (set_min_rtt (Z.min (min_rtt cc) (latest_rtt cc)) cc) d = adj).
    { unfold adj_rtt, adj, mn. simpl.
      rewrite (u64_small (_ + d)) by lia.
      destruct (Z.ltb_spec (Z.min (min_rtt cc) (latest_rtt cc) + d) (latest_rtt cc));
        [apply u64_small; lia | reflexivity]. }
    rewrite Hadj.
    assert (H3 : 0 <= 3 * rttvar cc / 4 < 2 ^ 62)
      by (split; [apply Z.div_pos; lia | apply Z.div_lt_upper_bound; lia]).
    assert (H7 : 0 <= 7 * srtt cc / 8 < 2 ^ 62)
      by (split; [apply Z.div_pos; lia | apply Z.div_lt_upper_bound; lia]).
    assert (Habs : 0 <= Z.abs (srtt cc - adj) / 4 < 2 ^ 60)
      by (split; [apply Z.div_pos; lia | apply Z.div_lt_upper_bound; lia]).
    assert (Ha8 : 0 <= adj / 8 < 2 ^ 60)
      by (split; [apply Z.div_pos; lia | apply Z.div_lt_upper_bound; lia]).
    rewrite (s64_small (srtt cc)) by lia.
    rewrite (s64_small adj) by lia.
    repeat split.
    + rewrite (u64_small (3 * rttvar cc)) by lia.
      rewrite (s64_signed (srtt cc - adj)) by lia.
      rewrite (u64_small (Z.abs _)) by lia. apply u64_small. lia.
    + rewrite (u64_small (7 * srtt cc)) by lia. apply u64_small. lia.
Qed.

End UpdateRtt.

(** The amended estimator at [rtt_ex] with an ACK delay of 5: the sample of
    12 ms does not exceed the minimum of 10 ms by more than 5 ms, so it is
    used unadjusted. *)
Lemma update_rtt_estimator_witness :
  let c := rtt_ex in
  let cc := cur (rec c) in
  let cc' := cur (rec (update_rtt c 5)) in
  (0 <= srtt cc < 2 ^ 60 /\ 0 <= rttvar cc < 2 ^ 60 /\ 0 <= latest_rtt cc < 2 ^ 60
   /\ 0 <= min_rtt cc /\ 0 <= 5 /\ 0 <= max_ack_del (tp_out c) < 2 ^ 14)
  /\ rttvar cc' = 4250000 /\ srtt cc' = 10250000.
Proof.
  assert (H : (0 <= srtt (cur (rec rtt_ex)) < 2 ^ 60
               /\ 0 <= rttvar (cur (rec rtt_ex)) < 2 ^ 60
               /\ 0 <= latest_rtt (cur (rec rtt_ex)) < 2 ^ 60
               /\ 0 <= min_rtt (cur (rec rtt_ex)) /\ 0 <= 5
               /\ 0 <= max_ack_del (tp_out rtt_ex) < 2 ^ 14)).
  { simpl. lia. }
  split; [exact H|].
  destruct H as (H1 & H2 & H3 & H4 & H5 & H6).
  destruct (update_rtt_estimator rtt_ex 5 H1 H2 H3 H4 H5 H6) as [_ Hlater].
  destruct Hlater as (Hv & Hs & _); [simpl; lia|].
  split; [rewrite Hv | rewrite Hs]; reflexivity.
Defined.

(** C5 as stated fails at [rtt_ex]: with a delay of 5 ms the difference
    [latest_rtt - d] is positive (7 ms), and the claim's [srtt] would be
    9.625 ms; [update_rtt] yields 10.25 ms. *)
Lemma update_rtt_adj_counterexample :
  let cc := cur (rec rtt_ex) in
  let d := Z.min 5 (max_ack_del (tp_out rtt_ex)) * NS_PER_MS in
  0 < latest_rtt cc - d
  /\ srtt (cur (rec (update_rtt rtt_ex 5)))
     <> srtt_spec false (srtt cc) (latest_rtt cc) d.
Proof. vm_compute. split; [reflexivity | discriminate]. Qed.

(** ** Closing a connection *)

Lemma enter_closing_from_qlse c :
  state c = conn_qlse ->
  enter_closing c
  = set_tx_w (Some 0)
      (conn_to_state conn_clsg
         (set_needs_tx true
            (set_closing_alarm
               (Some (u64 (3 * (if srtt (cur (rec c)) =? 0 then kInitialRtt
                                else srtt (cur (rec c)))
                           + 4 * rttvar (cur (rec c)))))
               (stop_all_alarms c)))).
Proof.
  intros Hs. unfold enter_closing.
  destruct (decide (state c = conn_clsg)) as [E|_]; [congruence|].
  assert (Hs' : state (stop_all_alarms c) = conn_qlse) by exact Hs.
  rewrite Hs'. simpl. rewrite Hs.
  destruct (decide (conn_qlse = conn_drng)) as [E|_]; [discriminate|].
  reflexivity.
Qed.

(** C6, as amended: an [err_close] on a connection that has an error
    recorded changes nothing at all; otherwise it records code, frame type
    and (truncated) reason, sets the state to [qlse] and [needs_tx], and
    [enter_closing] then stops the alarms, arms the closing alarm, moves the
    connection to [clsg] and arms the TX watcher with no delay. *)
Theorem err_close_first_error_wins (c : q_conn) (code frm : Z) (reason : string) :
  let c' := err_close c code frm reason in
  (err_code c <> 0 -> c' = c)
  /\ (err_code c = 0 ->
      c' = enter_closing
             (set_needs_tx true
                (set_err_frm (u8 frm)
                   (set_err_code (u64 code)
                      (conn_to_state conn_qlse
                         (set_err_reason_len
                            (u8 (Z.min (Z.of_nat (String.length reason) + 1)
                                       MAX_ERR_REASON_LEN))
                            (set_err_reason (store_reason reason) c))))))
      /\ err_code c' = u64 code /\ err_frm c' = u8 frm
      /\ err_reason c' = store_reason reason
      /\ state c' = conn_clsg /\ needs_tx c' = true /\ tx_w c' = Some 0
      /\ closing_alarm c'
         = Some (u64 (3 * (if srtt (cur (rec c)) =? 0 then kInitialRtt
                           else srtt (cur (rec c)))
                      + 4 * rttvar (cur (rec c))))
      /\ idle_alarm c' = None /\ ack_alarm c' = None).
Proof.
  cbv zeta. unfold err_close. split.
  - intros Hn. destruct (Z.eqb_spec (err_code c) 0); [contradiction|reflexivity].
  - intros H0. rewrite H0. cbn [Z.eqb negb].
    split; [reflexivity|].
    rewrite enter_closing_from_qlse by reflexivity.
    repeat split.
Qed.

(** C6 as stated fails: on [drng_ex], which has an error recorded, a second
    [err_close] neither sets [qlse] nor arms a TX nor moves the connection
    to [clsg]. *)
Lemma err_close_recorded_counterexample :
  let c' := err_close drng_ex ERR_FLOW_CONTROL FRM_STR "stream 0 off 2000 >= in_data_max 1000" in
  state c' = conn_drng /\ state c' <> conn_clsg
  /\ needs_tx c' = false /\ tx_w c' = None.
Proof. vm_compute. repeat split. discriminate. Qed.

(** The first error on [estb_ex]. *)
Example err_close_estb_ex :
  let c' := err_close estb_ex ERR_FLOW_CONTROL FRM_STR "stream 0 off 2000 >= in_data_max 1000" in
  err_code c' = 3 /\ err_frm c' = 8 /\ state c' = conn_clsg
  /\ err_reason c' = "stream 0 off 2000 >= in_data_ma"%string
  /\ needs_tx c' = true /\ tx_w c' = Some 0 /\ idle_alarm c' = None
  /\ closing_alarm c' = Some (3 * kInitialRtt).
Proof. vm_compute. repeat split. Qed.

(** ** Path validation *)

(** Closing leaves the addresses and the path-validation flags alone. *)
Lemma enter_closing_path c :
  peer (enter_closing c) = peer c
  /\ migr_peer (enter_closing c) = migr_peer c
  /\ tx_path_chlg (enter_closing c) = tx_path_chlg c.
Proof.
  unfold enter_closing.
  repeat (case_match; simpl); repeat split; reflexivity.
Qed.

Lemma err_close_path c code frm reason :
  peer (err_close c code frm reason) = peer c
  /\ migr_peer (err_close c code frm reason) = migr_peer c
  /\ tx_path_chlg (err_close c code frm reason) = tx_path_chlg c.
Proof.
  unfold err_close. case_match; [repeat split; reflexivity|].
  match goal with |- context [enter_closing ?x] =>
    destruct (enter_closing_path x) as (-> & -> & ->) end.
  repeat split; reflexivity.
Qed.

(** C1: whatever the bytes of a PATH_RESPONSE, [dec_path_response_frame]
    returns without completing a migration: [peer] keeps its value and
    [tx_path_chlg] is not cleared, also when the eight bytes of the frame
    are those of [path_chlg_out]. The test that guards the completion
    compares the addresses of two members of the connection, which differ
    at every base address. *)
Theorem dec_path_response_frame_never_migrates
    (base : Z) (w : world) (buf : list Z) (pos : Z) :
  exists ok pos' w',
    dec_path_response_frame base w buf pos = Some (ok, pos', w')
    /\ peer (conn w') = peer (conn w)
    /\ tx_path_chlg (conn w') = tx_path_chlg (conn w)
    /\ migr_peer (conn w') = migr_peer (conn w).
Proof.
  unfold dec_path_response_frame, chk, err_close_return.
  destruct (decb buf pos PATH_CHLG_LEN) as [[data pos']|].
  - cbn beta iota zeta.
    change (tx_path_chlg (conn (with_conn (set_path_resp_in data) w)))
      with (tx_path_chlg (conn w)).
    destruct (tx_path_chlg (conn w)) eqn:Ht; simpl.
    + assert (Hne : (base + off_path_resp_in =? base + off_path_chlg_out) = false)
        by (apply Z.eqb_neq; unfold off_path_resp_in, off_path_chlg_out, PATH_CHLG_LEN; lia).
      rewrite Hne. simpl. eexists _, _, _. split; [reflexivity|]. simpl. auto.
    + eexists _, _, _. split; [reflexivity|]. simpl. auto.
  - eexists _, _, _. split; [reflexivity|]. simpl.
    destruct (err_close_path (conn w) ERR_FRAME_ENC FRM_PRP "dec in frame.c")
      as (-> & -> & ->).
    auto.
Qed.

(** C1 fails at [migr_ex]: a challenge with data 1..8 is outstanding and the
    frame carries the same eight bytes, yet the peer address stays 1 (the
    old path) instead of becoming [migr_peer], 2, and [tx_path_chlg] stays
    set. *)
Lemma dec_path_response_frame_match_ignored :
  let w := {| metas := []; conn := migr_ex |} in
  let buf := [1; 2; 3; 4; 5; 6; 7; 8] in
  tx_path_chlg migr_ex = true
  /\ decb buf 0 PATH_CHLG_LEN = Some (path_chlg_out migr_ex, 8)
  /\ exists w',
       dec_path_response_frame 0 w buf 0 = Some (true, 8, w')
       /\ path_resp_in (conn w') = path_chlg_out (conn w')
       /\ peer (conn w') = 1 /\ migr_peer (conn w') = 2
       /\ tx_path_chlg (conn w') = true.
Proof.
  cbv zeta. split; [reflexivity|]. split; [reflexivity|].
  eexists. split; [vm_compute; reflexivity|]. vm_compute. auto.
Qed.

(** ** Frame types and packet types *)

Lemma lh_ok_members ty :
  bit_isset ty lh_ok
  = existsb (Z.eqb ty) [FRM_CRY; FRM_ACK; FRM_ACE; FRM_PAD; FRM_CLQ; FRM_CLA].
Proof.
  unfold bit_isset.
  destruct ty as [|p|p]; [reflexivity| |reflexivity].
  destruct (Z.ltb_spec (Z.pos p) 32) as [Hlt|Hge].
  - do 5 (try destruct p as [p|p|]); try lia; reflexivity.
  - assert (Hbit : Z.testbit lh_ok (Z.pos p) = false).
    { apply (Z.bits_above_log2 lh_ok (Z.pos p)); [vm_compute; discriminate|].
      change (Z.log2 lh_ok) with 29. lia. }
    rewrite Hbit. symmetry. apply not_true_is_false. intros Hex.
    apply existsb_exists in Hex. destruct Hex as (x & Hin & Heq).
    apply Z.eqb_eq in Heq. subst x. simpl in Hin.
    unfold FRM_CRY, FRM_ACK, FRM_ACE, FRM_PAD, FRM_CLQ, FRM_CLA in Hin. lia.
Qed.

(** C7, as amended: the check of frame types in [dec_frames] refuses a
    frame exactly in Initial and Handshake packets, the frame types below
    [FRM_MAX] other than CRYPTO, ACK, PADDING and CONNECTION_CLOSE; in a
    0-RTT packet, and in a short-header packet, it refuses no frame type,
    ACK included. *)
Theorem frame_not_allowed_only_in_init_hshk (pty ty : Z) :
  (frame_not_allowed pty ty = true
   <-> (pty = LH_INIT \/ pty = LH_HSHK) /\ ty < FRM_MAX
       /\ ~ In ty [FRM_CRY; FRM_ACK; FRM_ACE; FRM_PAD; FRM_CLQ; FRM_CLA])
  /\ frame_not_allowed LH_0RTT ty = false
  /\ frame_not_allowed SH ty = false.
Proof.
  split; [|split; reflexivity].
  unfold frame_not_allowed. rewrite lh_ok_members.
  rewrite !andb_true_iff, orb_true_iff, negb_true_iff, !Z.eqb_eq, Z.ltb_lt.
  split.
  - intros [[Hp Hlt] Hex]. repeat split; try assumption.
    intros Hin. apply not_true_iff_false in Hex. apply Hex.
    apply existsb_exists. exists ty. split; [exact Hin|apply Z.eqb_refl].
  - intros (Hp & Hlt & Hnin). repeat split; try assumption.
    apply not_true_is_false. intros Hex. apply existsb_exists in Hex.
    destruct Hex as (x & Hin & Heq). apply Z.eqb_eq in Heq. subst x. auto.
Qed.

(** C7 as stated fails at [zero_rtt_ack_ex]: the 0-RTT packet holds an ACK
    frame and a PING frame; the check refuses neither, [dec_frames] decodes
    both and returns [true], [rx_pkt] accepts the packet and counts it, and
    the connection stays established with no error recorded. *)
Lemma zero_rtt_ack_accepted_counterexample :
  type (hdr zero_rtt_ack_meta) = LH_0RTT
  /\ dec1 zero_rtt_ack_pkt (hdr_len (hdr zero_rtt_ack_meta)) = Some (FRM_ACK, 15)
  /\ exists w',
       rx_pkt rx_ops_ex (dec_frames_ex zero_rtt_ack_pkt) (rx_in_ex 36 0xd0 1)
         zero_rtt_ack_ex 0
       = Some (true, 0%nat, w')
       /\ (frms <$> metas w' !! 0%nat) = Some (Z.lor (Z.shiftl 1 FRM_ACK) (Z.shiftl 1 FRM_PNG))
       /\ err_code (conn w') = 0 /\ state (conn w') = conn_estb
       /\ pkts_rxed_since_last_ack_tx (pn_get (conn w') pn_data) = 1.
Proof.
  split; [reflexivity|]. split; [reflexivity|].
  eexists. split; [vm_compute; reflexivity|]. vm_compute. auto.
Qed.

(** ** Packet numbers *)

Lemma lg_sent_reset_pn p : lg_sent (reset_pn p) = UINT_T_MAX.
Proof. reflexivity. Qed.

Lemma pn_get_init_rec c t : pn_get (init_rec c) t = pn_get c t.
Proof. destruct t; reflexivity. Qed.



Lemma meta_put_lookup w i m m0 :
  metas w !! i = Some m0 -> metas (meta_put i m w) !! i = Some m.
Proof.
  intros H. unfold meta_put. cbn [metas set_metas].
  apply list_lookup_insert_eq. apply lookup_lt_Some in H. exact H.
Qed.

Lemma meta_put_lookup_ne w i j m :
  i <> j -> metas (meta_put i m w) !! j = metas w !! j.
Proof.
  intros H. unfold meta_put. cbn [metas set_metas].
  apply list_lookup_insert_ne. exact H.
Qed.

Lemma pn_get_set_vers v c t : pn_get (set_vers v c) t = pn_get c t.
Proof. destruct t; reflexivity. Qed.

Section ResetPn.

Variable R : rx_ops.

(** The CID and TLS code leaves the packet numbers alone. *)
Hypothesis restart_tls_lg_sent :
  forall c t, lg_sent (pn_get (restart_tls R c) t) = lg_sent (pn_get c t).
Hypothesis reset_cids_lg_sent :
  forall c t, lg_sent (pn_get (reset_cids R c) t) = lg_sent (pn_get c t).

Lemma vneg_or_rtry_resp_lg_sent c is_vneg t :
  lg_sent (pn_get (vneg_or_rtry_resp R c is_vneg) t) = UINT_T_MAX.
Proof.
  unfold vneg_or_rtry_resp.
  match goal with |- lg_sent (pn_get (set_try_0rtt ?b ?x) t) = _ =>
    change (lg_sent (pn_get (set_try_0rtt b x) t)) with (lg_sent (pn_get x t)) end.
  rewrite restart_tls_lg_sent, pn_get_init_rec.
  destruct is_vneg; [rewrite reset_cids_lg_sent|]; destruct t; reflexivity.
Qed.


Variable dec_frames_of : world -> nat -> option (bool * nat * world).


(** A client in state [opng] that still uses its first version accepts a
    version negotiation packet whose CIDs match and which offers a version
    it supports: [rx_pkt] returns [true], the connection continues with the
    version chosen, and [vneg_or_rtry_resp] has reset the packet-number
    spaces. *)
Theorem rx_pkt_vneg_restart I w im m :
  metas w !! im = Some m ->
  state (conn w) = conn_opng ->
  hvers (hdr m) = 0 ->
  vers (conn w) = ok_vers0 R ->
  rx_scid_ok I = true ->
  rxed_dcid_ok I = true ->
  is_vneg_vers R (vers (conn w)) || is_draft_vers R (vers (conn w)) = true ->
  try_vers I <> 0 ->
  exists w',
    rx_pkt R dec_frames_of I w im = Some (true, im, w')
    /\ vers (conn w') = try_vers I
    /\ forall t, lg_sent (pn_get (conn w') t) = UINT_T_MAX.
Proof.
  intros Hm Hs Hv Hok Hsc Hdc Hvn Htry. unfold rx_pkt. rewrite Hm.
  cbn [mbind option_bind].
  cbn [with_conn set_conn conn metas state set_in_data].
  rewrite Hs. rewrite Hv.
  change (0 =? 0) with true. cbn iota.
  cbn [vers set_in_data]. rewrite Hok in Hvn |- *.
  rewrite (Z.eqb_refl (ok_vers0 R)). cbn [negb]. cbn iota.
  rewrite Hsc, Hdc. cbn [negb orb]. cbn iota.
  apply orb_true_iff in Hvn.
  assert (H4 : negb (is_vneg_vers R (ok_vers0 R))
               && negb (is_draft_vers R (ok_vers0 R)) = false).
  { destruct Hvn as [-> | ->]; [reflexivity|apply andb_false_r]. }
  rewrite H4.
  assert (H5 : (try_vers I =? 0) = false) by (apply Z.eqb_neq; exact Htry).
  rewrite H5.
  rewrite (meta_put_lookup _ _ _ m) by exact Hm.
  cbn [mbind option_bind hdr nr upd_hdr set_hdr set_nr].
  change (negb (UINT_T_MAX =? UINT_T_MAX)) with false. cbn iota.
  eexists. split; [reflexivity|].
  cbn [conn set_conn set_metas]. split; [reflexivity|].
  intros t. cbn [conn with_conn set_conn]. rewrite pn_get_set_vers.
  apply vneg_or_rtry_resp_lg_sent.
Qed.

End ResetPn.


(** The version negotiation packet of [vneg_ex] offers 0xff000016. *)
Lemma rx_pkt_vneg_restart_witness :
  exists w',
    rx_pkt rx_ops_ex (dec_frames_ex []) vneg_in_ex vneg_ex 0 = Some (true, 0%nat, w')
    /\ vers (conn w') = 0xff000016
    /\ forall t, lg_sent (pn_get (conn w') t) = UINT_T_MAX.
Proof.
  apply (rx_pkt_vneg_restart rx_ops_ex (fun _ _ => eq_refl) (fun _ _ => eq_refl)
           (dec_frames_ex []) vneg_in_ex vneg_ex 0%nat vneg_meta);
    [reflexivity | reflexivity | reflexivity | reflexivity | reflexivity
    | reflexivity | reflexivity | vm_compute; discriminate].
Defined.

(** At [rtry_ex] the client has sent Initial packet 0; it receives a Retry
    (the packet has the version of the connection, which stays as it is),
    and the spaces are reset: the Initial packet that follows is numbered 0
    again. *)
Example rtry_resets_pkt_nr_ex :
  lg_sent (pn_get (conn rtry_ex) pn_init) = 0
  /\ hvers (hdr rtry_meta) = 0xff000017
  /\ exists w',
       rx_pkt rx_ops_ex (dec_frames_ex []) rtry_in_ex rtry_ex 0 = Some (true, 0%nat, w')
       /\ vers (conn w') = 0xff000017
       /\ lg_sent (pn_get (conn w') pn_init) = UINT_T_MAX
       /\ fst (enc_pkt_nr false (pn_get (conn w') pn_init)) = 0.
Proof.
  split; [reflexivity|]. split; [reflexivity|].
  eexists. split; [vm_compute; reflexivity|]. vm_compute. auto.
Qed.


(** ** Packets that [rx_pkt] ignores *)

(** [rx_pkt] decodes no frame of a packet for a closed connection, of a
    version negotiation packet that arrives after the handshake has moved
    past [opng], and of a 0-RTT packet on a connection that does not do
    0-RTT: whatever the frame decoder, it returns [false], and only the byte
    counter [in_data] has changed. *)
Theorem rx_pkt_ignores (R : rx_ops)
    (dec_frames_of : world -> nat -> option (bool * nat * world))
    (I : rx_in) (w : world) (im : nat) (m : pkt_meta) :
  metas w !! im = Some m ->
  let w_in := with_conn (fun c => set_in_data (u64 (in_data c + udp_len m)) c) w in
  let past_opng :=
    state (conn w) = conn_estb \/ state (conn w) = conn_qlse
    \/ state (conn w) = conn_clsg \/ state (conn w) = conn_drng in
  (state (conn w) = conn_clsd ->
   rx_pkt R dec_frames_of I w im = Some (false, im, w_in))
  /\ (past_opng -> is_lh (flags (hdr m)) = true -> hvers (hdr m) = 0 ->
      rx_pkt R dec_frames_of I w im = Some (false, im, w_in))
  /\ (past_opng -> did_0rtt (conn w) = false -> type (hdr m) = LH_0RTT ->
      rx_pkt R dec_frames_of I w im = Some (false, im, w_in)).
Proof.
  intros Hm. cbv zeta. split; [|split].
  - intros Hs. unfold rx_pkt. rewrite Hm. cbn [mbind option_bind].
    cbn [with_conn set_conn conn metas state set_in_data]. rewrite Hs. reflexivity.
  - intros Hs Hlh Hv. unfold rx_pkt. rewrite Hm. cbn [mbind option_bind].
    cbn [with_conn set_conn conn metas state set_in_data].
    rewrite Hlh, Hv.
    destruct Hs as [Hs|[Hs|[Hs|Hs]]]; rewrite Hs; reflexivity.
  - intros Hs Hd Hty. unfold rx_pkt. rewrite Hm. cbn [mbind option_bind].
    cbn [with_conn set_conn conn metas state set_in_data did_0rtt].
    rewrite Hd, Hty. cbn [negb].
    change (LH_0RTT =? LH_0RTT) with true. rewrite andb_true_r.
    destruct Hs as [Hs|[Hs|[Hs|Hs]]]; rewrite Hs;
      destruct (is_lh (flags (hdr m)) && (hvers (hdr m) =? 0)); reflexivity.
Qed.

(** The 0-RTT packet of [zero_rtt_ack_ex] on a server that did not accept
    0-RTT. *)
Lemma rx_pkt_ignores_witness :
  exists w',
    rx_pkt rx_ops_ex (dec_frames_ex zero_rtt_ack_pkt) (rx_in_ex 36 0xd0 1)
      (with_conn (set_did_0rtt false) zero_rtt_ack_ex) 0
    = Some (false, 0%nat, w')
    /\ in_data (conn w') = 36.
Proof.
  eexists. split.
  - apply (rx_pkt_ignores rx_ops_ex (dec_frames_ex zero_rtt_ack_pkt) (rx_in_ex 36 0xd0 1)
             (with_conn (set_did_0rtt false) zero_rtt_ack_ex) 0%nat zero_rtt_ack_meta
             eq_refl);
      [left; reflexivity | reflexivity | reflexivity].
  - reflexivity.
Defined.


(** ** Closing, once more *)

(** [enter_closing], branch by branch; [dur] is the duration of the closing
    alarm, three times the RTO. *)
Lemma enter_closing_cases c :
  let dur :=
    u64 (3 * (if srtt (cur (rec c)) =? 0 then kInitialRtt else srtt (cur (rec c)))
         + 4 * rttvar (cur (rec c))) in
  enter_closing c
  = if decide (state c = conn_clsg) then c
    else if (bool_decide (state c = conn_idle) || bool_decide (state c = conn_opng))
            && (err_code c =? 0)
    then set_closing_alarm (Some 0) (stop_all_alarms c)
    else if decide (state c = conn_drng)
    then set_closing_alarm (Some dur) (stop_all_alarms c)
    else set_tx_w (Some 0)
           (conn_to_state conn_clsg
              (set_needs_tx true (set_closing_alarm (Some dur) (stop_all_alarms c)))).
Proof.
  cbv zeta. unfold enter_closing.
  destruct (decide (state c = conn_clsg)); [reflexivity|].
  cbv zeta.
  change (state (stop_all_alarms c)) with (state c).
  change (err_code (stop_all_alarms c)) with (err_code c).
  destruct ((bool_decide (state c = conn_idle) || bool_decide (state c = conn_opng))
            && (err_code c =? 0)); [reflexivity|].
  change (closing_alarm (stop_all_alarms c)) with (@None Z). cbv iota.
  change (srtt (cur (rec (stop_all_alarms c)))) with (srtt (cur (rec c))).
  change (rttvar (cur (rec (stop_all_alarms c)))) with (rttvar (cur (rec c))).
  match goal with |- context [decide (state ?x = conn_drng)] =>
    change (state x) with (state c) end.
  reflexivity.
Qed.

Lemma closing_alarm_again a b c :
  set_closing_alarm a (stop_all_alarms (set_closing_alarm b (stop_all_alarms c)))
  = set_closing_alarm a (stop_all_alarms c).
Proof. destruct c. vm_compute. reflexivity. Qed.

(** [enter_closing] is idempotent: a second call changes nothing, in every
    state. (From [clsg] it returns at once; from [idle] and [opng] without
    an error, and from [drng], it stops the alarms and arms the closing
    alarm with the same value again.) *)
Theorem enter_closing_idempotent (c : q_conn) :
  enter_closing (enter_closing c) = enter_closing c.
Proof.
  rewrite (enter_closing_cases c). cbv zeta.
  destruct (decide (state c = conn_clsg)) as [Hc|Hc].
  - rewrite enter_closing_cases. cbv zeta.
    destruct (decide (state c = conn_clsg)); [reflexivity|contradiction].
  - destruct ((bool_decide (state c = conn_idle) || bool_decide (state c = conn_opng))
              && (err_code c =? 0)) eqn:Hio.
    + rewrite enter_closing_cases. cbv zeta.
      change (state (set_closing_alarm (Some 0) (stop_all_alarms c))) with (state c).
      change (err_code (set_closing_alarm (Some 0) (stop_all_alarms c))) with (err_code c).
      destruct (decide (state c = conn_clsg)); [contradiction|].
      rewrite Hio. apply closing_alarm_again.
    + destruct (decide (state c = conn_drng)) as [Hd|Hd].
      * rewrite enter_closing_cases. cbv zeta.
        match goal with |- context [decide (state ?x = conn_clsg)] =>
          change (state x) with (state c); change (err_code x) with (err_code c);
          change (srtt (cur (rec x))) with (srtt (cur (rec c)));
          change (rttvar (cur (rec x))) with (rttvar (cur (rec c)))
        end.
        destruct (decide (state c = conn_clsg)); [contradiction|].
        rewrite Hio.
        destruct (decide (state c = conn_drng)); [|contradiction].
        apply closing_alarm_again.
      * rewrite enter_closing_cases. cbv zeta.
        match goal with |- context [decide (state ?x = conn_clsg)] =>
          change (state x) with conn_clsg end.
        destruct (decide (conn_clsg = conn_clsg)); [reflexivity|contradiction].
Qed.


(** ** Congestion control *)

Ltac cc_simpl :=
  cbn [cwnd ssthresh in_flight_bytes srtt rttvar latest_rtt min_rtt
       cur prev ld_alarm ld_alarm_val rec_start_t ae_in_flight crypto_cnt pto_cnt
       last_sent_crypto_t last_sent_ack_elicit_t
       rec upd_cur upd_rec set_rec set_cur set_prev set_cwnd set_ssthresh
       set_in_flight_bytes set_rec_start_t set_ae_in_flight
       set_last_sent_crypto_t set_last_sent_ack_elicit_t] in *.

(** [congestion_event]: for a packet sent before the current recovery
    period began it does nothing; otherwise it starts a recovery period now
    and halves the congestion window, never below [kMinimumWindow], with
    [ssthresh] set to the new window. It reduces the window once per
    period: a further event for a packet sent up to now changes nothing. *)
Theorem congestion_event_once (E : env) (c : q_conn) (sent_t : Z) :
  let c' := congestion_event E c sent_t in
  (sent_t <= rec_start_t (rec c) -> c' = c)
  /\ (rec_start_t (rec c) < sent_t ->
      cwnd (cur (rec c')) = Z.max (cwnd (cur (rec c)) / 2) kMinimumWindow
      /\ ssthresh (cur (rec c')) = cwnd (cur (rec c'))
      /\ rec_start_t (rec c') = now E
      /\ kMinimumWindow <= cwnd (cur (rec c'))
      /\ forall sent_t', sent_t' <= now E -> congestion_event E c' sent_t' = c').
Proof.
  cbv zeta. unfold congestion_event, in_cong_recovery. split.
  - intros H. destruct (Z.leb_spec sent_t (rec_start_t (rec c))); [reflexivity|lia].
  - intros H. destruct (Z.leb_spec sent_t (rec_start_t (rec c))); [lia|].
    cc_simpl. unfold kLossReductionDivisor.
    repeat split; try lia.
    intros t' Ht'. destruct (Z.leb_spec t' (now E)); [reflexivity|lia].
Qed.


Lemma on_pkt_acked_cc_effect (m : pkt_meta) (c : q_conn) :
  0 <= udp_len m < 2 ^ 16 ->
  udp_len m <= in_flight_bytes (cur (rec c)) ->
  0 < cwnd (cur (rec c)) < 2 ^ 63 ->
  exists c',
    on_pkt_acked_cc m c = Some c'
    /\ in_flight_bytes (cur (rec c')) = in_flight_bytes (cur (rec c)) - udp_len m
    /\ cwnd (cur (rec c)) <= cwnd (cur (rec c'))
    /\ (m_t m <= rec_start_t (rec c) -> cwnd (cur (rec c')) = cwnd (cur (rec c)))
    /\ (rec_start_t (rec c) < m_t m ->
        cwnd (cur (rec c'))
        = if cwnd (cur (rec c)) <? ssthresh (cur (rec c))
          then cwnd (cur (rec c)) + udp_len m
          else cwnd (cur (rec c)) + kMaxDatagramSize * udp_len m / cwnd (cur (rec c))).
Proof.
  intros Hlen Hfl Hcw. unfold on_pkt_acked_cc, remove_from_in_flight.
  destruct (Z.ltb_spec (in_flight_bytes (cur (rec c))) (udp_len m)) as [|_]; [lia|].
  cbn [mbind option_bind].
  assert (Hdiv : 0 <= kMaxDatagramSize * udp_len m / cwnd (cur (rec c))
                 <= kMaxDatagramSize * udp_len m).
  { split; [apply Z.div_pos; unfold kMaxDatagramSize; lia|].
    apply Z.div_le_upper_bound; unfold kMaxDatagramSize; nia. }
  assert (Hmul : u64 (kMaxDatagramSize * udp_len m) = kMaxDatagramSize * udp_len m)
    by (apply u64_small; unfold kMaxDatagramSize; lia).
  unfold kMaxDatagramSize in Hdiv.
  destruct (ack_eliciting m); unfold in_cong_recovery; cc_simpl;
    destruct (Z.leb_spec (m_t m) (rec_start_t (rec c))) as [Hr|Hr];
    try (destruct (Z.ltb_spec (cwnd (cur (rec c))) (ssthresh (cur (rec c)))) as [Hs|Hs];
         [|destruct (Z.eqb_spec (cwnd (cur (rec c))) 0) as [|_]; [lia|]]);
    eexists; (split; [reflexivity|]); cc_simpl; rewrite ?Hmul;
    rewrite ?(u64_small (cwnd (cur (rec c)) + _))
      by (unfold kMaxDatagramSize; lia);
    unfold kMaxDatagramSize;
    repeat split; intros; try lia.
Qed.

(** [on_pkt_acked_cc] for a packet that is counted in flight: the bytes in
    flight go down by the size of the packet, and the congestion window
    never shrinks. It stays as it is for a packet sent before the current
    recovery period began, grows by the size of the packet in slow start,
    and by [kMaxDatagramSize * size / cwnd] in congestion avoidance. *)
Theorem on_pkt_acked_cc_grows (m : pkt_meta) (c : q_conn) :
  0 <= udp_len m < 2 ^ 16 ->
  udp_len m <= in_flight_bytes (cur (rec c)) ->
  0 < cwnd (cur (rec c)) < 2 ^ 63 ->
  exists c',
    on_pkt_acked_cc m c = Some c'
    /\ in_flight_bytes (cur (rec c')) = in_flight_bytes (cur (rec c)) - udp_len m
    /\ cwnd (cur (rec c)) <= cwnd (cur (rec c'))
    /\ (m_t m <= rec_start_t (rec c) -> cwnd (cur (rec c')) = cwnd (cur (rec c)))
    /\ (rec_start_t (rec c) < m_t m ->
        cwnd (cur (rec c'))
        = if cwnd (cur (rec c)) <? ssthresh (cur (rec c))
          then cwnd (cur (rec c)) + udp_len m
          else cwnd (cur (rec c)) + kMaxDatagramSize * udp_len m / cwnd (cur (rec c))).
Proof. exact (on_pkt_acked_cc_effect m c). Qed.


(** At [cc_ex] a packet of 1252 bytes is acknowledged in slow start. *)
Lemma on_pkt_acked_cc_grows_witness :
  exists c',
    on_pkt_acked_cc cc_meta_ex cc_ex = Some c'
    /\ in_flight_bytes (cur (rec c')) = 0
    /\ cwnd (cur (rec c')) = 13252.
Proof.
  destruct (on_pkt_acked_cc_grows cc_meta_ex cc_ex) as (c' & H & Hf & _ & _ & Hg);
    [vm_compute; split; [discriminate|reflexivity]
    | vm_compute; discriminate
    | vm_compute; split; reflexivity|].
  exists c'. split; [exact H|]. split; [rewrite Hf; reflexivity|].
  rewrite Hg; [reflexivity|vm_compute; reflexivity].
Defined.


(** ** Sending a packet *)

Lemma kh_get_put tbl k v : kh_get (kh_put tbl k v) k = Some v.
Proof.
  induction tbl as [|[k' v'] tbl IH]; simpl.
  - rewrite Z.eqb_refl. reflexivity.
  - destruct (Z.eqb_spec k' k) as [->|Hne]; simpl.
    + rewrite Z.eqb_refl. reflexivity.
    + destruct (Z.eqb_spec k' k); [contradiction|exact IH].
Qed.

Lemma pn_get_upd_pn t f c : pn_get (upd_pn t f c) t = f (pn_get c t).
Proof. destruct t; reflexivity. Qed.

Lemma rec_upd_pn t f c : rec (upd_pn t f c) = rec c.
Proof. destruct t; reflexivity. Qed.

(** [on_pkt_sent] marks the packet as transmitted at the current time,
    enters it in the table of sent packets under its number, and counts it
    in flight exactly if it is ACK-eliciting or holds padding: then the
    bytes in flight grow by its size, otherwise the recovery state stays as
    it is. Taking the packet out of flight again with
    [remove_from_in_flight] restores the bytes in flight and the count of
    ACK-eliciting packets. *)
Theorem on_pkt_sent_in_flight (E : env) (w : world) (i : nat) (m : pkt_meta) (t : pn_t) :
  metas w !! i = Some m ->
  m_pn m = Some t ->
  0 <= udp_len m ->
  0 <= in_flight_bytes (cur (rec (conn w))) ->
  in_flight_bytes (cur (rec (conn w))) + udp_len m < 2 ^ 64 ->
  0 <= ae_in_flight (rec (conn w)) < 2 ^ 64 - 1 ->
  let inflt := ack_eliciting m || has_frm (frms m) FRM_PAD in
  exists w' m',
    on_pkt_sent E w i = Some w'
    /\ metas w' !! i = Some m'
    /\ m' = set_in_flight inflt (set_m_t (now E) (set_txed true m))
    /\ find_sent_pkt (pn_get (conn w') t) (nr (hdr m)) = Some i
    /\ (inflt = false -> rec (conn w') = rec (conn w))
    /\ (inflt = true ->
        in_flight_bytes (cur (rec (conn w')))
        = in_flight_bytes (cur (rec (conn w))) + udp_len m
        /\ exists c'',
             remove_from_in_flight m' (conn w') = Some c''
             /\ in_flight_bytes (cur (rec c'')) = in_flight_bytes (cur (rec (conn w)))
             /\ ae_in_flight (rec c'') = ae_in_flight (rec (conn w))).
Proof.
  intros Hm Ht Hlen Hfl Hsum Hae. cbv zeta.
  unfold on_pkt_sent, upd_meta. rewrite Hm. cbn [mbind option_bind].
  rewrite (meta_put_lookup _ _ _ m) by exact Hm. cbn [mbind option_bind].
  change (m_pn (set_txed true m)) with (m_pn m). rewrite Ht. cbn [mbind option_bind].
  unfold pm_by_nr_ins.
  rewrite (meta_put_lookup _ _ _ m) by exact Hm. cbn [mbind option_bind].
  change (metas (with_conn ?f ?x)) with (metas x).
  rewrite (meta_put_lookup _ _ _ m) by exact Hm. cbn [mbind option_bind].
  change (ack_eliciting (set_txed true m)) with (ack_eliciting m).
  change (frms (set_txed true m)) with (frms m).
  change (nr (hdr (set_txed true m))) with (nr (hdr m)).
  change (udp_len (set_txed true m)) with (udp_len m).
  change (is_crypto_pkt (set_txed true m)) with (is_crypto_pkt m).
  set (inflt := ack_eliciting m || has_frm (frms m) FRM_PAD).
  assert (Hlk : forall (w0 : world) (x : pkt_meta),
             metas w0 !! i = Some m -> metas (meta_put i x w0) !! i = Some x)
    by (intros; eapply meta_put_lookup; eassumption).
  destruct inflt eqn:Hin.
  - eexists _, _. split; [reflexivity|].
    split; [cbn [metas set_conn]; apply (meta_put_lookup _ _ _ (set_txed true m));
            change (metas (with_conn ?f ?x)) with (metas x);
            apply (meta_put_lookup _ _ _ m); exact Hm|].
    split; [reflexivity|].
    cbn [conn set_conn meta_put set_metas with_conn].
    split.
    { unfold find_sent_pkt.
      destruct (is_crypto_pkt m), (ack_eliciting m); cc_simpl;
        unfold upd_cur, upd_rec;
        destruct t; cbn; apply kh_get_put. }
    split; [discriminate|]. intros _.
    assert (Hu : u64 (in_flight_bytes (cur (rec (conn w))) + udp_len m)
                 = in_flight_bytes (cur (rec (conn w))) + udp_len m)
      by (apply u64_small; lia).
    assert (Hae1 : u64 (u64 (ae_in_flight (rec (conn w)) + 1) - 1)
                   = ae_in_flight (rec (conn w))).
    { rewrite (u64_small (_ + 1)) by lia.
      replace (ae_in_flight (rec (conn w)) + 1 - 1) with (ae_in_flight (rec (conn w)))
        by lia.
      apply u64_small. lia. }
    unfold remove_from_in_flight.
    change (udp_len (set_in_flight true (set_m_t (now E) (set_txed true m))))
      with (udp_len m).
    change (ack_eliciting (set_in_flight true (set_m_t (now E) (set_txed true m))))
      with (ack_eliciting m).
    destruct (is_crypto_pkt m), (ack_eliciting m); cc_simpl;
      rewrite !rec_upd_pn; cc_simpl; rewrite Hu;
      (destruct (Z.ltb_spec (in_flight_bytes (cur (rec (conn w))) + udp_len m) (udp_len m));
       [lia|]);
      (split; [reflexivity|]); eexists; (split; [reflexivity|]); cc_simpl;
      rewrite !rec_upd_pn, ?Hu, ?Hae1; split; try reflexivity; lia.
  - eexists _, _. split; [reflexivity|].
    split; [apply (meta_put_lookup _ _ _ (set_txed true m));
            change (metas (with_conn ?f ?x)) with (metas x);
            apply (meta_put_lookup _ _ _ m); exact Hm|].
    split; [reflexivity|].
    cbn [conn set_conn meta_put set_metas with_conn].
    split; [unfold find_sent_pkt; rewrite pn_get_upd_pn; apply kh_get_put|].
    split; [intros _; apply rec_upd_pn | discriminate].
Qed.

(** An ACK-eliciting packet of 1252 bytes, number 0, is sent on [rtt_ex]. *)
Lemma on_pkt_sent_in_flight_witness :
  exists w',
    on_pkt_sent env_ex {| metas := [cc_meta_ex]; conn := rtt_ex |} 0 = Some w'
    /\ find_sent_pkt (pn_get (conn w') pn_data) 0 = Some 0%nat
    /\ in_flight_bytes (cur (rec (conn w'))) = 1252.
Proof.
  destruct (on_pkt_sent_in_flight env_ex {| metas := [cc_meta_ex]; conn := rtt_ex |}
              0%nat cc_meta_ex pn_data)
    as (w' & m' & Hs & _ & _ & Hf & _ & Hin);
    [reflexivity | reflexivity | vm_compute; discriminate | vm_compute; discriminate
    | vm_compute; reflexivity | vm_compute; split; [discriminate|reflexivity] |].
  exists w'. split; [exact Hs|]. split; [exact Hf|].
  destruct Hin as [Hb _]; [reflexivity|]. rewrite Hb. reflexivity.
Defined.


(** ** Flow control *)

Ltac fc_simpl :=
  cbn [conn with_conn set_conn metas tp_in tp_out max_data blocked tx_max_data
       in_data_str out_data_str state
       set_tp_in set_tp_out set_max_data set_blocked set_tx_max_data] in *.

(** A MAX_DATA frame never lowers the limit on the data the connection may
    send: after [dec_max_data_frame] the limit is the larger of the old one
    and the one in the frame, and a frame that raises it unblocks the
    connection. A frame cut short closes the connection with
    [ERR_FRAME_ENC]. *)
Theorem dec_max_data_frame_raises (w : world) (buf : list Z) (pos : Z) (im : nat)
    (m : pkt_meta) (t : pn_t) :
  metas w !! im = Some m ->
  m_pn m = Some t ->
  (forall max pos', decv buf pos = Some (max, pos') ->
     exists w',
       dec_max_data_frame w buf pos im = Some (true, pos', w')
       /\ max_data (tp_out (conn w')) = Z.max (max_data (tp_out (conn w))) max
       /\ blocked (conn w')
          = (if max_data (tp_out (conn w)) <? max then false else blocked (conn w))
       /\ metas w' = metas w)
  /\ (decv buf pos = None ->
      exists reason,
        dec_max_data_frame w buf pos im
        = Some (false, pos,
                with_conn (fun c => err_close c ERR_FRAME_ENC FRM_MCD reason) w)).
Proof.
  intros Hm Ht. unfold dec_max_data_frame. rewrite Hm. cbn [mbind option_bind].
  rewrite Ht. cbn [mbind option_bind]. split.
  - intros max pos' Hd. rewrite Hd. cbn [chk]. eexists. split; [reflexivity|].
    fc_simpl.
    destruct (Z.ltb_spec (max_data (tp_out (conn w))) max); fc_simpl;
      repeat split; lia.
  - intros Hd. rewrite Hd. eexists. reflexivity.
Qed.

(** A MAX_DATA frame with the limit 2000 on [estb_ex], whose limit is 0. *)
Lemma dec_max_data_frame_raises_witness :
  exists w',
    dec_max_data_frame {| metas := [cc_meta_ex]; conn := estb_ex |} [0x47; 0xd0] 0 0
    = Some (true, 2, w')
    /\ max_data (tp_out (conn w')) = 2000.
Proof.
  destruct (dec_max_data_frame_raises {| metas := [cc_meta_ex]; conn := estb_ex |}
              [0x47; 0xd0] 0 0%nat cc_meta_ex pn_data eq_refl eq_refl) as [Hok _].
  destruct (Hok 2000 2 eq_refl) as (w' & H & Hmax & _).
  exists w'. split; [exact H|]. rewrite Hmax. reflexivity.
Defined.

Lemma do_conn_fc_cases (c : q_conn) (len : Z) :
  0 <= max_data (tp_in c) < 2 ^ 63 ->
  let c' := do_conn_fc c len in
  (max_data (tp_in c') = max_data (tp_in c)
   \/ (max_data (tp_in c') = 2 * max_data (tp_in c) /\ tx_max_data c' = true
       /\ max_data (tp_in c) < u64 (in_data_str c * 2)))
  /\ max_data (tp_in c) <= max_data (tp_in c')
  /\ (blocked c = true -> blocked c' = true)
  /\ (state c = conn_clsg \/ state c = conn_drng -> c' = c).
Proof.
  intros Hmax. cbv zeta. unfold do_conn_fc.
  destruct (bool_decide (state c = conn_clsg) || bool_decide (state c = conn_drng)) eqn:Hst.
  - repeat split; auto; lia.
  - assert (Hns : ~ (state c = conn_clsg \/ state c = conn_drng)).
    { apply orb_false_iff in Hst. destruct Hst as [H1 H2].
      apply bool_decide_eq_false in H1. apply bool_decide_eq_false in H2. tauto. }
    assert (Hu : u64 (max_data (tp_in c) * 2) = 2 * max_data (tp_in c))
      by (rewrite u64_small; lia).
    destruct (negb (len =? 0)
              && (max_data (tp_out c) <? u64 (out_data_str c + len + MAX_PKT_LEN)));
      fc_simpl;
      destruct (Z.ltb_spec (max_data (tp_in c)) (u64 (in_data_str c * 2)));
      fc_simpl; rewrite ?Hu; repeat split; auto; try lia; try tauto.
Qed.



Lemma do_conn_fc_zero_blocked c : blocked (do_conn_fc c 0) = blocked c.
Proof.
  unfold do_conn_fc.
  destruct (bool_decide (state c = conn_clsg) || bool_decide (state c = conn_drng));
    [reflexivity|].
  change (negb (0 =? 0)) with false. cbn [andb].
  destruct (max_data (tp_in c) <? u64 (in_data_str c * 2)); reflexivity.
Qed.

(** A DATA_BLOCKED frame makes a MAX_DATA frame due in every state of the
    connection; the limit it will announce is not lower than before, and
    whether the connection itself is blocked does not change. *)
Theorem dec_data_blocked_frame_grants (w : world) (buf : list Z) (pos : Z) (im : nat)
    (m : pkt_meta) (t : pn_t) :
  metas w !! im = Some m ->
  m_pn m = Some t ->
  0 <= max_data (tp_in (conn w)) < 2 ^ 63 ->
  forall off pos', decv buf pos = Some (off, pos') ->
    exists w',
      dec_data_blocked_frame w buf pos im = Some (true, pos', w')
      /\ tx_max_data (conn w') = true
      /\ max_data (tp_in (conn w)) <= max_data (tp_in (conn w'))
      /\ blocked (conn w') = blocked (conn w).
Proof.
  intros Hm Ht Hmax off pos' Hd. unfold dec_data_blocked_frame.
  rewrite Hm. cbn [mbind option_bind]. rewrite Ht. cbn [mbind option_bind].
  rewrite Hd. cbn [chk]. eexists. split; [reflexivity|]. fc_simpl.
  split; [reflexivity|]. split.
  - apply (do_conn_fc_cases (conn w) 0 Hmax).
  - apply do_conn_fc_zero_blocked.
Qed.

(** A DATA_BLOCKED frame with the limit 1000 on [fc_ex]. *)
Lemma dec_data_blocked_frame_grants_witness :
  exists w',
    dec_data_blocked_frame {| metas := [cc_meta_ex]; conn := fc_ex |} [0x43; 0xe8] 0 0
    = Some (true, 2, w')
    /\ tx_max_data (conn w') = true.
Proof.
  destruct (dec_data_blocked_frame_grants {| metas := [cc_meta_ex]; conn := fc_ex |}
              [0x43; 0xe8] 0 0%nat cc_meta_ex pn_data eq_refl eq_refl)
    with (off := 1000) (pos' := 2) as (w' & H & Ht & _);
    [vm_compute; split; [discriminate|reflexivity] | reflexivity |].
  exists w'. split; [exact H | exact Ht].
Defined.


(** ** Path challenges *)

(** [dec_path_challenge_frame] answers a PATH_CHALLENGE with its own data:
    when eight bytes are left in the buffer they are stored and copied to
    [path_resp_out], and a PATH_RESPONSE is made due; with fewer bytes left
    the connection is closed with [ERR_FRAME_ENC] and no response is made
    due. *)
Theorem dec_path_challenge_frame_echo (w : world) (buf : list Z) (pos : Z) :
  (0 <= pos /\ pos + PATH_CHLG_LEN <= Z.of_nat (length buf) ->
   exists w',
     dec_path_challenge_frame w buf pos = Some (true, pos + PATH_CHLG_LEN, w')
     /\ path_resp_out (conn w') = take 8 (drop (Z.to_nat pos) buf)
     /\ path_chlg_in (conn w') = path_resp_out (conn w')
     /\ length (path_resp_out (conn w')) = 8%nat
     /\ tx_path_resp (conn w') = true /\ needs_tx (conn w') = true
     /\ peer (conn w') = peer (conn w))
  /\ (~ (0 <= pos /\ pos + PATH_CHLG_LEN <= Z.of_nat (length buf)) ->
      exists w' reason,
        dec_path_challenge_frame w buf pos = Some (false, pos, w')
        /\ conn w' = err_close (conn w) ERR_FRAME_ENC FRM_PCL reason
        /\ tx_path_resp (conn w') = tx_path_resp (conn w)
        /\ path_resp_out (conn w') = path_resp_out (conn w)).
Proof.
  unfold dec_path_challenge_frame, decb, PATH_CHLG_LEN. split.
  - intros [H0 H1].
    destruct (Z.leb_spec 0 pos); [|lia]. cbn [andb].
    change (0 <=? 8) with true. cbn [andb].
    destruct (Z.leb_spec (pos + 8) (Z.of_nat (length buf))); [|lia].
    cbn [chk]. eexists. split; [reflexivity|].
    cbn [conn with_conn set_conn path_resp_out path_chlg_in tx_path_resp needs_tx peer
         set_tx_path_resp set_needs_tx set_path_resp_out set_path_chlg_in].
    change (Z.to_nat 8) with 8%nat.
    repeat split.
    rewrite length_take, length_drop. lia.
  - intros Hn.
    assert (Hb : (0 <=? pos) && (0 <=? 8) && (pos + 8 <=? Z.of_nat (length buf)) = false).
    { destruct (Z.leb_spec 0 pos); cbn [andb]; [|reflexivity].
      change (0 <=? 8) with true. cbn [andb].
      destruct (Z.leb_spec (pos + 8) (Z.of_nat (length buf))); [lia|reflexivity]. }
    rewrite Hb. cbn [chk]. unfold err_close_return. eexists. eexists.
    split; [reflexivity|].
    cbn [conn with_conn set_conn]. split; [reflexivity|].
    unfold err_close. destruct (negb (err_code (conn w) =? 0)); [split; reflexivity|].
    rewrite enter_closing_cases. cbv zeta.
    repeat match goal with |- context [if ?b then _ else _] => destruct b end;
      split; reflexivity.
Qed.

(** ** Stream data *)

(** [trim_frame] cuts off the part of a frame that lies before the offset
    [off] up to which the stream has data: the frame then starts at [off],
    and ends where it ended, in the stream and in the buffer. *)
Theorem trim_frame_keeps_end (off : Z) (p : pkt_meta) :
  0 <= strm_off p ->
  strm_off p <= off <= strm_off p + strm_data_len p ->
  strm_off p + strm_data_len p < 2 ^ 64 ->
  0 <= strm_data_pos p ->
  strm_data_pos p + strm_data_len p < 2 ^ 16 ->
  let p' := trim_frame off p in
  strm_off p' = off
  /\ strm_data_len p' = strm_data_len p - (off - strm_off p)
  /\ strm_off p' + strm_data_len p' = strm_off p + strm_data_len p
  /\ strm_data_pos p' + strm_data_len p' = strm_data_pos p + strm_data_len p.
Proof.
  intros H0 Hoff Hend Hpos Hbuf. cbv zeta. unfold trim_frame.
  cbn [strm_off strm_data_len strm_data_pos set_strm_data_len set_strm_data_pos
       set_strm_off].
  assert (Hd : u64 (off - strm_off p) = off - strm_off p) by (apply u64_small; lia).
  rewrite Hd.
  assert (H1 : u64 (strm_off p + (off - strm_off p)) = off)
    by (replace (strm_off p + (off - strm_off p)) with off by lia; apply u64_small; lia).
  assert (H2 : u16 (strm_data_len p - (off - strm_off p))
               = strm_data_len p - (off - strm_off p))
    by (unfold u16; apply Z.mod_small; lia).
  assert (H3 : u16 (strm_data_pos p + (off - strm_off p))
               = strm_data_pos p + (off - strm_off p))
    by (unfold u16; apply Z.mod_small; lia).
  rewrite H1, H2, H3. repeat split; lia.
Qed.

(** A frame with the bytes 100..149 of a stream, at position 20 of its
    buffer, when the stream has the data up to offset 120. *)
Lemma trim_frame_keeps_end_witness :
  let p := set_strm_data_len 50 (set_strm_data_pos 20 (set_strm_off 100 meta_zero)) in
  strm_off (trim_frame 120 p) = 120
  /\ strm_data_len (trim_frame 120 p) = 30
  /\ strm_data_pos (trim_frame 120 p) = 40.
Proof.
  cbv zeta.
  destruct (trim_frame_keeps_end 120
              (set_strm_data_len 50 (set_strm_data_pos 20 (set_strm_off 100 meta_zero))))
    as (H1 & H2 & _ & H4);
    [vm_compute; discriminate | vm_compute; split; discriminate
    | vm_compute; reflexivity | vm_compute; discriminate | vm_compute; reflexivity |].
  split; [exact H1|]. split; [rewrite H2; reflexivity|].
  rewrite H2 in H4. cbn [strm_data_pos strm_data_len strm_off set_strm_data_len
                         set_strm_data_pos set_strm_off meta_zero] in H4. lia.
Defined.


Lemma err_close_first_err c code frm reason :
  err_code c = 0 ->
  err_code (err_close c code frm reason) = u64 code
  /\ err_frm (err_close c code frm reason) = u8 frm
  /\ state (err_close c code frm reason) = conn_clsg.
Proof.
  intros H0. unfold err_close. rewrite H0. cbn [Z.eqb negb].
  rewrite enter_closing_from_qlse by reflexivity. repeat split.
Qed.

(** The check at the end of [dec_stream_or_crypto_frame] (from the label
    [done] on): a STREAM frame that was placed on a stream and whose data
    ends beyond [in_data_max] closes the connection with
    [ERR_FLOW_CONTROL], also when the frame is otherwise ignored; a CRYPTO
    frame never does, nor a frame without a stream, nor one within the
    limit: for these the function returns [true] with the read position
    after the data. *)
Theorem strm_frame_done_flow_control (ignore : bool) (w : world) (ty pos : Z)
    (im : nat) (m : pkt_meta) (r : strm_ref) (s : q_stream) :
  metas w !! im = Some m ->
  strm m = Some r ->
  strm_get (conn w) r = Some s ->
  let fin := u64 (strm_off m + strm_data_len m) in
  let accepted :=
    Some (true, strm_data_pos m + strm_data_len m,
          meta_put im (if ignore then set_strm None m else m) w) in
  (ty <> FRM_CRY -> in_data_max s < fin ->
   exists reason,
     strm_frame_done ignore w ty pos im
     = Some (false, pos, with_conn (fun c => err_close c ERR_FLOW_CONTROL ty reason) w)
     /\ (err_code (conn w) = 0 ->
         err_code (err_close (conn w) ERR_FLOW_CONTROL ty reason) = ERR_FLOW_CONTROL))
  /\ (ty = FRM_CRY -> strm_frame_done ignore w ty pos im = accepted)
  /\ (fin <= in_data_max s -> strm_frame_done ignore w ty pos im = accepted).
Proof.
  intros Hm Hr Hs. cbv zeta. unfold strm_frame_done.
  rewrite Hm. cbn [mbind option_bind]. rewrite Hr, Hs. cbn [mbind option_bind].
  split; [|split].
  - intros Hty Hover.
    destruct (Z.eqb_spec ty FRM_CRY) as [|_]; [contradiction|]. cbn [negb andb].
    destruct (Z.ltb_spec (in_data_max s) (u64 (strm_off m + strm_data_len m))); [|lia].
    eexists. split; [reflexivity|].
    intros H0. destruct (err_close_first_err (conn w) ERR_FLOW_CONTROL ty
                           "stream off >= in_data_max"%string H0) as [Hc _].
    rewrite Hc. reflexivity.
  - intros ->. change (FRM_CRY =? FRM_CRY) with true. cbn [negb andb].
    destruct ignore; reflexivity.
  - intros Hle.
    destruct (Z.ltb_spec (in_data_max s) (u64 (strm_off m + strm_data_len m))); [lia|].
    rewrite andb_false_r. destruct ignore; reflexivity.
Qed.

(** A STREAM frame with the bytes 2000..2003 of stream 0 of [strm_ex],
    which may receive 1000 bytes, and the same frame as a CRYPTO frame. *)
Lemma strm_frame_done_flow_control_witness :
  (exists w',
     strm_frame_done false strm_ex 0x0e 9 0 = Some (false, 9, w')
     /\ err_code (conn w') = ERR_FLOW_CONTROL /\ state (conn w') = conn_clsg)
  /\ exists w',
       strm_frame_done false strm_ex FRM_CRY 9 0 = Some (true, 9, w')
       /\ err_code (conn w') = 0 /\ state (conn w') = conn_estb.
Proof.
  destruct (strm_frame_done_flow_control false strm_ex 0x0e 9 0%nat strm_meta_ex
              (SData 0) strm0_ex eq_refl eq_refl eq_refl) as (Hover & _ & _).
  destruct (strm_frame_done_flow_control false strm_ex FRM_CRY 9 0%nat strm_meta_ex
              (SData 0) strm0_ex eq_refl eq_refl eq_refl) as (_ & Hcry & _).
  split.
  - destruct Hover as (reason & H & Hc); [vm_compute; discriminate | vm_compute; reflexivity |].
    eexists. split; [exact H|]. split; [exact (Hc eq_refl)|].
    cbn [conn with_conn set_conn].
    apply (err_close_first_err (conn strm_ex) ERR_FLOW_CONTROL 0x0e reason). reflexivity.
  - eexists. split; [exact (Hcry eq_refl)|]. vm_compute. split; reflexivity.
Defined.


(** ** Frames that a packet type does not allow *)

(** [dec_frames] on an Initial or Handshake packet whose first frame is of
    a type that these packets may not carry (below [FRM_MAX], and none of
    CRYPTO, ACK, PADDING and CONNECTION_CLOSE): the frame is not decoded,
    the connection is closed with [ERR_PROTOCOL_VIOLATION] and the frame
    type, and [dec_frames] returns [false], whatever the decoders of the
    frame types would do. *)
Theorem dec_frames_refuses_frame (ops : strm_ops)
    (dec_other_frame : Z -> world -> list Z -> Z -> nat -> dec_result)
    (E : env) (base : Z) (w : world) (buf : list Z) (im : nat) (m : pkt_meta)
    (ty pos' : Z) :
  metas w !! im = Some m ->
  type (hdr m) = LH_INIT \/ type (hdr m) = LH_HSHK ->
  dec1 buf (hdr_len (hdr m)) = Some (ty, pos') ->
  ty < FRM_MAX ->
  ~ In ty [FRM_CRY; FRM_ACK; FRM_ACE; FRM_PAD; FRM_CLQ; FRM_CLA] ->
  exists reason,
    dec_frames ops dec_other_frame E base w buf im
    = Some (false, buf, im,
            with_conn (fun c => err_close c ERR_PROTOCOL_VIOLATION ty reason) w).
Proof.
  intros Hm Hty Hd Hlt Hnin. eexists.
  assert (Hna : frame_not_allowed (type (hdr m)) ty = true).
  { unfold frame_not_allowed. rewrite lh_ok_members.
    rewrite !andb_true_iff, orb_true_iff, negb_true_iff, !Z.eqb_eq, Z.ltb_lt.
    repeat split; try assumption.
    apply not_true_is_false. intros Hex. apply existsb_exists in Hex.
    destruct Hex as (x & Hin & Heq). apply Z.eqb_eq in Heq. subst x. auto. }
  assert (Hpad : (ty =? FRM_PAD) = false).
  { apply Z.eqb_neq. intros ->. apply Hnin. simpl. auto. }
  assert (Hpos : 0 <= hdr_len (hdr m) /\ hdr_len (hdr m) + 1 <= Z.of_nat (length buf)).
  { unfold dec1 in Hd.
    destruct (Z.leb_spec 0 (hdr_len (hdr m))); cbn [andb] in Hd; [|discriminate].
    destruct (Z.leb_spec (hdr_len (hdr m) + 1) (Z.of_nat (length buf)));
      [lia|discriminate]. }
  unfold dec_frames. rewrite Hm. cbn [mbind option_bind].
  destruct (length buf) as [|n] eqn:Hlen; [simpl in Hpos; lia|].
  cbn [frames_loop].
  destruct (Z.leb_spec (Z.of_nat (length buf)) (hdr_len (hdr m))) as [Hle|_]; [lia|].
  rewrite Hd. rewrite Hm. cbn [mbind option_bind].
  rewrite Hpad, Hna. reflexivity.
Qed.

(** A Handshake packet whose payload starts with a PING frame. *)
Lemma dec_frames_refuses_frame_witness :
  exists w',
    dec_frames strm_ops_ex no_other_frames env_ex 0 hshk_ping_ex [0x01; 0x00] 0
    = Some (false, [0x01; 0x00], 0%nat, w')
    /\ err_code (conn w') = ERR_PROTOCOL_VIOLATION
    /\ err_frm (conn w') = FRM_PNG
    /\ state (conn w') = conn_clsg.
Proof.
  destruct (dec_frames_refuses_frame strm_ops_ex no_other_frames env_ex 0 hshk_ping_ex
              [0x01; 0x00] 0%nat hshk_meta_ex FRM_PNG 1) as (reason & H);
    [reflexivity | right; reflexivity | reflexivity | vm_compute; reflexivity
    | vm_compute; intuition discriminate |].
  eexists. split; [exact H|]. cbn [conn with_conn set_conn].
  apply (err_close_first_err (conn hshk_ping_ex) ERR_PROTOCOL_VIOLATION FRM_PNG reason).
  reflexivity.
Defined.


(** ** Packet numbers on the wire *)

Lemma land_high_bits e k :
  0 <= e < 2 ^ 64 -> 0 <= k <= 64 ->
  Z.land e (u64 (Z.lnot (2 ^ k - 1))) = e - e mod 2 ^ k.
Proof.
  intros He Hk. unfold u64.
  rewrite <- (Z.land_ones _ 64) by lia.
  rewrite Z.land_assoc, (Z.land_comm e), <- Z.land_assoc.
  assert (H64 : Z.land e (Z.ones 64) = e)
    by (rewrite Z.land_ones by lia; apply Z.mod_small; lia).
  rewrite H64, Z.land_comm.
  replace (2 ^ k - 1) with (Z.ones k) by (rewrite Z.ones_equiv; lia).
  rewrite <- Z.ldiff_land.
  rewrite Z.ldiff_ones_r by lia.
  rewrite Z.shiftl_mul_pow2, Z.shiftr_div_pow2 by lia.
  pose proof (Z.div_mod e (2 ^ k)) as Hdm.
  assert (0 < 2 ^ k) by (apply Z.pow_pos_nonneg; lia). lia.
Qed.

Lemma lor_low_high t e k :
  0 <= t < 2 ^ k -> 0 <= e -> 0 <= k ->
  Z.lor t (e - e mod 2 ^ k) = t + (e - e mod 2 ^ k).
Proof.
  intros Ht He Hk.
  assert (Hpos : 0 < 2 ^ k) by (apply Z.pow_pos_nonneg; lia).
  assert (Hhi : e - e mod 2 ^ k = Z.shiftl (e / 2 ^ k) k).
  { rewrite Z.shiftl_mul_pow2 by lia. pose proof (Z.div_mod e (2 ^ k)). lia. }
  rewrite Hhi.
  assert (H : Z.land t (Z.shiftl (e / 2 ^ k) k) = 0).
  { apply Z.bits_inj'. intros n Hn. rewrite Z.land_spec, Z.bits_0.
    destruct (Z.lt_ge_cases n k).
    - rewrite Z.shiftl_spec_low by lia. apply andb_false_r.
    - rewrite <- (Z.mod_small t (2 ^ k)) by lia.
      rewrite Z.mod_pow2_bits_high by lia. reflexivity. }
  rewrite <- Z.lxor_lor by exact H. symmetry. apply Z.add_nocarry_lxor. exact H.
Qed.

(** The packet number survives the wire. [enc_pkt] writes the low bytes of
    the number [nr], as many as [needed_pkt_nr_len] says for the largest
    number acknowledged; [undo_hp] rebuilds the number from them and from
    the largest number in the receiver's [recv]. It gets [nr] back when the
    receiver's largest number is not above [nr] and, plus one, not below
    the sender's largest acknowledged number, and that number is fewer than
    2^31 packets behind. *)
Theorem pkt_nr_round_trip (p : pn_space) (lg_acked nr : Z) :
  let base := if lg_acked =? UINT_T_MAX then 0 else lg_acked in
  let pnl := needed_pkt_nr_len lg_acked nr in
  0 <= base <= nr ->
  base <= diet_max (recv p) + 1 ->
  0 <= diet_max (recv p) <= nr ->
  nr - base < 2 ^ 31 ->
  nr < 2 ^ 62 ->
  1 <= pnl <= 4 /\ full_pkt_nr p pnl (trunc_pkt_nr pnl nr) = nr.
Proof.
  cbv zeta. intros Hb Hbe Hmax Hd Hnr.
  set (base := if lg_acked =? UINT_T_MAX then 0 else lg_acked) in *.
  set (e := diet_max (recv p) + 1).
  assert (He : 0 <= e < 2 ^ 63) by (unfold e; lia).
  assert (Hpnl : exists k,
             needed_pkt_nr_len lg_acked nr = k /\ 1 <= k <= 4
             /\ 2 * (nr - base) < 2 ^ (8 * k)).
  { unfold needed_pkt_nr_len. fold base.
    rewrite (u64_small (nr - base)) by lia.
    rewrite (u64_small ((nr - base) * 2)) by lia.
    unfold UINT8_MAX, UINT16_MAX, UINT32_MAX.
    change (Z.shiftr 4294967295 8) with 16777215.
    destruct (Z.leb_spec ((nr - base) * 2) 255); [exists 1; simpl; lia|].
    destruct (Z.leb_spec ((nr - base) * 2) 65535); [exists 2; simpl; lia|].
    destruct (Z.leb_spec ((nr - base) * 2) 16777215); [exists 3; simpl; lia|].
    exists 4. simpl. lia. }
  destruct Hpnl as (k & -> & Hk & Hwin). split; [exact Hk|].
  unfold full_pkt_nr, trunc_pkt_nr. fold e.
  rewrite (u64_small e) by lia.
  rewrite Z.land_ones by lia.
  rewrite Z.shiftl_mul_pow2 by lia. rewrite Z.mul_1_l.
  replace (k * 8) with (8 * k) by lia.
  rewrite (land_high_bits e (8 * k)) by lia.
  assert (Hpw : 0 < 2 ^ (8 * k)) by (apply Z.pow_pos_nonneg; lia).
  assert (Ht : 0 <= nr mod 2 ^ (8 * k) < 2 ^ (8 * k)) by (apply Z.mod_pos_bound; lia).
  rewrite (lor_low_high (nr mod 2 ^ (8 * k)) e (8 * k)) by lia.
  set (win := 2 ^ (8 * k)) in *.
  assert (Hwv : win = 256 \/ win = 65536 \/ win = 16777216 \/ win = 4294967296).
  { unfold win. assert (Hk' : k = 1 \/ k = 2 \/ k = 3 \/ k = 4) by lia.
    destruct Hk' as [-> | [-> | [-> | ->]]]; simpl; auto. }
  pose proof (Z.div_mod e win ltac:(lia)) as Hde.
  pose proof (Z.div_mod nr win ltac:(lia)) as Hdn.
  pose proof (Z.mod_pos_bound e win ltac:(lia)) as Hme.
  assert (Hhw : 2 * (win / 2) = win)
    by (destruct Hwv as [-> | [-> | [-> | ->]]]; reflexivity).
  set (n0 := nr mod win + (e - e mod win)) in *.
  assert (Hq : nr / win = e / win \/ nr / win = e / win + 1 \/ nr / win = e / win - 1)
    by nia.
  assert (Hn0 : 0 <= n0 < 2 ^ 63) by (unfold n0; lia).
  rewrite (u64_small (n0 + win / 2)) by lia.
  rewrite (u64_small (e + win / 2)) by lia.
  destruct (Z.leb_spec (n0 + win / 2) e) as [H1|H1].
  - rewrite u64_small by lia. unfold n0 in *. nia.
  - destruct (Z.ltb_spec (e + win / 2) n0) as [H2|H2]; cbn [andb].
    + destruct (Z.ltb_spec win n0) as [H3|H3].
      * rewrite u64_small by lia. unfold n0 in *. nia.
      * unfold n0 in *. nia.
    + unfold n0 in *. nia.
Qed.

(** The receiver has packet 300, the sender sends 301 with 298
    acknowledged: one byte, 45, goes on the wire. *)
Lemma pkt_nr_round_trip_witness :
  let p := set_recv {[ 300 ]} pn_zero in
  needed_pkt_nr_len 298 301 = 1
  /\ trunc_pkt_nr 1 301 = 45
  /\ full_pkt_nr p 1 45 = 301.
Proof.
  cbv zeta.
  destruct (pkt_nr_round_trip (set_recv {[ 300 ]} pn_zero) 298 301) as [_ H];
    [vm_compute; split; discriminate | vm_compute; discriminate
    | vm_compute; split; discriminate | vm_compute; reflexivity
    | vm_compute; reflexivity |].
  split; [reflexivity|]. split; [reflexivity|]. exact H.
Defined.


(** ** Packet numbers that are resolved already *)

(** One turn of the loop over a range for a number that is in
    [acked_or_lost]: the state stays as it is. *)
Lemma ack_one_resolved E ty t cum_ack lg_ack_in_frm ack_delay pos ack st :
  diet_find (acked_or_lost (pn_get (conn (ack_w st)) t)) ack = true ->
  ack_one E ty t cum_ack lg_ack_in_frm ack_delay pos ack st = Some (NextAck st)
  \/ ack_one E ty t cum_ack lg_ack_in_frm ack_delay pos ack st = Some (NextRng st).
Proof.
  intros H. unfold ack_one.
  destruct (negb (cum_ack =? UINT_T_MAX) && (ack <=? cum_ack)); [right; reflexivity|].
  rewrite H. left. reflexivity.
Qed.

(** The loop over a range whose numbers from [ack] down are all resolved. *)
Lemma ack_range_resolved E ty t cum_ack lg_ack_in_frm ack_delay pos lg_ack ack_rng st :
  forall (fuel : nat) (ack : Z),
    0 <= ack_rng <= lg_ack -> lg_ack < 2 ^ 64 ->
    lg_ack - ack_rng <= ack + 1 -> 0 <= ack <= lg_ack ->
    (Z.to_nat (ack + 1 - (lg_ack - ack_rng)) < fuel)%nat ->
    (forall n, lg_ack - ack_rng <= n <= ack ->
       diet_find (acked_or_lost (pn_get (conn (ack_w st)) t)) n = true) ->
    ack_range E ty t cum_ack lg_ack_in_frm ack_delay pos lg_ack ack_rng fuel ack st
    = Some (NextRng st).
Proof.
  induction fuel as [|fuel IH]; intros ack Hrng Hlg Hlo Hhi Hfuel Hres; [lia|].
  cbn [ack_range].
  assert (Hu : u64 (lg_ack - ack) = lg_ack - ack) by (apply u64_small; lia).
  rewrite Hu.
  destruct (Z.ltb_spec ack_rng (lg_ack - ack)) as [Hout|Hin]; [reflexivity|].
  destruct (ack_one_resolved E ty t cum_ack lg_ack_in_frm ack_delay pos ack st) as [H|H];
    [apply Hres; lia | |]; rewrite H; cbn [mbind option_bind]; [|reflexivity].
  destruct (Z.ltb_spec 0 ack) as [Hpos|Hz]; [|reflexivity].
  apply IH; try lia. intros n Hn. apply Hres. lia.
Qed.

(** An ACK frame with one range all of whose packet numbers are
    acknowledged or lost already changes neither the recovery state nor
    the congestion state, nor the tables of the packet-number space:
    [dec_ack_frame] returns [true] having noted the position of the frame
    in the meta-data of the packet and cleared [tx_frames]. *)
Theorem dec_ack_frame_resolved (E : env) (w : world) (buf : list Z) (pos : Z)
    (im : nat) (m : pkt_meta) (t : pn_t) (lg delay rng p1 p2 p3 p4 : Z) :
  metas w !! im = Some m ->
  m_pn m = Some t ->
  decv buf pos = Some (lg, p1) ->
  decv buf p1 = Some (delay, p2) ->
  delay <= UINT32_MAX ->
  decv buf p2 = Some (0, p3) ->
  decv buf p3 = Some (rng, p4) ->
  0 <= rng <= lg -> rng <= Z.shiftl UINT16_MAX 4 -> lg < 2 ^ 62 ->
  (forall n, lg - rng <= n <= lg ->
     diet_find (acked_or_lost (pn_get (conn w) t)) n = true) ->
  dec_ack_frame E w FRM_ACK buf pos im
  = Some (true, p4,
          with_conn (upd_pn t (set_tx_frames bit_zero))
            (if ack_frm_pos m =? 0 then meta_put im (set_ack_frm_pos (u16 pos) m) w
             else w)).
Proof.
  intros Hm Ht Hlg Hdel Hdmax Hcnt Hrng Hr Hr16 Hl Hres.
  unfold dec_ack_frame. rewrite Hm. cbn [mbind option_bind]. rewrite Ht.
  rewrite Hlg. cbn [chk]. rewrite Hdel. cbn [chk].
  destruct (Z.ltb_spec UINT32_MAX delay) as [|_]; [lia|].
  rewrite Hcnt. cbn [chk].
  assert (Hlen : exists n, length buf = S n).
  { unfold decv, dec1 in Hlg.
    destruct ((0 <=? pos) && (pos + 1 <=? Z.of_nat (length buf))) eqn:Hb;
      [|discriminate].
    apply andb_true_iff in Hb. destruct Hb as [H0 H1].
    apply Z.leb_le in H0. apply Z.leb_le in H1.
    destruct (length buf); [simpl in H1; lia|eauto]. }
  destruct Hlen as [n Hn]. rewrite Hn.
  change (0 + 1) with 1. cbn [ack_ranges].
  change (1 <=? 0) with false. cbn iota.
  rewrite Hrng.
  destruct (Z.ltb_spec (Z.shiftl UINT16_MAX 4) rng) as [Hbig|_]; [lia|].
  destruct (Z.ltb_spec lg rng) as [|_]; [lia|].
  set (w1 := if ack_frm_pos m =? 0 then meta_put im (set_ack_frm_pos (u16 pos) m) w
             else w).
  assert (Hc1 : conn w1 = conn w) by (unfold w1; destruct (ack_frm_pos m =? 0); reflexivity).
  match goal with |- context [ack_range ?a ?b ?c ?d ?e ?f ?g ?h ?i ?j ?k ?l] =>
    assert (Hrg : ack_range a b c d e f g h i j k l = Some (NextRng l)) end.
  { apply ack_range_resolved; try lia.
    intros k Hk. cbn [ack_w]. rewrite Hc1. apply Hres. exact Hk. }
  rewrite Hrg.
  cbn [mbind option_bind]. change (1 <? 0 + 1) with false. cbn iota.
  cbn [ack_w got_new_ack]. change (FRM_ACK =? FRM_ACE) with false. cbn iota.
  cbn [mbind option_bind]. reflexivity.
Qed.


(** The ACK frame of [zero_rtt_ack_pkt] acknowledges packet 0, which is
    resolved on [srv_0rtt_ex]. *)
Lemma dec_ack_frame_resolved_witness :
  exists w',
    dec_ack_frame env_ex zero_rtt_ack_ex FRM_ACK zero_rtt_ack_pkt 15 0 = Some (true, 19, w')
    /\ rec (conn w') = rec srv_0rtt_ex
    /\ pns (conn w') = pns srv_0rtt_ex.
Proof.
  eexists. split.
  - apply (dec_ack_frame_resolved env_ex zero_rtt_ack_ex zero_rtt_ack_pkt 15 0%nat
             zero_rtt_ack_meta pn_data 0 0 0 16 17 18 19);
      [reflexivity | reflexivity | reflexivity | reflexivity
      | vm_compute; discriminate | reflexivity | reflexivity
      | lia | vm_compute; discriminate | reflexivity |].
    intros n Hn. assert (n = 0) as -> by lia. reflexivity.
  - split; reflexivity.
Defined.


(** ** Losing a packet *)

Lemma kh_get_del tbl k : kh_get (kh_del tbl k) k = None.
Proof.
  unfold kh_del. induction tbl as [|[k' v'] tbl IH]; [reflexivity|].
  rewrite filter_cons. cbn [fst].
  destruct (decide (k' ≠ k)) as [Hne|Heq]; [|exact IH].
  cbn [kh_get]. destruct (Z.eqb_spec k' k); [contradiction|exact IH].
Qed.

Lemma pn_get_strm_put r s c t : pn_get (strm_put r s c) t = pn_get c t.
Proof. destruct r, t; reflexivity. Qed.

Lemma strm_get_same c c' r :
  cstrms c' = cstrms c -> strms_by_id c' = strms_by_id c ->
  strm_get c' r = strm_get c r.
Proof. intros H1 H2. destruct r; cbn [strm_get]; rewrite ?H1, ?H2; reflexivity. Qed.

Lemma cstrms_upd_pn t f c : cstrms (upd_pn t f c) = cstrms c.
Proof. destruct t; reflexivity. Qed.

Lemma strms_by_id_upd_pn t f c : strms_by_id (upd_pn t f c) = strms_by_id c.
Proof. destruct t; reflexivity. Qed.

Lemma remove_from_in_flight_strms m c c' :
  remove_from_in_flight m c = Some c' ->
  cstrms c' = cstrms c /\ strms_by_id c' = strms_by_id c
  /\ forall t, pn_get c' t = pn_get c t.
Proof.
  unfold remove_from_in_flight.
  destruct (in_flight_bytes (cur (rec c)) <? udp_len m); [discriminate|].
  intros H. injection H as <-.
  destruct (ack_eliciting m); repeat split; intros []; reflexivity.
Qed.

Lemma on_pkt_lost_effect (w : world) (i : nat) (is_lost : bool) (m : pkt_meta)
    (t : pn_t) :
  metas w !! i = Some m ->
  m_pn m = Some t ->
  (in_flight m = true -> udp_len m <= in_flight_bytes (cur (rec (conn w)))) ->
  (forall r, strm m = Some r -> is_Some (strm_get (conn w) r)) ->
  exists w',
    on_pkt_lost w i is_lost = Some w'
    /\ diet_find (acked_or_lost (pn_get (conn w') t)) (nr (hdr m)) = true
    /\ find_sent_pkt (pn_get (conn w') t) (nr (hdr m)) = None
    /\ metas w' !! i = Some (set_lost true m)
    /\ forall E ty cum_ack lg_ack_in_frm ack_delay pos st,
         ack_w st = w' ->
         ack_one E ty t cum_ack lg_ack_in_frm ack_delay pos (nr (hdr m)) st
         = Some (NextAck st)
         \/ ack_one E ty t cum_ack lg_ack_in_frm ack_delay pos (nr (hdr m)) st
            = Some (NextRng st).
Proof.
  intros Hm Ht Hfl Hstrm.
  assert (Hrem : exists c1,
             (if in_flight m then remove_from_in_flight m (conn w) else Some (conn w))
             = Some c1
             /\ cstrms c1 = cstrms (conn w) /\ strms_by_id c1 = strms_by_id (conn w)
             /\ forall t, pn_get c1 t = pn_get (conn w) t).
  { destruct (in_flight m) eqn:Hin.
    - destruct (remove_from_in_flight m (conn w)) as [c1|] eqn:Hr.
      + exists c1. split; [reflexivity|]. eapply remove_from_in_flight_strms; eassumption.
      + exfalso. unfold remove_from_in_flight in Hr.
        destruct (Z.ltb_spec (in_flight_bytes (cur (rec (conn w)))) (udp_len m));
          [specialize (Hfl eq_refl); lia|discriminate].
    - exists (conn w). auto. }
  destruct Hrem as (c1 & Hc1 & Hcs & Hsb & Hpn).
  set (c2 := upd_pn t (fun p => set_acked_or_lost
                                  (diet_insert (acked_or_lost p) (nr (hdr m))) p) c1).
  set (c3 := if is_lost && bit_overlap all_ctrl (frms m) && has_frm (frms m) FRM_CID
             then set_max_cid_seq_out (u64 (min_cid_seq m - 1)) c2 else c2).
  assert (Hc3 : cstrms c3 = cstrms (conn w) /\ strms_by_id c3 = strms_by_id (conn w)
                /\ pn_get c3 t = set_acked_or_lost
                                   (diet_insert (acked_or_lost (pn_get (conn w) t))
                                      (nr (hdr m))) (pn_get (conn w) t)).
  { unfold c3.
    destruct (is_lost && bit_overlap all_ctrl (frms m) && has_frm (frms m) FRM_CID);
      [change (cstrms (set_max_cid_seq_out ?v c2)) with (cstrms c2);
       change (strms_by_id (set_max_cid_seq_out ?v c2)) with (strms_by_id c2);
       change (pn_get (set_max_cid_seq_out ?v c2) t) with (pn_get c2 t)|];
      unfold c2; rewrite cstrms_upd_pn, strms_by_id_upd_pn, pn_get_upd_pn, Hpn; auto. }
  destruct Hc3 as (Hcs3 & Hsb3 & Hpn3).
  assert (Hc4 : exists c4,
             match strm (set_lost true m) with
             | None => Some c3
             | Some r =>
                 s ← strm_get c3 r;
                 Some (strm_put r (set_lost_cnt (u64 (lost_cnt s + 1)) s) c3)
             end = Some c4
             /\ pn_get c4 t = pn_get c3 t).
  { change (strm (set_lost true m)) with (strm m).
    destruct (strm m) as [r|] eqn:Hr.
    - destruct (Hstrm r eq_refl) as [s Hs].
      rewrite (strm_get_same (conn w) c3 r Hcs3 Hsb3), Hs. cbn [mbind option_bind].
      eexists. split; [reflexivity|]. apply pn_get_strm_put.
    - exists c3. auto. }
  destruct Hc4 as (c4 & Hc4 & Hpn4).
  unfold on_pkt_lost. rewrite Hm. cbn [mbind option_bind]. rewrite Ht.
  cbn [mbind option_bind]. rewrite Hc1. cbn [mbind option_bind].
  fold c2. fold c3. rewrite Hc4. cbn [mbind option_bind].
  unfold pm_by_nr_del.
  rewrite (meta_put_lookup _ _ _ m) by exact Hm. cbn [mbind option_bind].
  change (nr (hdr (set_lost true m))) with (nr (hdr m)).
  eexists. split; [reflexivity|].
  cbn [conn with_conn set_conn meta_put set_metas metas].
  assert (Hfind : diet_find
                    (acked_or_lost
                       (pn_get
                          (upd_pn t (fun p => set_sent_pkts
                                                (kh_del (sent_pkts p) (nr (hdr m))) p) c4)
                          t))
                    (nr (hdr m)) = true).
  { rewrite pn_get_upd_pn, Hpn4, Hpn3.
    cbn [acked_or_lost set_sent_pkts set_acked_or_lost].
    unfold diet_find, diet_insert. apply bool_decide_eq_true. set_solver. }
  split; [exact Hfind|]. split.
  - unfold find_sent_pkt. rewrite pn_get_upd_pn.
    cbn [sent_pkts set_sent_pkts]. apply kh_get_del.
  - split.
    + apply list_lookup_insert_eq. apply lookup_lt_Some in Hm. exact Hm.
    + intros E ty cum lgf dl pos st Hst. apply ack_one_resolved.
      rewrite Hst. cbn [conn]. exact Hfind.
Qed.

(** [on_pkt_lost] resolves the number of the packet: it enters the number
    in [acked_or_lost], takes the packet out of the table of sent packets
    and marks it lost. An ACK for the number that arrives later is skipped
    by the loop of [dec_ack_frame]: the state stays as it is. *)
Theorem on_pkt_lost_resolves (w : world) (i : nat) (is_lost : bool) (m : pkt_meta)
    (t : pn_t) :
  metas w !! i = Some m ->
  m_pn m = Some t ->
  (in_flight m = true -> udp_len m <= in_flight_bytes (cur (rec (conn w)))) ->
  (forall r, strm m = Some r -> is_Some (strm_get (conn w) r)) ->
  exists w',
    on_pkt_lost w i is_lost = Some w'
    /\ diet_find (acked_or_lost (pn_get (conn w') t)) (nr (hdr m)) = true
    /\ find_sent_pkt (pn_get (conn w') t) (nr (hdr m)) = None
    /\ metas w' !! i = Some (set_lost true m)
    /\ forall E ty cum_ack lg_ack_in_frm ack_delay pos st,
         ack_w st = w' ->
         ack_one E ty t cum_ack lg_ack_in_frm ack_delay pos (nr (hdr m)) st
         = Some (NextAck st)
         \/ ack_one E ty t cum_ack lg_ack_in_frm ack_delay pos (nr (hdr m)) st
            = Some (NextRng st).
Proof. exact (on_pkt_lost_effect w i is_lost m t). Qed.

(** The packet in flight of [cc_ex], number 0, is lost. *)
Lemma on_pkt_lost_resolves_witness :
  exists w',
    on_pkt_lost {| metas := [cc_meta_ex]; conn := cc_ex |} 0 true = Some w'
    /\ diet_find (acked_or_lost (pn_get (conn w') pn_data)) 0 = true
    /\ find_sent_pkt (pn_get (conn w') pn_data) 0 = None.
Proof.
  destruct (on_pkt_lost_resolves {| metas := [cc_meta_ex]; conn := cc_ex |} 0%nat true
              cc_meta_ex pn_data)
    as (w' & H & Hf & Hs & _);
    [reflexivity | reflexivity | intros _; vm_compute; discriminate
    | intros r Hr; discriminate Hr |].
  exists w'. split; [exact H|]. split; [exact Hf | exact Hs].
Defined.


(** ** Freeing a buffer *)

(** [free_iov] on a buffer that is in no RTX list. The meta-data is zeroed
    in every case. For a received or unsent buffer, and for a sent packet
    that is acknowledged or lost already, nothing else changes. A sent
    packet that is still outstanding in a space that is not abandoned is
    resolved like a lost one: its number enters [acked_or_lost] and leaves
    the table of sent packets. *)
Theorem free_iov_resolves (w : world) (i : nat) (m : pkt_meta) :
  metas w !! i = Some m ->
  rtx m = None ->
  (txed m = false \/ acked m = true \/ lost m = true ->
   free_iov w i = Some (meta_put i meta_zero w))
  /\ (forall t,
        txed m = true -> acked m = false -> lost m = false ->
        m_pn m = Some t -> abandoned (pn_get (conn w) t) = false ->
        (in_flight m = true -> udp_len m <= in_flight_bytes (cur (rec (conn w)))) ->
        exists w',
          free_iov w i = Some w'
          /\ metas w' !! i = Some meta_zero
          /\ diet_find (acked_or_lost (pn_get (conn w') t)) (nr (hdr m)) = true
          /\ find_sent_pkt (pn_get (conn w') t) (nr (hdr m)) = None).
Proof.
  intros Hm Hrtx. split.
  - intros Hcase. unfold free_iov. rewrite Hm. cbn [mbind option_bind].
    destruct (txed m) eqn:Htx; [|reflexivity].
    destruct Hcase as [H|[H|H]]; [discriminate| |]; rewrite H;
      [|rewrite andb_false_r]; cbn [negb andb mbind option_bind];
      rewrite Hm; cbn [mbind option_bind]; rewrite Hrtx; reflexivity.
  - intros t Htx Ha Hl Ht Hab Hfl.
    unfold free_iov. rewrite Hm. cbn [mbind option_bind].
    rewrite Htx, Ha, Hl. cbn [negb andb]. rewrite Ht. cbn [mbind option_bind].
    rewrite Hab. cbn [negb]. unfold upd_meta. rewrite Hm. cbn [mbind option_bind].
    destruct (on_pkt_lost_effect (meta_put i (set_strm None m) w) i false
                (set_strm None m) t) as (w1 & H1 & Hf & Hs & Hmeta & _).
    + apply (meta_put_lookup _ _ _ m). exact Hm.
    + exact Ht.
    + exact Hfl.
    + intros r Hr. discriminate Hr.
    + rewrite H1. cbn [mbind option_bind]. rewrite Hmeta. cbn [mbind option_bind].
      change (rtx (set_lost true (set_strm None m))) with (rtx m). rewrite Hrtx.
      eexists. split; [reflexivity|].
      split; [apply (meta_put_lookup _ _ _ (set_lost true (set_strm None m))); exact Hmeta|].
      cbn [conn meta_put set_metas]. split; [exact Hf | exact Hs].
Qed.

(** The outstanding packet of [cc_ex] is freed. *)
Lemma free_iov_resolves_witness :
  exists w',
    free_iov {| metas := [set_txed true cc_meta_ex]; conn := cc_ex |} 0 = Some w'
    /\ metas w' !! 0%nat = Some meta_zero
    /\ diet_find (acked_or_lost (pn_get (conn w') pn_data)) 0 = true.
Proof.
  destruct (free_iov_resolves {| metas := [set_txed true cc_meta_ex]; conn := cc_ex |}
              0%nat (set_txed true cc_meta_ex) eq_refl eq_refl) as [_ H].
  destruct (H pn_data) as (w' & Hf & Hz & Hd & _);
    [reflexivity | reflexivity | reflexivity | reflexivity | reflexivity
    | intros _; vm_compute; discriminate |].
  exists w'. split; [exact Hf|]. split; [exact Hz | exact Hd].
Defined.


(** ** Stateless resets *)

(** [is_srt] recognises a stateless reset only in a datagram of at least
    [MIN_SRT_PKT_LEN] bytes with a short header whose last bytes are a
    reset token of the connection, and only once: the connection then goes
    to [drng] with the closing alarm armed and the other alarms stopped,
    and nothing is made due for sending. In every other case, among them a
    connection that is draining already, it returns no connection and
    changes nothing. *)
Theorem is_srt_drains (I : rx_in) (w : world) (im : nat) (m : pkt_meta) :
  metas w !! im = Some m ->
  let is_reset_pkt :=
    Z.land (flags (hdr m)) LH = HEAD_FIXD /\ MIN_SRT_PKT_LEN <= xv_len I
    /\ srt_hit I = true /\ state (conn w) <> conn_drng in
  (is_reset_pkt ->
   exists w',
     is_srt I w im = Some (true, w')
     /\ state (conn w') = conn_drng
     /\ (is_reset <$> metas w' !! im) = Some true
     /\ closing_alarm (conn w')
        = Some (u64 (3 * (if srtt (cur (rec (conn w))) =? 0 then kInitialRtt
                          else srtt (cur (rec (conn w))))
                     + 4 * rttvar (cur (rec (conn w)))))
     /\ idle_alarm (conn w') = None /\ ack_alarm (conn w') = None
     /\ needs_tx (conn w') = needs_tx (conn w) /\ tx_w (conn w') = tx_w (conn w)
     /\ err_code (conn w') = err_code (conn w))
  /\ (~ is_reset_pkt -> is_srt I w im = Some (false, w)).
Proof.
  intros Hm. cbv zeta. unfold is_srt. rewrite Hm. cbn [mbind option_bind]. split.
  - intros (Hsh & Hlen & Hhit & Hst).
    assert (H1 : (Z.land (flags (hdr m)) LH =? HEAD_FIXD) = true) by (apply Z.eqb_eq; exact Hsh).
    rewrite H1. cbn [negb orb].
    destruct (Z.ltb_spec (xv_len I) MIN_SRT_PKT_LEN) as [|_]; [lia|].
    rewrite Hhit. rewrite bool_decide_eq_false_2 by exact Hst. cbn [negb andb].
    eexists. split; [reflexivity|].
    cbn [conn with_conn set_conn metas meta_put set_metas].
    rewrite enter_closing_cases. cbv zeta.
    change (state (conn_to_state conn_drng (conn w))) with conn_drng.
    destruct (decide (conn_drng = conn_clsg)) as [Hd|_]; [discriminate Hd|].
    change (bool_decide (conn_drng = conn_idle)) with false.
    change (bool_decide (conn_drng = conn_opng)) with false.
    cbn [orb andb].
    destruct (decide (conn_drng = conn_drng)) as [_|Hd]; [|contradiction].
    split; [reflexivity|].
    split; [rewrite list_lookup_insert_eq by (apply lookup_lt_Some in Hm; exact Hm);
            reflexivity|].
    repeat split.
  - intros Hn.
    destruct (Z.eqb_spec (Z.land (flags (hdr m)) LH) HEAD_FIXD) as [Hsh|_];
      [|reflexivity].
    cbn [negb orb].
    destruct (Z.ltb_spec (xv_len I) MIN_SRT_PKT_LEN) as [|Hlen]; [reflexivity|].
    destruct (srt_hit I) eqn:Hhit; [|reflexivity].
    destruct (decide (state (conn w) = conn_drng)) as [Hst|Hst].
    + rewrite bool_decide_eq_true_2 by exact Hst. reflexivity.
    + exfalso. apply Hn. auto.
Qed.

(** A datagram of 60 bytes with a short header and a reset token, on the
    established connection of [srt_ex]. *)
Lemma is_srt_drains_witness :
  exists w',
    is_srt srt_in_ex srt_ex 0 = Some (true, w')
    /\ state (conn w') = conn_drng
    /\ closing_alarm (conn w') = Some (3 * kInitialRtt).
Proof.
  destruct (is_srt_drains srt_in_ex srt_ex 0%nat srt_meta_ex eq_refl) as [H _].
  destruct H as (w' & Hs & Hst & _ & Hal & _).
  - split; [reflexivity|]. split; [vm_compute; discriminate|].
    split; [reflexivity | discriminate].
  - exists w'. split; [exact Hs|]. split; [exact Hst|]. rewrite Hal. reflexivity.
Defined.


(** ** Short-header packets: authentication, reserved bits, duplicates *)

Lemma upd_pn_id t f c : f (pn_get c t) = pn_get c t -> upd_pn t f c = c.
Proof.
  unfold upd_pn. intros ->. unfold pn_put, pn_get.
  destruct t; destruct c; cbn;
    match goal with |- context [set_pns_init _ ?p] => destruct p
                  | |- context [set_pns_hshk _ ?p] => destruct p
                  | |- context [set_pns_data _ ?p] => destruct p end; reflexivity.
Qed.


Section ShortHeader.

Variable R : rx_ops.
Variable I : rx_in.
Variable w : world.
Variable im : nat.
Variable m : pkt_meta.
Variables fl tnr : Z.

Let pd := pn_get (conn w) pn_data.
Let nr' := full_pkt_nr pd (pkt_nr_len fl) tnr.

(** A short-header packet in a received buffer, which the keys of the
    current key phase decrypt. *)
Hypothesis Hm : metas w !! im = Some m.
Hypothesis Hty : type (hdr m) = SH.
Hypothesis Hhp : header_protection (in_1rtt0 pd) = true.
Hypothesis Hunm : hp_unmasked I = Some (fl, tnr).
Hypothesis Hsh : is_lh fl = false.
Hypothesis Hky : is_set SH_KYPH fl = in_kyph pd.
Hypothesis Haead : aead (if is_set SH_KYPH fl then in_1rtt1 pd else in_1rtt0 pd) = true.
Hypothesis Hok : aead_ok I = true.
Hypothesis Hlen : 0 < u16 (hdr_len (hdr m) + pkt_nr_len fl) <= u16 (xv_len I).

Lemma pkt_type_sh : pkt_type fl = SH.
Proof. unfold pkt_type. rewrite Hsh. reflexivity. Qed.

(** What is left of [dec_pkt_hdr_remainder] for such a packet: the test of
    the reserved bits, the spin bit, the test for a duplicate and the
    immediate ACK; [m1] is the meta-data with the header unmasked. *)
Lemma dec_pkt_hdr_remainder_sh :
  exists m1,
    flags (hdr m1) = fl /\ nr (hdr m1) = nr' /\ txed m1 = txed m /\ strm m1 = strm m
    /\ m_pn m1 = Some pn_data
    /\ dec_pkt_hdr_remainder R I w im
       = let w2 := set_metas (<[im := m1]> (metas w)) w in
         if negb (Z.land fl SH_RSVD_MASK =? 0) then
           Some (false, false,
                 with_conn (fun c => err_close c ERR_PROTOCOL_VIOLATION 0
                                       (rsvd_reason false (Z.land fl SH_RSVD_MASK))) w2)
         else
           let w3 :=
             if spin_enabled (conn w) && (diet_max (recv_all pd) <? nr')
             then with_conn (set_spin (eqb (is_set SH_SPIN fl) (negb (is_clnt (conn w))))) w2
             else w2 in
           if diet_find (recv_all pd) nr' then
             '(r, w) ← is_srt I w3 im; Some (r, false, w)
           else
             Some (true, false,
                   if (negb (diet_empty (recv_all pd)) && (nr' <? diet_max (recv_all pd)))
                      || (Z.land (xv_flags I) IPTOS_ECN_MASK =? IPTOS_ECN_CE)
                   then with_conn (upd_pn pn_data (set_imm_ack true)) w3
                   else w3).
Proof.
  unfold dec_pkt_hdr_remainder. rewrite Hm. cbn [mbind option_bind].
  unfold which_cipher_ctx_in at 1. rewrite Hty.
  change ((SH =? LH_INIT) || (SH =? LH_RTRY)) with false.
  change (SH =? LH_0RTT) with false. change (SH =? LH_HSHK) with false.
  cbn iota. cbn [andb]. fold pd. rewrite Hhp. cbn [negb].
  unfold undo_hp. cbn [metas meta_put set_metas].
  rewrite (list_lookup_insert_eq (metas w) im) by (apply lookup_lt_Some in Hm; exact Hm).
  cbn [mbind option_bind]. rewrite Hunm. cbn [negb].
  cbn [upd_hdr hdr set_hdr type set_type set_flags set_m_pn conn meta_put set_metas].
  rewrite pkt_type_sh. change (pn_for_pkt_type SH) with pn_data. fold pd. fold nr'.
  match goal with
  | |- context [Some (true, meta_put im ?x _)] => remember x as m1 eqn:Em1
  end.
  assert (Hfl1 : flags (hdr m1) = fl) by (rewrite Em1; reflexivity).
  assert (Hty1 : type (hdr m1) = SH) by (rewrite Em1; reflexivity).
  assert (Hnr1 : nr (hdr m1) = nr') by (rewrite Em1; reflexivity).
  assert (Hhl1 : hdr_len (hdr m1) = u16 (hdr_len (hdr m) + pkt_nr_len fl))
    by (rewrite Em1; reflexivity).
  assert (Htx1 : txed m1 = txed m) by (rewrite Em1; reflexivity).
  assert (Hst1 : strm m1 = strm m) by (rewrite Em1; reflexivity).
  clear Em1.
  set (w0 := meta_put im (set_m_pn (Some pn_data) m) w).
  assert (Hc0 : conn (meta_put im m1 w0) = conn w) by reflexivity.
  assert (Hm1 : metas (meta_put im m1 w0) !! im = Some m1).
  { apply (meta_put_lookup _ _ _ (set_m_pn (Some pn_data) m)).
    apply (meta_put_lookup _ _ _ m). exact Hm. }
  remember (meta_put im m1 w0) as w1 eqn:Ew1.
  cbn [mbind option_bind negb]. rewrite Hm1. cbn [mbind option_bind].
  rewrite Hfl1, Hsh, Hc0. fold pd. rewrite Hky, eqb_reflx. cbn [negb andb].
  unfold which_cipher_ctx_in. rewrite Hty1.
  change ((SH =? LH_INIT) || (SH =? LH_RTRY)) with false.
  change (SH =? LH_0RTT) with false. change (SH =? LH_HSHK) with false.
  cbn iota. cbn [andb]. rewrite Hfl1, Hc0. fold pd. rewrite Hky.
  rewrite Hky in Haead. rewrite Haead. cbn [negb].
  rewrite Hok, Hhl1. cbn [negb orb].
  replace (u16 (hdr_len (hdr m) + pkt_nr_len fl) =? 0) with false
    by (symmetry; apply Z.eqb_neq; lia).
  replace (u16 (xv_len I) <? u16 (hdr_len (hdr m) + pkt_nr_len fl)) with false
    by (symmetry; apply Z.ltb_ge; lia).
  cbn [orb].
  set (m2 := set_m_pn (Some pn_data) m1).
  assert (Ew2 : meta_put im m2 w1 = set_metas (<[im := m2]> (metas w)) w).
  { rewrite Ew1. unfold w0, meta_put. cbn [metas set_metas].
    rewrite !list_insert_insert_eq. reflexivity. }
  rewrite Ew2. clear Ew2.
  exists m2. split; [exact Hfl1|]. split; [exact Hnr1|]. split; [exact Htx1|].
  split; [exact Hst1|]. split; [reflexivity|].
  cbv zeta. set (w2 := set_metas (<[im := m2]> (metas w)) w).
  assert (Hc2 : conn w2 = conn w) by reflexivity.
  destruct (negb (Z.land fl SH_RSVD_MASK =? 0)); [reflexivity|].
  match goal with
  | |- context [upd_pn pn_data ?g] => set (f := g)
  end.
  assert (Hid : with_conn (upd_pn pn_data f) w2 = w2).
  { unfold with_conn. rewrite Hc2, upd_pn_id; [reflexivity|].
    unfold f. fold pd. rewrite eqb_reflx. reflexivity. }
  rewrite !Hid, !Hc2. fold pd. rewrite Hnr1.
  set (w3 := if spin_enabled (conn w) && (diet_max (recv_all pd) <? nr') then _ else w2).
  assert (Hc3 : pn_get (conn w3) pn_data = pd).
  { unfold w3. destruct (_ && _); reflexivity. }
  rewrite andb_false_r. cbn [andb]. change (pn_for_pkt_type SH) with pn_data.
  rewrite Hc3. reflexivity.
Qed.

End ShortHeader.






(** A short-header packet that authenticates and whose number is new is
    accepted by [dec_pkt_hdr_remainder], with the full packet number in its
    meta-data. An immediate ACK is asked for exactly when the number is
    below the largest one received (reordering) or the datagram is marked
    ECN-CE; the flag is never cleared here. The spin bit follows the packet
    only if spinning is enabled and the number is above the largest one
    received. The sets of received numbers are left to the caller. *)
Theorem dec_pkt_hdr_remainder_imm_ack (R : rx_ops) (I : rx_in) (w : world) (im : nat)
    (m : pkt_meta) (fl tnr : Z) :
  let pd := pn_get (conn w) pn_data in
  let nr' := full_pkt_nr pd (pkt_nr_len fl) tnr in
  metas w !! im = Some m ->
  type (hdr m) = SH ->
  header_protection (in_1rtt0 pd) = true ->
  hp_unmasked I = Some (fl, tnr) ->
  is_lh fl = false ->
  is_set SH_KYPH fl = in_kyph pd ->
  aead (if is_set SH_KYPH fl then in_1rtt1 pd else in_1rtt0 pd) = true ->
  aead_ok I = true ->
  0 < u16 (hdr_len (hdr m) + pkt_nr_len fl) <= u16 (xv_len I) ->
  Z.land fl SH_RSVD_MASK = 0 ->
  diet_find (recv_all pd) nr' = false ->
  exists w' m1,
    dec_pkt_hdr_remainder R I w im = Some (true, false, w')
    /\ metas w' = <[im := m1]> (metas w)
    /\ nr (hdr m1) = nr' /\ flags (hdr m1) = fl /\ m_pn m1 = Some pn_data
    /\ imm_ack (pn_get (conn w') pn_data)
       = imm_ack pd
         || (negb (diet_empty (recv_all pd)) && (nr' <? diet_max (recv_all pd)))
         || (Z.land (xv_flags I) IPTOS_ECN_MASK =? IPTOS_ECN_CE)
    /\ spin (conn w')
       = (if spin_enabled (conn w) && (diet_max (recv_all pd) <? nr')
          then eqb (is_set SH_SPIN fl) (negb (is_clnt (conn w)))
          else spin (conn w))
    /\ recv_all (pn_get (conn w') pn_data) = recv_all pd
    /\ recv (pn_get (conn w') pn_data) = recv pd
    /\ state (conn w') = state (conn w) /\ needs_tx (conn w') = needs_tx (conn w).
Proof.
  intros pd nr' Hm Hty Hhp Hunm Hsh Hky Haead Hok Hlen Hrsvd Hnew.
  destruct (dec_pkt_hdr_remainder_sh R I w im m fl tnr Hm Hty Hhp Hunm Hsh Hky Haead Hok Hlen)
    as (m1 & Hfl1 & Hnr1 & _ & _ & Hpn1 & Hdec).
  cbv zeta in Hdec. fold pd in Hdec. fold nr' in Hdec.
  rewrite Hrsvd, Hnew in Hdec. cbn [Z.eqb negb] in Hdec.
  eexists. exists m1. split; [exact Hdec|]. clear Hdec.
  destruct (spin_enabled (conn w) && (diet_max (recv_all pd) <? nr'));
    destruct ((negb (diet_empty (recv_all pd)) && (nr' <? diet_max (recv_all pd)))
              || (Z.land (xv_flags I) IPTOS_ECN_MASK =? IPTOS_ECN_CE)) eqn:Ec;
    (split; [reflexivity|]); (split; [exact Hnr1|]); (split; [exact Hfl1|]);
    (split; [exact Hpn1|]);
    unfold with_conn; cbn [conn set_conn set_metas];
    rewrite ?pn_get_upd_pn, <- ?orb_assoc, ?Ec, ?orb_true_r, ?orb_false_r;
    repeat split.
Qed.

(** Packet 5 arrives at [sh_ex] after packet 7. *)
Lemma dec_pkt_hdr_remainder_imm_ack_witness :
  exists w',
    dec_pkt_hdr_remainder rx_ops_ex (rx_in_ex 60 0x41 5) sh_ex 0 = Some (true, false, w')
    /\ (nr <$> (hdr <$> metas w' !! 0%nat)) = Some 5
    /\ imm_ack (pn_get (conn w') pn_data) = true.
Proof.
  destruct (dec_pkt_hdr_remainder_imm_ack rx_ops_ex (rx_in_ex 60 0x41 5) sh_ex 0
              srt_meta_ex 0x41 5) as (w' & m1 & Hr & Hms & Hnr & _ & _ & Hi & _);
    try reflexivity.
  - vm_compute. split; [reflexivity | discriminate].
  - exists w'. split; [exact Hr|]. rewrite Hms, Hi. split; [|reflexivity].
    change (nr <$> (hdr <$> Some m1) = Some 5). cbn [fmap option_fmap option_map].
    rewrite Hnr. reflexivity.
Defined.


(** ** Loss detection *)

Lemma with_conn_loss_t_step t g x w :
  with_conn (upd_pn t (fun p => set_loss_t (g (loss_t p)) p))
    (with_conn (upd_pn t (set_loss_t x)) w)
  = with_conn (upd_pn t (set_loss_t (g x))) w.
Proof. unfold with_conn. cbn [conn set_conn]. destruct t; reflexivity. Qed.

Lemma pn_get_loss_t t x c :
  lg_acked (pn_get (upd_pn t (set_loss_t x) c) t) = lg_acked (pn_get c t).
Proof. rewrite pn_get_upd_pn. reflexivity. Qed.

Lemma detect_lost_loop_none (ld lst : Z) (t : pn_t) (w : world) (a : dlp_acc)
    (l : list (Z * nat)) :
  0 < ld ->
  (forall n i, In (n, i) l ->
     exists m, metas w !! i = Some m /\ acked m = false /\ lost m = false
               /\ (lg_acked (pn_get (conn w) t) < nr (hdr m)
                   \/ (lst < m_t m
                       /\ lg_acked (pn_get (conn w) t) < u64 (nr (hdr m) + kPacketThreshold)))
               /\ 0 <= m_t m /\ m_t m + ld < 2 ^ 64) ->
  forall x, 0 <= x ->
  exists x',
    detect_lost_loop ld lst t l (with_conn (upd_pn t (set_loss_t x)) w, a)
    = Some (with_conn (upd_pn t (set_loss_t x')) w, a)
    /\ (x' = x
        \/ exists n i m, In (n, i) l /\ metas w !! i = Some m
                         /\ nr (hdr m) <= lg_acked (pn_get (conn w) t)
                         /\ x' = m_t m + ld)
    /\ (0 < x -> 0 < x' <= x)
    /\ (forall n i m, In (n, i) l -> metas w !! i = Some m ->
          nr (hdr m) <= lg_acked (pn_get (conn w) t) -> 0 < x' <= m_t m + ld).
Proof.
  intros Hld. induction l as [|[n i] l IH]; intros Hall x Hx.
  - exists x. split; [reflexivity|]. split; [left; reflexivity|].
    split; [lia|]. intros n i m [].
  - destruct (Hall n i (or_introl eq_refl)) as (m & Hm & Hack & Hlost & Hcase & Ht0 & Ht1).
    assert (Hall' : forall n i, In (n, i) l ->
              exists m, metas w !! i = Some m /\ acked m = false /\ lost m = false
                /\ (lg_acked (pn_get (conn w) t) < nr (hdr m)
                    \/ (lst < m_t m
                        /\ lg_acked (pn_get (conn w) t) < u64 (nr (hdr m) + kPacketThreshold)))
                /\ 0 <= m_t m /\ m_t m + ld < 2 ^ 64)
      by (intros n' i' Hin; apply (Hall n' i'); right; exact Hin).
    cbn [detect_lost_loop]. unfold detect_lost_step at 1.
    cbn [metas with_conn set_conn conn]. rewrite Hm. cbn [mbind option_bind].
    rewrite Hack, Hlost. cbn [orb]. rewrite pn_get_upd_pn.
    change (lg_acked (set_loss_t x (pn_get (conn w) t))) with (lg_acked (pn_get (conn w) t)).
    destruct (Z.ltb_spec (lg_acked (pn_get (conn w) t)) (nr (hdr m))) as [Habove|Hbelow].
    + cbn [mbind option_bind].
      destruct (IH Hall' x Hx) as (x' & Hrun & Hor & Hpos & Hmin).
      exists x'. split; [exact Hrun|]. split.
      * destruct Hor as [->|(n' & i' & m' & Hin & Hm' & Hle & ->)]; [left; reflexivity|].
        right. exists n', i', m'. split; [right; exact Hin|]. auto.
      * split; [exact Hpos|]. intros n' i' m' [Heq|Hin] Hm' Hle.
        -- inversion Heq; subst n' i'. rewrite Hm in Hm'. inversion Hm'; subst m'. lia.
        -- apply (Hmin n' i' m' Hin Hm' Hle).
    + destruct Hcase as [Hab|[Hsent Hthr]]; [lia|].
      assert (Hnl : pkt_is_lost lst (set_loss_t x (pn_get (conn w) t)) m = false).
      { unfold pkt_is_lost.
        change (lg_acked (set_loss_t x (pn_get (conn w) t)))
          with (lg_acked (pn_get (conn w) t)).
        destruct (Z.leb_spec (m_t m) lst); [lia|].
        destruct (Z.leb_spec (u64 (nr (hdr m) + kPacketThreshold))
                    (lg_acked (pn_get (conn w) t))); [lia|]. reflexivity. }
      rewrite Hnl.
      change (set_conn (upd_pn t (set_loss_t x) (conn w)) w)
        with (with_conn (upd_pn t (set_loss_t x)) w).
      rewrite (with_conn_loss_t_step t
                 (fun y => if y =? 0 then u64 (m_t m + ld) else Z.min y (u64 (m_t m + ld)))).
      cbn [mbind option_bind].
      assert (Hdue : u64 (m_t m + ld) = m_t m + ld) by (unfold u64; apply Z.mod_small; lia).
      rewrite Hdue.
      set (x1 := if x =? 0 then m_t m + ld else Z.min x (m_t m + ld)).
      assert (Hx1 : 0 < x1 <= m_t m + ld /\ (0 < x -> x1 <= x)
                    /\ (x1 = x \/ x1 = m_t m + ld)).
      { unfold x1. destruct (Z.eqb_spec x 0); lia. }
      destruct (IH Hall' x1 ltac:(lia)) as (x' & Hrun & Hor & Hpos & Hmin).
      exists x'. split; [exact Hrun|]. split.
      * destruct Hor as [->|(n' & i' & m' & Hin & Hm' & Hle & ->)].
        -- destruct Hx1 as (_ & _ & [->| ->]); [left; reflexivity|].
           right. exists n, i, m. split; [left; reflexivity|]. auto.
        -- right. exists n', i', m'. split; [right; exact Hin|]. auto.
      * split; [intros Hx0; specialize (Hpos ltac:(lia)); lia|].
        intros n' i' m' [Heq|Hin] Hm' Hle.
        -- inversion Heq; subst n' i'. rewrite Hm in Hm'. inversion Hm'; subst m'.
           specialize (Hpos ltac:(lia)). lia.
        -- apply (Hmin n' i' m' Hin Hm' Hle).
Qed.

Lemma loss_del_pos c : 0 < loss_del c.
Proof. unfold loss_del. assert (0 < kGranularity) by reflexivity. lia. Qed.

Lemma loss_del_upd_pn t f c : loss_del (upd_pn t f c) = loss_del c.
Proof. unfold loss_del. rewrite rec_upd_pn. reflexivity. Qed.

Lemma lost_send_t_upd_pn E t f c : lost_send_t E (upd_pn t f c) = lost_send_t E c.
Proof. unfold lost_send_t. rewrite loss_del_upd_pn. reflexivity. Qed.

Lemma pn_get_maybe_tx_log_cc E c t : pn_get (maybe_tx E (log_cc c)) t = pn_get c t.
Proof. unfold maybe_tx. destruct (has_wnd _ _); destruct t; reflexivity. Qed.

Lemma cur_maybe_tx_log_cc E c : cur (rec (maybe_tx E (log_cc c))) = cur (rec c).
Proof. unfold maybe_tx. destruct (has_wnd _ _); reflexivity. Qed.

Lemma detect_lost_pkts_no_loss_effect (E : env) (w : world) (t : pn_t) (do_cc : bool) :
  let p := pn_get (conn w) t in
  let ld := loss_del (conn w) in
  abandoned p = false ->
  (forall n i, In (n, i) (sent_pkts p) ->
     exists m, metas w !! i = Some m /\ acked m = false /\ lost m = false
               /\ (lg_acked p < nr (hdr m)
                   \/ (lost_send_t E (conn w) < m_t m
                       /\ lg_acked p < u64 (nr (hdr m) + kPacketThreshold)))
               /\ 0 <= m_t m /\ m_t m + ld < 2 ^ 64) ->
  exists x',
    detect_lost_pkts E w t do_cc
    = Some (set_conn (maybe_tx E (log_cc (upd_pn t (set_loss_t x') (conn w)))) w)
    /\ (x' = 0
        \/ exists n i m, In (n, i) (sent_pkts p) /\ metas w !! i = Some m
                         /\ nr (hdr m) <= lg_acked p /\ x' = m_t m + ld)
    /\ (forall n i m, In (n, i) (sent_pkts p) -> metas w !! i = Some m ->
          nr (hdr m) <= lg_acked p -> 0 < x' <= m_t m + ld).
Proof.
  intros p ld Hab Hall. unfold detect_lost_pkts. fold p. rewrite Hab.
  cbn [conn with_conn set_conn]. rewrite pn_get_upd_pn.
  change (sent_pkts (set_loss_t 0 (pn_get (conn w) t))) with (sent_pkts p).
  rewrite loss_del_upd_pn, lost_send_t_upd_pn. fold ld.
  change (set_conn (upd_pn t (set_loss_t 0) (conn w)) w)
    with (with_conn (upd_pn t (set_loss_t 0)) w).
  destruct (detect_lost_loop_none ld (lost_send_t E (conn w)) t w
              {| lg_lost := UINT_T_MAX; lg_lost_tx_t := 0; in_flight_lost := false |}
              (sent_pkts p) (loss_del_pos (conn w)) Hall 0 ltac:(lia))
    as (x' & Hrun & Hor & _ & Hmin).
  rewrite Hrun. cbn [mbind option_bind in_flight_lost]. rewrite andb_false_r.
  exists x'. split; [reflexivity|]. split; [exact Hor | exact Hmin].
Qed.

(** [detect_lost_pkts] declares no packet lost that is above the largest
    acknowledged number, or that was sent after [lost_send_t] and is fewer
    than [kPacketThreshold] numbers below the largest acknowledged one: if
    all outstanding packets of the space are such, the meta-data, the table
    of sent packets, the resolved numbers and the congestion state stay as
    they are, and [loss_t] is the earliest time at which one of the packets
    at or below the largest acknowledged number is due ([m->t + loss_del]),
    or 0 if there is none. *)
Theorem detect_lost_pkts_no_loss (E : env) (w : world) (t : pn_t) (do_cc : bool) :
  let p := pn_get (conn w) t in
  let ld := loss_del (conn w) in
  abandoned p = false ->
  (forall n i, In (n, i) (sent_pkts p) ->
     exists m, metas w !! i = Some m /\ acked m = false /\ lost m = false
               /\ (lg_acked p < nr (hdr m)
                   \/ (lost_send_t E (conn w) < m_t m
                       /\ lg_acked p < u64 (nr (hdr m) + kPacketThreshold)))
               /\ 0 <= m_t m /\ m_t m + ld < 2 ^ 64) ->
  exists w',
    detect_lost_pkts E w t do_cc = Some w'
    /\ metas w' = metas w
    /\ sent_pkts (pn_get (conn w') t) = sent_pkts p
    /\ acked_or_lost (pn_get (conn w') t) = acked_or_lost p
    /\ cur (rec (conn w')) = cur (rec (conn w))
    /\ (loss_t (pn_get (conn w') t) = 0
        \/ exists n i m, In (n, i) (sent_pkts p) /\ metas w !! i = Some m
                         /\ nr (hdr m) <= lg_acked p
                         /\ loss_t (pn_get (conn w') t) = m_t m + ld)
    /\ (forall n i m, In (n, i) (sent_pkts p) -> metas w !! i = Some m ->
          nr (hdr m) <= lg_acked p -> 0 < loss_t (pn_get (conn w') t) <= m_t m + ld).
Proof.
  intros p ld Hab Hall.
  destruct (detect_lost_pkts_no_loss_effect E w t do_cc Hab Hall) as (x' & Hrun & Hor & Hmin).
  rewrite Hrun. eexists. split; [reflexivity|].
  cbn [metas conn with_conn set_conn]. rewrite pn_get_maybe_tx_log_cc, cur_maybe_tx_log_cc.
  rewrite pn_get_upd_pn, rec_upd_pn.
  split; [reflexivity|]. split; [reflexivity|]. split; [reflexivity|].
  split; [reflexivity|].
  change (loss_t (set_loss_t x' (pn_get (conn w) t))) with x'.
  split; [exact Hor | exact Hmin].
Qed.

(** In [dlp_ex] no packet is lost at [now]: packet 6 is above the largest
    acknowledged, packet 4 was sent 10 ms ago with a loss delay of 13.5 ms;
    it is due 3.5 ms after [now]. *)
Lemma detect_lost_pkts_no_loss_witness :
  exists w',
    detect_lost_pkts env_ex dlp_ex pn_data true = Some w'
    /\ metas w' = metas dlp_ex
    /\ loss_t (pn_get (conn w') pn_data) = 1003500000.
Proof.
  destruct (detect_lost_pkts_no_loss env_ex dlp_ex pn_data true)
    as (w' & Hr & Hms & _ & _ & _ & Hor & Hmin).
  - reflexivity.
  - intros n i [H|[H|[]]]; inversion H; subst n i; eexists;
      (split; [reflexivity|]); vm_compute; intuition discriminate.
  - exists w'. split; [exact Hr|]. split; [exact Hms|].
    destruct Hor as [H0|(n & i & m & [H|[H|[]]] & Hm & Hle & Hl)].
    + specialize (Hmin 4 0%nat _ (or_introl eq_refl) eq_refl).
      exfalso. rewrite H0 in Hmin. vm_compute in Hmin.
      destruct Hmin as [Hlt _]; [intros Hc; discriminate Hc | discriminate Hlt].
    + inversion H; subst n i. inversion Hm; subst m. rewrite Hl. reflexivity.
    + inversion H; subst n i. inversion Hm; subst m. exfalso. vm_compute in Hle.
      apply Hle. reflexivity.
Defined.


(** ** The loss detection timer *)

Lemma earliest_loss_t_fold (c : q_conn) (l : list pn_t) :
  let elig t := abandoned (pn_get c t) = false
                /\ is_ack_eliciting (tx_frames (pn_get c t)) = true in
  let step := fun (acc : option pn_t * Z) t =>
    let p := pn_get c t in
    if abandoned p then acc
    else if negb (is_ack_eliciting (tx_frames p)) then acc
    else if bool_decide (acc.1 = None)
            || (negb (loss_t p =? 0) && (loss_t p <? acc.2))
         then (Some t, loss_t p)
         else acc in
  (forall t, elig t -> 0 < loss_t (pn_get c t)) ->
  forall acc,
    (acc.1 = None
     \/ exists t1, acc = (Some t1, loss_t (pn_get c t1)) /\ elig t1) ->
    let r := fold_left step l acc in
    (r.1 = None -> acc.1 = None /\ forall t, In t l -> ~ elig t)
    /\ (forall t0, r.1 = Some t0 ->
          elig t0 /\ r.2 = loss_t (pn_get c t0)
          /\ (forall t, In t l -> elig t -> loss_t (pn_get c t0) <= loss_t (pn_get c t))
          /\ (forall t1, acc.1 = Some t1 -> loss_t (pn_get c t0) <= loss_t (pn_get c t1))).
Proof.
  intros elig step Hpos. induction l as [|t l IH]; intros acc Hacc; cbn [fold_left].
  - split.
    + intros H. split; [exact H|]. intros t [].
    + intros t0 H0. destruct Hacc as [Hn|(t1 & -> & He)]; [congruence|].
      cbn [fst snd] in *. inversion H0; subst t1.
      split; [exact He|]. split; [reflexivity|]. split; [intros t []|].
      intros t1 H1. inversion H1. lia.
  - assert (Hstep : (elig t -> False) /\ step acc t = acc
                    \/ elig t /\ acc.1 = None /\ step acc t = (Some t, loss_t (pn_get c t))
                    \/ elig t /\ (exists t1, acc = (Some t1, loss_t (pn_get c t1)) /\ elig t1
                                  /\ loss_t (pn_get c t) < loss_t (pn_get c t1))
                       /\ step acc t = (Some t, loss_t (pn_get c t))
                    \/ elig t /\ (exists t1, acc = (Some t1, loss_t (pn_get c t1)) /\ elig t1
                                  /\ loss_t (pn_get c t1) <= loss_t (pn_get c t))
                       /\ step acc t = acc).
    { unfold step. cbv zeta.
      destruct (abandoned (pn_get c t)) eqn:Ha;
        [left; split; [intros [H _]; congruence | reflexivity]|].
      destruct (is_ack_eliciting (tx_frames (pn_get c t))) eqn:He; cbn [negb];
        [|left; split; [intros [_ H]; congruence | reflexivity]].
      assert (Hel : elig t) by (split; assumption).
      destruct Hacc as [Hn|(t1 & -> & He1)].
      - right; left. rewrite bool_decide_eq_true_2 by exact Hn. auto.
      - cbn [fst snd]. rewrite bool_decide_eq_false_2 by discriminate. cbn [orb].
        specialize (Hpos t Hel).
        destruct (Z.eqb_spec (loss_t (pn_get c t)) 0); [lia|]. cbn [negb andb].
        destruct (Z.ltb_spec (loss_t (pn_get c t)) (loss_t (pn_get c t1))).
        + right; right; left. split; [exact Hel|]. split; [|reflexivity].
          exists t1. auto.
        + right; right; right. split; [exact Hel|]. split; [|reflexivity].
          exists t1. auto. }
    fold step in IH.
    destruct Hstep as [[Hne ->]|[(Hel & Hn & ->)|[(Hel & (t1 & -> & He1 & Hlt) & ->)
                                                   |(Hel & (t1 & -> & He1 & Hle) & ->)]]].
    + destruct (IH acc Hacc) as [IHn IHs]. split.
      * intros H. destruct (IHn H) as [Hn Hl]. split; [exact Hn|].
        intros t' [<-|Hin]; [exact Hne | exact (Hl t' Hin)].
      * intros t0 H0. destruct (IHs t0 H0) as (E0 & E1 & E2 & E3).
        split; [exact E0|]. split; [exact E1|]. split; [|exact E3].
        intros t' [<-|Hin] Ht'; [contradiction | exact (E2 t' Hin Ht')].
    + destruct (IH (Some t, loss_t (pn_get c t))) as [IHn IHs];
        [right; exists t; auto|]. split.
      * intros H. destruct (IHn H) as [Hc _]. discriminate Hc.
      * intros t0 H0. destruct (IHs t0 H0) as (E0 & E1 & E2 & E3).
        split; [exact E0|]. split; [exact E1|]. split.
        -- intros t' [<-|Hin] Ht'; [exact (E3 t eq_refl) | exact (E2 t' Hin Ht')].
        -- intros t1 H1. rewrite Hn in H1. discriminate H1.
    + destruct (IH (Some t, loss_t (pn_get c t))) as [IHn IHs];
        [right; exists t; auto|]. split.
      * intros H. destruct (IHn H) as [Hc _]. discriminate Hc.
      * intros t0 H0. destruct (IHs t0 H0) as (E0 & E1 & E2 & E3).
        split; [exact E0|]. split; [exact E1|]. split.
        -- intros t' [<-|Hin] Ht'; [exact (E3 t eq_refl) | exact (E2 t' Hin Ht')].
        -- intros t2 H2. cbn [fst] in H2. inversion H2; subst t2.
           specialize (E3 t eq_refl). lia.
    + destruct (IH (Some t1, loss_t (pn_get c t1))) as [IHn IHs];
        [right; exists t1; auto|]. split.
      * intros H. destruct (IHn H) as [Hc _]. discriminate Hc.
      * intros t0 H0. destruct (IHs t0 H0) as (E0 & E1 & E2 & E3).
        split; [exact E0|]. split; [exact E1|]. split; [|exact E3].
        intros t' [<-|Hin] Ht'; [|exact (E2 t' Hin Ht')].
        specialize (E3 t1 eq_refl). lia.
Qed.

Lemma set_ld_timer_cases (E : env) (c : q_conn) :
  let elig t := abandoned (pn_get c t) = false
                /\ is_ack_eliciting (tx_frames (pn_get c t)) = true in
  (state c = conn_idle \/ state c = conn_clsg \/ state c = conn_drng ->
   set_ld_timer E c = Some c)
  /\ (state c <> conn_idle -> state c <> conn_clsg -> state c <> conn_drng ->
      (exists t, elig t) ->
      (forall t, elig t -> 0 < loss_t (pn_get c t)) ->
      exists t0,
        elig t0
        /\ (forall t, elig t -> loss_t (pn_get c t0) <= loss_t (pn_get c t))
        /\ set_ld_timer E c
           = Some (upd_rec (fun r =>
                     set_ld_alarm (Some (Z.max 0 (loss_t (pn_get c t0) - now E)))
                       (set_ld_alarm_val (Z.max 0 (loss_t (pn_get c t0) - now E)) r)) c)).
Proof.
  intros elig. split.
  - intros Hst. unfold set_ld_timer.
    destruct Hst as [-> | [-> | ->]]; reflexivity.
  - intros H1 H2 H3 [te Hte] Hpos. unfold set_ld_timer.
    rewrite !bool_decide_eq_false_2 by assumption. cbn [orb].
    pose proof (earliest_loss_t_fold c [pn_init; pn_hshk; pn_data] Hpos (None, 0)
                  (or_introl eq_refl)) as [Hn Hs].
    destruct (earliest_loss_t_pn c) as [t0|] eqn:He.
    + destruct (Hs t0 He) as (E0 & _ & E2 & _).
      assert (Hall : forall t, elig t -> loss_t (pn_get c t0) <= loss_t (pn_get c t)).
      { intros t Ht. apply E2; [|exact Ht]. destruct t; cbn; auto. }
      exists t0. split; [exact E0|]. split; [exact Hall|].
      specialize (Hpos t0 E0).
      destruct (Z.eqb_spec (loss_t (pn_get c t0)) 0); [lia|].
      unfold set_ld_timer_to.
      destruct (Z.ltb_spec (loss_t (pn_get c t0)) (now E)).
      * change (0 <=? 0) with true. cbn iota.
        replace (Z.max 0 (loss_t (pn_get c t0) - now E)) with 0 by lia. reflexivity.
      * destruct (Z.leb_spec (loss_t (pn_get c t0) - now E) 0).
        -- replace (Z.max 0 (loss_t (pn_get c t0) - now E)) with 0 by lia.
           replace (loss_t (pn_get c t0) - now E) with 0 by lia. reflexivity.
        -- replace (Z.max 0 (loss_t (pn_get c t0) - now E))
             with (loss_t (pn_get c t0) - now E) by lia. reflexivity.
    + exfalso. destruct (Hn He) as [_ Hno]. apply (Hno te); [|exact Hte].
      destruct te; cbn; auto.
Qed.

(** [set_ld_timer] leaves a connection that is idle, closing or draining
    alone. Otherwise a loss time comes first: if some packet number space
    is eligible (not abandoned, with ACK-eliciting frames sent) and the
    eligible spaces all have a loss time, the timer is armed for the
    earliest of these, at the time left until then, or at once if it has
    passed; nothing else of the connection changes. *)
Theorem set_ld_timer_loss_time (E : env) (c : q_conn) :
  let elig t := abandoned (pn_get c t) = false
                /\ is_ack_eliciting (tx_frames (pn_get c t)) = true in
  (state c = conn_idle \/ state c = conn_clsg \/ state c = conn_drng ->
   set_ld_timer E c = Some c)
  /\ (state c <> conn_idle -> state c <> conn_clsg -> state c <> conn_drng ->
      (exists t, elig t) ->
      (forall t, elig t -> 0 < loss_t (pn_get c t)) ->
      exists t0,
        elig t0
        /\ (forall t, elig t -> loss_t (pn_get c t0) <= loss_t (pn_get c t))
        /\ set_ld_timer E c
           = Some (upd_rec (fun r =>
                     set_ld_alarm (Some (Z.max 0 (loss_t (pn_get c t0) - now E)))
                       (set_ld_alarm_val (Z.max 0 (loss_t (pn_get c t0) - now E)) r)) c)).
Proof. exact (set_ld_timer_cases E c). Qed.



(** ** After an ACK *)

Lemma pn_get_upd_pn_ne t t' f c : t' <> t -> pn_get (upd_pn t f c) t' = pn_get c t'.
Proof. intros H. destruct t, t'; try reflexivity; contradiction. Qed.

Lemma state_maybe_tx_log_cc E c : state (maybe_tx E (log_cc c)) = state c.
Proof. unfold maybe_tx. destruct (has_wnd _ _); reflexivity. Qed.

Lemma rec_maybe_tx_log_cc E c :
  rec (maybe_tx E (log_cc c)) = set_prev (cur (rec c)) (rec c).
Proof. unfold maybe_tx. destruct (has_wnd _ _); reflexivity. Qed.

Lemma state_upd_pn t f c : state (upd_pn t f c) = state c.
Proof. destruct t; reflexivity. Qed.

(** [on_ack_received_2] with nothing to declare lost: when the space of the
    ACK is the only one not abandoned, has ACK-eliciting frames sent, and
    holds a packet at or below the largest acknowledged number that is not
    yet deemed lost, the back-off counters [pto_cnt] and [crypto_cnt] are
    reset and the loss detection timer is armed for the moment the earliest
    such packet becomes due ([m->t + loss_del]), rather than for a PTO; the
    congestion window stays as it is. *)
Theorem on_ack_received_2_arms_loss_timer (E : env) (w : world) (t : pn_t) :
  let p := pn_get (conn w) t in
  let ld := loss_del (conn w) in
  state (conn w) <> conn_idle -> state (conn w) <> conn_clsg ->
  state (conn w) <> conn_drng ->
  abandoned p = false ->
  is_ack_eliciting (tx_frames p) = true ->
  (forall t', t' <> t -> abandoned (pn_get (conn w) t') = true) ->
  (forall n i, In (n, i) (sent_pkts p) ->
     exists m, metas w !! i = Some m /\ acked m = false /\ lost m = false
               /\ (lg_acked p < nr (hdr m)
                   \/ (lost_send_t E (conn w) < m_t m
                       /\ lg_acked p < u64 (nr (hdr m) + kPacketThreshold)))
               /\ 0 <= m_t m /\ m_t m + ld < 2 ^ 64) ->
  (exists n i m, In (n, i) (sent_pkts p) /\ metas w !! i = Some m
                 /\ nr (hdr m) <= lg_acked p) ->
  exists w' due,
    on_ack_received_2 E w t = Some w'
    /\ metas w' = metas w
    /\ pto_cnt (rec (conn w')) = 0 /\ crypto_cnt (rec (conn w')) = 0
    /\ loss_t (pn_get (conn w') t) = due
    /\ ld_alarm (rec (conn w')) = Some (Z.max 0 (due - now E))
    /\ (exists n i m, In (n, i) (sent_pkts p) /\ metas w !! i = Some m
                      /\ nr (hdr m) <= lg_acked p /\ due = m_t m + ld)
    /\ (forall n i m, In (n, i) (sent_pkts p) -> metas w !! i = Some m ->
          nr (hdr m) <= lg_acked p -> due <= m_t m + ld)
    /\ cwnd (cur (rec (conn w'))) = cwnd (cur (rec (conn w))).
Proof.
  intros p ld H1 H2 H3 Hab Hae Honly Hall (n0 & i0 & m0 & Hin0 & Hm0 & Hle0).
  destruct (detect_lost_pkts_no_loss_effect E w t true Hab Hall) as (x' & Hrun & Hor & Hmin).
  assert (Hx' : 0 < x') by (destruct (Hmin n0 i0 m0 Hin0 Hm0 Hle0); assumption).
  unfold on_ack_received_2. rewrite Hrun. cbn [mbind option_bind conn set_conn].
  set (c0 := upd_pn t (set_loss_t x') (conn w)).
  set (c1 := upd_rec (fun r => set_pto_cnt 0 (set_crypto_cnt 0 r)) (maybe_tx E (log_cc c0))).
  assert (Hpn : forall t', pn_get c1 t' = pn_get c0 t').
  { intros t'. unfold c1. rewrite <- (pn_get_maybe_tx_log_cc E c0 t').
    destruct t'; reflexivity. }
  assert (Hst : state c1 = state (conn w)).
  { unfold c1. change (state (upd_rec _ ?c)) with (state c).
    rewrite state_maybe_tx_log_cc. unfold c0. apply state_upd_pn. }
  assert (Hpt : pn_get c0 t = set_loss_t x' p) by (unfold c0; apply pn_get_upd_pn).
  destruct (set_ld_timer_cases E c1) as [_ Hcase].
  destruct Hcase as (t0 & (Ha0 & He0) & _ & Hset).
  - rewrite Hst. exact H1.
  - rewrite Hst. exact H2.
  - rewrite Hst. exact H3.
  - exists t. rewrite Hpn, Hpt. split; [exact Hab | exact Hae].
  - intros t' [Ha' _]. rewrite Hpn in Ha' |- *.
    destruct (decide (t' = t)) as [->|Hne].
    + rewrite Hpt. exact Hx'.
    + unfold c0 in Ha'. rewrite pn_get_upd_pn_ne in Ha' by exact Hne.
      rewrite (Honly t' Hne) in Ha'. discriminate Ha'.
  - assert (Ht0 : t0 = t).
    { destruct (decide (t0 = t)) as [->|Hne]; [reflexivity|]. exfalso.
      rewrite Hpn in Ha0. unfold c0 in Ha0. rewrite pn_get_upd_pn_ne in Ha0 by exact Hne.
      rewrite (Honly t0 Hne) in Ha0. discriminate Ha0. }
    subst t0. rewrite Hpn, Hpt in Hset.
    change (loss_t (set_loss_t x' p)) with x' in Hset.
    rewrite Hset. cbn [mbind option_bind].
    eexists. exists x'. split; [reflexivity|].
    cbn [metas conn set_conn].
    split; [reflexivity|]. split; [reflexivity|]. split; [reflexivity|].
    split.
    { change (pn_get (upd_rec ?f c1) t) with (pn_get c1 t). rewrite Hpn, Hpt. reflexivity. }
    split; [reflexivity|].
    split.
    { destruct Hor as [->|H]; [lia | exact H]. }
    split.
    { intros n i m Hin Hm Hle. destruct (Hmin n i m Hin Hm Hle). assumption. }
    unfold c1. cbn [rec upd_rec set_rec cur set_cur set_ld_alarm set_ld_alarm_val
                    set_pto_cnt set_crypto_cnt].
    rewrite rec_maybe_tx_log_cc. unfold c0. rewrite rec_upd_pn. reflexivity.
Qed.

(** In [dlp_ex], with the other spaces abandoned and a PING sent, the
    timer is armed for 3.5 ms. *)
Lemma on_ack_received_2_arms_loss_timer_witness :
  exists w',
    on_ack_received_2 env_ex dlp_ack_ex pn_data = Some w'
    /\ ld_alarm (rec (conn w')) = Some 3500000
    /\ pto_cnt (rec (conn w')) = 0.
Proof.
  destruct (on_ack_received_2_arms_loss_timer env_ex dlp_ack_ex pn_data)
    as (w' & due & Hr & _ & Hp & _ & _ & Hal & (n & i & m & Hin & Hm & Hle & Hd) & _).
  - discriminate.
  - discriminate.
  - discriminate.
  - reflexivity.
  - reflexivity.
  - intros t' Hne. destruct t'; [reflexivity | reflexivity | contradiction].
  - intros n i [H|[H|[]]]; inversion H; subst n i; eexists;
      (split; [reflexivity|]); vm_compute; intuition discriminate.
  - exists 4, 0%nat. eexists. split; [left; reflexivity|]. split; [reflexivity|].
    vm_compute. discriminate.
  - exists w'. split; [exact Hr|]. split; [|exact Hp]. rewrite Hal, Hd.
    destruct Hin as [H|[H|[]]]; inversion H; subst n i; inversion Hm; subst m.
    + reflexivity.
    + exfalso. vm_compute in Hle. apply Hle. reflexivity.
Defined.


(** ** Declaring a packet lost *)

Lemma pn_get_congestion_event E c s t : pn_get (congestion_event E c s) t = pn_get c t.
Proof. unfold congestion_event. destruct (in_cong_recovery c s); destruct t; reflexivity. Qed.

Lemma on_pkt_lost_no_strm (w : world) (i : nat) (is_lost : bool) (m : pkt_meta) (t : pn_t) :
  metas w !! i = Some m ->
  m_pn m = Some t ->
  strm m = None ->
  (in_flight m = true -> udp_len m <= in_flight_bytes (cur (rec (conn w)))) ->
  exists w',
    on_pkt_lost w i is_lost = Some w'
    /\ metas w' = <[i := set_lost true m]> (metas w)
    /\ pn_get (conn w') t
       = set_sent_pkts (kh_del (sent_pkts (pn_get (conn w) t)) (nr (hdr m)))
           (set_acked_or_lost
              (diet_insert (acked_or_lost (pn_get (conn w) t)) (nr (hdr m)))
              (pn_get (conn w) t))
    /\ in_flight_bytes (cur (rec (conn w')))
       = in_flight_bytes (cur (rec (conn w))) - (if in_flight m then udp_len m else 0)
    /\ cwnd (cur (rec (conn w'))) = cwnd (cur (rec (conn w)))
    /\ rec_start_t (rec (conn w')) = rec_start_t (rec (conn w)).
Proof.
  intros Hm Hpn Hstrm Hfl.
  assert (Hrem : exists c1,
             (if in_flight m then remove_from_in_flight m (conn w) else Some (conn w))
             = Some c1
             /\ (forall t, pn_get c1 t = pn_get (conn w) t)
             /\ in_flight_bytes (cur (rec c1))
                = in_flight_bytes (cur (rec (conn w)))
                  - (if in_flight m then udp_len m else 0)
             /\ cwnd (cur (rec c1)) = cwnd (cur (rec (conn w)))
             /\ rec_start_t (rec c1) = rec_start_t (rec (conn w))).
  { destruct (in_flight m) eqn:Hin.
    - unfold remove_from_in_flight.
      destruct (Z.ltb_spec (in_flight_bytes (cur (rec (conn w)))) (udp_len m));
        [specialize (Hfl eq_refl); lia|].
      eexists. split; [reflexivity|].
      destruct (ack_eliciting m); (split; [intros []; reflexivity|]); repeat split.
    - exists (conn w). split; [reflexivity|]. split; [reflexivity|].
      split; [lia|]. split; reflexivity. }
  destruct Hrem as (c1 & Hc1 & Hpn1 & Hifb & Hcw & Hrs).
  unfold on_pkt_lost. rewrite Hm. cbn [mbind option_bind]. rewrite Hpn.
  cbn [mbind option_bind]. rewrite Hc1. cbn [mbind option_bind].
  change (strm (set_lost true m)) with (strm m). rewrite Hstrm. cbn [mbind option_bind].
  unfold pm_by_nr_del. cbn [metas meta_put set_metas set_conn].
  rewrite list_lookup_insert_eq by (apply lookup_lt_Some in Hm; exact Hm).
  cbn [mbind option_bind]. eexists. split; [reflexivity|].
  cbn [metas conn with_conn meta_put set_conn set_metas]. split; [reflexivity|].
  change (nr (hdr (set_lost true m))) with (nr (hdr m)).
  rewrite pn_get_upd_pn, rec_upd_pn.
  destruct (is_lost && bit_overlap all_ctrl (frms m) && has_frm (frms m) FRM_CID).
  - change (pn_get (set_max_cid_seq_out ?x ?c) t) with (pn_get c t).
    change (rec (set_max_cid_seq_out ?x ?c)) with (rec c).
    rewrite pn_get_upd_pn, rec_upd_pn, Hpn1. repeat split; assumption.
  - rewrite pn_get_upd_pn, rec_upd_pn, Hpn1. repeat split; assumption.
Qed.

(** [detect_lost_pkts] on a space whose one outstanding packet is at or
    below the largest acknowledged number and was sent at or before
    [lost_send_t], or is [kPacketThreshold] or more below that number: the
    packet (here one that carries no stream data and heads no RTX chain) is
    declared lost, its number is resolved and leaves the table of sent
    packets, its buffer is freed, its bytes leave the bytes in flight, and
    no loss time stays armed. The congestion window is reduced, to half but
    not below [kMinimumWindow], exactly if [do_cc] is set, the packet was
    in flight and it was sent after the start of the current recovery
    period. *)
Theorem detect_lost_pkts_declares_lost (E : env) (w : world) (t : pn_t) (do_cc : bool)
    (i : nat) (m : pkt_meta) :
  let p := pn_get (conn w) t in
  let cc := cur (rec (conn w)) in
  abandoned p = false ->
  sent_pkts p = [(nr (hdr m), i)] ->
  metas w !! i = Some m ->
  m_pn m = Some t -> acked m = false -> lost m = false ->
  strm m = None -> rtx m = None ->
  nr (hdr m) <= lg_acked p ->
  m_t m <= lost_send_t E (conn w) \/ u64 (nr (hdr m) + kPacketThreshold) <= lg_acked p ->
  (in_flight m = true -> udp_len m <= in_flight_bytes cc) ->
  exists w',
    detect_lost_pkts E w t do_cc = Some w'
    /\ metas w' !! i = Some meta_zero
    /\ sent_pkts (pn_get (conn w') t) = []
    /\ diet_find (acked_or_lost (pn_get (conn w') t)) (nr (hdr m)) = true
    /\ loss_t (pn_get (conn w') t) = 0
    /\ in_flight_bytes (cur (rec (conn w')))
       = in_flight_bytes cc - (if in_flight m then udp_len m else 0)
    /\ cwnd (cur (rec (conn w')))
       = (if do_cc && in_flight m && negb (m_t m <=? rec_start_t (rec (conn w)))
          then Z.max (cwnd cc / kLossReductionDivisor) kMinimumWindow
          else cwnd cc).
Proof.
  intros p cc Hab Hsent Hm Hpn Hack Hlost Hstrm Hrtx Hle Hcause Hfl.
  unfold detect_lost_pkts. fold p. rewrite Hab.
  cbn [conn with_conn set_conn]. rewrite pn_get_upd_pn.
  change (sent_pkts (set_loss_t 0 (pn_get (conn w) t))) with (sent_pkts p).
  rewrite Hsent, loss_del_upd_pn, lost_send_t_upd_pn.
  set (w0 := with_conn (upd_pn t (set_loss_t 0)) w).
  assert (Hm0 : metas w0 !! i = Some m) by exact Hm.
  assert (Hp0 : pn_get (conn w0) t = set_loss_t 0 p) by apply pn_get_upd_pn.
  assert (Hrec0 : rec (conn w0) = rec (conn w)) by apply rec_upd_pn.
  clearbody w0.
  cbn [detect_lost_loop]. unfold detect_lost_step.
  rewrite Hm0. cbn [mbind option_bind].
  rewrite Hack, Hlost. cbn [orb]. rewrite Hp0.
  change (lg_acked (set_loss_t 0 p)) with (lg_acked p).
  destruct (Z.ltb_spec (lg_acked p) (nr (hdr m))) as [|_]; [lia|].
  assert (Hpl : pkt_is_lost (lost_send_t E (conn w)) (set_loss_t 0 p) m = true).
  { unfold pkt_is_lost. change (lg_acked (set_loss_t 0 p)) with (lg_acked p).
    apply orb_true_iff. pose proof Hcause as [H|H]; [left|right]; apply Z.leb_le; exact H. }
  rewrite Hpl. unfold upd_meta at 1. rewrite Hm0. cbn [mbind option_bind].
  set (m1 := set_lost true m).
  set (w1 := with_conn (fun c => set_pkts_out_lost (u64 (pkts_out_lost c + 1)) c)
               (meta_put i m1 w0)).
  assert (Hm1 : metas w1 !! i = Some m1) by (apply (meta_put_lookup _ _ _ m); exact Hm0).
  assert (Hp1 : pn_get (conn w1) t = set_loss_t 0 p)
    by (rewrite <- Hp0; destruct t; reflexivity).
  assert (Hrec1 : rec (conn w1) = rec (conn w)) by (rewrite <- Hrec0; reflexivity).
  clearbody w1.
  destruct (on_pkt_lost_no_strm w1 i true m1 t Hm1 Hpn Hstrm)
    as (w2 & Hrun & Hms2 & Hp2 & Hifb & Hcw & Hrs).
  { rewrite Hrec1. exact Hfl. }
  rewrite Hrun. cbn [mbind option_bind]. clear Hrun.
  assert (Hm2 : metas w2 !! i = Some (set_lost true m1)).
  { rewrite Hms2. apply list_lookup_insert_eq. apply lookup_lt_Some in Hm1. exact Hm1. }
  rewrite Hm2. cbn [mbind option_bind].
  change (strm (set_lost true m1)) with (strm m). rewrite Hstrm.
  rewrite bool_decide_eq_true_2 by reflexivity. cbn [orb].
  assert (Hfree : free_iov w2 i = Some (meta_put i meta_zero w2)).
  { unfold free_iov. rewrite Hm2. cbn [mbind option_bind].
    destruct (txed (set_lost true m1)); [|reflexivity].
    change (lost (set_lost true m1)) with true. rewrite andb_false_r.
    cbn [mbind option_bind]. rewrite Hm2. cbn [mbind option_bind].
    change (rtx (set_lost true m1)) with (rtx m). rewrite Hrtx. reflexivity. }
  rewrite Hfree. cbn [mbind option_bind lg_lost lg_lost_tx_t in_flight_lost orb].
  change (UINT_T_MAX =? UINT_T_MAX) with true. cbn [orb].
  cbn [conn meta_put set_metas]. unfold in_persistent_cong.
  eexists. split; [reflexivity|].
  cbn [metas conn set_conn set_metas].
  split; [apply list_lookup_insert_eq; apply lookup_lt_Some in Hm2; exact Hm2|].
  rewrite pn_get_maybe_tx_log_cc, cur_maybe_tx_log_cc.
  rewrite Hrec1 in Hifb, Hcw, Hrs. rewrite Hp1 in Hp2.
  change (nr (hdr m1)) with (nr (hdr m)) in Hp2.
  change (in_flight m1) with (in_flight m) in Hifb.
  change (udp_len m1) with (udp_len m) in Hifb.
  assert (Hpf : pn_get (if do_cc && in_flight m
                        then congestion_event E (conn w2) (m_t m) else conn w2) t
                = pn_get (conn w2) t)
    by (destruct (do_cc && in_flight m); [apply pn_get_congestion_event | reflexivity]).
  rewrite Hpf, Hp2.
  split.
  { change (sent_pkts (set_sent_pkts ?x _)) with x.
    unfold kh_del. change (sent_pkts (set_loss_t 0 p)) with (sent_pkts p). rewrite Hsent.
    rewrite filter_cons. cbn [fst].
    destruct (decide (nr (hdr m) ≠ nr (hdr m))) as [Hne|_]; [contradiction|reflexivity]. }
  split.
  { unfold diet_find, diet_insert. apply bool_decide_eq_true.
    change (acked_or_lost (set_sent_pkts _ (set_acked_or_lost ?x _))) with x.
    apply elem_of_union. left. apply elem_of_singleton. reflexivity. }
  split; [reflexivity|].
  destruct (do_cc && in_flight m) eqn:Hdo; cbn [andb].
  - unfold congestion_event, in_cong_recovery. rewrite Hrs.
    destruct (m_t m <=? rec_start_t (rec (conn w))); cbn [negb].
    + split; [exact Hifb | exact Hcw].
    + cbn [cur rec upd_cur upd_rec set_rec set_cur set_rec_start_t set_cwnd set_ssthresh
             in_flight_bytes cwnd].
      split; [exact Hifb|]. rewrite Hcw. reflexivity.
  - split; [exact Hifb | exact Hcw].
Qed.

(** The packet of [lost_ex] is lost by the packet threshold; the window of
    12000 bytes is halved. *)
Lemma detect_lost_pkts_declares_lost_witness :
  exists w',
    detect_lost_pkts env_ex lost_ex pn_data true = Some w'
    /\ metas w' !! 0%nat = Some meta_zero
    /\ in_flight_bytes (cur (rec (conn w'))) = 0
    /\ cwnd (cur (rec (conn w'))) = 6000.
Proof.
  destruct (detect_lost_pkts_declares_lost env_ex lost_ex pn_data true 0%nat
              (set_in_flight true
                 (set_udp_len 1252
                    (set_m_t 990000000
                       (upd_hdr (set_nr 1)
                          (set_txed true (set_m_pn (Some pn_data) meta_zero)))))))
    as (w' & Hr & Hz & _ & _ & _ & Hifb & Hcw);
    try reflexivity.
  - vm_compute. discriminate.
  - right. vm_compute. discriminate.
  - exists w'. split; [exact Hr|]. split; [exact Hz|]. rewrite Hifb, Hcw.
    split; reflexivity.
Defined.


(** ** Acknowledged packets *)

Lemma on_pkt_acked_cc_pn m c c' :
  on_pkt_acked_cc m c = Some c' -> forall t, pn_get c' t = pn_get c t.
Proof.
  unfold on_pkt_acked_cc. intros H t.
  destruct (remove_from_in_flight m c) as [c1|] eqn:Hr; [|discriminate H].
  destruct (remove_from_in_flight_strms m c c1 Hr) as (_ & _ & Hpn).
  cbn [mbind option_bind] in H. rewrite <- Hpn.
  destruct (in_cong_recovery c1 (m_t m)); [injection H as <-; reflexivity|].
  destruct (cwnd (cur (rec c1)) <? ssthresh (cur (rec c1)));
    [injection H as <-; destruct t; reflexivity|].
  destruct (cwnd (cur (rec c1)) =? 0); [discriminate H|].
  injection H as <-. destruct t; reflexivity.
Qed.

(** [on_pkt_acked] for a packet that carries no stream data and is in no
    RTX chain: its number is resolved and leaves the table of sent packets,
    and the buffer is freed. Its bytes leave the bytes in flight only if it
    was in flight and had not been declared lost, so a packet is never
    taken out of flight twice; the congestion window does not shrink. The
    set of received numbers to acknowledge changes only if the packet held
    an ACK frame. *)
Theorem on_pkt_acked_resolves (E : env) (w : world) (i : nat) (m : pkt_meta) (t : pn_t) :
  let cc := cur (rec (conn w)) in
  metas w !! i = Some m ->
  m_pn m = Some t ->
  strm m = None -> rtx m = None ->
  0 <= udp_len m < 2 ^ 16 ->
  (in_flight m = true -> lost m = false ->
   udp_len m <= in_flight_bytes cc /\ 0 < cwnd cc < 2 ^ 63) ->
  exists w',
    on_pkt_acked E w i = Some w'
    /\ metas w' !! i = Some meta_zero
    /\ find_sent_pkt (pn_get (conn w') t) (nr (hdr m)) = None
    /\ diet_find (acked_or_lost (pn_get (conn w') t)) (nr (hdr m)) = true
    /\ in_flight_bytes (cur (rec (conn w')))
       = in_flight_bytes cc - (if in_flight m && negb (lost m) then udp_len m else 0)
    /\ cwnd cc <= cwnd (cur (rec (conn w')))
    /\ (has_frm (frms m) FRM_ACK = false ->
        recv (pn_get (conn w') t) = recv (pn_get (conn w) t)).
Proof.
  intros cc Hm Hpn Hstrm Hrtx Hlen Hfl.
  assert (Hcc : exists c1,
            (if in_flight m && negb (lost m) then on_pkt_acked_cc m (conn w)
             else Some (conn w)) = Some c1
            /\ (forall t, pn_get c1 t = pn_get (conn w) t)
            /\ in_flight_bytes (cur (rec c1))
               = in_flight_bytes cc - (if in_flight m && negb (lost m) then udp_len m else 0)
            /\ cwnd cc <= cwnd (cur (rec c1))).
  { destruct (in_flight m) eqn:Hin; [destruct (lost m) eqn:Hlo|]; cbn [negb andb].
    - exists (conn w). split; [reflexivity|]. split; [reflexivity|]. fold cc. lia.
    - destruct (Hfl eq_refl eq_refl) as [H1 H2].
      destruct (on_pkt_acked_cc_effect m (conn w) Hlen H1 H2) as (c1 & Hr & Hi & Hc & _).
      exists c1. split; [exact Hr|]. split; [exact (on_pkt_acked_cc_pn m (conn w) c1 Hr)|].
      split; [exact Hi | exact Hc].
    - exists (conn w). split; [reflexivity|]. split; [reflexivity|]. fold cc. lia. }
  destruct Hcc as (c1 & Hc1 & Hpn1 & Hifb & Hcw).
  unfold on_pkt_acked. rewrite Hm. cbn [mbind option_bind]. rewrite Hpn.
  cbn [mbind option_bind]. rewrite Hc1. cbn [mbind option_bind].
  unfold pm_by_nr_del. cbn [metas set_conn]. rewrite Hm. cbn [mbind option_bind].
  rewrite Hrtx. cbn [mbind option_bind].
  set (w2 := with_conn
               (upd_pn t (fun p => set_sent_pkts (kh_del (sent_pkts p) (nr (hdr m))) p))
               (set_conn
                  (upd_pn t (fun p => set_acked_or_lost
                                        (diet_insert (acked_or_lost p) (nr (hdr m))) p) c1)
                  w)).
  set (w3 := if has_frm (frms m) FRM_ACK then with_conn (track_acked_pkts E t i) w2 else w2).
  assert (Hp2 : pn_get (conn w2) t
                = set_sent_pkts (kh_del (sent_pkts (pn_get (conn w) t)) (nr (hdr m)))
                    (set_acked_or_lost
                       (diet_insert (acked_or_lost (pn_get (conn w) t)) (nr (hdr m)))
                       (pn_get (conn w) t))).
  { unfold w2. cbn [conn with_conn set_conn]. rewrite !pn_get_upd_pn, Hpn1. reflexivity. }
  assert (Hr2 : rec (conn w2) = rec c1).
  { unfold w2. cbn [conn with_conn set_conn]. rewrite !rec_upd_pn. reflexivity. }
  assert (Hm3 : metas w3 !! i = Some m) by (unfold w3; destruct (has_frm _ _); exact Hm).
  assert (Hs3 : sent_pkts (pn_get (conn w3) t)
                = kh_del (sent_pkts (pn_get (conn w) t)) (nr (hdr m))).
  { unfold w3, track_acked_pkts. destruct (has_frm _ _); cbn [conn with_conn set_conn];
      rewrite ?pn_get_upd_pn, Hp2; reflexivity. }
  assert (Ha3 : acked_or_lost (pn_get (conn w3) t)
                = diet_insert (acked_or_lost (pn_get (conn w) t)) (nr (hdr m))).
  { unfold w3, track_acked_pkts. destruct (has_frm _ _); cbn [conn with_conn set_conn];
      rewrite ?pn_get_upd_pn, Hp2; reflexivity. }
  assert (Hr3 : rec (conn w3) = rec c1).
  { unfold w3, track_acked_pkts. destruct (has_frm _ _); cbn [conn with_conn set_conn];
      rewrite ?rec_upd_pn; exact Hr2. }
  assert (Hv3 : has_frm (frms m) FRM_ACK = false ->
                recv (pn_get (conn w3) t) = recv (pn_get (conn w) t)).
  { intros Hf. unfold w3. rewrite Hf, Hp2. reflexivity. }
  clearbody w3. clear w2 Hp2 Hr2.
  unfold upd_meta. rewrite Hm3. cbn [mbind option_bind].
  rewrite (meta_put_lookup w3 i (set_acked true m) m Hm3). cbn [mbind option_bind].
  change (strm (set_acked true m)) with (strm m). rewrite Hstrm.
  unfold free_iov. rewrite (meta_put_lookup w3 i (set_acked true m) m Hm3).
  cbn [mbind option_bind].
  assert (Hinner :
    (if txed (set_acked true m)
     then
       (if negb (acked (set_acked true m)) && negb (lost (set_acked true m))
        then
          t0 ← m_pn (set_acked true m);
          (if negb (abandoned (pn_get (conn (meta_put i (set_acked true m) w3)) t0))
           then
             w0 ← upd_meta i (set_strm None) (meta_put i (set_acked true m) w3);
             on_pkt_lost w0 i false
           else Some (meta_put i (set_acked true m) w3))
        else Some (meta_put i (set_acked true m) w3))
       ≫= (fun w0 =>
             m0 ← metas w0 !! i;
             match rtx m0 with
             | Some j =>
                 if has_rtx m0 then sl_remove j i w0
                 else free_iov_unlink (length (metas w0)) i (Some j) w0
             | None => Some w0
             end)
     else Some (meta_put i (set_acked true m) w3))
    = Some (meta_put i (set_acked true m) w3)).
  { destruct (txed (set_acked true m)); [|reflexivity].
    change (acked (set_acked true m)) with true. cbn [negb andb mbind option_bind].
    rewrite (meta_put_lookup w3 i (set_acked true m) m Hm3). cbn [mbind option_bind].
    change (rtx (set_acked true m)) with (rtx m). rewrite Hrtx. reflexivity. }
  rewrite Hinner. cbn [mbind option_bind].
  eexists. split; [reflexivity|].
  split.
  { apply (meta_put_lookup _ _ _ (set_acked true m)).
    apply (meta_put_lookup _ _ _ m). exact Hm3. }
  cbn [conn meta_put set_metas].
  split; [unfold find_sent_pkt; rewrite Hs3; apply kh_get_del|].
  split.
  { rewrite Ha3. unfold diet_find, diet_insert. apply bool_decide_eq_true.
    apply elem_of_union. left. apply elem_of_singleton. reflexivity. }
  rewrite Hr3. split; [exact Hifb|]. split; [exact Hcw | exact Hv3].
Qed.

(** The packet of [cc_ex], 1252 bytes in flight, is acknowledged. *)
Lemma on_pkt_acked_resolves_witness :
  exists w',
    on_pkt_acked env_ex {| metas := [set_txed true cc_meta_ex]; conn := cc_ex |} 0 = Some w'
    /\ metas w' !! 0%nat = Some meta_zero
    /\ in_flight_bytes (cur (rec (conn w'))) = 0.
Proof.
  destruct (on_pkt_acked_resolves env_ex {| metas := [set_txed true cc_meta_ex]; conn := cc_ex |}
              0%nat (set_txed true cc_meta_ex) pn_data)
    as (w' & Hr & Hz & _ & _ & Hifb & _); try reflexivity.
  - vm_compute. split; [discriminate | reflexivity].
  - intros _ _. vm_compute. repeat split; discriminate.
  - exists w'. split; [exact Hr|]. split; [exact Hz|]. rewrite Hifb. reflexivity.
Defined.


(** ** Handshake data received again *)

(** A CRYPTO frame that only repeats handshake data received before (it
    ends at or before [in_data_off] of the crypto stream of the packet's
    epoch) is ignored: [dec_stream_or_crypto_frame] returns [true] with
    the read position after the frame's data, the connection and its
    streams stay exactly as they are, and the meta-data is left without a
    stream, so that the caller frees the buffer. *)
Theorem dec_crypto_frame_duplicate (ops : strm_ops) (w : world) (buf : list Z)
    (pos : Z) (im : nat) (m : pkt_meta) (t : pn_t) (s : q_stream)
    (off l p1 p2 : Z) :
  let e := epoch_for_pkt_type (type (hdr m)) in
  metas w !! im = Some m ->
  m_pn m = Some t ->
  cstrms (conn w) e = Some s ->
  decv buf pos = Some (off, p1) ->
  decv buf p1 = Some (l, p2) ->
  p2 + l <= Z.of_nat (length buf) ->
  crpt_strm_id ops e <= max_sid ops (crpt_strm_id ops e) (conn w) ->
  0 <= p2 < 2 ^ 16 -> 0 < l < 2 ^ 16 -> 0 <= off ->
  off + l <= in_data_off s -> in_data_off s < 2 ^ 64 ->
  exists m',
    dec_stream_or_crypto_frame ops w FRM_CRY buf pos im
    = Some (true, p2 + l, set_metas (<[im := m']> (metas w)) w)
    /\ strm m' = None
    /\ strm_off m' = off /\ strm_data_len m' = l /\ strm_data_pos m' = p2.
Proof.
  intros e Hm Hpn Hs Hoff Hl Hend Hmax Hp2 Hl0 Hoff0 Hdup Hido.
  unfold dec_stream_or_crypto_frame, strm_frame_deliver.
  rewrite Hm. cbn [mbind option_bind]. rewrite Hpn.
  change (FRM_CRY =? FRM_CRY) with true. cbv zeta. cbn iota.
  cbn [conn meta_put set_metas].
  change (type (hdr (set_strm_frm_pos ?x m))) with (type (hdr m)). fold e.
  rewrite Hs. rewrite orb_true_r. rewrite Hoff. rewrite Hl. rewrite orb_true_r.
  destruct (Z.ltb_spec (Z.of_nat (length buf)) (p2 + l)) as [|_]; [lia|].
  destruct (Z.ltb_spec (max_sid ops (crpt_strm_id ops e) (conn w)) (crpt_strm_id ops e))
    as [|_]; [lia|].
  assert (Hu16l : u16 l = l) by (unfold u16; apply Z.mod_small; lia).
  assert (Hu16p : u16 p2 = p2) by (unfold u16; apply Z.mod_small; lia).
  rewrite Hu16l, Hu16p.
  set (m3 := set_strm_data_len l
               (set_strm_data_pos p2
                  (set_strm_off off
                     (set_strm (Some (SCrypto e)) (set_strm_frm_pos (u16 (u16 pos - 1)) m))))).
  change (strm_data_len m3) with l. change (strm_off m3) with off.
  change (strm m3) with (Some (SCrypto e)). cbn iota.
  destruct (Z.eqb_spec l 0) as [|_]; [lia|]. cbn [andb].
  cbn [strm_get]. rewrite Hs. cbn [mbind option_bind].
  destruct (Z.leb_spec off (in_data_off s)) as [_|]; [|lia]. cbn [andb].
  rewrite (u64_small (off + l - 1)) by lia. rewrite (u64_small (off + l)) by lia.
  destruct (Z.leb_spec (in_data_off s) (off + l - 1)) as [|_]; [lia|].
  destruct (Z.leb_spec (off + l) (in_data_off s)) as [_|]; [|lia].
  unfold strm_frame_done.
  match goal with
  | |- context [AtDone true p2 ?x] => set (w3 := x)
  end.
  assert (Hm3 : metas w3 !! im = Some m3).
  { unfold w3. apply (meta_put_lookup _ _ _ (set_strm_off off
                 (set_strm (Some (SCrypto e)) (set_strm_frm_pos (u16 (u16 pos - 1)) m)))).
    apply (meta_put_lookup _ _ _ (set_strm (Some (SCrypto e))
                                    (set_strm_frm_pos (u16 (u16 pos - 1)) m))).
    apply (meta_put_lookup _ _ _ (set_strm_frm_pos (u16 (u16 pos - 1)) m)).
    apply (meta_put_lookup _ _ _ m). exact Hm. }
  assert (Hw3 : forall x, meta_put im x w3 = set_metas (<[im := x]> (metas w)) w).
  { intros x. unfold w3, meta_put. cbn [metas set_metas].
    rewrite !list_insert_insert_eq. reflexivity. }
  assert (Hc3 : conn w3 = conn w) by reflexivity.
  clearbody w3. cbn [mbind option_bind].
  rewrite Hm3. cbn [mbind option_bind].
  change (strm m3) with (Some (SCrypto e)). cbn iota. rewrite Hc3. cbn [strm_get].
  rewrite Hs. cbn [mbind option_bind].
  change (FRM_CRY =? FRM_CRY) with true. cbn [negb andb].
  rewrite Hw3. exists (set_strm None m3). repeat split.
Qed.

(** The bytes 10..13 of the Initial crypto stream arrive again at
    [cry_dup_ex]. *)
Lemma dec_crypto_frame_duplicate_witness :
  exists m',
    dec_stream_or_crypto_frame strm_ops_ex cry_dup_ex FRM_CRY [0x06; 0x0a; 0x04; 1; 2; 3; 4] 1 0
    = Some (true, 7, set_metas [m'] cry_dup_ex)
    /\ strm m' = None.
Proof.
  destruct (dec_crypto_frame_duplicate strm_ops_ex cry_dup_ex [0x06; 0x0a; 0x04; 1; 2; 3; 4]
              1 0%nat (set_m_pn (Some pn_init) (upd_hdr (set_type LH_INIT) meta_zero))
              pn_init (set_in_data_off 100 (set_s_id (-1) strm_zero)) 10 4 2 3)
    as (m' & Hr & Hs & _); try reflexivity; try (vm_compute; intuition discriminate).
  exists m'. split; [exact Hr | exact Hs].
Defined.


(** ** The peer closes the connection *)



